(** * GridTool: a shallow embedding of the grid-mesh engine

    Source: [src/tools/annotation/GridTool.js] (class [GridTool]) and
    [src/util/freehand/FreehandHandleData.js] (the point constructor).

    The JavaScript object [this] together with the host's per-image
    annotation store is one record, [Tool]; every method is a computation
    in a state-and-exception monad over it, so that a [throw] keeps the
    mutations made before it, exactly as in JavaScript.

    JavaScript numbers are kept behind an interface ([Num]) with two
    instances: exact rationals (the definitions then run inside Rocq) and
    the real numbers (for the trigonometry of [rotateGrid]).  Rounding of
    IEEE doubles, and the values Infinity and -0, are outside the model;
    NaN appears only as a possible argument of the public setters. *)

From Stdlib Require Import ZArith QArith Qround Reals Lra Lia.
From stdpp Require Import gmap strings list.

Local Open Scope Z_scope.
Local Open Scope nat_scope.

(** ** Numbers *)

Class Num (K : Type) := {
  kadd : K → K → K;
  ksub : K → K → K;
  kmul : K → K → K;
  kdiv : K → K → K;
  kofZ : Z → K;
  kltb : K → K → bool;          (* a < b *)
  keqb : K → K → bool;          (* a === b *)
  kupper : K → Z;               (* an integer not below the number *)
}.

(** [Math.cos], [Math.sin], [Math.atan], [Math.PI] and [Math.round]. *)
Class Trig (K : Type) := {
  kcos : K → K;
  ksin : K → K;
  katan : K → K;
  kPI : K;
  kround : K → K;
}.

(** The order facts the counting loops of the setters rely on. *)
Class NumLaws (K : Type) `{Num K} : Prop := {
  kltb_ofZ : ∀ a b : Z, kltb (kofZ a) (kofZ b) = bool_decide (a < b)%Z;
  kltb_trans : ∀ a b c : K, kltb a b = true → kltb b c = true → kltb a c = true;
  kltb_cotrans : ∀ a b c : K, kltb a c = true → kltb a b = true ∨ kltb b c = true;
  kltb_upper : ∀ (z : Z) (k : K), kltb (kofZ z) k = true → (z < kupper k)%Z;
}.

Declare Scope num_scope.
Delimit Scope num_scope with K.
Notation "a + b" := (kadd a b) : num_scope.
Notation "a - b" := (ksub a b) : num_scope.
Notation "a * b" := (kmul a b) : num_scope.
Notation "a / b" := (kdiv a b) : num_scope.
Notation "a <? b" := (kltb a b) : num_scope.

(** Exact rationals, kept in lowest terms so that equal numbers are equal
    terms. *)
#[export] Instance Num_Q : Num Q := {|
  kadd a b := Qred (Qplus a b);
  ksub a b := Qred (Qminus a b);
  kmul a b := Qred (Qmult a b);
  kdiv a b := Qred (Qdiv a b);
  kofZ z := inject_Z z;
  kltb a b := if Qlt_le_dec a b then true else false;
  keqb a b := Qeq_bool a b;
  kupper a := Qceiling a;
|}.

#[export] Instance Num_R : Num R := {|
  kadd := Rplus;
  ksub := Rminus;
  kmul := Rmult;
  kdiv := Rdiv;
  kofZ := IZR;
  kltb a b := if Rlt_dec a b then true else false;
  keqb a b := if Req_dec_T a b then true else false;
  kupper := up;
|}.

#[export] Instance Trig_R : Trig R := {|
  kcos := cos;
  ksin := sin;
  katan := atan;
  kPI := PI;
  kround a := IZR (Int_part (a + / 2));
|}.

(** ** JavaScript values received by the public setters *)

Inductive JsNumber (K : Type) :=
  | NaN
  | Fin (k : K).
Arguments NaN {K}.
Arguments Fin {K} k.

Inductive JsValue (K : Type) :=
  | JsUndefined
  | JsNull
  | JsBoolean (b : bool)
  | JsNum (n : JsNumber K)
  | JsString (s : string)
  | JsObject.
Arguments JsUndefined {K}.
Arguments JsNull {K}.
Arguments JsBoolean {K} b.
Arguments JsNum {K} n.
Arguments JsString {K} s.
Arguments JsObject {K}.

Definition typeof {K} (v : JsValue K) : string :=
  match v with
  | JsUndefined => "undefined"
  | JsNull => "object"
  | JsBoolean _ => "boolean"
  | JsNum _ => "number"
  | JsString _ => "string"
  | JsObject => "object"
  end.

Inductive JsError :=
  | TypeError
  | Error (message : string).

Inductive Event :=
  | MEASUREMENT_COMPLETED
  | MEASUREMENT_REMOVED.

(** ** Data model *)

Definition Uuid := N.

(** [FreehandHandleData]: one control or refinement point.  Its [lines]
    array is created empty and never touched by [GridTool]. *)
Record Point (K : Type) := {
  p_x : K;
  p_y : K;
  isCommonPoint : bool;
  p_highlight : bool;
  p_active : bool;
}.
Arguments p_x {K} _.
Arguments p_y {K} _.
Arguments isCommonPoint {K} _.
Arguments p_highlight {K} _.
Arguments p_active {K} _.

(** A point of the compact export: [{x, y, isCommonPoint}]. *)
Record CompactPoint (K : Type) := {
  c_x : K;
  c_y : K;
  c_isCommonPoint : bool;
}.
Arguments c_x {K} _.
Arguments c_y {K} _.
Arguments c_isCommonPoint {K} _.

(** One entry of [toolState.data].  A primary line made by the tool has
    [handles.points]; an entry cloned from a compact export has a top-level
    [points] array and no [handles].  Absent properties are [None]. *)
Record Measurement (K : Type) := {
  uuid : Uuid;
  active : option bool;
  highlight : option bool;
  handles : option (list (Point K));
  points : option (list (CompactPoint K));
}.
Arguments uuid {K} _.
Arguments active {K} _.
Arguments highlight {K} _.
Arguments handles {K} _.
Arguments points {K} _.

(** The argument of [addPoint]. *)
Record NewPoint (K : Type) := {
  n_x : K;
  n_y : K;
  primaryLineIdx : nat;
  n_isCommonPoint : bool;
}.
Arguments n_x {K} _.
Arguments n_y {K} _.
Arguments primaryLineIdx {K} _.
Arguments n_isCommonPoint {K} _.

(** [this.configuration] ([defaultToolConfiguration]); the fields used only
    for drawing and hit-testing ([handleRadius], [mouseLocation],
    [dragOrigin]) are left out.

    [showRefinementPoints] is one object with the key [global] and one key
    per image id; [removeGrid] deletes a key of it, so every key, [global]
    too, may be missing.

    [spacing] is one object with the key [default] and one key per image
    id.  No method deletes a key of it and [removeGrid] replaces it by
    [{default: 5}], so the key [default] is always there: [spacing_default]
    is its value and [spacing_image] holds the other keys.  An image id
    that is the string [default] names the value of [spacing_default];
    [spacing_at] and [spacing_assign] read and write the object by key. *)
Record Configuration (K : Type) := {
  currentHandle : Z;
  currentTool : Z;
  primaryLineIdxInLoop : Z;
  secondaryLineIdx : option nat;
  moveOneHandleOnly : bool;
  noOfPrimaryLines_default : nat;
  noOfSecondaryLines_default : nat;
  spacing_default : K;
  spacing_image : gmap string K;
  showRefinementPoints : gmap string bool;
}.
Arguments currentHandle {K} _.
Arguments currentTool {K} _.
Arguments primaryLineIdxInLoop {K} _.
Arguments secondaryLineIdx {K} _.
Arguments moveOneHandleOnly {K} _.
Arguments noOfPrimaryLines_default {K} _.
Arguments noOfSecondaryLines_default {K} _.
Arguments spacing_default {K} _.
Arguments spacing_image {K} _.
Arguments showRefinementPoints {K} _.

(** The tool instance and what it reaches in its host:
    - [imageId]: [external.cornerstone.getImage(this.element).imageId];
    - [toolState]: the per-image store, restricted to this tool's entry
      (what [getToolState] and [oldStateManager] read and write);
    - [oldStateManager]: whether the element's state manager has one;
    - [isMultiPartToolActive]: the flag of the shared [state];
    - [nextUuid]: the source of [uuidv4];
    - [events]: what [triggerEvent] was called with, latest first. *)
Record Tool (K : Type) := {
  configuration : Configuration K;
  _drawing : bool;
  _modifying : bool;
  isMultiPartToolActive : bool;
  imageId : string;
  toolState : gmap string (list (Measurement K));
  oldStateManager : bool;
  nextUuid : N;
  events : list Event;
}.
Arguments configuration {K} _.
Arguments _drawing {K} _.
Arguments _modifying {K} _.
Arguments isMultiPartToolActive {K} _.
Arguments imageId {K} _.
Arguments toolState {K} _.
Arguments oldStateManager {K} _.
Arguments nextUuid {K} _.
Arguments events {K} _.

(** ** The monad of methods *)

Inductive Outcome (S A : Type) :=
  | Return (a : A) (s : S)
  | Throw (e : JsError) (s : S).
Arguments Return {S A} a s.
Arguments Throw {S A} e s.

Definition M (K A : Type) := Tool K → Outcome (Tool K) A.

Definition ret {K A} (a : A) : M K A := λ t, Return a t.

Definition bind {K A B} (m : M K A) (f : A → M K B) : M K B :=
  λ t, match m t with
       | Return a t' => f a t'
       | Throw e t' => Throw e t'
       end.

Definition throw {K A} (e : JsError) : M K A := λ t, Throw e t.

Definition getTool {K} : M K (Tool K) := λ t, Return t t.

Definition modify {K} (f : Tool K → Tool K) : M K unit := λ t, Return () (f t).

(** A value whose computation fails with a [TypeError] (reading a property
    of [undefined] or [null]) when it is [None]. *)
Definition orTypeError {K A} (o : option A) : M K A :=
  match o with
  | Some a => ret a
  | None => throw TypeError
  end.

Declare Scope js_scope.
Delimit Scope js_scope with js.
Notation "x <- c ;; k" := (bind c (λ x, k))
  (at level 100, c at next level, right associativity) : js_scope.
Notation "c ;; k" := (bind c (λ _, k))
  (at level 100, right associativity) : js_scope.
Local Open Scope js_scope.

(** [for (const a of l) body(a)] and [l.forEach(body)]. *)
Fixpoint forEach {K A} (l : list A) (body : A → M K unit) : M K unit :=
  match l with
  | [] => ret ()
  | a :: l' => body a ;; forEach l' body
  end.

(** A getter that only reads: [None] is a [TypeError]. *)
Definition read {K A} (f : Tool K → option A) : M K A :=
  λ t, match f t with
       | Some a => Return a t
       | None => Throw TypeError t
       end.

(** [array[i]] for a number [i]: [undefined] outside the array. *)
Definition lookupZ {A} (l : list A) (i : Z) : option A :=
  if (i <? 0)%Z then None else l !! Z.to_nat i.

(** [array.splice(start, 0, a)]: a start beyond the end appends, a negative
    start counts from the end. *)
Definition splice_insert {A} (start : Z) (a : A) (l : list A) : list A :=
  let len := Z.of_nat (length l) in
  let i := if (start <? 0)%Z then Z.max (len + start) 0 else Z.min start len in
  take (Z.to_nat i) l ++ a :: drop (Z.to_nat i) l.

(** [array.pop()]. *)
Definition pop {A} (l : list A) : list A := removelast l.

(** [Object.entries] of an object whose keys are integers: the keys that
    are array indices come first, in ascending order, then the others in
    insertion order.  The callers insert the non-negative keys in ascending
    order. *)
Definition object_entries {A} (l : list (Z * A)) : list (Z * A) :=
  List.filter (λ e, (0 <=? e.1)%Z) l ++ List.filter (λ e, (e.1 <? 0)%Z) l.

Inductive Component := Cx | Cy.

Section GridTool.
Context {K : Type} `{Num K}.

Definition coord (c : Component) (p : Point K) : K :=
  match c with Cx => p_x p | Cy => p_y p end.

(** *** Record updates *)

Definition with_handles (pts : list (Point K)) (m : Measurement K) : Measurement K :=
  {| uuid := uuid m; active := active m; highlight := highlight m;
     handles := Some pts; points := points m |}.

Definition with_uuid (u : Uuid) (m : Measurement K) : Measurement K :=
  {| uuid := u; active := active m; highlight := highlight m;
     handles := handles m; points := points m |}.

Definition with_inactive (m : Measurement K) : Measurement K :=
  {| uuid := uuid m; active := Some false; highlight := Some false;
     handles := handles m; points := points m |}.

Definition with_xy (x y : K) (p : Point K) : Point K :=
  {| p_x := x; p_y := y; isCommonPoint := isCommonPoint p;
     p_highlight := p_highlight p; p_active := p_active p |}.

Definition with_configuration (c : Configuration K) (t : Tool K) : Tool K :=
  {| configuration := c; _drawing := _drawing t; _modifying := _modifying t;
     isMultiPartToolActive := isMultiPartToolActive t; imageId := imageId t;
     toolState := toolState t; oldStateManager := oldStateManager t;
     nextUuid := nextUuid t; events := events t |}.

Definition with_drawing (drawing multi : bool) (t : Tool K) : Tool K :=
  {| configuration := configuration t; _drawing := drawing; _modifying := _modifying t;
     isMultiPartToolActive := multi; imageId := imageId t;
     toolState := toolState t; oldStateManager := oldStateManager t;
     nextUuid := nextUuid t; events := events t |}.

Definition with_modifying (b : bool) (t : Tool K) : Tool K :=
  {| configuration := configuration t; _drawing := _drawing t; _modifying := b;
     isMultiPartToolActive := isMultiPartToolActive t; imageId := imageId t;
     toolState := toolState t; oldStateManager := oldStateManager t;
     nextUuid := nextUuid t; events := events t |}.

Definition with_toolState (ts : gmap string (list (Measurement K))) (t : Tool K) : Tool K :=
  {| configuration := configuration t; _drawing := _drawing t; _modifying := _modifying t;
     isMultiPartToolActive := isMultiPartToolActive t; imageId := imageId t;
     toolState := ts; oldStateManager := oldStateManager t;
     nextUuid := nextUuid t; events := events t |}.

Definition with_nextUuid (n : N) (t : Tool K) : Tool K :=
  {| configuration := configuration t; _drawing := _drawing t; _modifying := _modifying t;
     isMultiPartToolActive := isMultiPartToolActive t; imageId := imageId t;
     toolState := toolState t; oldStateManager := oldStateManager t;
     nextUuid := n; events := events t |}.

Definition add_event (e : Event) (t : Tool K) : Tool K :=
  {| configuration := configuration t; _drawing := _drawing t; _modifying := _modifying t;
     isMultiPartToolActive := isMultiPartToolActive t; imageId := imageId t;
     toolState := toolState t; oldStateManager := oldStateManager t;
     nextUuid := nextUuid t; events := e :: events t |}.

Definition with_current (handle tool : Z) (c : Configuration K) : Configuration K :=
  {| currentHandle := handle; currentTool := tool;
     primaryLineIdxInLoop := primaryLineIdxInLoop c; secondaryLineIdx := secondaryLineIdx c;
     moveOneHandleOnly := moveOneHandleOnly c;
     noOfPrimaryLines_default := noOfPrimaryLines_default c;
     noOfSecondaryLines_default := noOfSecondaryLines_default c;
     spacing_default := spacing_default c; spacing_image := spacing_image c;
     showRefinementPoints := showRefinementPoints c |}.

Definition with_highlighting (i : Z) (j : option nat) (c : Configuration K) : Configuration K :=
  {| currentHandle := currentHandle c; currentTool := currentTool c;
     primaryLineIdxInLoop := i; secondaryLineIdx := j;
     moveOneHandleOnly := moveOneHandleOnly c;
     noOfPrimaryLines_default := noOfPrimaryLines_default c;
     noOfSecondaryLines_default := noOfSecondaryLines_default c;
     spacing_default := spacing_default c; spacing_image := spacing_image c;
     showRefinementPoints := showRefinementPoints c |}.

Definition with_moveOneHandleOnly (b : bool) (c : Configuration K) : Configuration K :=
  {| currentHandle := currentHandle c; currentTool := currentTool c;
     primaryLineIdxInLoop := primaryLineIdxInLoop c; secondaryLineIdx := secondaryLineIdx c;
     moveOneHandleOnly := b;
     noOfPrimaryLines_default := noOfPrimaryLines_default c;
     noOfSecondaryLines_default := noOfSecondaryLines_default c;
     spacing_default := spacing_default c; spacing_image := spacing_image c;
     showRefinementPoints := showRefinementPoints c |}.

Definition with_spacing (dflt : K) (img : gmap string K) (c : Configuration K)
  : Configuration K :=
  {| currentHandle := currentHandle c; currentTool := currentTool c;
     primaryLineIdxInLoop := primaryLineIdxInLoop c; secondaryLineIdx := secondaryLineIdx c;
     moveOneHandleOnly := moveOneHandleOnly c;
     noOfPrimaryLines_default := noOfPrimaryLines_default c;
     noOfSecondaryLines_default := noOfSecondaryLines_default c;
     spacing_default := dflt; spacing_image := img;
     showRefinementPoints := showRefinementPoints c |}.

Definition with_showRefinementPoints (o : gmap string bool)
  (c : Configuration K) : Configuration K :=
  {| currentHandle := currentHandle c; currentTool := currentTool c;
     primaryLineIdxInLoop := primaryLineIdxInLoop c; secondaryLineIdx := secondaryLineIdx c;
     moveOneHandleOnly := moveOneHandleOnly c;
     noOfPrimaryLines_default := noOfPrimaryLines_default c;
     noOfSecondaryLines_default := noOfSecondaryLines_default c;
     spacing_default := spacing_default c; spacing_image := spacing_image c;
     showRefinementPoints := o |}.

(** [this.configuration.spacing[key]]; [None] is [undefined]. *)
Definition spacing_at (key : string) (c : Configuration K) : option K :=
  if decide (key = "default") then Some (spacing_default c)
  else spacing_image c !! key.

(** [this.configuration.spacing[key] = value]. *)
Definition spacing_assign (key : string) (value : K) (c : Configuration K)
  : Configuration K :=
  if decide (key = "default") then with_spacing value (spacing_image c) c
  else with_spacing (spacing_default c) (<[key := value]> (spacing_image c)) c.

(** A boolean property read off an object: a missing key is [undefined]. *)
Definition jsBoolean (o : option bool) : JsValue K :=
  match o with
  | Some b => JsBoolean b
  | None => JsUndefined
  end.

Definition modifyConfiguration (f : Configuration K → Configuration K) : M K unit :=
  modify (λ t, with_configuration (f (configuration t)) t).

(** *** The store of the current image *)

(** [getToolState(this.element, this.name)]; [None] is [undefined]. *)
Definition getToolState (t : Tool K) : option (list (Measurement K)) :=
  toolState t !! imageId t.

(** [toolState.data] where a missing state counts as no lines. *)
Definition data (t : Tool K) : list (Measurement K) :=
  default [] (getToolState t).

(** The guard [!toolState || !toolState.data || !toolState.data.length]. *)
Definition noGrid (t : Tool K) : bool :=
  match data t with
  | [] => true
  | _ => false
  end.

Definition with_data (d : list (Measurement K)) (t : Tool K) : Tool K :=
  with_toolState (<[imageId t := d]> (toolState t)) t.

(** An in-place change of [toolState.data]; reading [data] of an undefined
    [toolState] is a [TypeError]. *)
Definition updateData (f : list (Measurement K) → option (list (Measurement K)))
  : M K unit :=
  λ t, match getToolState t with
       | None => Throw TypeError t
       | Some d => match f d with
                   | Some d' => Return () (with_data d' t)
                   | None => Throw TypeError t
                   end
       end.

(** [toolState.data[i].handles.points]. *)
Definition linePoints (d : list (Measurement K)) (i : nat) : option (list (Point K)) :=
  d !! i ≫= handles.

(** [toolState.data[i].handles.points = f(...)] and the in-place methods
    of that array. *)
Definition alterPoints (i : nat) (f : list (Point K) → list (Point K))
  (d : list (Measurement K)) : option (list (Measurement K)) :=
  m ← d !! i; pts ← handles m; Some (<[i := with_handles (f pts) m]> d).

(** [primaryLine.handles.points[0].isCommonPoint]. *)
Definition firstPointIsCommon (m : Measurement K) : option bool :=
  pts ← handles m; p ← head pts; Some (isCommonPoint p).

(** *** Points and lines *)

(** [new FreehandHandleData(position, isCommonPoint)]: [highlight] and
    [active] take their default, [true]. *)
Definition FreehandHandleData (x y : K) (isCommon : bool) : Point K :=
  {| p_x := x; p_y := y; isCommonPoint := isCommon;
     p_highlight := true; p_active := true |}.

(** [createNewMeasurement]; the [uuid] is the one [addToolState] gives. *)
Definition createNewMeasurement (u : Uuid) : Measurement K :=
  {| uuid := u; active := Some false; highlight := None;
     handles := Some []; points := None |}.

(** Modelled from the spec: [uuidv4] ([util/uuidv4] is not among the
    sources).  "A freshly generated uuid": the generator never repeats
    itself. *)
Definition uuidv4 : M K Uuid :=
  λ t, Return (nextUuid t) (with_nextUuid (N.succ (nextUuid t)) t).

(** Modelled from the spec: [addToolState(element, name, measurement, idx)]
    ([stateManagement/toolState.js] is not among the sources).  The line
    gets its identity and is stored at slot [idx] of the current image's
    list, at its end when [idx] is [null]; the list is created when the
    image has none. *)
Definition addToolState (measurement : Uuid → Measurement K) (idx : option nat)
  : M K unit :=
  u <- uuidv4 ;;
  modify (λ t, let d := data t in
               with_data (match idx with
                         | None => d ++ [measurement u]
                         | Some i => take i d ++ measurement u :: drop i d
                         end) t).

Definition addNewMeasurementToState (idx : option nat) : M K unit :=
  addToolState createNewMeasurement idx.

(** Modelled from the spec: [clearToolState(element, name)]; the current
    image's list becomes empty, nothing is created. *)
Definition clearToolState : M K unit :=
  λ t, match getToolState t with
       | None => Return () t
       | Some _ => Return () (with_data [] t)
       end.

Definition addPoint (point : NewPoint K) : M K unit :=
  updateData (alterPoints (primaryLineIdx point)
    (λ pts, pts ++ [FreehandHandleData (n_x point) (n_y point) (n_isCommonPoint point)])).

(** *** Drawing sessions *)

Definition fireCompletedEvent : M K unit := modify (add_event MEASUREMENT_COMPLETED).

Definition fireRemovedEvent : M K unit := modify (add_event MEASUREMENT_REMOVED).

(** [_activeDrawingToolReference], read by [newImageCallback] only, is not
    kept. *)
Definition activateDraw : M K unit :=
  modify (with_drawing true true) ;;
  t <- getTool ;;
  if noGrid t then ret ()
  else modifyConfiguration
         (λ c, with_current (currentHandle c) (Z.of_nat (length (data t)) - 1)%Z c).

Definition _deactivateDraw : M K unit := modify (with_drawing false false).

Definition _endDrawing : M K unit :=
  t <- getTool ;;
  (if bool_decide (currentTool (configuration t) ≠ (-1)%Z) then
     d <- orTypeError (getToolState t) ;;
     match lookupZ d (currentTool (configuration t)) with
     | Some m =>
         modify (with_data (<[Z.to_nat (currentTool (configuration t)) := with_inactive m]> d))
     | None => ret ()
     end
   else ret ()) ;;
  modify (with_modifying false) ;;
  modifyConfiguration (with_current 0 0) ;;
  t <- getTool ;;
  (if _drawing t then _deactivateDraw else ret ()) ;;
  fireCompletedEvent.

Definition completeDrawing : M K unit :=
  t <- getTool ;;
  if negb (_drawing t) then ret () else _endDrawing.

(** *** Reading and cloning the per-image state *)

Definition compactPoint (p : Point K) : CompactPoint K :=
  {| c_x := p_x p; c_y := p_y p; c_isCommonPoint := isCommonPoint p |}.

Definition compactPrimaryLine (m : Measurement K) : option (Measurement K) :=
  pts ← handles m;
  Some {| uuid := uuid m; active := None; highlight := None;
          handles := None; points := Some (compactPoint <$> pts) |}.

(** The result is [None] for [null]. *)
Definition getStateForImageId (id : string) (compact : bool)
  : M K (option (list (Measurement K))) :=
  t <- getTool ;;
  if negb (oldStateManager t) then ret None
  else match toolState t !! id with
       | None => ret (Some [])
       | Some d =>
           if negb compact then ret (Some d)
           else l <- orTypeError (mapM compactPrimaryLine d) ;; ret (Some l)
       end.

(** [structuredClone(primaryLines)] followed by the loop that regenerates
    every [uuid]. *)
Fixpoint regenerateUuids (primaryLines : list (Measurement K))
  : M K (list (Measurement K)) :=
  match primaryLines with
  | [] => ret []
  | m :: l => u <- uuidv4 ;; l' <- regenerateUuids l ;; ret (with_uuid u m :: l')
  end.

Definition _setShowRefinementPointsForImageId (id : string) (value : bool) : M K unit :=
  t <- getTool ;;
  if noGrid t then ret ()
  else modifyConfiguration
         (λ c, with_showRefinementPoints
                 (<[id := value]> (<["global" := value]> (showRefinementPoints c))) c).

Definition setStateForImageIds (primaryLines : list (Measurement K))
  (imageIds : list string) (hasRefinementPoints : bool) : M K unit :=
  forEach imageIds (λ id,
    copiedState <- regenerateUuids primaryLines ;;
    t <- getTool ;;
    if negb (oldStateManager t) then throw TypeError
    else
      modify (λ t, with_toolState (<[id := copiedState]> (toolState t)) t) ;;
      _setShowRefinementPointsForImageId id hasRefinementPoints) ;;
  fireCompletedEvent.

Fixpoint countGrids (imageIds : list string) (noOfGrids : nat) : M K nat :=
  match imageIds with
  | [] => ret noOfGrids
  | id :: l =>
      state <- getStateForImageId id false ;;
      countGrids l (match state with
                    | Some (_ :: _) => S noOfGrids
                    | _ => noOfGrids
                    end)
  end.

Definition hasGridForImageIds (imageIds : list string) : M K bool :=
  noOfGrids <- countGrids imageIds 0 ;;
  ret (noOfGrids =? length imageIds).

(** *** Counting getters

    For the getters that only read, the outer [option] is [None] for a
    [TypeError] and the inner one is [None] for [null]. *)

Definition get_totalNoOfPrimaryLines (t : Tool K) : option nat :=
  if noGrid t then None else Some (length (data t)).

Definition get_noOfPrimaryLines (t : Tool K) : option (option nat) :=
  if noGrid t then Some None
  else flags ← mapM firstPointIsCommon (data t);
       Some (Some (length (List.filter (λ b : bool, b) flags))).

Definition get_noOfSecondaryLines (t : Tool K) : option (option nat) :=
  if noGrid t then Some None
  else pts ← linePoints (data t) 0;
       Some (Some (length (List.filter isCommonPoint pts))).

Definition get_totalNoOfSecondaryLines (t : Tool K) : option (option nat) :=
  if noGrid t then Some None
  else pts ← linePoints (data t) 0; Some (Some (length pts)).

Definition get_spacing (t : Tool K) : option K :=
  if noGrid t then None
  else Some (default (spacing_default (configuration t))
                     (spacing_at (imageId t) (configuration t))).

(** What the getter returns: [null] without a grid, else the property
    [global] as it is, [undefined] when the key is missing. *)
Definition get_showRefinementPoints (t : Tool K) : JsValue K :=
  if noGrid t then JsNull
  else jsBoolean (showRefinementPoints (configuration t) !! "global").

(** [if (this.showRefinementPoints)]: [null] and [undefined] are falsy. *)
Definition showRefinementPoints_on (t : Tool K) : bool :=
  match get_showRefinementPoints t with
  | JsBoolean b => b
  | _ => false
  end.

(** A count used as a number: [null] is [0]. *)
Definition numberOf (n : option nat) : Z := Z.of_nat (default 0 n).

(** [this.spacing] used in arithmetic: [null] is [0]. *)
Definition spacingNumber (t : Tool K) : K := default (kofZ 0) (get_spacing t).

(** *** Neighbour lookup *)

(** The loop of [getPreviousMainPrimaryLine], from [cur - 1] downwards. *)
Fixpoint previousMainFrom (d : list (Measurement K)) (cur : nat) : option (option nat) :=
  match cur with
  | 0 => Some None
  | S k => match d !! k ≫= firstPointIsCommon with
           | None => None
           | Some true => Some (Some k)
           | Some false => previousMainFrom d k
           end
  end.

(** The index of the line found; [currentPrimaryLineIdx] may be [null]. *)
Definition getPreviousMainPrimaryLine (currentPrimaryLineIdx : option nat) (t : Tool K)
  : option (option nat) :=
  if noGrid t then Some None
  else previousMainFrom (data t) (default 0 currentPrimaryLineIdx).

(** The loop of [getNextMainPrimaryLine] over the lines that remain. *)
Fixpoint nextMainIn (l : list (Measurement K)) (idx : nat) : option (option nat) :=
  match l with
  | [] => Some None
  | m :: l' => match firstPointIsCommon m with
               | None => None
               | Some true => Some (Some idx)
               | Some false => nextMainIn l' (S idx)
               end
  end.

Definition nextMainFrom (d : list (Measurement K)) (cur : Z) : option (option nat) :=
  nextMainIn (drop (Z.to_nat (cur + 1)) d) (Z.to_nat (cur + 1)).

Definition getNextMainPrimaryLine (currentPrimaryLineIdx : Z) (t : Tool K)
  : option (option nat) :=
  if noGrid t then Some None else nextMainFrom (data t) currentPrimaryLineIdx.

(** The [while] loop of [getAllMainPrimaryLines]; every round moves to a
    larger index, so [length d] rounds are enough. *)
Fixpoint allMainLoop (fuel : nat) (d : list (Measurement K)) (cur : nat)
  : option (list nat) :=
  match fuel with
  | 0 => Some []
  | S fuel' =>
      next ← nextMainFrom d (Z.of_nat cur);
      match next with
      | None => Some []
      | Some i => rest ← allMainLoop fuel' d i; Some (i :: rest)
      end
  end.

(** The keys of the [Map] returned, in insertion order. *)
Definition getAllMainPrimaryLines (fromPrimaryLineIdx : option nat) (t : Tool K)
  : option (option (list nat)) :=
  if noGrid t then Some None
  else keys ← allMainLoop (length (data t)) (data t) (default 0 fromPrimaryLineIdx);
       Some (Some (match fromPrimaryLineIdx with
                   | Some i => i :: keys
                   | None => keys
                   end)).

Fixpoint ithCommonPoint (pts : list (Point K)) (commonPointIdx ith : Z) : option (Point K) :=
  match pts with
  | [] => None
  | p :: pts' =>
      let c := if isCommonPoint p then (commonPointIdx + 1)%Z else commonPointIdx in
      if bool_decide (c = ith) then Some p else ithCommonPoint pts' c ith
  end.

Definition getIthCommonPointOnPrimaryLine (ith : Z) (primaryLineIdx : option nat)
  (t : Tool K) : option (option (Point K)) :=
  if noGrid t then Some None
  else match primaryLineIdx ≫= (data t !!.) with
       | None => Some None
       | Some m => pts ← handles m; Some (ithCommonPoint pts (-1) ith)
       end.

(** *** Grid builder *)

(** A point of the first line: [position.x + config.currentTool * this.spacing]. *)
Definition firstLinePoint (t : Tool K) (position : option (K * K)) (idx : nat)
  : option (NewPoint K) :=
  pos ← position;
  Some {| n_x := (pos.1 + kofZ (currentTool (configuration t)) * spacingNumber t)%K;
          n_y := if (idx =? 0)%nat then pos.2
                 else (pos.2 + spacingNumber t * kofZ (Z.of_nat idx))%K;
          primaryLineIdx := 0;
          n_isCommonPoint := true |}.

(** A point of a later line: the previous main line's point plus the step
    between the two previous main lines, [(spacing, 0)] without a second. *)
Definition nextLinePoint (t : Tool K) (prevPrimaryLineIdx prevPrevPrimaryLineIdx : option nat)
  (idx : nat) : option (NewPoint K) :=
  ithPrev ← getIthCommonPointOnPrimaryLine (Z.of_nat idx) prevPrimaryLineIdx t;
  match prevPrevPrimaryLineIdx with
  | Some _ =>
      ithPrevPrev ← getIthCommonPointOnPrimaryLine (Z.of_nat idx) prevPrevPrimaryLineIdx t;
      p ← ithPrev;
      q ← ithPrevPrev;
      Some {| n_x := (p_x p + (p_x p - p_x q))%K;
              n_y := (p_y p + (p_y p - p_y q))%K;
              primaryLineIdx := length (data t) - 1;
              n_isCommonPoint := true |}
  | None =>
      p ← ithPrev;
      Some {| n_x := (p_x p + spacingNumber t)%K;
              n_y := (p_y p + kofZ 0)%K;
              primaryLineIdx := length (data t) - 1;
              n_isCommonPoint := true |}
  end.

Definition mainPrimaryLinePoints (primaryLineIndex : option nat) (position : option (K * K))
  (t : Tool K) : option (list (NewPoint K)) :=
  if (length (data t) <? 2)%nat then
    mapM (firstLinePoint t position)
         (seq 0 (noOfSecondaryLines_default (configuration t)))
  else
    prevPrimaryLineIdx ← getPreviousMainPrimaryLine primaryLineIndex t;
    prevPrevPrimaryLineIdx ← getPreviousMainPrimaryLine prevPrimaryLineIdx t;
    noOfPoints ← match position with
                 | None => get_noOfSecondaryLines t
                 | Some _ => Some (Some (noOfSecondaryLines_default (configuration t)))
                 end;
    mapM (nextLinePoint t prevPrimaryLineIdx prevPrevPrimaryLineIdx)
         (seq 0 (default 0 noOfPoints)).

Definition generateMainPrimaryLine (primaryLineIndex : option nat)
  (position : option (K * K)) : M K unit :=
  addNewMeasurementToState primaryLineIndex ;;
  t <- getTool ;;
  _ <- orTypeError (getToolState t) ;;
  pts <- read (mainPrimaryLinePoints primaryLineIndex position) ;;
  forEach pts addPoint.

(** The integers [start], [start + 1], ... below [stop]. *)
Definition zrange (start stop : Z) : list Z :=
  (λ k, (start + Z.of_nat k)%Z) <$> seq 0 (Z.to_nat (stop - start)).

(** One round of the inner loop of [_generateSubsidiaryPrimaryLine]: the
    point pushed, if any ([continue] gives none). *)
Definition subsidiaryPoint (t : Tool K) (fromMainPrimaryLineIdx : Z)
  (subsidiaryPrimaryLineIdx : nat) (pointIdx : Z) : option (option (NewPoint K)) :=
  m ← lookupZ (data t) fromMainPrimaryLineIdx;
  pts ← handles m;
  p ← lookupZ pts pointIdx;
  if negb (isCommonPoint p) then Some None
  else
    next ← getNextMainPrimaryLine fromMainPrimaryLineIdx t;
    match next with
    | None => Some None
    | Some nextIdx =>
        npts ← linePoints (data t) nextIdx;
        q ← lookupZ npts pointIdx;
        let k := kofZ (Z.of_nat subsidiaryPrimaryLineIdx + 1) in
        Some (Some {| n_x := (p_x p + ((p_x q - p_x p) / kofZ 4) * k)%K;
                      n_y := (p_y p + ((p_y q - p_y p) / kofZ 4) * k)%K;
                      primaryLineIdx :=
                        Z.to_nat (fromMainPrimaryLineIdx
                                  + Z.of_nat subsidiaryPrimaryLineIdx + 1);
                      n_isCommonPoint := false |})
    end.

Definition subsidiaryPoints (fromMainPrimaryLineIdx : Z) (fromSecondaryLineIdx : option Z)
  (t : Tool K) : option (list (NewPoint K)) :=
  total ← get_totalNoOfSecondaryLines t;
  rows ← mapM (λ sub,
                 mapM (subsidiaryPoint t fromMainPrimaryLineIdx sub)
                      (zrange (default 0%Z fromSecondaryLineIdx) (numberOf total)))
              [0; 1; 2];
  Some (omap (λ pushed, pushed) (concat rows)).

Definition _generateSubsidiaryPrimaryLine (fromMainPrimaryLineIdx : Z)
  (fromSecondaryLineIdx : option Z) (createNewSubsidiaryLines : bool) : M K unit :=
  t <- getTool ;;
  if noGrid t then ret ()
  else
    pts <- read (subsidiaryPoints fromMainPrimaryLineIdx fromSecondaryLineIdx) ;;
    (if createNewSubsidiaryLines then
       forEach [1; 2; 3]%Z (λ k,
         addNewMeasurementToState (Some (Z.to_nat (fromMainPrimaryLineIdx + k))))
     else ret ()) ;;
    forEach pts addPoint.

Definition generateSubsidiaryPrimaryLines (fromMainPrimaryLineIdx toMainPrimaryLineIdx : Z)
  (createNewSubsidiaryLines : bool) (fromSecondaryLineIdx : option Z) : M K unit :=
  forEach (seq 0 (Z.to_nat (toMainPrimaryLineIdx - fromMainPrimaryLineIdx))) (λ call,
    _generateSubsidiaryPrimaryLine (fromMainPrimaryLineIdx + 4 * Z.of_nat call)
                                   fromSecondaryLineIdx createNewSubsidiaryLines).

(** The [options] of [generateRefinementPointsOnCurrentPrimaryLines]; an
    absent property is [None]. *)
Record RefinementOptions := {
  fromPrimaryLineIdx : option nat;
  fromSecondaryLineIdx : option Z;
}.

(** The loop that fills [pointsToAdd] for one primary line: the entries
    in insertion order, each key holding one point. *)
Fixpoint refinementPointsLoop (fuel : nat) (t : Tool K) (primaryLineIdx : nat)
  (secondaryLineIdx : Z) : option (list (Z * Point K)) :=
  match fuel with
  | 0 => Some []
  | S fuel' =>
      point ← getIthCommonPointOnPrimaryLine secondaryLineIdx (Some primaryLineIdx) t;
      nextPoint ← getIthCommonPointOnPrimaryLine (secondaryLineIdx + 1)
                                                  (Some primaryLineIdx) t;
      match nextPoint with
      | None => Some []
      | Some q =>
          p ← point;
          let xDiff := ((p_x q - p_x p) / kofZ 4)%K in
          let yDiff := ((p_y q - p_y p) / kofZ 4)%K in
          let firstPoint :=
            FreehandHandleData (p_x p + xDiff)%K (p_y p + yDiff)%K false in
          let secondPoint :=
            FreehandHandleData (p_x p + xDiff * kofZ 2)%K (p_y p + yDiff * kofZ 2)%K false in
          let thirdPoint :=
            FreehandHandleData (p_x p + xDiff * kofZ 3)%K (p_y p + yDiff * kofZ 3)%K false in
          rest ← refinementPointsLoop fuel' t primaryLineIdx (secondaryLineIdx + 1);
          Some (((secondaryLineIdx * 4 + 1)%Z, firstPoint)
                :: ((secondaryLineIdx * 4 + 2)%Z, secondPoint)
                :: ((secondaryLineIdx * 4 + 3)%Z, thirdPoint) :: rest)
      end
  end.

Definition refinementPoints (primaryLineIdx : nat) (fromSecondaryLineIdx : option Z)
  (t : Tool K) : option (list (Z * Point K)) :=
  n ← get_noOfSecondaryLines t;
  let start := default 0%Z fromSecondaryLineIdx in
  refinementPointsLoop (Z.to_nat (numberOf n - start)) t primaryLineIdx start.

(** [options.fromPrimaryLineIdx || null]. *)
Definition orNull (i : option nat) : option nat :=
  match i with
  | Some 0 => None
  | _ => i
  end.

Definition generateRefinementPointsOnCurrentPrimaryLines (options : RefinementOptions)
  : M K unit :=
  t <- getTool ;;
  if noGrid t then ret ()
  else
    primaryLines <- read (getAllMainPrimaryLines (orNull (fromPrimaryLineIdx options))) ;;
    keys <- match fromSecondaryLineIdx options with
            | Some _ =>
                n <- read get_noOfPrimaryLines ;;
                ret ((λ primaryLineIdx, primaryLineIdx * 4) <$> seq 0 (default 0 n))
            | None => orTypeError primaryLines
            end ;;
    forEach keys (λ primaryLineIdx,
      pointsToAdd <- read (refinementPoints primaryLineIdx (fromSecondaryLineIdx options)) ;;
      forEach (object_entries pointsToAdd) (λ entry,
        updateData (alterPoints primaryLineIdx (splice_insert entry.1 entry.2)))).

(** The call without argument: [{ fromPrimaryLineIdx: 0, fromSecondaryLineIdx: 0 }]. *)
Definition defaultRefinementOptions : RefinementOptions :=
  {| fromPrimaryLineIdx := Some 0; fromSecondaryLineIdx := Some 0%Z |}.

Definition removeAllRefinementPoints : M K unit :=
  t <- getTool ;;
  if noGrid t then ret ()
  else
    forEach (seq 0 (length (data t))) (λ primaryLineIdx,
      updateData (alterPoints primaryLineIdx (List.filter isCommonPoint))) ;;
    t <- getTool ;;
    forEach (rev (seq 1 (length (data t) - 1))) (λ totalNoOfPrimaryLines,
      t <- getTool ;;
      pts <- orTypeError (getToolState t ≫= λ d, linePoints d totalNoOfPrimaryLines) ;;
      match pts with
      | [] => updateData (λ d, Some (delete totalNoOfPrimaryLines d))
      | _ => ret ()
      end).

Definition removeLastPrimaryLine : M K unit :=
  t <- getTool ;;
  if showRefinementPoints_on t then
    updateData (λ d, Some (pop d)) ;;
    updateData (λ d, Some (pop d)) ;;
    updateData (λ d, Some (pop d)) ;;
    updateData (λ d, Some (pop d))
  else updateData (λ d, Some (pop d)).

Definition generateSecondaryLine : M K unit :=
  t <- getTool ;;
  forEach (seq 0 (default 0 (get_totalNoOfPrimaryLines t))) (λ primaryLineIdx,
    t <- getTool ;;
    if showRefinementPoints_on t && negb (primaryLineIdx mod 4 =? 0)%nat then ret ()
    else
      pts <- orTypeError (getToolState t ≫= λ d, linePoints d primaryLineIdx) ;;
      let noOfPoints := Z.of_nat (length pts) in
      let prevPrevPoint :=
        lookupZ pts (if showRefinementPoints_on t then noOfPoints - 5 else noOfPoints - 2)%Z in
      prevPoint <- orTypeError (lookupZ pts (noOfPoints - 1)%Z) ;;
      let diff := match prevPrevPoint with
                  | Some pp => ((p_x prevPoint - p_x pp)%K, (p_y prevPoint - p_y pp)%K)
                  | None => (kofZ 0, spacingNumber t)
                  end in
      addPoint {| n_x := (p_x prevPoint + diff.1)%K;
                  n_y := (p_y prevPoint + diff.2)%K;
                  primaryLineIdx := primaryLineIdx;
                  n_isCommonPoint := true |}).

(** The indices visited by [for (idx = 0; idx < total; idx++)] when the
    body adds [step - 1] to [idx]. *)
Definition everyNth (step total : nat) : list nat :=
  List.filter (λ i, (i mod step =? 0)%nat) (seq 0 total).

Definition removeLastSecondaryLine : M K unit :=
  t <- getTool ;;
  if noGrid t then ret ()
  else
    let totalNoOfLoops := if showRefinementPoints_on t then 4 else 1 in
    forEach (seq 0 totalNoOfLoops) (λ currentLoopIdx,
      forEach (everyNth (if (totalNoOfLoops =? 4)%nat && (0 <? currentLoopIdx)%nat
                         then 4 else 1)
                        (length (data t))) (λ idx,
        updateData (alterPoints idx pop))).

Definition removeGrid : M K unit :=
  clearToolState ;;
  t <- getTool ;;
  modifyConfiguration (λ c,
    with_showRefinementPoints (delete (imageId t) (showRefinementPoints c)) c) ;;
  modifyConfiguration (with_spacing (kofZ 5) ∅) ;;
  modifyConfiguration (with_highlighting 0 None) ;;
  fireRemovedEvent.

(** *** Geometry *)

Definition getGridMiddlePointCoords (t : Tool K) : option (option (K * K)) :=
  if noGrid t then Some None
  else
    upperLeft ← linePoints (data t) 0 ≫= head;
    bottomRight ← linePoints (data t) (length (data t) - 1) ≫= last;
    Some (Some (((p_x upperLeft + p_x bottomRight) / kofZ 2)%K,
                ((p_y upperLeft + p_y bottomRight) / kofZ 2)%K)).

Section Trigonometry.
Context `{Trig K}.

Definition rotatePoint (angle : K) (middle : K * K) (point : Point K) : Point K :=
  let c := kcos ((angle * kPI) / kofZ 180)%K in
  let s := ksin ((angle * kPI) / kofZ 180)%K in
  let x := (p_x point - middle.1)%K in
  let y := (p_y point - middle.2)%K in
  with_xy (x * c - y * s + middle.1)%K (x * s + y * c + middle.2)%K point.

(** [middle] is not [null] past the guard. *)
Definition rotateGrid (angle : K) : M K unit :=
  t <- getTool ;;
  if noGrid t then ret ()
  else
    middle <- read getGridMiddlePointCoords ;;
    middle <- orTypeError middle ;;
    activateDraw ;;
    t <- getTool ;;
    forEach (seq 0 (length (data t))) (λ primaryLine,
      updateData (alterPoints primaryLine (fmap (rotatePoint angle middle)))) ;;
    completeDrawing.

Definition get_angle (t : Tool K) : option (option K) :=
  if noGrid t then Some None
  else
    firstPrimaryLine ← linePoints (data t) 0;
    total ← get_totalNoOfSecondaryLines t;
    topLeftPoint ← head firstPrimaryLine;
    bottomLeftPoint ← lookupZ firstPrimaryLine (numberOf total - 1)%Z;
    let centerLeftPoint := (((p_x topLeftPoint + p_x bottomLeftPoint) / kofZ 2)%K,
                            ((p_y topLeftPoint + p_y bottomLeftPoint) / kofZ 2)%K) in
    centerPoint ← getGridMiddlePointCoords t ≫= λ c, c;
    let adjacentPoint := (centerLeftPoint.1, centerPoint.2) in
    let centerToAdjacentLength := (centerPoint.1 - adjacentPoint.1)%K in
    let adjacentToCenterLeftLength := (adjacentPoint.2 - centerLeftPoint.2)%K in
    let angleTan := (adjacentToCenterLeftLength / centerToAdjacentLength)%K in
    Some (Some (kround ((katan angleTan * kofZ 180) / kPI)%K)).

Definition set_angle (newAngle : JsValue K) : M K unit :=
  match newAngle with
  | JsNum NaN => ret ()
  | JsNum (Fin a) =>
      if (a <? kofZ 0)%K || (kofZ 90 <? a)%K then ret ()
      else
        angle <- read get_angle ;;
        rotateGrid (a - default (kofZ 0) angle)%K
  | _ => throw (Error "Attempting to set angle to a value other than a number.")
  end.

End Trigonometry.

(** [setOffset(newLocation, usingMouseInput)]. *)
Definition setOffset (newLocation : JsNumber K * JsNumber K) (usingMouseInput : bool)
  : M K unit :=
  match newLocation with
  | (NaN, _) => ret ()
  | (Fin x, y) =>
      if (x <? kofZ 0)%K then ret ()
      else match y with
           | NaN => ret ()
           | Fin y =>
               if (y <? kofZ 0)%K then ret ()
               else
                 t <- getTool ;;
                 let config := configuration t in
                 let currentTool := if usingMouseInput then currentTool config else 0%Z in
                 let currentHandle := if usingMouseInput then currentHandle config else 0%Z in
                 d <- orTypeError (getToolState t) ;;
                 point <- orTypeError (m ← lookupZ d currentTool;
                                       pts ← handles m;
                                       lookupZ pts currentHandle) ;;
                 let xChange := (x - p_x point)%K in
                 let yChange := (y - p_y point)%K in
                 forEach (seq 0 (length d)) (λ tool,
                   updateData (alterPoints tool
                     (fmap (λ point, with_xy (p_x point + xChange)%K
                                            (p_y point + yChange)%K point)))) ;;
                 fireCompletedEvent
           end
  end.

(** *** Spacing *)

(** The points of one secondary line, as (line, position) pairs; the
    position [ithSecondaryLine / 4] is taken on subsidiary lines only, where
    [ithSecondaryLine] is a multiple of 4. *)
Fixpoint secondaryLineLoop (fuel : nat) (d : list (Measurement K)) (show : bool)
  (ithSecondaryLine primaryLinesOffset ithPrimaryLine : nat) : option (list (nat * nat)) :=
  match fuel with
  | 0 => Some []
  | S fuel' =>
      if (ithPrimaryLine <? length d)%nat then
        let secondaryLine :=
          if show && negb (ithPrimaryLine mod 4 =? 0)%nat
          then ithSecondaryLine / 4 else ithSecondaryLine in
        _ ← linePoints d ithPrimaryLine;
        rest ← secondaryLineLoop fuel' d show ithSecondaryLine primaryLinesOffset
                                 (ithPrimaryLine + primaryLinesOffset);
        Some ((ithPrimaryLine, secondaryLine) :: rest)
      else Some []
  end.

Definition getAllPointsOnIthSecondaryLine (ithSecondaryLine : nat) (t : Tool K)
  : option (list (nat * nat)) :=
  if noGrid t then Some []
  else
    let show := showRefinementPoints_on t in
    let primaryLinesOffset :=
      if show && negb (ithSecondaryLine mod 4 =? 0)%nat then 4 else 1 in
    secondaryLineLoop (length (data t)) (data t) show ithSecondaryLine primaryLinesOffset 0.

(** [primaryLinePoints % 4 !== 0] holds of every array but the empty one
    (an array of objects converts to NaN, the empty array to 0). *)
Definition coordDiffBetweenFirstAndSecondPointOnPrimaryLine (primaryLineIdx : nat)
  (component : Component) (t : Tool K) : option (option K) :=
  if noGrid t then Some None
  else
    primaryLinePoints ← linePoints (data t) primaryLineIdx;
    secondPointOnMainPrimaryLine ←
      (if showRefinementPoints_on t && negb (bool_decide (primaryLinePoints = []))
       then primaryLinePoints !! 1
       else getIthCommonPointOnPrimaryLine 1 (Some primaryLineIdx) t ≫= λ p, p);
    first ← head primaryLinePoints;
    Some (Some (coord component secondPointOnMainPrimaryLine - coord component first)%K).

Definition coordDiffBetweenFirstAndSecondMainPrimaryLine (component : Component)
  (t : Tool K) : option (option K) :=
  if noGrid t then Some None
  else
    firstMainPrimaryLinePoints ← linePoints (data t) 0;
    next ← getNextMainPrimaryLine 0 t;
    secondMainPrimaryLine ← next;
    second ← linePoints (data t) secondMainPrimaryLine ≫= head;
    first ← head firstMainPrimaryLinePoints;
    Some (Some (coord component second - coord component first)%K).

(** [point.x = ...; point.y = ...] on the point at an address. *)
Definition writePoint (address : nat * nat) (x y : K) : M K unit :=
  updateData (λ d, m ← d !! address.1;
                   pts ← handles m;
                   p ← pts !! address.2;
                   Some (<[address.1 := with_handles (<[address.2 := with_xy x y p]> pts) m]> d)).

(** [primaryLinePoints.map((point, pointIdx) => ...)]: every point is put
    at [pointIdx] steps from the first one, read as it is at that moment. *)
Definition respace (dx dy : K) (primaryLinePoints : list (Point K)) : list (Point K) :=
  foldl (λ pts pointIdx,
           match head pts with
           | Some first =>
               alter (with_xy (p_x first + dx * kofZ (Z.of_nat pointIdx))%K
                             (p_y first + dy * kofZ (Z.of_nat pointIdx))%K) pointIdx pts
           | None => pts
           end)
        primaryLinePoints (seq 0 (length primaryLinePoints)).

Definition onSpacingChange (newSpacing : K) (imageId : string) : M K unit :=
  t <- getTool ;;
  if noGrid t then ret ()
  else
    activateDraw ;;
    t <- getTool ;;
    let show := showRefinementPoints_on t in
    let existingSpacing := if show then (spacingNumber t * kofZ 4)%K else spacingNumber t in
    mx <- read (coordDiffBetweenFirstAndSecondMainPrimaryLine Cx) ;;
    mx <- orTypeError mx ;;
    let ddx := ((mx / existingSpacing) * newSpacing)%K in
    my <- read (coordDiffBetweenFirstAndSecondMainPrimaryLine Cy) ;;
    my <- orTypeError my ;;
    let ddy := ((my / existingSpacing) * newSpacing)%K in
    total <- read get_totalNoOfSecondaryLines ;;
    forEach (seq 0 (default 0 total)) (λ secondaryLineIdx,
      pts <- read (getAllPointsOnIthSecondaryLine secondaryLineIdx) ;;
      t <- getTool ;;
      _ <- orTypeError (linePoints (data t) 0) ;;
      let step := if show && negb (secondaryLineIdx mod 4 =? 0)%nat then 4 else 1 in
      forEach (imap (λ k address, (address, k * step)) pts) (λ entry,
        t <- getTool ;;
        firstPoint <- orTypeError (linePoints (data t) 0 ≫= (.!! secondaryLineIdx)) ;;
        writePoint entry.1
          (p_x firstPoint + ddx * kofZ (Z.of_nat entry.2))%K
          (p_y firstPoint + ddy * kofZ (Z.of_nat entry.2))%K)) ;;
    let existingSpacing := if show then (existingSpacing / kofZ 4)%K else existingSpacing in
    t <- getTool ;;
    forEach (seq 0 (length (data t))) (λ primaryLineIdx,
      sx <- read (coordDiffBetweenFirstAndSecondPointOnPrimaryLine primaryLineIdx Cx) ;;
      sx <- orTypeError sx ;;
      let dx := ((sx / existingSpacing) * newSpacing)%K in
      sy <- read (coordDiffBetweenFirstAndSecondPointOnPrimaryLine primaryLineIdx Cy) ;;
      sy <- orTypeError sy ;;
      let dy := ((sy / existingSpacing) * newSpacing)%K in
      updateData (alterPoints primaryLineIdx (respace dx dy))) ;;
    modifyConfiguration (spacing_assign imageId newSpacing) ;;
    completeDrawing.

(** *** Public configuration interface *)

Definition get_moveOneHandleOnly (t : Tool K) : bool :=
  moveOneHandleOnly (configuration t).

Definition set_moveOneHandleOnly (value : JsValue K) : M K unit :=
  match value with
  | JsBoolean b =>
      modifyConfiguration (with_moveOneHandleOnly b) ;;
      fireCompletedEvent
  | _ => throw (Error "Attempting to set moveOneHandleOnly to a value other than a boolean.")
  end.

Definition set_spacing (value : JsValue K) : M K unit :=
  match value with
  | JsNum NaN => ret ()
  | JsNum (Fin v) =>
      if (v <? kofZ 1)%K then ret ()
      else t <- getTool ;; onSpacingChange v (imageId t)
  | _ => throw (Error "Attempting to set spacing to a value other than a number.")
  end.

Definition set_showRefinementPoints (value : JsValue K) : M K unit :=
  match value with
  | JsBoolean value =>
      t <- getTool ;;
      if bool_decide (showRefinementPoints (configuration t) !! imageId t = Some value)
      then ret ()
      else
        (if value then
           generateSubsidiaryPrimaryLines 0
             (numberOf (get_totalNoOfPrimaryLines t) - 1)%Z true None ;;
           generateRefinementPointsOnCurrentPrimaryLines defaultRefinementOptions
         else removeAllRefinementPoints) ;;
        modifyConfiguration (λ c,
          with_showRefinementPoints
            (<[imageId t := value]> (<["global" := value]> (showRefinementPoints c))) c) ;;
        fireCompletedEvent
  | _ => throw (Error "Attempting to set showRefinementPoints to a value other than a boolean.")
  end.

(** The growing loop of [set noOfPrimaryLines]; [existing] counts up to the
    first integer not below [new], which [fuel] bounds. *)
Fixpoint growPrimaryLines (fuel : nat) (existingNoOfPrimaryLines : Z)
  (newNoOfPrimaryLines : K) : M K unit :=
  match fuel with
  | 0 => ret ()
  | S fuel' =>
      if (kofZ existingNoOfPrimaryLines <? newNoOfPrimaryLines)%K then
        t <- getTool ;;
        generateMainPrimaryLine (get_totalNoOfPrimaryLines t) None ;;
        t <- getTool ;;
        (if showRefinementPoints_on t then
           fromPrimaryLineIdx <-
             read (getPreviousMainPrimaryLine (get_totalNoOfPrimaryLines t)) ;;
           generateRefinementPointsOnCurrentPrimaryLines
             {| fromPrimaryLineIdx := fromPrimaryLineIdx; fromSecondaryLineIdx := None |} ;;
           t <- getTool ;;
           generateSubsidiaryPrimaryLines
             (numberOf (get_totalNoOfPrimaryLines t) - 2)%Z
             (numberOf (get_totalNoOfPrimaryLines t) - 1)%Z true None
         else ret ()) ;;
        growPrimaryLines fuel' (existingNoOfPrimaryLines + 1)%Z newNoOfPrimaryLines
      else ret ()
  end.

(** The shrinking loop; [existing] counts down. *)
Fixpoint shrinkPrimaryLines (fuel : nat) (existingNoOfPrimaryLines : Z)
  (newNoOfPrimaryLines : K) : M K unit :=
  match fuel with
  | 0 => ret ()
  | S fuel' =>
      if (newNoOfPrimaryLines <? kofZ existingNoOfPrimaryLines)%K then
        removeLastPrimaryLine ;;
        shrinkPrimaryLines fuel' (existingNoOfPrimaryLines - 1)%Z newNoOfPrimaryLines
      else ret ()
  end.

(** [x === count]: never true of [null]. *)
Definition strictEquals (x : K) (count : option nat) : bool :=
  match count with
  | Some n => keqb x (kofZ (Z.of_nat n))
  | None => false
  end.

Definition set_noOfPrimaryLines (newNoOfPrimaryLines : JsValue K) : M K unit :=
  match newNoOfPrimaryLines with
  | JsNum NaN => ret ()
  | JsNum (Fin n) =>
      if (n <? kofZ 2)%K then ret ()
      else
        existingNoOfPrimaryLines <- read get_noOfPrimaryLines ;;
        if strictEquals n existingNoOfPrimaryLines then ret ()
        else
          activateDraw ;;
          (if (kofZ (numberOf existingNoOfPrimaryLines) <? n)%K then
             growPrimaryLines (Z.to_nat (kupper n))
                              (numberOf existingNoOfPrimaryLines) n
           else
             shrinkPrimaryLines (Z.to_nat (numberOf existingNoOfPrimaryLines))
                                (numberOf existingNoOfPrimaryLines) n) ;;
          completeDrawing
  | _ => throw (Error "Attempting to set noOfPrimaryLines to a value other than a number.")
  end.

Fixpoint growSecondaryLines (fuel : nat) (existingNoOfSecondaryLines : Z)
  (newNoOfSecondaryLines : K) : M K unit :=
  match fuel with
  | 0 => ret ()
  | S fuel' =>
      if (kofZ existingNoOfSecondaryLines <? newNoOfSecondaryLines)%K then
        generateSecondaryLine ;;
        let existingNoOfSecondaryLines := (existingNoOfSecondaryLines + 1)%Z in
        t <- getTool ;;
        (if showRefinementPoints_on t then
           generateRefinementPointsOnCurrentPrimaryLines
             {| fromPrimaryLineIdx := None;
                fromSecondaryLineIdx := Some (existingNoOfSecondaryLines - 2)%Z |} ;;
           noOfPrimaryLines <- read get_noOfPrimaryLines ;;
           totalNoOfSecondaryLines <- read get_totalNoOfSecondaryLines ;;
           generateSubsidiaryPrimaryLines 0 (numberOf noOfPrimaryLines) false
             (Some (numberOf totalNoOfSecondaryLines - 3)%Z)
         else ret ()) ;;
        growSecondaryLines fuel' existingNoOfSecondaryLines newNoOfSecondaryLines
      else ret ()
  end.

Fixpoint shrinkSecondaryLines (fuel : nat) (existingNoOfSecondaryLines : Z)
  (newNoOfSecondaryLines : K) : M K unit :=
  match fuel with
  | 0 => ret ()
  | S fuel' =>
      if (newNoOfSecondaryLines <? kofZ existingNoOfSecondaryLines)%K then
        removeLastSecondaryLine ;;
        shrinkSecondaryLines fuel' (existingNoOfSecondaryLines - 1)%Z newNoOfSecondaryLines
      else ret ()
  end.

Definition set_noOfSecondaryLines (newNoOfSecondaryLines : JsValue K) : M K unit :=
  match newNoOfSecondaryLines with
  | JsNum NaN => ret ()
  | JsNum (Fin n) =>
      if (n <? kofZ 2)%K then ret ()
      else
        existingNoOfSecondaryLines <- read get_noOfSecondaryLines ;;
        if strictEquals n existingNoOfSecondaryLines then ret ()
        else
          activateDraw ;;
          (if (kofZ (numberOf existingNoOfSecondaryLines) <? n)%K then
             growSecondaryLines (Z.to_nat (kupper n))
                                (numberOf existingNoOfSecondaryLines) n
           else
             shrinkSecondaryLines (Z.to_nat (numberOf existingNoOfSecondaryLines))
                                  (numberOf existingNoOfSecondaryLines) n) ;;
          completeDrawing
  | _ => throw (Error "Attempting to set noOfSecondaryLines to a value other than a number.")
  end.

(** *** Initial placement *)

(** [addNewMeasurement(evt)] with [position = evt.detail.currentPoints.image]. *)
Definition addNewMeasurement (position : K * K) : M K unit :=
  t <- getTool ;;
  if negb (noGrid t) then ret ()
  else
    activateDraw ;;
    forEach (seq 0 (noOfPrimaryLines_default (configuration t))) (λ lineIdx,
      generateMainPrimaryLine (Some lineIdx) (Some position)) ;;
    completeDrawing ;;
    t <- getTool ;;
    set_showRefinementPoints
      (jsBoolean (showRefinementPoints (configuration t) !! "global")).

(** [defaultToolConfiguration()], with the two default counts as given. *)
Definition defaultToolConfiguration (noOfPrimaryLines noOfSecondaryLines : nat)
  : Configuration K :=
  {| currentHandle := 0; currentTool := -1;
     primaryLineIdxInLoop := 0; secondaryLineIdx := None;
     moveOneHandleOnly := false;
     noOfPrimaryLines_default := noOfPrimaryLines;
     noOfSecondaryLines_default := noOfSecondaryLines;
     spacing_default := kofZ 5; spacing_image := ∅;
     showRefinementPoints := {["global" := false]} |}.

(** A tool just constructed, showing the image [id], nothing stored. *)
Definition newTool (noOfPrimaryLines noOfSecondaryLines : nat) (id : string) : Tool K :=
  {| configuration := defaultToolConfiguration noOfPrimaryLines noOfSecondaryLines;
     _drawing := false; _modifying := false; isMultiPartToolActive := false;
     imageId := id; toolState := ∅; oldStateManager := true;
     nextUuid := 0%N; events := [] |}.

End GridTool.

Arguments data : simpl never.
Arguments getToolState : simpl never.
Arguments noGrid : simpl never.

(** ** Vocabulary of the specification *)

(** The setters of the public configuration interface. *)
Inductive Setter :=
  | Spacing
  | NoOfPrimaryLines
  | NoOfSecondaryLines
  | Angle
  | ShowRefinementPoints
  | MoveOneHandleOnly.

Section Interface.
Context {K : Type} `{Num K} `{Trig K}.

Definition callSetter (s : Setter) (value : JsValue K) : M K unit :=
  match s with
  | Spacing => set_spacing value
  | NoOfPrimaryLines => set_noOfPrimaryLines value
  | NoOfSecondaryLines => set_noOfSecondaryLines value
  | Angle => set_angle value
  | ShowRefinementPoints => set_showRefinementPoints value
  | MoveOneHandleOnly => set_moveOneHandleOnly value
  end.

(** The [typeof] every setter insists on. *)
Definition expectedType (s : Setter) : string :=
  match s with
  | ShowRefinementPoints | MoveOneHandleOnly => "boolean"
  | _ => "number"
  end.

(** A number outside the range of a numeric setter: NaN, a spacing below 1,
    a count below 2, an angle outside 0-90. *)
Definition outOfRange (s : Setter) (value : JsValue K) : bool :=
  match s, value with
  | (Spacing | NoOfPrimaryLines | NoOfSecondaryLines | Angle), JsNum NaN => true
  | Spacing, JsNum (Fin v) => (v <? kofZ 1)%K
  | (NoOfPrimaryLines | NoOfSecondaryLines), JsNum (Fin v) => (v <? kofZ 2)%K
  | Angle, JsNum (Fin v) => (v <? kofZ 0)%K || (kofZ 90 <? v)%K
  | _, _ => false
  end.

End Interface.

(** The coordinates of every point of the current image's grid, line by
    line. *)
Definition coordinates {K} (t : Tool K) : list (list (K * K)) :=
  (λ m, (λ p, (p_x p, p_y p)) <$> default [] (handles m)) <$> data t.

(** A tool that has completed an editing session before: [_endDrawing]
    has reset [currentHandle] and [currentTool] to 0. *)
Definition usedTool {K} `{Num K} (noOfPrimaryLines noOfSecondaryLines : nat) (id : string)
  : Tool K :=
  with_configuration
    (with_current 0 0 (defaultToolConfiguration noOfPrimaryLines noOfSecondaryLines))
    (newTool noOfPrimaryLines noOfSecondaryLines id).


(** A change of the points of a line that has them. *)
Definition alterHandles {K} (f : list (Point K) → list (Point K)) (m : Measurement K)
  : Measurement K :=
  match handles m with
  | Some pts => with_handles (f pts) m
  | None => m
  end.

(** The isCommonPoint flags of a line, in order; [None] without [handles]. *)
Definition lineFlags {K} (m : Measurement K) : option (list bool) :=
  match handles m with
  | Some pts => Some (isCommonPoint <$> pts)
  | None => None
  end.

(** A method keeps a relation between the tool before and after it,
    whether it returns or throws. *)
Definition keepsAt {K A} (R : Tool K → Tool K → Prop) (m : M K A) (t : Tool K) : Prop :=
  match m t with Return _ t' | Throw _ t' => R t t' end.

Definition keeps {K A} (R : Tool K → Tool K → Prop) (m : M K A) : Prop :=
  ∀ t, keepsAt R m t.

(** What an edit of coordinates or of session bookkeeping leaves alone. *)
Definition frame {K} (t t' : Tool K) : Prop :=
  imageId t' = imageId t
  ∧ nextUuid t' = nextUuid t
  ∧ showRefinementPoints (configuration t') = showRefinementPoints (configuration t)
  ∧ noOfPrimaryLines_default (configuration t') = noOfPrimaryLines_default (configuration t)
  ∧ noOfSecondaryLines_default (configuration t') = noOfSecondaryLines_default (configuration t)
  ∧ (is_Some (getToolState t) → is_Some (getToolState t')).

Definition sameHandles {K} (t t' : Tool K) : Prop :=
  frame t t'
  ∧ Forall2 (λ m m', uuid m' = uuid m ∧ handles m' = handles m) (data t) (data t').

Definition sameFlags {K} (t t' : Tool K) : Prop :=
  frame t t'
  ∧ Forall2 (λ m m', uuid m' = uuid m ∧ lineFlags m' = lineFlags m) (data t) (data t').

(** The rotation of every point of a line, and the middle point as a
    function of the lines' points. *)
Definition rotateHandles (angle : R) (mid : R * R) (h : option (list (Point R)))
  : option (list (Point R)) :=
  match h with
  | Some pts => Some (rotatePoint angle mid <$> pts)
  | None => None
  end.

Definition middleOf (hs : list (option (list (Point R)))) : option (option (R * R)) :=
  match hs with
  | [] => Some None
  | _ =>
      upperLeft ← mjoin (hs !! 0%nat) ≫= head;
      bottomRight ← mjoin (hs !! (length hs - 1)%nat) ≫= last;
      Some (Some ((p_x upperLeft + p_x bottomRight) / 2, (p_y upperLeft + p_y bottomRight) / 2)%R)
  end.

(** The tool with the current image's lines and the uuid source replaced. *)
Definition upd {K} (d : list (Measurement K)) (n : N) (t : Tool K) : Tool K :=
  with_data d (with_nextUuid n t).

(** A line made by [addToolState] and filled by [addPoint]. *)
Definition mkLine {K} (u : Uuid) (pts : list (Point K)) : Measurement K :=
  with_handles pts (createNewMeasurement u).

(** The point [addPoint] stores. *)
Definition handleOf {K} (np : NewPoint K) : Point K :=
  FreehandHandleData (n_x np) (n_y np) (n_isCommonPoint np).

(** [a], then [n] times [b; b; b; a]: the pattern of a refined line or
    grid. *)
Fixpoint chunks {A} (a b : A) (n : nat) : list A :=
  match n with
  | 0 => []
  | S n' => b :: b :: b :: a :: chunks a b n'
  end.

Definition stride4 {A} (a b : A) (n : nat) : list A :=
  match n with
  | 0 => []
  | S n' => a :: chunks a b n'
  end.

(** The point [_generateSubsidiaryPrimaryLine] pushes for a common point
    [p] of the main line and its partner [q] on the next main line. *)
Definition interpolated {K} `{Num K} (sub line : nat) (p q : Point K) : NewPoint K :=
  let k := kofZ (Z.of_nat sub + 1) in
  {| n_x := (p_x p + ((p_x q - p_x p) / kofZ 4) * k)%K;
     n_y := (p_y p + ((p_y q - p_y p) / kofZ 4) * k)%K;
     primaryLineIdx := line;
     n_isCommonPoint := false |}.

Definition subsidiaryCell {K} `{Num K} (sub line : nat) (pq : Point K * Point K)
  : option (NewPoint K) :=
  if isCommonPoint pq.1 then Some (interpolated sub line pq.1 pq.2) else None.

(** The points of one subsidiary line, from the points of the two main
    lines around it. *)
Definition subsidiaryRow {K} `{Num K} (sub line start : nat) (p1 p2 : list (Point K))
  : list (NewPoint K) :=
  omap (subsidiaryCell sub line) (drop start (zip p1 p2)).

(** The three points put between the common points [p] and [q] of a line. *)
Definition refinementTriple {K} `{Num K} (p q : Point K) : list (Point K) :=
  let xDiff := ((p_x q - p_x p) / kofZ 4)%K in
  let yDiff := ((p_y q - p_y p) / kofZ 4)%K in
  [ FreehandHandleData (p_x p + xDiff)%K (p_y p + yDiff)%K false;
    FreehandHandleData (p_x p + xDiff * kofZ 2)%K (p_y p + yDiff * kofZ 2)%K false;
    FreehandHandleData (p_x p + xDiff * kofZ 3)%K (p_y p + yDiff * kofZ 3)%K false ].

(** A run of common points with the refinement points between them. *)
Fixpoint refineLine {K} `{Num K} (cs : list (Point K)) : list (Point K) :=
  match cs with
  | [] => []
  | c :: rest =>
      match rest with
      | [] => [c]
      | c' :: _ => c :: refinementTriple c c' ++ refineLine rest
      end
  end.

(** The entries of [pointsToAdd] for the run of common points that starts
    at the [i]-th common point of the line. *)
Fixpoint refinementEntries {K} `{Num K} (i : Z) (cs : list (Point K)) : list (Z * Point K) :=
  match cs with
  | [] => []
  | c :: rest =>
      match rest with
      | [] => []
      | c' :: _ =>
          zip [(i * 4 + 1)%Z; (i * 4 + 2)%Z; (i * 4 + 3)%Z] (refinementTriple c c')
          ++ refinementEntries (i + 1) rest
      end
  end.

(** The body of the loop over the primary lines in
    [generateRefinementPointsOnCurrentPrimaryLines]. *)
Definition refineBody {K} `{Num K} (fromSec : option Z) (primaryLineIdx : nat) : M K unit :=
  pointsToAdd <- read (refinementPoints primaryLineIdx fromSec) ;;
  forEach (object_entries pointsToAdd) (λ entry,
    updateData (alterPoints primaryLineIdx (splice_insert entry.1 entry.2))).

(** The points of a line, none without [handles]. *)
Definition pointsOf {K} (m : Measurement K) : list (Point K) := default [] (handles m).

(** The stored points of a subsidiary line. *)
Definition subsidiaryHandles {K} `{Num K} (sub start : nat) (p1 p2 : list (Point K))
  : list (Point K) :=
  handleOf <$> subsidiaryRow sub 0 start p1 p2.

(** The lines [m :: ms] with the three subsidiary lines put between every
    two of them, the new lines taking their uuids from [n] on. *)
Fixpoint withSubsidiary {K} `{Num K} (n : N) (m : Measurement K) (ms : list (Measurement K))
  : list (Measurement K) :=
  match ms with
  | [] => [m]
  | m' :: ms' =>
      let row sub := subsidiaryHandles sub 0 (pointsOf m) (pointsOf m') in
      m :: mkLine n (row 0) :: mkLine (N.succ n) (row 1) :: mkLine (N.succ (N.succ n)) (row 2)
        :: withSubsidiary (N.succ (N.succ (N.succ n))) m' ms'
  end.

(** The points of a main line with the part from position [k] on refined. *)
Definition refineFrom {K} `{Num K} (k : nat) (pts : list (Point K)) : list (Point K) :=
  take k pts ++ refineLine (drop k pts).

(** What the refinement of the main lines does to the line at index [i]. *)
Definition refineMain {K} `{Num K} (k i : nat) (m : Measurement K) : Measurement K :=
  if (i mod 4 =? 0)%nat then alterHandles (refineFrom k) m else m.

(** A main line that [refineMain] can treat: its points from position [k]
    on are common points, before that it is refined, and it has at most
    one common point more than [n]. *)
Definition refinable {K} (k n : nat) (m : Measurement K) : Prop :=
  ∃ pts, handles m = Some pts
    ∧ Forall (λ p, isCommonPoint p = true) (drop k pts)
    ∧ k ≤ length pts
    ∧ k = 4 * length (List.filter isCommonPoint (take k pts))
    ∧ length (List.filter isCommonPoint pts) ≤ S n.

(** The tool after the showRefinementPoints setter has stored [value] and
    fired its event. *)
Definition showRefinementPointsSet {K} (value : bool) (t : Tool K) : Tool K :=
  add_event MEASUREMENT_COMPLETED
    (with_configuration
       (with_showRefinementPoints
          (<[imageId t := value]>
             (<["global" := value]> (showRefinementPoints (configuration t))))
          (configuration t)) t).

(** The lines left by [removeAllRefinementPoints]: the first one, and the
    later ones that still have points. *)
Definition hasPoints {K} (x : Measurement K) : bool :=
  if pointsOf x is [] then false else true.

Definition dropEmpty {K} (d : list (Measurement K)) : list (Measurement K) :=
  match d with
  | [] => []
  | m :: l => m :: List.filter hasPoints l
  end.

(** A list of lines in which every fourth one, from the first to the last,
    satisfies [PM] and the three between two of those satisfy [PS]. *)
Inductive Grid4 {K} (PM PS : Measurement K → Prop) : list (Measurement K) → Prop :=
  | Grid4_one m : PM m → Grid4 PM PS [m]
  | Grid4_cons m s1 s2 s3 d :
      PM m → PS s1 → PS s2 → PS s3 → Grid4 PM PS d →
      Grid4 PM PS (m :: s1 :: s2 :: s3 :: d).

(** The lines at the indices that are multiples of 4. *)
Fixpoint everyFourth {A} (l : list A) : list A :=
  match l with
  | a :: l' =>
      a :: match l' with
           | _ :: _ :: _ :: l'' => everyFourth l''
           | _ => []
           end
  | [] => []
  end.

(** A line of [n] points, all of them common points. *)
Definition commonLine {K} (n : nat) (m : Measurement K) : Prop :=
  lineFlags m = Some (replicate n true).

(** A subsidiary line of [n] points. *)
Definition subsidiaryLine {K} (n : nat) (m : Measurement K) : Prop :=
  lineFlags m = Some (replicate n false).

(** A refined main line with [n] common points. *)
Definition refinedLine {K} (n : nat) (m : Measurement K) : Prop :=
  lineFlags m = Some (stride4 true false n).

(** The lines of a refined grid made from the lines [m :: ms]. *)
Definition refinedGrid {K} `{Num K} (n : N) (m : Measurement K) (ms : list (Measurement K))
  : list (Measurement K) :=
  imap (refineMain 0) (withSubsidiary n m ms).

(** The body of the second loop of [removeAllRefinementPoints]. *)
Definition removeIfEmpty {K} (totalNoOfPrimaryLines : nat) : M K unit :=
  t <- getTool ;;
  pts <- orTypeError (getToolState t ≫= λ d, linePoints d totalNoOfPrimaryLines) ;;
  match pts with
  | [] => updateData (λ d, Some (delete totalNoOfPrimaryLines d))
  | _ => ret ()
  end.

(** The current image has a grid without refinement: [P] lines of [S]
    points each, all of them common points. *)
Definition unrefinedGrid {K} (P S : nat) (t : Tool K) : Prop :=
  lineFlags <$> data t = replicate P (Some (replicate S true)).

(** The current image has a refined grid with [P] main lines of [S] common
    points each: every fourth line is a main line, with a common point at
    every fourth position, and the lines between have [S] points, none of
    them common. *)
Definition refinedGrid4 {K} (P S : nat) (t : Tool K) : Prop :=
  lineFlags <$> data t
  = stride4 (Some (stride4 true false S)) (Some (replicate S false)) P.

(** Refinement is on for the current image, as the showRefinementPoints
    setter sees it. *)
Definition refinementEnabled {K} (t : Tool K) : Prop :=
  showRefinementPoints (configuration t) !! imageId t = Some true.

(** A main line, as the code tells it: its first point is a common point. *)
Definition isMainLine {K} (m : Measurement K) : Prop :=
  firstPointIsCommon m = Some true.

(** The number of common points of a line. *)
Definition commonPoints {K} (m : Measurement K) : nat :=
  length (List.filter isCommonPoint (pointsOf m)).

(** The shape of the lines of a grid with [P] main lines of [S] common
    points each, refined or not: the flags of the points, line by line. *)
Definition shape {K} (refined : bool) (P S : nat) (d : list (Measurement K)) : Prop :=
  lineFlags <$> d
  = if refined
    then stride4 (Some (stride4 true false S)) (Some (replicate S false)) P
    else replicate P (Some (replicate S true)).

(** What the generation of a main line needs of the lines before it. *)
Definition regular {K} (n : nat) (d : list (Measurement K)) : Prop :=
  d ≠ []
  ∧ Forall (λ m, is_Some (firstPointIsCommon m)) d
  ∧ (∀ m, m ∈ d → isMainLine m → is_Some (handles m) ∧ commonPoints m = n)
  ∧ (∃ m, last d = Some m ∧ isMainLine m)
  ∧ (∃ m, head d = Some m ∧ isMainLine m).

(** The rounds of the counting loops of the setters: a growing loop goes
    on while [existing < new], a shrinking one while [new < existing]. *)
Fixpoint roundsUp {K} `{Num K} (fuel : nat) (existing : Z) (new : K) : nat :=
  match fuel with
  | 0 => 0
  | S fuel' =>
      if (kofZ existing <? new)%K then S (roundsUp fuel' (existing + 1)%Z new) else 0
  end.

Fixpoint roundsDown {K} `{Num K} (fuel : nat) (existing : Z) (new : K) : nat :=
  match fuel with
  | 0 => 0
  | S fuel' =>
      if (new <? kofZ existing)%K then S (roundsDown fuel' (existing - 1)%Z new) else 0
  end.

(** A change of the lines at the indices that are multiples of [step]. *)
Definition onEvery {K} (step : nat) (F : Measurement K → Measurement K) (i : nat)
  (m : Measurement K) : Measurement K :=
  if (i mod step =? 0)%nat then F m else m.

(** The point [generateSecondaryLine] adds after the points [pts] of a
    line: the last point plus the step from the common point before it,
    [(0, spacing)] when there is none. *)
Definition secondaryPoint {K} `{Num K} (show : bool) (spacing : K) (pts : list (Point K))
  : option (Point K) :=
  let noOfPoints := Z.of_nat (length pts) in
  let prevPrevPoint := lookupZ pts (if show then noOfPoints - 5 else noOfPoints - 2)%Z in
  prevPoint ← lookupZ pts (noOfPoints - 1)%Z;
  let diff := match prevPrevPoint with
              | Some pp => ((p_x prevPoint - p_x pp)%K, (p_y prevPoint - p_y pp)%K)
              | None => (kofZ 0, spacing)
              end in
  Some (FreehandHandleData (p_x prevPoint + diff.1)%K (p_y prevPoint + diff.2)%K true).

(** What [generateSecondaryLine] does to the line at index [i]. *)
Definition extendLine {K} `{Num K} (show : bool) (spacing : K) (i : nat) (m : Measurement K)
  : Measurement K :=
  if show && negb (i mod 4 =? 0)%nat then m
  else match handles m with
       | Some pts => match secondaryPoint show spacing pts with
                     | Some p => with_handles (pts ++ [p]) m
                     | None => m
                     end
       | None => m
       end.

(** The body of the loop of [generateSecondaryLine]. *)
Definition secondaryLineBody {K} `{Num K} (primaryLineIdx : nat) : M K unit :=
  t <- getTool ;;
  if showRefinementPoints_on t && negb (primaryLineIdx mod 4 =? 0)%nat then ret ()
  else
    pts <- orTypeError (getToolState t ≫= λ d, linePoints d primaryLineIdx) ;;
    let noOfPoints := Z.of_nat (length pts) in
    let prevPrevPoint :=
      lookupZ pts (if showRefinementPoints_on t then noOfPoints - 5 else noOfPoints - 2)%Z in
    prevPoint <- orTypeError (lookupZ pts (noOfPoints - 1)%Z) ;;
    let diff := match prevPrevPoint with
                | Some pp => ((p_x prevPoint - p_x pp)%K, (p_y prevPoint - p_y pp)%K)
                | None => (kofZ 0, spacingNumber t)
                end in
    addPoint {| n_x := (p_x prevPoint + diff.1)%K;
                n_y := (p_y prevPoint + diff.2)%K;
                primaryLineIdx := primaryLineIdx;
                n_isCommonPoint := true |}.

(** The lines of a refined grid with every subsidiary line extended by the
    points for the common points of its main lines from position [start]
    on. *)
Fixpoint extendSubsidiary {K} `{Num K} (start : nat) (d : list (Measurement K))
  : list (Measurement K) :=
  match d with
  | m :: s1 :: s2 :: s3 :: d' =>
      match d' with
      | m' :: _ =>
          let ext sub :=
            alterHandles (λ q, q ++ subsidiaryHandles sub start (pointsOf m) (pointsOf m')) in
          m :: ext 0 s1 :: ext 1 s2 :: ext 2 s3 :: extendSubsidiary start d'
      | [] => d
      end
  | _ => d
  end.

(** The uuids of the main lines, in order. *)
Definition mainUuidsOf {K} (d : list (Measurement K)) : list Uuid :=
  uuid <$> List.filter (λ m, bool_decide (firstPointIsCommon m = Some true)) d.

Definition mainUuids {K} (t : Tool K) : list Uuid := mainUuidsOf (data t).

(** The current image has a grid of the given shape, and the tool's flags
    say so. *)
Definition inShape {K} (refined : bool) (P S : nat) (t : Tool K) : Prop :=
  shape refined P S (data t)
  ∧ showRefinementPoints (configuration t) !! "global" = Some refined
  ∧ showRefinementPoints (configuration t) !! imageId t = Some refined
  ∧ 1 ≤ noOfSecondaryLines_default (configuration t).

(** The state of the tool between two calls: no grid, or a grid of at
    least two main lines with at least two common points each. *)
Definition wellFormed {K} (t : Tool K) : Prop :=
  (data t = [] ∧ 1 ≤ noOfSecondaryLines_default (configuration t))
  ∨ ∃ refined P S, 2 ≤ P ∧ 2 ≤ S ∧ inShape refined P S t.

(** The main lines before and after a call are the same lines as far as
    both go: the shorter list of uuids begins the longer one. *)
Definition sameIdentity {K} (t t' : Tool K) : Prop :=
  mainUuids t `prefix_of` mainUuids t' ∨ mainUuids t' `prefix_of` mainUuids t.

(** The mutators of the grid. *)
Inductive Call (K : Type) :=
  | SetNoOfPrimaryLines (value : JsValue K)
  | SetNoOfSecondaryLines (value : JsValue K)
  | SetShowRefinementPoints (value : JsValue K)
  | SetSpacing (value : JsValue K)
  | RotateGrid (angle : K)
  | SetOffset (newLocation : JsNumber K * JsNumber K) (usingMouseInput : bool)
  | RemoveGrid.
Arguments SetNoOfPrimaryLines {K} value.
Arguments SetNoOfSecondaryLines {K} value.
Arguments SetShowRefinementPoints {K} value.
Arguments SetSpacing {K} value.
Arguments RotateGrid {K} angle.
Arguments SetOffset {K} newLocation usingMouseInput.
Arguments RemoveGrid {K}.

Definition run {K} `{Num K} `{Trig K} (c : Call K) : M K unit :=
  match c with
  | SetNoOfPrimaryLines value => set_noOfPrimaryLines value
  | SetNoOfSecondaryLines value => set_noOfSecondaryLines value
  | SetShowRefinementPoints value => set_showRefinementPoints value
  | SetSpacing value => set_spacing value
  | RotateGrid angle => rotateGrid angle
  | SetOffset newLocation usingMouseInput => setOffset newLocation usingMouseInput
  | RemoveGrid => removeGrid
  end.

(** A tool on which a grid can be placed: the current image has none, the
    default counts are at least 2, the global flag is there, and refinement
    has not been switched on for the current image while it had no grid
    (the global flag and the flag of the current image are not both
    [true]). *)
Definition initial {K} (t : Tool K) : Prop :=
  noGrid t = true
  ∧ 2 ≤ noOfPrimaryLines_default (configuration t)
  ∧ 2 ≤ noOfSecondaryLines_default (configuration t)
  ∧ is_Some (showRefinementPoints (configuration t) !! "global")
  ∧ ¬ (showRefinementPoints (configuration t) !! "global" = Some true
       ∧ showRefinementPoints (configuration t) !! imageId t = Some true).

(** The tools that a placement and calls that return lead to. *)
Inductive Reachable {K} `{Num K} `{Trig K} : Tool K → Prop :=
  | reach_placement t0 position t :
      initial t0 → addNewMeasurement position t0 = Return () t → Reachable t
  | reach_call c t t' :
      Reachable t → run c t = Return () t' → Reachable t'.

(** ** The invariants of the specification *)

(** I1: at least two lines, with at least two points each, unless there
    is no grid. *)
Definition I1 {K} (t : Tool K) : Prop :=
  data t = []
  ∨ (2 ≤ length (data t) ∧ ∀ m, m ∈ data t → 2 ≤ length (pointsOf m)).

(** I2: with refinement, the line at index [i] is a main line iff [i] is
    a multiple of 4, and the other lines have no common point; without
    refinement every line is a main line. *)
Definition I2 {K} (t : Tool K) : Prop :=
  ∀ i m, data t !! i = Some m →
    if showRefinementPoints_on t
    then (isMainLine m ↔ i mod 4 = 0)
         ∧ (i mod 4 ≠ 0 → ∀ p, p ∈ pointsOf m → isCommonPoint p = false)
    else isMainLine m.

(** I3: with refinement, the point at position [j] of a main line is a
    common point iff [j] is a multiple of 4, and no point of a subsidiary
    line is one. *)
Definition I3 {K} (t : Tool K) : Prop :=
  showRefinementPoints_on t = true →
  ∀ i m j p, data t !! i = Some m → pointsOf m !! j = Some p →
    if (i mod 4 =? 0)%nat
    then isCommonPoint p = true ↔ j mod 4 = 0
    else isCommonPoint p = false.

(** I4: every main line has as many common points as the
    noOfSecondaryLines getter says. *)
Definition I4 {K} (t : Tool K) : Prop :=
  data t = []
  ∨ ∃ S, get_noOfSecondaryLines t = Some (Some S)
         ∧ ∀ m, m ∈ data t → isMainLine m → commonPoints m = S.

(** I5: there are as many main lines as the noOfPrimaryLines getter
    says. *)
Definition I5 {K} (t : Tool K) : Prop :=
  data t = []
  ∨ ∃ P, get_noOfPrimaryLines t = Some (Some P)
         ∧ length (data t) = if showRefinementPoints_on t then 4 * (P - 1) + 1 else P.

(** I6: refinement points lie between two common points of a main line,
    or on a line between two main lines: with refinement the last line is
    a main line and the last point of a main line a common point, without
    refinement there is no refinement point. *)
Definition I6 {K} (t : Tool K) : Prop :=
  if showRefinementPoints_on t
  then (data t ≠ [] → length (data t) mod 4 = 1)
       ∧ ∀ i m, data t !! i = Some m → i mod 4 = 0 → length (pointsOf m) mod 4 = 1
  else ∀ m p, m ∈ data t → p ∈ pointsOf m → isCommonPoint p = true.

Definition Invariants {K} (t : Tool K) : Prop :=
  I1 t ∧ I2 t ∧ I3 t ∧ I4 t ∧ I5 t ∧ I6 t.

(** ** Examples *)

(** A tool over the reals just constructed, with default counts 3 and 3,
    and the grid placed on it at (0, 0). *)
Definition newToolR : Tool R := newTool 3 3 "image".

Definition placedR : Tool R :=
  match addNewMeasurement (0%R, 0%R) newToolR with
  | Return _ t | Throw _ t => t
  end.

(** The grid of 3 lines with 3 points each, placed at (0, 0) on a new tool
    over the rationals. *)
Definition placedQ : Tool Q :=
  match addNewMeasurement (0%Q, 0%Q) (newTool 3 3 "image") with
  | Return _ t | Throw _ t => t
  end.

(** A grid of 2 lines with 2 points each over the reals. *)
Definition squareR : Tool R :=
  with_data [mkLine 0%N [FreehandHandleData 0%R 0%R true; FreehandHandleData 0%R 5%R true];
             mkLine 1%N [FreehandHandleData 5%R 0%R true; FreehandHandleData 5%R 5%R true]]
    newToolR.

(** The point [setOffset] measures the offset from: the first point of the
    first line, or with mouse input the handle that is being dragged. *)
Definition offsetReference {K} (usingMouseInput : bool) (t : Tool K) : option (Point K) :=
  m ← lookupZ (data t) (if usingMouseInput then currentTool (configuration t) else 0%Z);
  pts ← handles m;
  lookupZ pts (if usingMouseInput then currentHandle (configuration t) else 0%Z).

(** Coordinates moved by [(dx, dy)]. *)
Definition translated {K} `{Num K} (dx dy : K) (cs : list (list (K * K)))
  : list (list (K * K)) :=
  (λ l : list (K * K), (λ c : K * K, (c.1 + dx, c.2 + dy)%K) <$> l) <$> cs.

(** [===] on numbers that are integers. *)
Class EqLaws (K : Type) `{Num K} : Prop := {
  keqb_ofZ : ∀ a b : Z, keqb (kofZ a) (kofZ b) = bool_decide (a = b);
}.

(** A line as the rest of the application knows it: its uuid and its
    points. *)
Definition lineIdentity {K} (m : Measurement K) : Uuid * option (list (Point K)) :=
  (uuid m, handles m).

(** The grid without its refinement: the main lines, each with its uuid
    and its common points. *)
Definition commonGridOf {K} (d : list (Measurement K)) : list (Uuid * list (Point K)) :=
  (λ m, (uuid m, List.filter isCommonPoint (pointsOf m)))
    <$> List.filter (λ m, bool_decide (firstPointIsCommon m = Some true)) d.

Definition commonGrid {K} (t : Tool K) : list (Uuid * list (Point K)) :=
  commonGridOf (data t).

(** The indices of the main lines from [from] on, in ascending order. *)
Definition mainIndices {K} (d : list (Measurement K)) (from : nat) : list nat :=
  List.filter (λ k, bool_decide (d !! k ≫= firstPointIsCommon = Some true))
              (seq from (length d - from)).

(** An image for which lines are stored. *)
Definition hasGridOn {K} (t : Tool K) (id : string) : Prop :=
  oldStateManager t = true ∧ is_Some (toolState t !! id ≫= head).

(** The uuids of the lines stored for an image. *)
Definition uuidsOn {K} (t : Tool K) (id : string) : list Uuid :=
  uuid <$> default [] (toolState t !! id).

(** The spacing of the current image: its own, or the default. *)
Definition spacingOf {K} (t : Tool K) : K :=
  default (spacing_default (configuration t)) (spacing_at (imageId t) (configuration t)).

(** The points of a new main line after the line with the points [prev]:
    each one as far from the point of [prev] as that is from the point of
    the line before, [prevPrev]; one spacing to the right when there is no
    line before. *)
Definition extrapolated {K} `{Num K} (spacing : K) (prev : list (Point K))
  (prevPrev : option (list (Point K))) : list (Point K) :=
  match prevPrev with
  | Some qs =>
      zip_with (λ p q, FreehandHandleData (p_x p + (p_x p - p_x q))%K
                                          (p_y p + (p_y p - p_y q))%K true) prev qs
  | None =>
      (λ p, FreehandHandleData (p_x p + spacing)%K (p_y p + kofZ 0)%K true) <$> prev
  end.

(** From the index [from] on, every line of [d] continues the two lines
    before it ([extrapolated]). *)
Definition continues {K} `{Num K} (spacing : K) (d : list (Measurement K)) (from : nat)
  : Prop :=
  ∀ i m, from ≤ i → d !! i = Some m →
    ∃ prev, d !! (i - 1) = Some prev
      ∧ handles m
        = Some (extrapolated spacing (pointsOf prev) (pointsOf <$> last (take (i - 1) d))).


(** The coordinates of a point. *)
Definition xyOf {K} (p : Point K) : K * K := (p_x p, p_y p).


(** The coordinates of the point [j] of the line [k]. *)
Definition xyAt {K} (d : list (Measurement K)) (k j : nat) : option (K * K) :=
  m ← d !! k; pts ← handles m; p ← pts !! j; Some (xyOf p).

(** A grid without refinement of [P] lines with [S] points each, the point
    [j] of the line [k] at [f k j]. *)
Definition laidOut {K} (P S : nat) (d : list (Measurement K)) (f : nat → nat → K * K)
  : Prop :=
  shape false P S d ∧ ∀ k j, (k < P)%nat → (j < S)%nat → xyAt d k j = Some (f k j).

(** No drawing session is open, and the current line and handle are the
    first ones. *)
Definition idle {K} (t : Tool K) : Prop :=
  _drawing t = false ∧ isMultiPartToolActive t = false
  ∧ currentTool (configuration t) = 0%Z ∧ currentHandle (configuration t) = 0%Z.

(** What the steps inside a drawing session leave alone. *)
Definition sameSession {K} (t t' : Tool K) : Prop :=
  _drawing t' = _drawing t ∧ isMultiPartToolActive t' = isMultiPartToolActive t
  ∧ currentTool (configuration t') = currentTool (configuration t)
  ∧ currentHandle (configuration t') = currentHandle (configuration t).

(** A computation that, started inside a drawing session, leaves the tool
    idle when it returns; and one that leaves an idle tool idle. *)
Definition endsIdle {K A} (c : M K A) : Prop :=
  ∀ t a t', _drawing t = true → c t = Return a t' → idle t'.

Definition returnsIdle {K A} (c : M K A) : Prop :=
  ∀ t a t', idle t → c t = Return a t' → idle t'.

(** From the index [from] on, every point of [pts] continues the two
    points before it: it is as far from the point before as that one is
    from the point before it. *)
Definition continuesLine {K} `{Num K} (pts : list (Point K)) (from : nat) : Prop :=
  ∀ j p, from ≤ j → pts !! j = Some p →
    ∃ a b, pts !! (j - 1) = Some a ∧ pts !! (j - 2) = Some b
      ∧ p = FreehandHandleData (p_x a + (p_x a - p_x b))%K (p_y a + (p_y a - p_y b))%K true.

(** The line [m'] is the line [m] with points added that continue it. *)
Definition grown {K} `{Num K} (m m' : Measurement K) : Prop :=
  ∃ pts extra, handles m = Some pts ∧ handles m' = Some (pts ++ extra)
    ∧ continuesLine (pts ++ extra) (length pts).

(** ** Proofs *)

(** The flag [global] after the two assignments of the
    showRefinementPoints setter, whatever the image id is. *)
Lemma lookup_insert_global {A} (o : gmap string A) (id : string) (v : A) :
  <[id := v]> (<["global" := v]> o) !! "global" = Some v.
Proof.
  destruct (decide (id = "global")) as [->|Hne]; [apply lookup_insert_eq|].
  rewrite lookup_insert_ne by done. apply lookup_insert_eq.
Qed.

Section Monad.
Context {K : Type}.

Lemma bind_Return {A B} (m : M K A) (f : A → M K B) t a t' :
  m t = Return a t' → bind m f t = f a t'.
Proof. intros E. unfold bind. by rewrite E. Qed.

Lemma bind_Throw {A B} (m : M K A) (f : A → M K B) t e t' :
  m t = Throw e t' → bind m f t = Throw e t'.
Proof. intros E. unfold bind. by rewrite E. Qed.

Lemma bind_inv_Return {A B} (m : M K A) (f : A → M K B) t b t' :
  bind m f t = Return b t' → ∃ a t1, m t = Return a t1 ∧ f a t1 = Return b t'.
Proof. unfold bind. destruct (m t) as [a t1|]; [eauto | done]. Qed.

End Monad.

Section Queries.
Context {K : Type} `{Num K}.

(** C9.  [hasGridForImageIds] of no image ids is [true], whatever is stored:
    no image is looked at, and 0 grids were found for 0 ids. *)
Theorem hasGridForImageIds_nil (t : Tool K) :
  hasGridForImageIds [] t = Return true t.
Proof. reflexivity. Qed.

(** What [removeGrid] returns. *)
Lemma removeGrid_spec (t : Tool K) :
  ∃ t', removeGrid t = Return () t'
    ∧ data t' = []
    ∧ spacing_default (configuration t') = kofZ 5
    ∧ spacing_image (configuration t') = ∅
    ∧ showRefinementPoints (configuration t')
      = delete (imageId t) (showRefinementPoints (configuration t))
    ∧ delete (imageId t) (toolState t') = delete (imageId t) (toolState t)
    ∧ noOfSecondaryLines_default (configuration t')
      = noOfSecondaryLines_default (configuration t).
Proof.
  unfold removeGrid, clearToolState, bind, getTool, modifyConfiguration, modify,
    fireRemovedEvent.
  destruct (getToolState t) as [d|] eqn:E; eexists; (split; [reflexivity|]).
  - unfold data, getToolState. cbn. rewrite lookup_insert_eq. cbn.
    repeat split; try done. by rewrite delete_insert_eq.
  - unfold data, getToolState in *. cbn. rewrite E. done.
Qed.

(** [removeGrid] empties the current image's list, leaves the spacing
    object with the single entry [default: 5], deletes the key of the
    current image from [showRefinementPoints] and no other key, and changes
    the stored state of no other image.  The key [global] is kept unless
    it is the current image's id. *)
Lemma removeGrid_frame (t : Tool K) :
  ∃ t', removeGrid t = Return () t'
    ∧ data t' = []
    ∧ spacing_default (configuration t') = kofZ 5
    ∧ spacing_image (configuration t') = ∅
    ∧ showRefinementPoints (configuration t') !! imageId t = None
    ∧ (∀ key, key ≠ imageId t →
         showRefinementPoints (configuration t') !! key
         = showRefinementPoints (configuration t) !! key)
    ∧ delete (imageId t) (toolState t') = delete (imageId t) (toolState t).
Proof.
  destruct (removeGrid_spec t) as (t' & ? & ? & ? & ? & Hd & ? & _).
  exists t'. repeat split; try done.
  - rewrite Hd. apply lookup_delete_eq.
  - intros key Hkey. rewrite Hd. by apply lookup_delete_ne.
Qed.

(** The other images, one by one. *)
Lemma removeGrid_other_images (t t' : Tool K) (id : string) :
  removeGrid t = Return () t' → id ≠ imageId t → toolState t' !! id = toolState t !! id.
Proof.
  intros E Hid. destruct (removeGrid_spec t) as (t1 & E1 & _ & _ & _ & _ & Hd & _).
  rewrite E in E1. injection E1 as <-.
  rewrite <- (lookup_delete_ne (toolState t') (imageId t) id) by done.
  rewrite Hd. by rewrite lookup_delete_ne.
Qed.

End Queries.

Section Setters.
Context {K : Type} `{Num K} `{Trig K}.

(** C8.  On an image without a grid (no stored state, or an empty list) the
    angle, both line counts and the middle point are [null], and
    [getStateForImageId] gives [null] or the empty list; none of them
    throws. *)
Theorem queries_without_grid (t : Tool K) (compact : bool) :
  noGrid t = true →
  read get_angle t = Return None t
  ∧ read get_noOfPrimaryLines t = Return None t
  ∧ read get_noOfSecondaryLines t = Return None t
  ∧ read getGridMiddlePointCoords t = Return None t
  ∧ ∃ r, getStateForImageId (imageId t) compact t = Return r t ∧ (r = None ∨ r = Some []).
Proof.
  intros Hno.
  unfold read, get_angle, get_noOfPrimaryLines, get_noOfSecondaryLines,
    getGridMiddlePointCoords.
  rewrite Hno. repeat split; try done.
  unfold getStateForImageId, bind, getTool.
  destruct (oldStateManager t); cbn; [|eauto].
  unfold noGrid, data, getToolState in Hno.
  destruct (toolState t !! imageId t) as [d|]; cbn in *; [|eauto].
  destruct d; [|done]. destruct compact; cbn; eauto.
Qed.

(** C7.  Every setter throws on a value of the wrong type and ignores a
    number out of its range; either way the tool, its configuration and the
    stored grids are what they were. *)
Theorem setters_reject (s : Setter) (value : JsValue K) (t : Tool K) :
  (typeof value ≠ expectedType s → ∃ message, callSetter s value t = Throw (Error message) t)
  ∧ (outOfRange s value = true → callSetter s value t = Return () t).
Proof.
  split.
  - intros Hty. destruct s, value; cbn in Hty; try done; cbn; eauto.
  - intros Hout.
    destruct s, value as [| |b|[|v]|str|]; cbn in Hout; try done; cbn;
      unfold ret; try by rewrite Hout.
Qed.

End Setters.

Section Placement.

(** C2, on the code.  On a tool just constructed, [config.currentTool] is
    -1 and the first line is put one spacing to the left of the anchor:
    the grid of the scenario starts at x = -5, not at x = 0. *)
Theorem placement_on_new_tool :
  ∃ t', addNewMeasurement (0%Q, 0%Q) (newTool 3 3 "image") = Return () t'
    ∧ coordinates t'
      = [ [((-5)%Q, 0%Q); ((-5)%Q, 5%Q); ((-5)%Q, 10%Q)];
          [(0%Q, 0%Q); (0%Q, 5%Q); (0%Q, 10%Q)];
          [(5%Q, 0%Q); (5%Q, 5%Q); (5%Q, 10%Q)] ].
Proof. eexists. split; vm_compute; reflexivity. Qed.

(** Once [currentTool] is 0 the same placement gives the coordinates of
    the scenario. *)
Lemma placement_on_used_tool :
  ∃ t', addNewMeasurement (0%Q, 0%Q) (usedTool 3 3 "image") = Return () t'
    ∧ coordinates t'
      = [ [(0%Q, 0%Q); (0%Q, 5%Q); (0%Q, 10%Q)];
          [(5%Q, 0%Q); (5%Q, 5%Q); (5%Q, 10%Q)];
          [(10%Q, 0%Q); (10%Q, 5%Q); (10%Q, 10%Q)] ].
Proof. eexists. split; vm_compute; reflexivity. Qed.

End Placement.

Section Cloning.
Context {K : Type} `{Num K}.




End Cloning.

Section Store.
Context {K : Type} `{Num K}.
Implicit Types (t : Tool K) (d : list (Measurement K)).

Lemma getToolState_with_data d t : getToolState (with_data d t) = Some d.
Proof. unfold getToolState, with_data. cbn. apply lookup_insert_eq. Qed.

Lemma data_with_data d t : data (with_data d t) = d.
Proof. unfold data. by rewrite getToolState_with_data. Qed.

Lemma with_data_with_data d1 d2 t : with_data d2 (with_data d1 t) = with_data d2 t.
Proof. unfold with_data, with_toolState; cbn. f_equal. apply insert_insert_eq. Qed.

Lemma data_Some t d : getToolState t = Some d → data t = d.
Proof. unfold data. by intros ->. Qed.

Lemma noGrid_Some t d : getToolState t = Some d → noGrid t = bool_decide (d = []).
Proof. intros E. unfold noGrid. rewrite (data_Some _ _ E). by destruct d. Qed.

Lemma updateData_Some (f : list (Measurement K) → option (list (Measurement K))) t d d' :
  getToolState t = Some d → f d = Some d' → updateData f t = Return () (with_data d' t).
Proof. intros E E'. unfold updateData. by rewrite E, E'. Qed.

Lemma alterPoints_app_r (f : list (Point K) → list (Point K)) d1 m d2 pts :
  handles m = Some pts →
  alterPoints (length d1) f (d1 ++ m :: d2) = Some (d1 ++ with_handles (f pts) m :: d2).
Proof.
  intros Hm. unfold alterPoints.
  rewrite list_lookup_middle by done. cbn. rewrite Hm. cbn.
  f_equal. rewrite insert_app_r_alt by lia. by rewrite Nat.sub_diag.
Qed.

Lemma forEach_alterPoints_all (f : list (Point K) → list (Point K)) d2 :
  ∀ d1 t,
  Forall (λ m, is_Some (handles m)) d2 →
  getToolState t = Some (d1 ++ d2) →
  forEach (seq (length d1) (length d2)) (λ i, updateData (alterPoints i f)) t
  = Return () (with_data (d1 ++ (alterHandles f <$> d2)) t).
Proof.
  induction d2 as [|m d2 IH]; intros d1 t Hfull E.
  - cbn. unfold ret. f_equal. rewrite app_nil_r in *.
    unfold with_data, with_toolState. destruct t; cbn in *. f_equal.
    unfold getToolState in E; cbn in E. by rewrite insert_id.
  - inversion Hfull as [|?? [pts Hm] Hfull']; subst. cbn [length seq forEach].
    erewrite bind_Return; last first.
    { eapply updateData_Some; [done|]. by apply alterPoints_app_r. }
    specialize (IH (d1 ++ [with_handles (f pts) m]) (with_data (d1 ++ with_handles (f pts) m :: d2) t)).
    rewrite length_app in IH. cbn in IH. rewrite Nat.add_1_r in IH.
    rewrite IH; [|done|].
    + rewrite with_data_with_data. do 2 f_equal. rewrite <- app_assoc. cbn.
      unfold alterHandles at 2. by rewrite Hm.
    + rewrite getToolState_with_data. by rewrite <- app_assoc.
Qed.
End Store.


Section Keeps.
Context {K : Type} `{Num K}.
Context (R : Tool K → Tool K → Prop) `{!Reflexive R} `{!Transitive R}.

Lemma keeps_ret {A} (a : A) : keeps R (ret a).
Proof. intros t. unfold keepsAt. cbn. reflexivity. Qed.

Lemma keeps_throw {A} e : keeps R (throw (A:=A) e).
Proof. intros t. unfold keepsAt. cbn. reflexivity. Qed.

Lemma keeps_read {A} (f : Tool K → option A) : keeps R (read f).
Proof. intros t. unfold keepsAt, read. destruct (f t); reflexivity. Qed.

Lemma keeps_orTypeError {A} (o : option A) : keeps R (orTypeError o).
Proof. destruct o; [apply keeps_ret | apply keeps_throw]. Qed.

Lemma keepsAt_bind {A B} (m : M K A) (f : A → M K B) t :
  keepsAt R m t → (∀ a t1, m t = Return a t1 → keepsAt R (f a) t1) → keepsAt R (bind m f) t.
Proof.
  unfold keepsAt, bind. intros Hm Hf. destruct (m t) as [a t1|e t1]; [|done].
  specialize (Hf a t1 eq_refl). destruct (f a t1); by etrans.
Qed.

Lemma keeps_bind {A B} (m : M K A) (f : A → M K B) :
  keeps R m → (∀ a, keeps R (f a)) → keeps R (bind m f).
Proof. intros Hm Hf t. apply keepsAt_bind; [apply Hm|]. intros a t1 _. apply Hf. Qed.

Lemma keepsAt_getTool {B} (f : Tool K → M K B) t :
  keepsAt R (f t) t → keepsAt R (bind getTool f) t.
Proof. done. Qed.

Lemma keeps_forEach {A} (l : list A) (body : A → M K unit) :
  (∀ a, keeps R (body a)) → keeps R (forEach l body).
Proof.
  intros Hb. induction l as [|a l IH]; cbn [forEach]; [apply keeps_ret|].
  apply keeps_bind; [apply Hb | intros _; apply IH].
Qed.

Lemma keeps_modify (f : Tool K → Tool K) : (∀ t, R t (f t)) → keeps R (modify f).
Proof. intros Hf t. apply Hf. Qed.

Lemma keeps_inv_Return {A} (m : M K A) t a t' : keeps R m → m t = Return a t' → R t t'.
Proof. intros Hk E. specialize (Hk t). unfold keepsAt in Hk. by rewrite E in Hk. Qed.

End Keeps.

Ltac keeps_bind := apply keepsAt_bind; [tc_solve | |].
Ltac keeps_ret := apply keeps_ret; tc_solve.

Section Sessions.
Context {K : Type} `{Num K}.
Implicit Types (t : Tool K) (d : list (Measurement K)).

Lemma Forall2_diag {A} (P : A → A → Prop) (l : list A) : (∀ x, P x x) → Forall2 P l l.
Proof. intros HP. induction l; constructor; auto. Qed.

#[local] Instance frame_refl : Reflexive (frame (K:=K)).
Proof. intros t. by repeat split. Qed.

#[local] Instance frame_trans : Transitive (frame (K:=K)).
Proof.
  intros t1 t2 t3 (?&?&?&?&?&?) (?&?&?&?&?&?).
  repeat split; try congruence. eauto.
Qed.

#[local] Instance sameHandles_refl : Reflexive (sameHandles (K:=K)).
Proof. intros t. split; [reflexivity|]. by apply Forall2_diag. Qed.

#[local] Instance sameHandles_trans : Transitive (sameHandles (K:=K)).
Proof.
  intros t1 t2 t3 [F1 L1] [F2 L2]. split; [by etrans|].
  eapply Forall2_trans; [|exact L1|exact L2]. cbn. intros ??? [??] [??]. split; congruence.
Qed.

#[local] Instance sameFlags_refl : Reflexive (sameFlags (K:=K)).
Proof. intros t. split; [reflexivity|]. by apply Forall2_diag. Qed.

#[local] Instance sameFlags_trans : Transitive (sameFlags (K:=K)).
Proof.
  intros t1 t2 t3 [F1 L1] [F2 L2]. split; [by etrans|].
  eapply Forall2_trans; [|exact L1|exact L2]. cbn. intros ??? [??] [??]. split; congruence.
Qed.

Lemma sameHandles_sameFlags t t' : sameHandles t t' → sameFlags t t'.
Proof.
  intros [F L]. split; [done|]. eapply Forall2_impl; [exact L|]. cbn.
  intros m m' [? Hh]. split; [done|]. unfold lineFlags. by rewrite Hh.
Qed.

Lemma keeps_mono {A} (R R' : Tool K → Tool K → Prop) (m : M K A) :
  (∀ t t', R t t' → R' t t') → keeps R m → keeps R' m.
Proof. intros HR Hk t. specialize (Hk t). unfold keepsAt in *. destruct (m t); auto. Qed.

(** Changes of the tool that leave the stored lines alone. *)
Lemma sameHandles_untouched t t' :
  imageId t' = imageId t → nextUuid t' = nextUuid t → toolState t' = toolState t →
  showRefinementPoints (configuration t') = showRefinementPoints (configuration t) →
  noOfPrimaryLines_default (configuration t') = noOfPrimaryLines_default (configuration t) →
  noOfSecondaryLines_default (configuration t') = noOfSecondaryLines_default (configuration t) →
  sameHandles t t'.
Proof.
  intros Hi Hn Hs ???.
  assert (getToolState t' = getToolState t) as Hg.
  { unfold getToolState. by rewrite Hi, Hs. }
  split; [repeat split; try done; by rewrite Hg|].
  unfold data. rewrite Hg. by apply Forall2_diag.
Qed.

Lemma keeps_activateDraw : keeps sameHandles (activateDraw (K:=K)).
Proof.
  intros t. unfold activateDraw, keepsAt, bind, modify, getTool, modifyConfiguration.
  destruct (noGrid _); cbn; by apply sameHandles_untouched.
Qed.

Lemma sameHandles_with_data t d d' :
  getToolState t = Some d →
  Forall2 (λ m m', uuid m' = uuid m ∧ handles m' = handles m) d d' →
  sameHandles t (with_data d' t).
Proof.
  intros E F. split.
  - repeat split; try done. intros _. by rewrite getToolState_with_data.
  - rewrite (data_Some _ _ E), data_with_data. done.
Qed.

Lemma keeps_fireCompletedEvent : keeps sameHandles (fireCompletedEvent (K:=K)).
Proof. intros t. by apply sameHandles_untouched. Qed.

Lemma keeps__endDrawing : keeps sameHandles (_endDrawing (K:=K)).
Proof.
  intros t. unfold _endDrawing. apply keepsAt_getTool.
  keeps_bind.
  { case_bool_decide; [|keeps_ret].
    unfold keepsAt, bind, orTypeError.
    destruct (getToolState t) as [d|] eqn:E; cbn; [|reflexivity].
    unfold lookupZ. destruct (currentTool (configuration t) <? 0)%Z; cbn; [reflexivity|].
    destruct (d !! _) as [m|] eqn:Em; cbn; [|reflexivity].
    unfold modify. eapply sameHandles_with_data; [exact E|].
    apply Forall2_same_length_lookup_2; [by rewrite length_insert|].
    intros i x y Hx Hy. destruct (decide (i = Z.to_nat (currentTool (configuration t)))) as [->|Hne].
    - rewrite list_lookup_insert_eq in Hy by (by eapply lookup_lt_Some). by simplify_eq.
    - rewrite list_lookup_insert_ne in Hy by done. by simplify_eq. }
  intros _ t1 _. keeps_bind.
  { by apply sameHandles_untouched. }
  intros _ t2 _. keeps_bind.
  { by apply sameHandles_untouched. }
  intros _ t3 _. apply keepsAt_getTool.
  keeps_bind.
  { destruct (_drawing t3); [|keeps_ret]. by apply sameHandles_untouched. }
  intros _ t4 _. apply keeps_fireCompletedEvent.
Qed.

Lemma keeps_completeDrawing : keeps sameHandles (completeDrawing (K:=K)).
Proof.
  intros t. unfold completeDrawing. apply keepsAt_getTool.
  destruct (_drawing t); cbn [negb]; [apply keeps__endDrawing | keeps_ret].
Qed.

Lemma _endDrawing_returns t : is_Some (getToolState t) → ∃ t', _endDrawing t = Return () t'.
Proof.
  intros [d E]. unfold _endDrawing, bind, getTool, orTypeError. rewrite E. cbn.
  case_bool_decide; cbn.
  - destruct (lookupZ d _); cbn; unfold modifyConfiguration, modify; cbn;
      match goal with |- context [if ?b then _ else _] => destruct b end; cbn; eauto.
  - unfold modifyConfiguration, modify; cbn;
      match goal with |- context [if ?b then _ else _] => destruct b end; cbn; eauto.
Qed.

Lemma completeDrawing_returns t : is_Some (getToolState t) → ∃ t', completeDrawing t = Return () t'.
Proof.
  intros E. unfold completeDrawing, bind, getTool. destruct (_drawing t); cbn; [|eauto].
  by apply _endDrawing_returns.
Qed.

Lemma activateDraw_returns t : ∃ t', activateDraw t = Return () t'.
Proof.
  unfold activateDraw, bind, modify, getTool, modifyConfiguration.
  destruct (noGrid _); cbn; eauto.
Qed.

End Sessions.


Section Rotation.
Implicit Types (t : Tool R) (p : Point R).
Local Open Scope R_scope.

Lemma rotatePoint_coords angle (mid : R * R) p :
  let c := cos (angle * PI / 180) in
  let s := sin (angle * PI / 180) in
  p_x (rotatePoint angle mid p) = (p_x p - mid.1) * c - (p_y p - mid.2) * s + mid.1
  ∧ p_y (rotatePoint angle mid p) = (p_x p - mid.1) * s + (p_y p - mid.2) * c + mid.2.
Proof. done. Qed.


(** The middle point is a fixed point of the rotation about it. *)
Lemma rotatePoint_middle angle p q :
  let mid := ((p_x p + p_x q) / 2, (p_y p + p_y q) / 2) in
  (p_x (rotatePoint angle mid p) + p_x (rotatePoint angle mid q)) / 2 = mid.1
  ∧ (p_y (rotatePoint angle mid p) + p_y (rotatePoint angle mid q)) / 2 = mid.2.
Proof.
  intros mid.
  destruct (rotatePoint_coords angle mid p) as [-> ->].
  destruct (rotatePoint_coords angle mid q) as [-> ->].
  subst mid. cbn. split; field.
Qed.

Lemma getGridMiddlePointCoords_handles t :
  getGridMiddlePointCoords t = middleOf (handles <$> data t).
Proof.
  unfold getGridMiddlePointCoords, noGrid, middleOf, linePoints.
  destruct (data t) as [|m d] eqn:E; [done|]. rewrite <- E.
  rewrite !list_lookup_fmap, length_fmap.
  assert (∀ i, mjoin (handles <$> data t !! i) = data t !! i ≫= handles) as Hl.
  { intros i. by destruct (data t !! i). }
  rewrite !Hl. destruct (handles <$> data t) eqn:E'; [by rewrite E in E'|]. done.
Qed.

Lemma sameHandles_fmap t t' : sameHandles t t' → handles <$> data t' = handles <$> data t.
Proof.
  intros [_ F]. induction F as [|m m' d d' [_ Hh] _ IH]; [done|]. cbn. by rewrite Hh, IH.
Qed.

Lemma handles_alterHandles (f : list (Point R) → list (Point R)) (m : Measurement R) :
  handles (alterHandles f m) = f <$> handles m.
Proof. unfold alterHandles. destruct (handles m) eqn:E; cbn; [done | by rewrite E]. Qed.

Lemma middleOf_rotate angle mid hs :
  middleOf hs = Some (Some mid) →
  middleOf (rotateHandles angle mid <$> hs) = Some (Some mid).
Proof.
  unfold middleOf. destruct hs as [|h hs]; [done|].
  set (l := h :: hs). intros Hm.
  destruct (rotateHandles angle mid <$> l) eqn:E; [done|]. rewrite <- E. clear E.
  rewrite !list_lookup_fmap, length_fmap.
  destruct (l !! 0%nat) as [[pts0|]|]; try done.
  destruct (l !! (length l - 1)%nat) as [[ptsn|]|]; cbn in *;
    try by (destruct (head pts0); done).
  destruct pts0 as [|p pts0]; [done|]. cbn in *.
  rewrite fmap_last. destruct (last ptsn) as [q|]; [|done]. cbn in *.
  injection Hm as Hm. subst mid.
  cbn. do 3 f_equal; field.
Qed.

Lemma rotateGrid_spec t angle mid :
  Forall (λ m, is_Some (handles m)) (data t) →
  getGridMiddlePointCoords t = Some (Some mid) →
  ∃ t', rotateGrid angle t = Return () t'
    ∧ handles <$> data t' = rotateHandles angle mid <$> (handles <$> data t)
    ∧ is_Some (getToolState t').
Proof.
  intros Hfull Hmid.
  assert (noGrid t = false) as Hgrid.
  { unfold getGridMiddlePointCoords in Hmid. by destruct (noGrid t). }
  assert (is_Some (getToolState t)) as Hst.
  { unfold noGrid, data in Hgrid. by destruct (getToolState t). }
  destruct (activateDraw_returns t) as [t1 E1].
  pose proof (keeps_inv_Return _ _ _ _ _ keeps_activateDraw E1) as S1.
  pose proof (sameHandles_fmap _ _ S1) as H1.
  assert (is_Some (getToolState t1)) as [d1 Hd1] by (by apply S1).
  assert (Forall (λ m, is_Some (handles m)) d1) as Hfull1.
  { rewrite <- (data_Some _ _ Hd1). destruct S1 as [_ F].
    clear -F Hfull.
    induction F as [|x y ?? [_ Hh] ? IH]; inversion Hfull; subst; constructor;
      [by rewrite Hh | auto]. }
  pose proof (forEach_alterPoints_all (fmap (rotatePoint angle mid)) d1 [] t1 Hfull1 Hd1) as E2.
  cbn [length app] in E2.
  set (t2 := with_data _ t1) in E2.
  destruct (completeDrawing_returns t2) as [t3 E3].
  { subst t2. by rewrite getToolState_with_data. }
  pose proof (keeps_inv_Return _ _ _ _ _ keeps_completeDrawing E3) as S3.
  exists t3. split; [|split].
  - unfold rotateGrid, bind, getTool, read. rewrite Hgrid, Hmid.
    unfold orTypeError, ret. cbv beta iota.
    rewrite E1. rewrite (data_Some _ _ Hd1). rewrite E2. exact E3.
  - rewrite (sameHandles_fmap _ _ S3). subst t2. rewrite data_with_data.
    rewrite <- H1, (data_Some _ _ Hd1). rewrite <- !list_fmap_compose.
    apply list_fmap_ext. intros i m _. cbn. rewrite handles_alterHandles. by destruct (handles m).
  - apply S3. subst t2. by rewrite getToolState_with_data.
Qed.

Lemma coordinates_handles t :
  coordinates t = (λ h, (λ p, (p_x p, p_y p)) <$> default [] h) <$> (handles <$> data t).
Proof. unfold coordinates. by rewrite <- list_fmap_compose. Qed.

End Rotation.
Section Basics.
Context {K : Type} `{Num K}.
Implicit Types (t : Tool K) (d : list (Measurement K)) (m : Measurement K).

Lemma with_handles_id m pts : handles m = Some pts → with_handles pts m = m.
Proof. intros E. destruct m; cbn in *. unfold with_handles. cbn. by rewrite E. Qed.

Lemma with_data_id t d : getToolState t = Some d → with_data d t = t.
Proof.
  intros E. unfold with_data, with_toolState. destruct t; cbn in *. f_equal.
  unfold getToolState in E; cbn in E. by rewrite insert_id.
Qed.

Lemma getToolState_upd d n t : getToolState (upd d n t) = Some d.
Proof. apply getToolState_with_data. Qed.

Lemma data_upd d n t : data (upd d n t) = d.
Proof. apply data_with_data. Qed.

Lemma upd_upd d1 n1 d2 n2 t : upd d2 n2 (upd d1 n1 t) = upd d2 n2 t.
Proof.
  destruct t. unfold upd, with_data, with_toolState, with_nextUuid; cbn. f_equal.
  apply insert_insert_eq.
Qed.

Lemma with_data_upd d1 n1 d2 t : with_data d2 (upd d1 n1 t) = upd d2 n1 t.
Proof. unfold upd. apply with_data_with_data. Qed.

Lemma upd_id t d : getToolState t = Some d → upd d (nextUuid t) t = t.
Proof.
  intros E. rewrite <- (with_data_id t d E) at 3.
  unfold upd, with_data, with_toolState, with_nextUuid. by destruct t.
Qed.

Lemma with_data_as_upd t d : with_data d t = upd d (nextUuid t) t.
Proof. unfold upd, with_data, with_toolState, with_nextUuid. by destruct t. Qed.

Lemma nextUuid_upd d n t : nextUuid (upd d n t) = n.
Proof. done. Qed.

Lemma configuration_upd d n t : configuration (upd d n t) = configuration t.
Proof. done. Qed.

Lemma imageId_upd d n t : imageId (upd d n t) = imageId t.
Proof. done. Qed.

Lemma forEach_app {A} (l1 l2 : list A) (body : A → M K unit) t t1 :
  forEach l1 body t = Return () t1 →
  forEach (l1 ++ l2) body t = forEach l2 body t1.
Proof.
  revert t. induction l1 as [|a l1 IH]; intros t E; cbn in *.
  - by injection E as ->.
  - unfold bind in *. destruct (body a t) as [[] t'|]; [|done]. by apply IH.
Qed.

Lemma forEach_snoc {A} (l : list A) (a : A) (body : A → M K unit) t t1 :
  forEach l body t = Return () t1 →
  forEach (l ++ [a]) body t = body a t1.
Proof.
  intros E. rewrite (forEach_app _ _ _ _ _ E). cbn. unfold bind.
  by destruct (body a t1) as [[]|].
Qed.

Lemma ithCommonPoint_filter (pts : list (Point K)) (c : Z) (k : nat) :
  ithCommonPoint pts c (c + 1 + Z.of_nat k) = List.filter isCommonPoint pts !! k.
Proof.
  revert c k. induction pts as [|p pts IH]; intros c k; [done|].
  cbn [ithCommonPoint List.filter].
  destruct (isCommonPoint p).
  - case_bool_decide as E.
    + assert (k = 0) as -> by lia. done.
    + destruct k as [|k]; [lia|].
      change ((?x :: ?l) !! S k) with (l !! k).
      rewrite <- (IH (c + 1)%Z k). f_equal. lia.
  - case_bool_decide as E; [lia|]. apply IH.
Qed.

Lemma ithCommonPoint_nat (pts : list (Point K)) (k : nat) :
  ithCommonPoint pts (-1) (Z.of_nat k) = List.filter isCommonPoint pts !! k.
Proof. by rewrite <- (ithCommonPoint_filter pts (-1) k). Qed.

Lemma addPoint_app d1 m d2 pts (np : NewPoint K) t :
  getToolState t = Some (d1 ++ m :: d2) →
  handles m = Some pts →
  primaryLineIdx np = length d1 →
  addPoint np t = Return () (with_data (d1 ++ with_handles (pts ++ [handleOf np]) m :: d2) t).
Proof.
  intros E Hm Hi. unfold addPoint. eapply updateData_Some; [done|].
  rewrite Hi. by apply (alterPoints_app_r (λ pts, pts ++ [handleOf np])).
Qed.

Lemma forEach_addPoint_line (nps : list (NewPoint K)) :
  ∀ d1 m d2 pts t,
  getToolState t = Some (d1 ++ m :: d2) →
  handles m = Some pts →
  Forall (λ np, primaryLineIdx np = length d1) nps →
  forEach nps addPoint t
  = Return () (with_data (d1 ++ with_handles (pts ++ (handleOf <$> nps)) m :: d2) t).
Proof.
  induction nps as [|np nps IH]; intros d1 m d2 pts t E Hm Hall.
  - cbn. rewrite app_nil_r, (with_handles_id _ _ Hm), (with_data_id _ _ E). done.
  - inversion Hall as [|?? Hnp Hall']; subst. cbn [forEach].
    erewrite bind_Return by (by eapply addPoint_app).
    erewrite IH; [|by rewrite getToolState_with_data| |done]; [|done].
    rewrite with_data_with_data. cbn. by rewrite <- app_assoc.
Qed.

End Basics.


Section Subsidiary.
Context {K : Type} `{Num K}.
Implicit Types (t : Tool K) (d : list (Measurement K)) (m : Measurement K).

Lemma addNewMeasurementToState_spec t i :
  addNewMeasurementToState (Some i) t
  = Return () (upd (take i (data t) ++ createNewMeasurement (nextUuid t) :: drop i (data t))
                   (N.succ (nextUuid t)) t).
Proof. done. Qed.

Lemma noGrid_cons t m d : data t = m :: d → noGrid t = false.
Proof. unfold noGrid. by intros ->. Qed.

Lemma noGrid_app t d1 m d2 : data t = d1 ++ m :: d2 → noGrid t = false.
Proof. unfold noGrid. intros ->. by destruct d1. Qed.

Lemma nextMainIn_spec (mid : list (Measurement K)) m2 rest idx :
  Forall (λ s, firstPointIsCommon s = Some false) mid →
  firstPointIsCommon m2 = Some true →
  nextMainIn (mid ++ m2 :: rest) idx = Some (Some (idx + length mid)).
Proof.
  revert idx. induction mid as [|s mid IH]; intros idx Hmid Hm2; cbn.
  - rewrite Hm2. do 2 f_equal. lia.
  - inversion Hmid as [|?? Hs Hmid']; subst. rewrite Hs. rewrite IH by done.
    do 2 f_equal. lia.
Qed.

Lemma nextMainIn_none (mid : list (Measurement K)) idx :
  Forall (λ s, firstPointIsCommon s = Some false) mid →
  nextMainIn mid idx = Some None.
Proof.
  revert idx. induction mid as [|s mid IH]; intros idx Hmid; cbn; [done|].
  inversion Hmid as [|?? Hs Hmid']; subst. rewrite Hs. by apply IH.
Qed.

Lemma nextMainFrom_spec pre m1 mid m2 rest :
  Forall (λ s, firstPointIsCommon s = Some false) mid →
  firstPointIsCommon m2 = Some true →
  nextMainFrom (pre ++ m1 :: mid ++ m2 :: rest) (Z.of_nat (length pre))
  = Some (Some (length pre + 1 + length mid)).
Proof.
  intros Hmid Hm2. unfold nextMainFrom.
  replace (Z.to_nat (Z.of_nat (length pre) + 1)) with (length (pre ++ [m1]))
    by (rewrite length_app; cbn; lia).
  replace (pre ++ m1 :: mid ++ m2 :: rest) with ((pre ++ [m1]) ++ mid ++ m2 :: rest)
    by (by rewrite <- app_assoc).
  rewrite drop_app_length. rewrite nextMainIn_spec by done.
  rewrite length_app. cbn. done.
Qed.

Lemma nextMainFrom_none pre m1 mid :
  Forall (λ s, firstPointIsCommon s = Some false) mid →
  nextMainFrom (pre ++ m1 :: mid) (Z.of_nat (length pre)) = Some None.
Proof.
  intros Hmid. unfold nextMainFrom.
  replace (Z.to_nat (Z.of_nat (length pre) + 1)) with (length (pre ++ [m1]))
    by (rewrite length_app; cbn; lia).
  replace (pre ++ m1 :: mid) with ((pre ++ [m1]) ++ mid) by (by rewrite <- app_assoc).
  rewrite drop_app_length. by apply nextMainIn_none.
Qed.

Lemma lookupZ_nat {A} (l : list A) (i : nat) : lookupZ l (Z.of_nat i) = l !! i.
Proof.
  unfold lookupZ. destruct (Z.ltb_spec (Z.of_nat i) 0); [lia|]. by rewrite Nat2Z.id.
Qed.

Lemma zrange_nat (a b : nat) : zrange (Z.of_nat a) (Z.of_nat b) = Z.of_nat <$> seq a (b - a).
Proof.
  unfold zrange. replace (Z.to_nat (Z.of_nat b - Z.of_nat a)) with (b - a) by lia.
  replace (seq a (b - a)) with (seq (a + 0) (b - a)) by (f_equal; lia).
  rewrite <- (fmap_add_seq a 0). rewrite <- list_fmap_compose.
  apply list_fmap_ext. intros i x _. cbn. lia.
Qed.

Lemma subsidiaryPoint_spec t d (from : nat) m1 p1 nidx p2 sub j p q :
  data t = d → d ≠ [] →
  d !! from = Some m1 → handles m1 = Some p1 →
  nextMainFrom d (Z.of_nat from) = Some (Some nidx) →
  linePoints d nidx = Some p2 →
  p1 !! j = Some p → p2 !! j = Some q →
  subsidiaryPoint t (Z.of_nat from) sub (Z.of_nat j)
  = Some (subsidiaryCell sub (from + sub + 1) (p, q)).
Proof.
  intros Hd Hne Hm1 Hp1 Hnext Hp2 Hp Hq.
  unfold subsidiaryPoint, getNextMainPrimaryLine, subsidiaryCell, noGrid.
  rewrite Hd, !lookupZ_nat, Hm1. cbn. rewrite Hp1. cbn. rewrite lookupZ_nat, Hp. cbn.
  destruct (isCommonPoint p); cbn; [|done].
  destruct d; [done|]. rewrite Hnext. cbn. rewrite Hp2. cbn. rewrite lookupZ_nat, Hq. cbn.
  unfold interpolated. do 3 f_equal. lia.
Qed.

Lemma subsidiaryPoint_last t d (from : nat) m1 p1 sub j p :
  data t = d → d ≠ [] →
  d !! from = Some m1 → handles m1 = Some p1 →
  nextMainFrom d (Z.of_nat from) = Some None →
  p1 !! j = Some p →
  subsidiaryPoint t (Z.of_nat from) sub (Z.of_nat j) = Some None.
Proof.
  intros Hd Hne Hm1 Hp1 Hnext Hp.
  unfold subsidiaryPoint, getNextMainPrimaryLine, noGrid.
  rewrite Hd, !lookupZ_nat, Hm1. cbn. rewrite Hp1. cbn. rewrite lookupZ_nat, Hp. cbn.
  destruct (isCommonPoint p); cbn; [|done].
  destruct d; [done|]. by rewrite Hnext.
Qed.


Lemma subsidiaryRow_mapM t d (from : nat) m1 p1 nidx p2 sub start :
  data t = d → d ≠ [] →
  d !! from = Some m1 → handles m1 = Some p1 →
  nextMainFrom d (Z.of_nat from) = Some (Some nidx) →
  linePoints d nidx = Some p2 →
  length p2 = length p1 →
  mapM (subsidiaryPoint t (Z.of_nat from) sub)
       (zrange (Z.of_nat start) (Z.of_nat (length p1)))
  = Some (subsidiaryCell sub (from + sub + 1) <$> drop start (zip p1 p2)).
Proof.
  intros Hd Hne Hm1 Hp1 Hnext Hp2 Hlen.
  rewrite zrange_nat. apply mapM_Some_2.
  apply Forall2_same_length_lookup_2.
  - rewrite !length_fmap, length_seq, length_drop, length_zip_with. lia.
  - intros i z o Hz Ho.
    rewrite list_lookup_fmap in Hz.
    destruct (seq start (length p1 - start) !! i) as [j|] eqn:Hj; [|done].
    apply lookup_seq in Hj as [-> Hi]. injection Hz as <-.
    rewrite list_lookup_fmap, lookup_drop in Ho.
    destruct (zip p1 p2 !! (start + i)) as [[p q]|] eqn:Hpq; [|done].
    injection Ho as <-.
    apply lookup_zip_with_Some in Hpq as (p' & q' & [= <- <-] & Hp & Hq).
    by eapply subsidiaryPoint_spec.
Qed.

Lemma subsidiaryRow_mapM_last t d (from : nat) m1 p1 sub start :
  data t = d → d ≠ [] →
  d !! from = Some m1 → handles m1 = Some p1 →
  nextMainFrom d (Z.of_nat from) = Some None →
  mapM (subsidiaryPoint t (Z.of_nat from) sub)
       (zrange (Z.of_nat start) (Z.of_nat (length p1)))
  = Some (replicate (length p1 - start) None).
Proof.
  intros Hd Hne Hm1 Hp1 Hnext.
  rewrite zrange_nat. apply mapM_Some_2.
  apply Forall2_same_length_lookup_2.
  - by rewrite length_fmap, length_seq, length_replicate.
  - intros i z o Hz Ho.
    rewrite list_lookup_fmap in Hz.
    destruct (seq start (length p1 - start) !! i) as [j|] eqn:Hj; [|done].
    apply lookup_seq in Hj as [-> Hi]. injection Hz as <-.
    apply lookup_replicate in Ho as [-> _].
    destruct (lookup_lt_is_Some_2 p1 (start + i)) as [p Hp]; [lia|].
    by eapply subsidiaryPoint_last.
Qed.

Lemma omap_id_fmap {A B} (f : A → option B) (l : list A) :
  omap (λ pushed, pushed) (f <$> l) = omap f l.
Proof. induction l as [|a l IH]; [done|]. cbn. destruct (f a); by rewrite IH. Qed.

Lemma omap_id_replicate_None {A} n : omap (λ pushed : option A, pushed) (replicate n None) = [].
Proof. induction n; [done|]. by cbn. Qed.

Lemma subsidiaryPoints_spec t d (from : nat) m1 p1 nidx p2 fromSec start :
  data t = d → d ≠ [] →
  d !! from = Some m1 → handles m1 = Some p1 →
  nextMainFrom d (Z.of_nat from) = Some (Some nidx) →
  linePoints d nidx = Some p2 →
  length p2 = length p1 →
  get_totalNoOfSecondaryLines t = Some (Some (length p1)) →
  default 0%Z fromSec = Z.of_nat start →
  subsidiaryPoints (Z.of_nat from) fromSec t
  = Some (subsidiaryRow 0 (from + 1) start p1 p2
          ++ subsidiaryRow 1 (from + 2) start p1 p2
          ++ subsidiaryRow 2 (from + 3) start p1 p2).
Proof.
  intros Hd Hne Hm1 Hp1 Hnext Hp2 Hlen Htot Hstart.
  unfold subsidiaryPoints. rewrite Htot. cbn [mbind option_bind numberOf default].
  rewrite Hstart. cbn [mapM].
  rewrite !(subsidiaryRow_mapM t d from m1 p1 nidx p2) by done.
  cbn. rewrite !omap_app, !omap_id_fmap. unfold subsidiaryRow.
  replace (from + 0 + 1) with (from + 1) by lia.
  replace (from + 1 + 1) with (from + 2) by lia.
  replace (from + 2 + 1) with (from + 3) by lia.
  by rewrite app_nil_r.
Qed.

Lemma subsidiaryPoints_last t d (from : nat) m1 p1 fromSec start :
  data t = d → d ≠ [] →
  d !! from = Some m1 → handles m1 = Some p1 →
  nextMainFrom d (Z.of_nat from) = Some None →
  get_totalNoOfSecondaryLines t = Some (Some (length p1)) →
  default 0%Z fromSec = Z.of_nat start →
  subsidiaryPoints (Z.of_nat from) fromSec t = Some [].
Proof.
  intros Hd Hne Hm1 Hp1 Hnext Htot Hstart.
  unfold subsidiaryPoints. rewrite Htot. cbn [mbind option_bind numberOf default].
  rewrite Hstart. cbn [mapM].
  rewrite !(subsidiaryRow_mapM_last t d from m1 p1) by done.
  cbn. by rewrite !omap_app, !omap_id_replicate_None.
Qed.


Lemma addNewMeasurementToState_at t a b i :
  getToolState t = Some (a ++ b) → i = length a →
  addNewMeasurementToState (Some i) t
  = Return () (upd (a ++ createNewMeasurement (nextUuid t) :: b) (N.succ (nextUuid t)) t).
Proof.
  intros E ->. rewrite addNewMeasurementToState_spec, (data_Some _ _ E).
  by rewrite take_app_length, drop_app_length.
Qed.

Lemma subsidiaryRow_line sub line start (p1 p2 : list (Point K)) :
  Forall (λ np, primaryLineIdx np = line) (subsidiaryRow sub line start p1 p2).
Proof.
  unfold subsidiaryRow. apply Forall_forall. intros np Hin.
  apply list_elem_of_omap in Hin as (pq & _ & Hc). unfold subsidiaryCell in Hc.
  destruct (isCommonPoint pq.1); [|done]. by injection Hc as <-.
Qed.

Lemma read_Some {A} (f : Tool K → option A) t a : f t = Some a → read f t = Return a t.
Proof. unfold read. by intros ->. Qed.

(** Three new subsidiary lines between two neighbouring main lines. *)
Lemma _generateSubsidiaryPrimaryLine_create t pre m1 m2 rest p1 p2 :
  getToolState t = Some (pre ++ m1 :: m2 :: rest) →
  handles m1 = Some p1 → handles m2 = Some p2 → length p2 = length p1 →
  firstPointIsCommon m2 = Some true →
  get_totalNoOfSecondaryLines t = Some (Some (length p1)) →
  let n := nextUuid t in
  let row sub := handleOf <$> subsidiaryRow sub (length pre + sub + 1) 0 p1 p2 in
  _generateSubsidiaryPrimaryLine (Z.of_nat (length pre)) None true t
  = Return () (upd (pre ++ m1 :: mkLine n (row 0) :: mkLine (N.succ n) (row 1)
                        :: mkLine (N.succ (N.succ n)) (row 2) :: m2 :: rest)
                   (N.succ (N.succ (N.succ n))) t).
Proof.
  intros E Hp1 Hp2 Hlen Hm2 Htot n row.
  pose proof (data_Some _ _ E) as Hd.
  unfold _generateSubsidiaryPrimaryLine. unfold bind at 1. unfold getTool at 1.
  rewrite (noGrid_app _ _ _ _ Hd).
  erewrite bind_Return; last first.
  { apply read_Some.
    eapply (subsidiaryPoints_spec t _ (length pre) m1 p1 (length pre + 1 + 0) p2 None 0);
      try done.
    - by destruct pre.
    - by apply list_lookup_middle.
    - by apply (nextMainFrom_spec pre m1 [] m2 rest).
    - unfold linePoints.
      replace (pre ++ m1 :: m2 :: rest) with ((pre ++ [m1]) ++ m2 :: rest)
        by (by rewrite <- app_assoc).
      rewrite list_lookup_middle by (rewrite length_app; cbn; lia). done. }
  erewrite bind_Return; last first.
  { cbn [forEach].
    erewrite bind_Return; last first.
    { apply (addNewMeasurementToState_at t (pre ++ [m1]) (m2 :: rest)).
      - by rewrite <- app_assoc.
      - rewrite length_app. cbn. lia. }
    erewrite bind_Return; last first.
    { apply (addNewMeasurementToState_at _ (pre ++ [m1; createNewMeasurement n]) (m2 :: rest)).
      - rewrite getToolState_upd. by rewrite <- !app_assoc.
      - rewrite length_app. cbn. lia. }
    erewrite bind_Return; last first.
    { apply (addNewMeasurementToState_at _
               (pre ++ [m1; createNewMeasurement n; createNewMeasurement (N.succ n)])
               (m2 :: rest)).
      - rewrite getToolState_upd. by rewrite <- !app_assoc.
      - rewrite length_app. cbn. lia. }
    rewrite !nextUuid_upd, !upd_upd. reflexivity. }
  rewrite <- !app_assoc. cbn [app].
  erewrite forEach_app; last first.
  { eapply (forEach_addPoint_line _ (pre ++ [m1]) (createNewMeasurement n) _ []).
    - rewrite getToolState_upd. by rewrite <- app_assoc.
    - done.
    - rewrite length_app. cbn [length]. apply subsidiaryRow_line. }
  erewrite forEach_app; last first.
  { eapply (forEach_addPoint_line _ (pre ++ [m1; _]) (createNewMeasurement (N.succ n)) _ []).
    - rewrite getToolState_with_data. by rewrite <- !app_assoc.
    - done.
    - rewrite length_app. cbn [length]. apply subsidiaryRow_line. }
  erewrite (forEach_addPoint_line _ (pre ++ [m1; _; _]) (createNewMeasurement (N.succ (N.succ n))) _ []);
    [| |done|].
  - rewrite !with_data_with_data, with_data_upd. f_equal. f_equal.
    rewrite <- !app_assoc. cbn [app]. subst row. cbn beta.
    replace (length pre + 0 + 1) with (length pre + 1) by lia.
    replace (length pre + 1 + 1) with (length pre + 2) by lia.
    replace (length pre + 2 + 1) with (length pre + 3) by lia.
    reflexivity.
  - rewrite getToolState_with_data. by rewrite <- !app_assoc.
  - rewrite length_app. cbn [length]. apply subsidiaryRow_line.
Qed.


(** One more point on each of the three subsidiary lines between two main
    lines. *)
Lemma _generateSubsidiaryPrimaryLine_extend t pre m1 s1 s2 s3 m2 rest p1 p2 q1 q2 q3 start :
  getToolState t = Some (pre ++ m1 :: s1 :: s2 :: s3 :: m2 :: rest) →
  handles m1 = Some p1 → handles m2 = Some p2 → length p2 = length p1 →
  handles s1 = Some q1 → handles s2 = Some q2 → handles s3 = Some q3 →
  firstPointIsCommon s1 = Some false → firstPointIsCommon s2 = Some false →
  firstPointIsCommon s3 = Some false → firstPointIsCommon m2 = Some true →
  get_totalNoOfSecondaryLines t = Some (Some (length p1)) →
  let row sub := handleOf <$> subsidiaryRow sub (length pre + sub + 1) start p1 p2 in
  _generateSubsidiaryPrimaryLine (Z.of_nat (length pre)) (Some (Z.of_nat start)) false t
  = Return () (with_data (pre ++ m1 :: with_handles (q1 ++ row 0) s1
                              :: with_handles (q2 ++ row 1) s2
                              :: with_handles (q3 ++ row 2) s3 :: m2 :: rest) t).
Proof.
  intros E Hp1 Hp2 Hlen Hq1 Hq2 Hq3 Hs1 Hs2 Hs3 Hm2 Htot row.
  pose proof (data_Some _ _ E) as Hd.
  unfold _generateSubsidiaryPrimaryLine. unfold bind at 1. unfold getTool at 1.
  rewrite (noGrid_app _ _ _ _ Hd).
  erewrite bind_Return; last first.
  { apply read_Some.
    eapply (subsidiaryPoints_spec t _ (length pre) m1 p1 (length pre + 1 + 3) p2 _ start);
      try done.
    - by destruct pre.
    - by apply list_lookup_middle.
    - apply (nextMainFrom_spec pre m1 [s1; s2; s3] m2 rest); [|done]. by repeat constructor.
    - unfold linePoints.
      replace (pre ++ m1 :: s1 :: s2 :: s3 :: m2 :: rest)
        with ((pre ++ [m1; s1; s2; s3]) ++ m2 :: rest) by (by rewrite <- app_assoc).
      rewrite list_lookup_middle by (rewrite length_app; cbn; lia). done. }
  erewrite bind_Return by reflexivity.
  erewrite forEach_app; last first.
  { eapply (forEach_addPoint_line _ (pre ++ [m1]) s1 _ q1).
    - rewrite E. by rewrite <- app_assoc.
    - done.
    - rewrite length_app. cbn [length]. apply subsidiaryRow_line. }
  erewrite forEach_app; last first.
  { eapply (forEach_addPoint_line _ (pre ++ [m1; _]) s2 _ q2).
    - rewrite getToolState_with_data. by rewrite <- !app_assoc.
    - done.
    - rewrite length_app. cbn [length]. apply subsidiaryRow_line. }
  erewrite (forEach_addPoint_line _ (pre ++ [m1; _; _]) s3 _ q3); [| |done|].
  - rewrite !with_data_with_data. f_equal. f_equal.
    rewrite <- !app_assoc. cbn [app]. subst row. cbn beta.
    replace (length pre + 0 + 1) with (length pre + 1) by lia.
    replace (length pre + 1 + 1) with (length pre + 2) by lia.
    replace (length pre + 2 + 1) with (length pre + 3) by lia.
    reflexivity.
  - rewrite getToolState_with_data. by rewrite <- !app_assoc.
  - rewrite length_app. cbn [length]. apply subsidiaryRow_line.
Qed.

(** Nothing to do after the last main line. *)
Lemma _generateSubsidiaryPrimaryLine_last t pre m1 mid p1 fromSec start :
  getToolState t = Some (pre ++ m1 :: mid) →
  handles m1 = Some p1 →
  Forall (λ s, firstPointIsCommon s = Some false) mid →
  get_totalNoOfSecondaryLines t = Some (Some (length p1)) →
  default 0%Z fromSec = Z.of_nat start →
  _generateSubsidiaryPrimaryLine (Z.of_nat (length pre)) fromSec false t = Return () t.
Proof.
  intros E Hp1 Hmid Htot Hstart.
  pose proof (data_Some _ _ E) as Hd.
  unfold _generateSubsidiaryPrimaryLine. unfold bind at 1. unfold getTool at 1.
  rewrite (noGrid_app _ _ _ _ Hd).
  erewrite bind_Return; last first.
  { apply read_Some.
    eapply (subsidiaryPoints_last t _ (length pre) m1 p1 _ start); try done.
    - by destruct pre.
    - by apply list_lookup_middle.
    - by apply nextMainFrom_none. }
  done.
Qed.

End Subsidiary.


Section Refinement.
Context {K : Type} `{Num K}.
Implicit Types (t : Tool K) (d : list (Measurement K)) (m : Measurement K).

Lemma getIthCommonPoint_spec t d key m pts (j : nat) :
  data t = d → d !! key = Some m → handles m = Some pts →
  getIthCommonPointOnPrimaryLine (Z.of_nat j) (Some key) t
  = Some (List.filter isCommonPoint pts !! j).
Proof.
  intros Hd Hm Hpts. unfold getIthCommonPointOnPrimaryLine, noGrid. rewrite Hd.
  destruct d; [done|]. cbn [mbind option_bind]. rewrite Hm, Hpts. cbn.
  by rewrite ithCommonPoint_nat.
Qed.

Lemma filter_all {A} (f : A → bool) (l : list A) :
  Forall (λ a, f a = true) l → List.filter f l = l.
Proof. induction 1 as [|a l Ha _ IH]; [done|]. cbn. by rewrite Ha, IH. Qed.

Lemma filter_none {A} (f : A → bool) (l : list A) :
  Forall (λ a, f a = false) l → List.filter f l = [].
Proof. induction 1 as [|a l Ha _ IH]; [done|]. cbn. by rewrite Ha, IH. Qed.

Lemma refinementPointsLoop_spec t d key m pts (cs : list (Point K)) :
  ∀ (cl : list (Point K)) (fuel : nat),
  data t = d → d !! key = Some m → handles m = Some pts →
  List.filter isCommonPoint pts = cl ++ cs →
  length cs ≤ S fuel →
  refinementPointsLoop fuel t key (Z.of_nat (length cl))
  = Some (refinementEntries (Z.of_nat (length cl)) cs).
Proof.
  induction cs as [|c cs IH]; intros cl fuel Hd Hm Hpts Hf Hfuel.
  - destruct fuel; [done|]. cbn [refinementPointsLoop].
    rewrite (getIthCommonPoint_spec t d key m pts (length cl)) by done.
    replace (Z.of_nat (length cl) + 1)%Z with (Z.of_nat (S (length cl))) by lia.
    rewrite (getIthCommonPoint_spec t d key m pts (S (length cl))) by done.
    rewrite Hf, app_nil_r. cbn.
    rewrite (lookup_ge_None_2 cl (S (length cl))) by lia. done.
  - destruct cs as [|c' cs].
    + destruct fuel; [done|]. cbn [refinementPointsLoop].
      rewrite (getIthCommonPoint_spec t d key m pts (length cl)) by done.
      replace (Z.of_nat (length cl) + 1)%Z with (Z.of_nat (S (length cl))) by lia.
      rewrite (getIthCommonPoint_spec t d key m pts (S (length cl))) by done.
      rewrite Hf. cbn.
      rewrite (lookup_ge_None_2 (cl ++ [c]) (S (length cl))); [done|].
      rewrite length_app. cbn. lia.
    + destruct fuel; [cbn in Hfuel; lia|]. cbn [refinementPointsLoop].
      rewrite (getIthCommonPoint_spec t d key m pts (length cl)) by done.
      replace (Z.of_nat (length cl) + 1)%Z with (Z.of_nat (S (length cl))) by lia.
      rewrite (getIthCommonPoint_spec t d key m pts (S (length cl))) by done.
      rewrite Hf. cbn [mbind option_bind].
      rewrite (list_lookup_middle cl (c' :: cs) c (length cl) eq_refl).
      replace (cl ++ c :: c' :: cs) with ((cl ++ [c]) ++ c' :: cs) by (by rewrite <- app_assoc).
      rewrite (list_lookup_middle (cl ++ [c]) cs c' (S (length cl)))
        by (rewrite length_app; cbn; lia).
      replace (Z.of_nat (S (length cl))) with (Z.of_nat (length (cl ++ [c])))
        by (rewrite length_app; cbn; lia).
      rewrite (IH (cl ++ [c]) fuel); try done.
      * cbn. rewrite length_app. cbn [length].
        replace (Z.of_nat (length cl + 1)) with (Z.of_nat (length cl) + 1)%Z by lia.
        done.
      * by rewrite Hf, <- app_assoc.
      * cbn in *. lia.
Qed.


Lemma splice_insert_app {A} (a b : list A) (x : A) (start : Z) :
  start = Z.of_nat (length a) → splice_insert start x (a ++ b) = a ++ x :: b.
Proof.
  intros ->. unfold splice_insert.
  destruct (Z.ltb_spec (Z.of_nat (length a)) 0); [lia|].
  rewrite length_app, Z.min_l by lia. rewrite Nat2Z.id.
  by rewrite take_app_length, drop_app_length.
Qed.

Lemma splice_triple {A} (pre rest : list A) (c x1 x2 x3 : A) (i : Z) :
  Z.of_nat (length pre) = (i * 4)%Z →
  splice_insert (i * 4 + 3) x3
    (splice_insert (i * 4 + 2) x2 (splice_insert (i * 4 + 1) x1 (pre ++ c :: rest)))
  = pre ++ c :: x1 :: x2 :: x3 :: rest.
Proof.
  intros Hlen.
  replace (pre ++ c :: rest) with ((pre ++ [c]) ++ rest) by (by rewrite <- app_assoc).
  rewrite (splice_insert_app (pre ++ [c]) rest x1) by (rewrite length_app; cbn; lia).
  replace ((pre ++ [c]) ++ x1 :: rest) with ((pre ++ [c; x1]) ++ rest)
    by (by rewrite <- !app_assoc).
  rewrite (splice_insert_app (pre ++ [c; x1]) rest x2) by (rewrite length_app; cbn; lia).
  replace ((pre ++ [c; x1]) ++ x2 :: rest) with ((pre ++ [c; x1; x2]) ++ rest)
    by (by rewrite <- !app_assoc).
  rewrite (splice_insert_app (pre ++ [c; x1; x2]) rest x3) by (rewrite length_app; cbn; lia).
  by rewrite <- !app_assoc.
Qed.

Lemma refinementEntries_cons (c c' : Point K) cs i :
  refinementEntries i (c :: c' :: cs)
  = zip [(i * 4 + 1)%Z; (i * 4 + 2)%Z; (i * 4 + 3)%Z] (refinementTriple c c')
    ++ refinementEntries (i + 1) (c' :: cs).
Proof. done. Qed.

Lemma refineLine_cons (c c' : Point K) cs :
  refineLine (c :: c' :: cs) = c :: refinementTriple c c' ++ refineLine (c' :: cs).
Proof. done. Qed.

Lemma refinementTriple_three (c c' : Point K) :
  ∃ x1 x2 x3, refinementTriple c c' = [x1; x2; x3]
    ∧ isCommonPoint x1 = false ∧ isCommonPoint x2 = false ∧ isCommonPoint x3 = false.
Proof. unfold refinementTriple. by eexists _, _, _. Qed.

Lemma splices_refine (cs : list (Point K)) :
  ∀ (pre : list (Point K)) (i : Z),
  Z.of_nat (length pre) = (i * 4)%Z →
  foldl (λ pts (e : Z * Point K), splice_insert e.1 e.2 pts) (pre ++ cs)
        (refinementEntries i cs)
  = pre ++ refineLine cs.
Proof.
  induction cs as [|c cs IH]; intros pre i Hlen; [done|].
  destruct cs as [|c' cs]; [done|].
  rewrite refinementEntries_cons, refineLine_cons, foldl_app.
  destruct (refinementTriple_three c c') as (x1 & x2 & x3 & -> & _).
  cbn [zip zip_with foldl fst snd].
  rewrite splice_triple by done.
  replace (pre ++ c :: x1 :: x2 :: x3 :: c' :: cs)
    with ((pre ++ [c; x1; x2; x3]) ++ c' :: cs) by (by rewrite <- !app_assoc).
  rewrite IH by (rewrite length_app; cbn; lia).
  by rewrite <- !app_assoc.
Qed.

Lemma object_entries_nonneg {A} (l : list (Z * A)) :
  Forall (λ e, (0 ≤ e.1)%Z) l → object_entries l = l.
Proof.
  intros Hl. unfold object_entries.
  rewrite filter_all, filter_none, app_nil_r; [done|..].
  - eapply Forall_impl; [exact Hl|]. cbn. intros e He. by apply Z.ltb_ge.
  - eapply Forall_impl; [exact Hl|]. cbn. intros e He. by apply Z.leb_le.
Qed.

Lemma refinementEntries_nonneg (cs : list (Point K)) (i : Z) :
  (0 ≤ i)%Z → Forall (λ e, (0 ≤ e.1)%Z) (refinementEntries i cs).
Proof.
  revert i. induction cs as [|c cs IH]; intros i Hi; [constructor|].
  destruct cs as [|c' cs]; [constructor|]. rewrite refinementEntries_cons.
  apply Forall_app. split.
  - destruct (refinementTriple_three c c') as (x1 & x2 & x3 & -> & _).
    cbn. repeat constructor; cbn; lia.
  - apply IH. lia.
Qed.

Lemma forEach_alterPoints_line {X} (g : X → list (Point K) → list (Point K)) (es : list X) :
  ∀ d1 m d2 pts t,
  getToolState t = Some (d1 ++ m :: d2) →
  handles m = Some pts →
  forEach es (λ e, updateData (alterPoints (length d1) (g e))) t
  = Return () (with_data (d1 ++ with_handles (foldl (λ pts e, g e pts) pts es) m :: d2) t).
Proof.
  induction es as [|e es IH]; intros d1 m d2 pts t E Hm.
  - cbn. by rewrite (with_handles_id _ _ Hm), (with_data_id _ _ E).
  - cbn [forEach foldl].
    erewrite bind_Return; last first.
    { eapply updateData_Some; [done|]. by apply alterPoints_app_r. }
    erewrite IH; [|by rewrite getToolState_with_data|done].
    by rewrite with_data_with_data.
Qed.

(** The refinement of one primary line: the run [cs] of common points at
    its end, after [pre], gets its refinement points. *)
Lemma refineBody_spec t d1 m d2 pre cs (n : nat) fromSec :
  getToolState t = Some (d1 ++ m :: d2) →
  handles m = Some (pre ++ cs) →
  Forall (λ p, isCommonPoint p = true) cs →
  length pre = 4 * length (List.filter isCommonPoint pre) →
  get_noOfSecondaryLines t = Some (Some n) →
  length (List.filter isCommonPoint pre) + length cs ≤ S n →
  default 0%Z fromSec = Z.of_nat (length (List.filter isCommonPoint pre)) →
  refineBody fromSec (length d1) t
  = Return () (with_data (d1 ++ with_handles (pre ++ refineLine cs) m :: d2) t).
Proof.
  intros E Hm Hcs Hpre Hn Hfuel Hstart.
  pose proof (data_Some _ _ E) as Hd.
  unfold refineBody.
  erewrite bind_Return; last first.
  { apply read_Some. unfold refinementPoints. rewrite Hn. cbn [mbind option_bind].
    rewrite Hstart.
    eapply (refinementPointsLoop_spec t _ (length d1) m (pre ++ cs) cs
              (List.filter isCommonPoint pre)); try done.
    - by apply list_lookup_middle.
    - by rewrite List.filter_app, (filter_all _ cs).
    - unfold numberOf. cbn. lia. }
  rewrite object_entries_nonneg by (apply refinementEntries_nonneg; lia).
  erewrite (forEach_alterPoints_line (λ e, splice_insert e.1 e.2)); [|done..].
  do 5 f_equal. apply splices_refine. lia.
Qed.

End Refinement.

Section Loops.
Context {K : Type} `{Num K}.
Implicit Types (t : Tool K) (d : list (Measurement K)) (m : Measurement K).

(** A loop over the lines of the grid whose body changes its own line
    only. *)
Lemma forEach_lines (body : nat → M K unit) (f : nat → Measurement K → Measurement K)
  (I : Tool K → Prop) (Q : nat → Measurement K → Prop) :
  (∀ t d1 m d2, I t → getToolState t = Some (d1 ++ m :: d2) → Q (length d1) m →
     body (length d1) t = Return () (with_data (d1 ++ f (length d1) m :: d2) t)
     ∧ I (with_data (d1 ++ f (length d1) m :: d2) t)) →
  ∀ d2 d1 t, I t → getToolState t = Some (d1 ++ d2) →
    (∀ i m, d2 !! i = Some m → Q (length d1 + i) m) →
    forEach (seq (length d1) (length d2)) body t
    = Return () (with_data (d1 ++ imap (λ i, f (length d1 + i)) d2) t)
    ∧ I (with_data (d1 ++ imap (λ i, f (length d1 + i)) d2) t).
Proof.
  intros Hstep. induction d2 as [|m d2 IH]; intros d1 t HI E HQ.
  - cbn. rewrite app_nil_r in *. by rewrite (with_data_id _ _ E).
  - cbn [length seq forEach imap].
    destruct (Hstep t d1 m d2 HI E) as [Eb HI'].
    { specialize (HQ 0 m eq_refl). by rewrite Nat.add_0_r in HQ. }
    erewrite bind_Return by exact Eb.
    specialize (IH (d1 ++ [f (length d1) m]) (with_data (d1 ++ f (length d1) m :: d2) t) HI').
    rewrite length_app in IH. cbn [length] in IH. rewrite Nat.add_1_r in IH.
    destruct IH as [IH1 IH2].
    { rewrite getToolState_with_data. by rewrite <- app_assoc. }
    { intros i m' Hi. specialize (HQ (S i) m' Hi).
      by replace (S (length d1) + i) with (length d1 + S i) by lia. }
    assert (imap (λ i, f (S (length d1) + i)) d2 = imap ((λ i, f (length d1 + i)) ∘ S) d2) as Ei.
    { apply imap_ext. intros i x _. cbn. f_equal. lia. }
    rewrite with_data_with_data, <- app_assoc, Ei in IH1, IH2.
    rewrite IH1. by rewrite Nat.add_0_r.
Qed.

Lemma forEach_filter {A} (sel : A → bool) (l : list A) (body : A → M K unit) t :
  forEach (List.filter sel l) body t
  = forEach l (λ a, if sel a then body a else ret ()) t.
Proof.
  revert t. induction l as [|a l IH]; intros t; [done|]. cbn.
  destruct (sel a); cbn [forEach]; unfold bind.
  - destruct (body a t) as [[]|]; [apply IH|done].
  - cbn. apply IH.
Qed.

End Loops.

Section Patterns.
Context {K : Type} `{Num K}.
Implicit Types (t : Tool K) (d : list (Measurement K)) (m : Measurement K).
Implicit Types (cs pts : list (Point K)).

Lemma length_chunks {A} (a b : A) n : length (chunks a b n) = 4 * n.
Proof. induction n as [|n IH]; [done|]. cbn [chunks length]. rewrite IH. lia. Qed.

Lemma length_stride4 {A} (a b : A) n : length (stride4 a b (S n)) = 4 * n + 1.
Proof. cbn [stride4 length]. rewrite length_chunks. lia. Qed.

Lemma chunks_snoc {A} (a b : A) n : chunks a b (S n) = chunks a b n ++ [b; b; b; a].
Proof.
  induction n as [|n IH]; [done|].
  cbn [chunks] in *. cbn [app]. by rewrite <- IH.
Qed.

Lemma stride4_snoc {A} (a b : A) n :
  stride4 a b (S (S n)) = stride4 a b (S n) ++ [b; b; b; a].
Proof. unfold stride4. by rewrite chunks_snoc. Qed.

Lemma chunks_lookup {A} (a b : A) n i x :
  chunks a b n !! i = Some x → x = if (S i mod 4 =? 0)%nat then a else b.
Proof.
  revert i. induction n as [|n IH]; intros i; [done|].
  destruct i as [|[|[|[|i]]]]; cbn [chunks lookup list_lookup]; try by intros [= <-].
  intros E. rewrite (IH _ E).
  replace (S (S (S (S (S i))))) with (S i + 1 * 4) by lia.
  by rewrite Nat.Div0.mod_add.
Qed.

Lemma stride4_lookup {A} (a b : A) n i x :
  stride4 a b n !! i = Some x → x = if (i mod 4 =? 0)%nat then a else b.
Proof.
  destruct n as [|n]; [done|]. destruct i as [|i]; cbn; [by intros [= <-]|].
  apply chunks_lookup.
Qed.

Lemma fmap_chunks {A B} (f : A → B) (a b : A) n :
  f <$> chunks a b n = chunks (f a) (f b) n.
Proof. induction n as [|n IH]; [done|]. cbn. by rewrite <- IH. Qed.

Lemma fmap_stride4 {A B} (f : A → B) (a b : A) n :
  f <$> stride4 a b n = stride4 (f a) (f b) n.
Proof. destruct n; [done|]. cbn. by rewrite fmap_chunks. Qed.

Lemma refinementTriple_flags (p q : Point K) :
  isCommonPoint <$> refinementTriple p q = [false; false; false].
Proof. done. Qed.

Lemma refineLine_flags cs :
  Forall (λ p, isCommonPoint p = true) cs →
  isCommonPoint <$> refineLine cs = stride4 true false (length cs).
Proof.
  induction 1 as [|c cs Hc Hcs IH]; [done|].
  destruct cs as [|c' cs]; [cbn; by rewrite Hc|].
  rewrite refineLine_cons. cbn [fmap list_fmap]. rewrite fmap_app, refinementTriple_flags, IH.
  rewrite Hc. done.
Qed.

Lemma refineLine_filter cs :
  Forall (λ p, isCommonPoint p = true) cs →
  List.filter isCommonPoint (refineLine cs) = cs.
Proof.
  induction 1 as [|c cs Hc Hcs IH]; [done|].
  destruct cs as [|c' cs]; [cbn; by rewrite Hc|].
  rewrite refineLine_cons. cbn [List.filter]. rewrite Hc.
  rewrite List.filter_app, IH. done.
Qed.

Lemma length_refineLine cs : length (refineLine (cs)) = 4 * (length cs - 1) + (if cs is [] then 0 else 1).
Proof.
  induction cs as [|c cs IH]; [done|].
  destruct cs as [|c' cs]; [done|].
  rewrite refineLine_cons. cbn [length]. rewrite length_app, IH. cbn [length refinementTriple]. lia.
Qed.

Lemma head_refineLine cs : head (refineLine cs) = head cs.
Proof. destruct cs as [|c [|c' cs]]; done. Qed.

End Patterns.

Section PhaseA.
Context {K : Type} `{Num K}.
Implicit Types (t : Tool K) (d : list (Measurement K)) (m : Measurement K).
Implicit Types (cs pts : list (Point K)).

Lemma subsidiaryHandles_line sub line start (p1 p2 : list (Point K)) :
  handleOf <$> subsidiaryRow sub line start p1 p2 = subsidiaryHandles sub start p1 p2.
Proof.
  unfold subsidiaryHandles, subsidiaryRow.
  induction (drop start (zip p1 p2)) as [|pq l IH]; [done|].
  cbn [omap list_omap]. unfold subsidiaryCell in *.
  destruct (isCommonPoint pq.1); [|done]. cbn [fmap list_fmap]. by rewrite IH.
Qed.

Lemma pointsOf_Some m pts : handles m = Some pts → pointsOf m = pts.
Proof. unfold pointsOf. by intros ->. Qed.

Lemma get_totalNoOfSecondaryLines_head t x l pts :
  getToolState t = Some (x :: l) → handles x = Some pts →
  get_totalNoOfSecondaryLines t = Some (Some (length pts)).
Proof.
  intros E Hx. unfold get_totalNoOfSecondaryLines.
  rewrite (noGrid_Some _ _ E), (data_Some _ _ E). cbn. by rewrite Hx.
Qed.

Lemma get_noOfSecondaryLines_head t x l pts :
  getToolState t = Some (x :: l) → handles x = Some pts →
  get_noOfSecondaryLines t = Some (Some (length (List.filter isCommonPoint pts))).
Proof.
  intros E Hx. unfold get_noOfSecondaryLines.
  rewrite (noGrid_Some _ _ E), (data_Some _ _ E). cbn. by rewrite Hx.
Qed.

(** The first loop of the enabling of refinement: subsidiary lines between
    every two neighbouring lines. *)
Lemma generateSubsidiaryPrimaryLines_create (T : nat) : ∀ ms pre m t c0 x0 p0,
  getToolState t = Some (pre ++ m :: ms) →
  length pre = 4 * c0 →
  head (pre ++ [m]) = Some x0 → handles x0 = Some p0 → length p0 = T →
  Forall (λ x, ∃ p, handles x = Some p ∧ length p = T ∧ firstPointIsCommon x = Some true)
         (m :: ms) →
  forEach (seq c0 (length ms)) (λ call,
    _generateSubsidiaryPrimaryLine (0 + 4 * Z.of_nat call) None true) t
  = Return () (upd (pre ++ withSubsidiary (nextUuid t) m ms)
                   (nextUuid t + N.of_nat (3 * length ms)) t).
Proof.
  induction ms as [|m' ms IH]; intros pre m t c0 x0 p0 E Hpre Hx0 Hp0 HT Hall.
  - cbn. rewrite N.add_0_r. by rewrite upd_id.
  - cbn [length seq forEach].
    pose proof Hall as Hall0.
    apply Forall_cons in Hall0 as [(p & Hp & Hlen & Hfst) Hall'].
    pose proof Hall' as Hall1.
    apply Forall_cons in Hall1 as [(p' & Hp' & Hlen' & Hfst') _].
    assert (get_totalNoOfSecondaryLines t = Some (Some (length p))) as Htot.
    { rewrite Hlen, <- HT. destruct pre as [|y pre]; cbn in Hx0; injection Hx0 as ->;
        eapply get_totalNoOfSecondaryLines_head; eauto. }
    erewrite bind_Return; last first.
    { replace (0 + 4 * Z.of_nat c0)%Z with (Z.of_nat (length pre)) by lia.
      eapply (_generateSubsidiaryPrimaryLine_create t pre m m' ms p p'); try done.
      congruence. }
    cbv beta zeta. rewrite !subsidiaryHandles_line.
    set (n := nextUuid t).
    set (s0 := mkLine n _). set (s1 := mkLine (N.succ n) _).
    set (s2 := mkLine (N.succ (N.succ n)) _).
    specialize (IH (pre ++ [m; s0; s1; s2]) m'
      (upd (pre ++ m :: s0 :: s1 :: s2 :: m' :: ms) (N.succ (N.succ (N.succ n))) t)
      (S c0) x0 p0).
    rewrite IH; clear IH.
    + rewrite upd_upd, nextUuid_upd. f_equal. f_equal.
      * rewrite <- app_assoc. cbn [app withSubsidiary].
        rewrite (pointsOf_Some _ _ Hp), (pointsOf_Some _ _ Hp'). done.
      * cbn [length]. lia.
    + rewrite getToolState_upd. by rewrite <- app_assoc.
    + rewrite length_app. cbn [length]. lia.
    + destruct pre as [|y pre]; cbn in Hx0 |- *; done.
    + done.
    + done.
    + done.
Qed.

End PhaseA.


Section PhaseB.
Context {K : Type} `{Num K}.
Implicit Types (t : Tool K) (d : list (Measurement K)) (m : Measurement K).
Implicit Types (cs pts : list (Point K)).

Lemma filter_refineFrom k pts :
  Forall (λ p, isCommonPoint p = true) (drop k pts) →
  List.filter isCommonPoint (refineFrom k pts) = List.filter isCommonPoint pts.
Proof.
  intros Hc. unfold refineFrom. rewrite List.filter_app, (refineLine_filter _ Hc).
  rewrite <- (take_drop k pts) at 3. rewrite List.filter_app.
  by rewrite (filter_all _ _ Hc).
Qed.

Lemma refineBody_refineMain t d1 m d2 k n fromSec :
  getToolState t = Some (d1 ++ m :: d2) →
  get_noOfSecondaryLines t = Some (Some n) →
  (length d1 mod 4 = 0 → refinable k n m) →
  (4 * default 0%Z fromSec = Z.of_nat k)%Z →
  (if (length d1 mod 4 =? 0)%nat then refineBody fromSec (length d1) else ret ()) t
  = Return () (with_data (d1 ++ refineMain k (length d1) m :: d2) t)
  ∧ get_noOfSecondaryLines (with_data (d1 ++ refineMain k (length d1) m :: d2) t)
    = Some (Some n).
Proof.
  intros E Hn Hm Hk. unfold refineMain.
  destruct (Nat.eqb_spec (length d1 mod 4) 0) as [E4|E4].
  - destruct (Hm E4) as (pts & Hpts & Hc & Hle & Hlen & Hcnt).
    unfold alterHandles. rewrite Hpts. split.
    + rewrite <- (take_drop k pts) in Hpts.
      apply (refineBody_spec t d1 m d2 (take k pts) (drop k pts) n fromSec);
        try done.
      * rewrite length_take. lia.
      * rewrite <- (take_drop k pts), List.filter_app, length_app in Hcnt.
        by rewrite (filter_all _ _ Hc) in Hcnt.
      * lia.
    + destruct d1 as [|x d1]; cbn [app].
      * erewrite get_noOfSecondaryLines_head;
          [|apply getToolState_with_data|done].
        rewrite (filter_refineFrom _ _ Hc).
        erewrite get_noOfSecondaryLines_head in Hn by done. done.
      * unfold get_noOfSecondaryLines in *.
        rewrite (noGrid_Some _ _ E) in Hn. rewrite (data_Some _ _ E) in Hn.
        erewrite noGrid_Some by apply getToolState_with_data.
        by rewrite data_with_data.
  - by rewrite (with_data_id _ _ E).
Qed.

(** The loop over all the lines that refines the main lines. *)
Lemma forEach_refineMain k n fromSec d t :
  getToolState t = Some d →
  get_noOfSecondaryLines t = Some (Some n) →
  (∀ i m, d !! i = Some m → i mod 4 = 0 → refinable k n m) →
  (4 * default 0%Z fromSec = Z.of_nat k)%Z →
  forEach (seq 0 (length d))
    (λ i, if (i mod 4 =? 0)%nat then refineBody fromSec i else ret ()) t
  = Return () (with_data (imap (refineMain k) d) t).
Proof.
  intros E Hn Hd Hk.
  pose proof (forEach_lines
    (λ i, if (i mod 4 =? 0)%nat then refineBody fromSec i else ret ())
    (refineMain k)
    (λ t, get_noOfSecondaryLines t = Some (Some n))
    (λ i m, i mod 4 = 0 → refinable k n m)) as L.
  destruct (L (λ t d1 m d2 Ht E' Hm, refineBody_refineMain t d1 m d2 k n fromSec E' Ht Hm Hk)
              d [] t Hn E Hd) as [L1 _].
  exact L1.
Qed.

Lemma filter_mod4_four a :
  a mod 4 = 0 →
  List.filter (λ i, (i mod 4 =? 0)%nat) [a + 1; a + 2; a + 3; a + 4] = [a + 4].
Proof.
  intros Ha.
  assert (∀ r, (a + r) mod 4 = r mod 4) as Hr.
  { intros r. rewrite Nat.Div0.add_mod, Ha. cbn [Nat.add]. apply Nat.Div0.mod_mod. }
  unfold List.filter. rewrite !Hr. done.
Qed.

Lemma filter_mod4_seq n :
  List.filter (λ i, (i mod 4 =? 0)%nat) (seq 0 (4 * n + 1))
  = (λ i, i * 4) <$> seq 0 (S n).
Proof.
  induction n as [|n IH]; [done|].
  replace (4 * S n + 1) with ((4 * n + 1) + 4) by lia.
  rewrite seq_app, List.filter_app, IH. rewrite (seq_S (S n)), fmap_app.
  f_equal.
  replace (seq (0 + (4 * n + 1)) 4)
    with [4 * n + 1; 4 * n + 2; 4 * n + 3; 4 * n + 4]
    by (cbn [seq]; repeat f_equal; lia).
  rewrite filter_mod4_four.
  - cbn [fmap list_fmap]. f_equal. lia.
  - by rewrite Nat.mul_comm, Nat.Div0.mod_mul.
Qed.

End PhaseB.

Section Kinds.
Context {K : Type} `{Num K}.
Implicit Types (t : Tool K) (d : list (Measurement K)) (m : Measurement K).
Implicit Types (cs pts : list (Point K)).

Lemma lineFlags_Some m fl :
  lineFlags m = Some fl ↔ ∃ pts, handles m = Some pts ∧ isCommonPoint <$> pts = fl.
Proof.
  unfold lineFlags. destruct (handles m) as [pts|]; split.
  - intros [= <-]. by exists pts.
  - by intros (? & [= <-] & <-).
  - done.
  - by intros (? & ? & _).
Qed.

Lemma lineFlags_with_handles pts m : lineFlags (with_handles pts m) = Some (isCommonPoint <$> pts).
Proof. done. Qed.

Lemma lineFlags_mkLine u pts : lineFlags (mkLine (K:=K) u pts) = Some (isCommonPoint <$> pts).
Proof. done. Qed.

Lemma uuid_with_handles pts m : uuid (with_handles pts m) = uuid m.
Proof. done. Qed.

Lemma uuid_alterHandles f m : uuid (alterHandles f m) = uuid m.
Proof. unfold alterHandles. by destruct (handles m). Qed.

Lemma lineFlags_alterHandles f g m :
  (∀ pts, isCommonPoint <$> f pts = g (isCommonPoint <$> pts)) →
  lineFlags (alterHandles f m) = g <$> lineFlags m.
Proof.
  intros Hfg. unfold alterHandles, lineFlags. destruct (handles m) as [pts|] eqn:E; cbn.
  - by rewrite Hfg.
  - by rewrite E.
Qed.

Lemma firstPointIsCommon_flags m :
  firstPointIsCommon m = lineFlags m ≫= head.
Proof.
  unfold firstPointIsCommon, lineFlags. destruct (handles m) as [[|p pts]|]; done.
Qed.

Lemma flags_all_common pts n :
  isCommonPoint <$> pts = replicate n true ↔
  length pts = n ∧ Forall (λ p, isCommonPoint p = true) pts.
Proof.
  revert n. induction pts as [|p pts IH]; intros [|n]; cbn.
  - split; [by split; [|constructor]|done].
  - split; [done|by intros []].
  - split; [done|by intros []].
  - split.
    + intros [= Hp Hpts]. apply IH in Hpts as [<- ?]. split; [done|by constructor].
    + intros [[= Hl] Hall]. inversion Hall; subst. f_equal; [done|]. by apply IH.
Qed.

Lemma flags_none_common pts n :
  isCommonPoint <$> pts = replicate n false ↔
  length pts = n ∧ Forall (λ p, isCommonPoint p = false) pts.
Proof.
  revert n. induction pts as [|p pts IH]; intros [|n]; cbn.
  - split; [by split; [|constructor]|done].
  - split; [done|by intros []].
  - split; [done|by intros []].
  - split.
    + intros [= Hp Hpts]. apply IH in Hpts as [<- ?]. split; [done|by constructor].
    + intros [[= Hl] Hall]. inversion Hall; subst. f_equal; [done|]. by apply IH.
Qed.

Lemma filter_flags pts :
  isCommonPoint <$> List.filter isCommonPoint pts
  = List.filter (λ b : bool, b) (isCommonPoint <$> pts).
Proof.
  induction pts as [|p pts IH]; [done|]. cbn. destruct (isCommonPoint p) eqn:E; cbn.
  - by rewrite E, IH.
  - done.
Qed.

Lemma length_filter_flags pts :
  length (List.filter isCommonPoint pts)
  = length (List.filter (λ b : bool, b) (isCommonPoint <$> pts)).
Proof. by rewrite <- filter_flags, length_fmap. Qed.

(** The flags of a subsidiary line: one point, not common, for every
    common point of the main line before it. *)
Lemma subsidiaryHandles_flags sub start (p1 p2 : list (Point K)) :
  length p2 = length p1 →
  isCommonPoint <$> subsidiaryHandles sub start p1 p2
  = replicate (length (List.filter isCommonPoint (drop start p1))) false.
Proof.
  intros Hlen. unfold subsidiaryHandles, subsidiaryRow.
  rewrite zip_with_drop.
  assert (length (drop start p2) = length (drop start p1)) as Hlen'
    by (rewrite !length_drop; lia).
  revert Hlen'. generalize (drop start p2) as q2. generalize (drop start p1) as q1.
  induction q1 as [|p q1 IH]; intros [|q q2] Hq; try done.
  cbn [zip_with omap list_omap List.filter]. unfold subsidiaryCell at 1. cbn [fst snd].
  destruct (isCommonPoint p); cbn; rewrite IH; auto.
Qed.

Lemma mapM_fmap_Some {A B} (f : A → option B) (l : list A) (k : list B) :
  f <$> l = Some <$> k → mapM f l = Some k.
Proof.
  revert k. induction l as [|a l IH]; intros [|b k]; try done.
  cbn. intros [= Ha Hl]. rewrite Ha. cbn. by rewrite (IH _ Hl).
Qed.

Lemma count_stride4 n :
  length (List.filter (λ b : bool, b) (stride4 true false n)) = n.
Proof.
  destruct n as [|n]; [done|]. cbn. f_equal.
  induction n as [|n IH]; [done|]. cbn. by rewrite IH.
Qed.

Lemma count_replicate_true n :
  length (List.filter (λ b : bool, b) (replicate n true)) = n.
Proof. induction n as [|n IH]; [done|]. cbn. by rewrite IH. Qed.

Lemma get_noOfPrimaryLines_flags t d fl :
  getToolState t = Some d → d ≠ [] → firstPointIsCommon <$> d = Some <$> fl →
  get_noOfPrimaryLines t = Some (Some (length (List.filter (λ b : bool, b) fl))).
Proof.
  intros E Hne Hfl. unfold get_noOfPrimaryLines.
  rewrite (noGrid_Some _ _ E), (data_Some _ _ E). rewrite bool_decide_eq_false_2 by done.
  by rewrite (mapM_fmap_Some _ _ _ Hfl).
Qed.

Lemma nextMainIn_total (l : list (Measurement K)) idx :
  Forall (λ m, is_Some (firstPointIsCommon m)) l → is_Some (nextMainIn l idx).
Proof.
  intros Hl. revert idx. induction Hl as [|m l [b Hb] _ IH]; intros idx; cbn; [done|].
  rewrite Hb. destruct b; [done|apply IH].
Qed.

Lemma nextMainFrom_total d cur :
  Forall (λ m, is_Some (firstPointIsCommon m)) d → is_Some (nextMainFrom d cur).
Proof. intros Hd. apply nextMainIn_total. by apply Forall_drop. Qed.

Lemma allMainLoop_total d fuel cur :
  Forall (λ m, is_Some (firstPointIsCommon m)) d → is_Some (allMainLoop fuel d cur).
Proof.
  intros Hd. revert cur. induction fuel as [|fuel IH]; intros cur; cbn; [done|].
  destruct (nextMainFrom_total d (Z.of_nat cur) Hd) as [[i|] ->]; cbn; [|done].
  destruct (IH i) as [rest ->]. done.
Qed.

Lemma getAllMainPrimaryLines_total t from :
  Forall (λ m, is_Some (firstPointIsCommon m)) (data t) →
  is_Some (getAllMainPrimaryLines from t).
Proof.
  intros Hd. unfold getAllMainPrimaryLines. destruct (noGrid t); [done|].
  destruct (allMainLoop_total (data t) (length (data t)) (default 0 from) Hd) as [keys ->].
  done.
Qed.

End Kinds.


Section Toggle.
Context {K : Type} `{Num K}.
Implicit Types (t : Tool K) (d : list (Measurement K)) (m : Measurement K).
Implicit Types (cs pts : list (Point K)).

Lemma Forall_firstPointIsCommon d (fl : list (option bool)) :
  firstPointIsCommon <$> d = fl → Forall is_Some fl →
  Forall (λ m, is_Some (firstPointIsCommon m)) d.
Proof. intros <- Hfl. by apply (proj1 (Forall_fmap firstPointIsCommon is_Some d)). Qed.

Lemma Forall_stride4 {A} (P : A → Prop) (a b : A) n :
  P a → P b → Forall P (stride4 a b n).
Proof.
  intros Ha Hb. destruct n as [|n]; [constructor|]. cbn. constructor; [done|].
  induction n as [|n IH]; cbn; repeat constructor; done.
Qed.

(** The refinement of the main lines from the [s]-th common point on. *)
Lemma generateRefinementPoints_from t d n' k n fp s :
  getToolState t = Some d →
  firstPointIsCommon <$> d = stride4 (Some true) (Some false) (S n') →
  get_noOfSecondaryLines t = Some (Some n) →
  (∀ i m, d !! i = Some m → i mod 4 = 0 → refinable k n m) →
  (4 * s = Z.of_nat k)%Z →
  generateRefinementPointsOnCurrentPrimaryLines
    {| fromPrimaryLineIdx := fp; fromSecondaryLineIdx := Some s |} t
  = Return () (with_data (imap (refineMain k) d) t).
Proof.
  intros E Hkind Hn Hd Hk.
  assert (d ≠ []) as Hne by (intros ->; done).
  assert (length d = 4 * n' + 1) as Hlen.
  { rewrite <- (length_fmap firstPointIsCommon), Hkind. apply length_stride4. }
  unfold generateRefinementPointsOnCurrentPrimaryLines.
  unfold bind at 1. unfold getTool at 1.
  rewrite (noGrid_Some _ _ E), bool_decide_eq_false_2 by done.
  destruct (getAllMainPrimaryLines_total t (orNull fp)) as [keys0 Hkeys0].
  { rewrite (data_Some _ _ E). eapply Forall_firstPointIsCommon; [done|].
    by apply Forall_stride4. }
  erewrite bind_Return by (by apply read_Some).
  cbn [fromSecondaryLineIdx].
  erewrite bind_Return; last first.
  { erewrite bind_Return; [reflexivity|]. apply read_Some.
    eapply get_noOfPrimaryLines_flags; [done..|].
    rewrite Hkind. symmetry. apply fmap_stride4. }
  rewrite count_stride4. unfold default, Datatypes.id.
  change (forEach ((λ i, i * 4) <$> seq 0 (S n')) (refineBody (Some s)) t = 
          Return () (with_data (imap (refineMain k) d) t)).
  rewrite <- filter_mod4_seq, <- Hlen.
  rewrite (forEach_filter (λ i, (i mod 4 =? 0)%nat) (seq 0 (length d))).
  by apply (forEach_refineMain k n (Some s)).
Qed.

End Toggle.

Section Grid4.
Context {K : Type} `{Num K}.
Implicit Types (t : Tool K) (d : list (Measurement K)) (m : Measurement K).
Implicit Types (PM PS : Measurement K → Prop).

Lemma Grid4_mono PM PS PM' PS' d :
  (∀ m, PM m → PM' m) → (∀ m, PS m → PS' m) → Grid4 PM PS d → Grid4 PM' PS' d.
Proof. intros HM HS. induction 1; constructor; auto. Qed.

Lemma Grid4_and PM PS PM' PS' d :
  Grid4 PM PS d → Grid4 PM' PS' d → Grid4 (λ m, PM m ∧ PM' m) (λ m, PS m ∧ PS' m) d.
Proof.
  induction 1 as [m|m s1 s2 s3 d ????? IH]; inversion 1; subst; constructor; auto.
Qed.

Lemma Grid4_lookup PM PS d i x :
  Grid4 PM PS d → d !! i = Some x → if (i mod 4 =? 0)%nat then PM x else PS x.
Proof.
  intros G. revert i. induction G as [m|m s1 s2 s3 d ????? IH]; intros i.
  - destruct i as [|i]; [|done]. by intros [= <-].
  - destruct i as [|[|[|[|i]]]]; try by intros [= <-].
    intros E. specialize (IH i E).
    replace (S (S (S (S i)))) with (i + 1 * 4) by lia.
    by rewrite Nat.Div0.mod_add.
Qed.

Lemma Grid4_lookup_main PM PS d i x :
  Grid4 PM PS d → d !! i = Some x → i mod 4 = 0 → PM x.
Proof. intros G E Hi. pose proof (Grid4_lookup _ _ _ _ _ G E) as L. by rewrite Hi in L. Qed.

Lemma Grid4_lookup_sub PM PS d i x :
  Grid4 PM PS d → d !! i = Some x → i mod 4 ≠ 0 → PS x.
Proof.
  intros G E Hi. pose proof (Grid4_lookup _ _ _ _ _ G E) as L.
  by destruct (Nat.eqb_spec (i mod 4) 0).
Qed.

Lemma Grid4_Forall P d : Grid4 P P d ↔ Forall P d ∧ ∃ n, length d = 4 * n + 1.
Proof.
  split.
  - induction 1 as [m|m s1 s2 s3 d ????? [IH1 [n IH2]]].
    + split; [by repeat constructor|by exists 0].
    + split; [by repeat constructor|]. exists (S n). cbn [length]. lia.
  - intros [Hall [n Hlen]]. revert d Hall Hlen. induction n as [|n IH]; intros d Hall Hlen.
    + destruct d as [|m [|]]; try done. inversion Hall; subst. by constructor.
    + destruct d as [|m [|s1 [|s2 [|s3 d]]]]; try (cbn in Hlen; lia).
      inversion Hall as [|?? ? Hall1]; subst. inversion Hall1 as [|?? ? Hall2]; subst.
      inversion Hall2 as [|?? ? Hall3]; subst. inversion Hall3 as [|?? ? Hall4]; subst.
      constructor; try done. apply IH; [done|]. cbn [length] in Hlen. lia.
Qed.

Lemma Grid4_fmap {B} (f : Measurement K → B) (a b : B) d :
  Grid4 (λ m, f m = a) (λ m, f m = b) d ↔ ∃ n, f <$> d = stride4 a b (S n).
Proof.
  split.
  - induction 1 as [m Hm|m s1 s2 s3 d Hm H1 H2 H3 _ [n IH]].
    + exists 0. cbn. by rewrite Hm.
    + exists (S n). cbn [fmap list_fmap]. rewrite Hm, H1, H2, H3, IH. done.
  - intros [n Hn]. revert d Hn. induction n as [|n IH]; intros d Hn.
    + destruct d as [|m [|]]; try done. injection Hn as Hm. by constructor.
    + destruct d as [|m [|s1 [|s2 [|s3 d]]]]; try done.
      cbn in Hn. injection Hn as Hm H1 H2 H3 Hd.
      constructor; try done. apply IH.
      destruct d as [|m' d]; [done|]. cbn in Hd |- *. by injection Hd as -> ->.
Qed.

Lemma Grid4_length PM PS d : Grid4 PM PS d → ∃ n, length d = 4 * n + 1.
Proof.
  induction 1 as [m|m s1 s2 s3 d ????? [n IH]]; [by exists 0|].
  exists (S n). cbn [length]. lia.
Qed.

Lemma Grid4_nonempty PM PS d : Grid4 PM PS d → d ≠ [].
Proof. by inversion 1. Qed.

Lemma imap_refineMain_cons k m s1 s2 s3 d :
  imap (refineMain k) (m :: s1 :: s2 :: s3 :: d)
  = alterHandles (refineFrom k) m :: s1 :: s2 :: s3 :: imap (refineMain k) d.
Proof.
  cbn [imap]. unfold refineMain at 1 2 3 4. cbn. do 4 f_equal.
  apply imap_ext. intros i x _. cbn. unfold refineMain.
  replace (S (S (S (S i)))) with (i + 1 * 4) by lia.
  by rewrite Nat.Div0.mod_add.
Qed.

Lemma Grid4_imap_refineMain PM PS PM' k d :
  (∀ m, PM m → PM' (alterHandles (refineFrom k) m)) →
  Grid4 PM PS d → Grid4 PM' PS (imap (refineMain k) d).
Proof.
  intros HM. induction 1 as [m|m s1 s2 s3 d ????? IH].
  - constructor. by apply HM.
  - rewrite imap_refineMain_cons. constructor; auto.
Qed.

Lemma everyFourth_imap_refineMain k d :
  everyFourth (imap (refineMain k) d) = alterHandles (refineFrom k) <$> everyFourth d.
Proof.
  remember (length d) as n eqn:Hn. revert d Hn.
  induction (lt_wf n) as [n _ IH]; intros d ->.
  destruct d as [|m [|s1 [|s2 [|s3 d]]]]; try done.
  rewrite imap_refineMain_cons. cbn [everyFourth fmap list_fmap]. f_equal.
  eapply IH; [|done]. cbn [length]. lia.
Qed.

Lemma everyFourth_withSubsidiary n m ms : everyFourth (withSubsidiary n m ms) = m :: ms.
Proof.
  revert n m. induction ms as [|m' ms IH]; intros n m; [done|].
  cbn [withSubsidiary everyFourth]. by rewrite IH.
Qed.

Lemma Grid4_withSubsidiary PM PS n m ms :
  Forall PM (m :: ms) →
  (∀ u sub x y, PM x → PM y →
     PS (mkLine u (subsidiaryHandles sub 0 (pointsOf x) (pointsOf y)))) →
  Grid4 PM PS (withSubsidiary n m ms).
Proof.
  intros Hall HS. revert n m Hall. induction ms as [|m' ms IH]; intros n m Hall.
  - constructor. by inversion Hall.
  - inversion Hall as [|?? Hm Hall']; subst. inversion Hall' as [|?? Hm' _]; subst.
    cbn [withSubsidiary]. constructor; auto.
Qed.

End Grid4.


Section Enable.
Context {K : Type} `{Num K}.
Implicit Types (t : Tool K) (d : list (Measurement K)) (m : Measurement K).

Lemma commonLine_inv n m :
  commonLine n m →
  ∃ pts, handles m = Some pts ∧ length pts = n
         ∧ Forall (λ p, isCommonPoint p = true) pts.
Proof.
  intros (pts & Hpts & Hfl)%lineFlags_Some. exists pts.
  by apply flags_all_common in Hfl as [? ?].
Qed.

Lemma commonLine_first n m : commonLine (S n) m → firstPointIsCommon m = Some true.
Proof. intros Hm. rewrite firstPointIsCommon_flags, Hm. done. Qed.

Lemma subsidiaryLine_first n m : subsidiaryLine (S n) m → firstPointIsCommon m = Some false.
Proof. intros Hm. rewrite firstPointIsCommon_flags, Hm. done. Qed.

Lemma refinedLine_first n m : refinedLine (S n) m → firstPointIsCommon m = Some true.
Proof. intros Hm. rewrite firstPointIsCommon_flags, Hm. done. Qed.

Lemma commonLine_refinable n m : commonLine n m → refinable 0 n m.
Proof.
  intros (pts & Hpts & Hlen & Hall)%commonLine_inv. exists pts.
  rewrite drop_0, take_0. repeat split; try done; try lia.
  rewrite (filter_all _ _ Hall). lia.
Qed.

Lemma subsidiaryLine_between n u sub x y :
  commonLine n x → commonLine n y →
  subsidiaryLine n (mkLine u (subsidiaryHandles sub 0 (pointsOf x) (pointsOf y))).
Proof.
  intros (p & Hp & Hlen & Hall)%commonLine_inv (q & Hq & Hlen' & _)%commonLine_inv.
  unfold subsidiaryLine. rewrite lineFlags_mkLine.
  rewrite (pointsOf_Some _ _ Hp), (pointsOf_Some _ _ Hq).
  rewrite subsidiaryHandles_flags by congruence.
  by rewrite drop_0, (filter_all _ _ Hall), Hlen.
Qed.

Lemma refinedLine_refine n m :
  commonLine n m → refinedLine n (alterHandles (refineFrom 0) m).
Proof.
  intros (pts & Hpts & Hlen & Hall)%commonLine_inv.
  unfold refinedLine, alterHandles. rewrite Hpts, lineFlags_with_handles.
  unfold refineFrom. rewrite take_0, drop_0. cbn [app].
  by rewrite (refineLine_flags _ Hall), Hlen.
Qed.

(** Enabling refinement on an unrefined grid whose lines have as many
    points as each other. *)
Lemma set_showRefinementPoints_true_spec t m ms n :
  getToolState t = Some (m :: ms) →
  Forall (commonLine (S n)) (m :: ms) →
  showRefinementPoints (configuration t) !! imageId t ≠ Some true →
  set_showRefinementPoints (JsBoolean true) t
  = Return () (showRefinementPointsSet true
                 (upd (refinedGrid (nextUuid t) m ms)
                      (nextUuid t + N.of_nat (3 * length ms)) t)).
Proof.
  intros E Hall Hflag.
  pose proof Hall as Hm. apply Forall_cons in Hm as [Hm _].
  destruct (commonLine_inv _ _ Hm) as (p & Hp & Hlen & Hcommon).
  unfold set_showRefinementPoints. unfold bind at 1. unfold getTool at 1.
  rewrite bool_decide_eq_false_2 by done.
  assert (get_totalNoOfPrimaryLines t = Some (S (length ms))) as ->.
  { unfold get_totalNoOfPrimaryLines. by rewrite (noGrid_Some _ _ E), (data_Some _ _ E). }
  erewrite bind_Return; last first.
  { erewrite bind_Return; last first.
    { unfold generateSubsidiaryPrimaryLines.
      replace (Z.to_nat (numberOf (Some (S (length ms))) - 1 - 0)) with (length ms)
        by (unfold numberOf, default, from_option, Datatypes.id; lia).
      eapply (generateSubsidiaryPrimaryLines_create (S n) ms [] m t 0 m p); try done.
      eapply Forall_impl; [exact Hall|]. intros x Hx.
      destruct (commonLine_inv _ _ Hx) as (q & Hq & Hlenq & _).
      exists q. repeat split; try done. by eapply commonLine_first. }
    cbn [app].
    set (G := Grid4_withSubsidiary (commonLine (S n)) (subsidiaryLine (S n))
                (nextUuid t) m ms Hall (λ u sub x y, subsidiaryLine_between (S n) u sub x y)).
    eapply (generateRefinementPoints_from _ _ (length ms) 0 (S n) (Some 0) 0%Z).
    - apply getToolState_upd.
    - pose proof (Grid4_mono _ _ (λ x, firstPointIsCommon x = Some true)
        (λ x, firstPointIsCommon x = Some false) _
        (commonLine_first n) (subsidiaryLine_first n) G) as G'.
      apply Grid4_fmap in G' as [n' Hn']. rewrite Hn'. do 2 f_equal.
      apply (f_equal length) in Hn'. rewrite length_fmap, length_stride4 in Hn'.
      assert (length (withSubsidiary (nextUuid t) m ms) = 4 * length ms + 1) as Hl.
      { clear. generalize (nextUuid t). revert m.
        induction ms as [|m' ms IH]; intros m u; [done|].
        cbn [withSubsidiary length]. rewrite IH. lia. }
      lia.
    - assert (∃ l, withSubsidiary (nextUuid t) m ms = m :: l) as [l Hl]
        by (destruct ms; eexists; reflexivity).
      rewrite (get_noOfSecondaryLines_head _ m l p).
      + by rewrite (filter_all _ _ Hcommon), Hlen.
      + by rewrite getToolState_upd, Hl.
      + done.
    - intros i x Hi Hmod. apply commonLine_refinable.
      by apply (Grid4_lookup_main _ _ _ _ _ G Hi).
    - done. }
  rewrite with_data_upd. done.
Qed.

End Enable.

Section Disable.
Context {K : Type} `{Num K}.
Implicit Types (t : Tool K) (d : list (Measurement K)) (m : Measurement K).

Lemma removeIfEmpty_last t a x tail pts :
  getToolState t = Some (a ++ x :: tail) → handles x = Some pts →
  removeIfEmpty (length a) t
  = Return () (with_data (a ++ (if hasPoints x then [x] else []) ++ tail) t).
Proof.
  intros E Hx. unfold removeIfEmpty. unfold bind at 1. unfold getTool at 1.
  rewrite E. cbn [mbind option_bind]. unfold linePoints.
  rewrite list_lookup_middle by done. cbn [mbind option_bind]. rewrite Hx.
  unfold orTypeError at 1. unfold bind at 1. unfold ret at 1.
  unfold hasPoints. rewrite (pointsOf_Some _ _ Hx).
  destruct pts as [|p pts].
  - erewrite updateData_Some; [|done|reflexivity]. do 2 f_equal.
    rewrite delete_middle. done.
  - unfold ret. cbn [app]. by rewrite (with_data_id _ _ E).
Qed.

Lemma forEach_removeIfEmpty l : ∀ m tail t,
  getToolState t = Some ((m :: l) ++ tail) →
  Forall (λ x, is_Some (handles x)) l →
  forEach (rev (seq 1 (length l))) removeIfEmpty t
  = Return () (with_data ((m :: List.filter hasPoints l) ++ tail) t).
Proof.
  induction l as [|x l IH] using rev_ind; intros m tail t E Hall.
  - cbn in *. by rewrite (with_data_id _ _ E).
  - apply Forall_app in Hall as [Hall Hx]. apply Forall_cons in Hx as [[pts Hx] _].
    rewrite length_app. cbn [length]. rewrite Nat.add_1_r, seq_S, rev_app_distr.
    cbn [rev app forEach].
    erewrite bind_Return; last first.
    { replace (1 + length l) with (length (m :: l)) by done.
      eapply removeIfEmpty_last; [|done]. rewrite E. f_equal.
      by rewrite app_comm_cons, <- app_assoc. }
    rewrite (IH m ((if hasPoints x then [x] else []) ++ tail)); [|by rewrite getToolState_with_data|done].
    rewrite with_data_with_data. do 2 f_equal.
    rewrite List.filter_app. cbn [List.filter].
    destruct (hasPoints x); cbn [app]; by rewrite ?app_nil_r, <- ?app_assoc.
Qed.

Lemma removeAllRefinementPoints_spec t d :
  getToolState t = Some d → d ≠ [] →
  Forall (λ x, is_Some (handles x)) d →
  removeAllRefinementPoints t
  = Return () (with_data (dropEmpty (alterHandles (List.filter isCommonPoint) <$> d)) t).
Proof.
  intros E Hne Hall. unfold removeAllRefinementPoints.
  unfold bind at 1. unfold getTool at 1.
  rewrite (noGrid_Some _ _ E), bool_decide_eq_false_2 by done.
  rewrite (data_Some _ _ E).
  erewrite bind_Return; last first.
  { by apply (forEach_alterPoints_all _ d [] t). }
  cbn [app]. unfold bind at 1. unfold getTool at 1. rewrite data_with_data.
  destruct d as [|m l]; [done|]. cbn [fmap list_fmap length].
  replace (S (length (alterHandles (List.filter isCommonPoint) <$> l)) - 1)
    with (length (alterHandles (List.filter isCommonPoint) <$> l)) by lia.
  etransitivity; [eapply (forEach_removeIfEmpty _ (alterHandles (List.filter isCommonPoint) m) [])|].
  - rewrite getToolState_with_data, app_nil_r. done.
  - apply Forall_fmap. apply Forall_cons in Hall as [_ Hall].
    eapply Forall_impl; [exact Hall|]. intros x [pts Hx]. cbn.
    unfold alterHandles. rewrite Hx. done.
  - rewrite with_data_with_data, app_nil_r. done.
Qed.

Lemma set_showRefinementPoints_false_spec t d :
  getToolState t = Some d → d ≠ [] →
  Forall (λ x, is_Some (handles x)) d →
  showRefinementPoints (configuration t) !! imageId t ≠ Some false →
  set_showRefinementPoints (JsBoolean false) t
  = Return () (showRefinementPointsSet false
                 (with_data (dropEmpty (alterHandles (List.filter isCommonPoint) <$> d)) t)).
Proof.
  intros E Hne Hall Hflag.
  unfold set_showRefinementPoints. unfold bind at 1. unfold getTool at 1.
  rewrite bool_decide_eq_false_2 by done.
  erewrite bind_Return by (by apply removeAllRefinementPoints_spec).
  done.
Qed.

End Disable.

Section Restore.
Context {K : Type} `{Num K}.
Implicit Types (t : Tool K) (d : list (Measurement K)) (m : Measurement K).

Lemma with_handles_with_handles (p q : list (Point K)) m :
  with_handles q (with_handles p m) = with_handles q m.
Proof. done. Qed.

Lemma filter_hasPoints_Grid4 PM PS (g : Measurement K → Measurement K) d :
  Grid4 PM PS d →
  (∀ m, PM m → hasPoints (g m) = true) →
  (∀ s, PS s → hasPoints (g s) = false) →
  List.filter hasPoints (g <$> d) = g <$> everyFourth d.
Proof.
  intros G HM HS. induction G as [m Hm|m s1 s2 s3 d Hm H1 H2 H3 G IH].
  - cbn. by rewrite (HM _ Hm).
  - cbn [fmap list_fmap List.filter everyFourth].
    rewrite (HM _ Hm), (HS _ H1), (HS _ H2), (HS _ H3). by rewrite IH.
Qed.

Lemma dropEmpty_filter d :
  (∀ m, head d = Some m → hasPoints m = true) →
  dropEmpty d = List.filter hasPoints d.
Proof. destruct d as [|m l]; [done|]. intros Hm. cbn. by rewrite (Hm m). Qed.

Lemma strip_subsidiaryLine n (s : Measurement K) :
  subsidiaryLine n s → hasPoints (alterHandles (List.filter isCommonPoint) s) = false.
Proof.
  intros (pts & Hpts & Hfl)%lineFlags_Some. apply flags_none_common in Hfl as [_ Hnone].
  unfold alterHandles, hasPoints, pointsOf. rewrite Hpts. cbn.
  rewrite filter_none; [done|]. eapply Forall_impl; [exact Hnone|].
  intros p Hp. by rewrite Hp.
Qed.

Lemma strip_refinedLine n m :
  refinedLine (S n) m → hasPoints (alterHandles (List.filter isCommonPoint) m) = true.
Proof.
  intros (pts & Hpts & Hfl)%lineFlags_Some.
  unfold alterHandles, hasPoints, pointsOf. rewrite Hpts. cbn.
  destruct pts as [|p pts]; [done|]. cbn in Hfl. injection Hfl as Hp _.
  cbn. by rewrite Hp.
Qed.

Lemma strip_commonLine n m :
  commonLine (S n) m → hasPoints (alterHandles (List.filter isCommonPoint) m) = true.
Proof.
  intros (pts & Hpts & Hfl)%lineFlags_Some.
  unfold alterHandles, hasPoints, pointsOf. rewrite Hpts. cbn.
  destruct pts as [|p pts]; [done|]. cbn in Hfl. injection Hfl as Hp _.
  cbn. by rewrite Hp.
Qed.

Lemma strip_refine n m :
  commonLine n m →
  alterHandles (List.filter isCommonPoint) (alterHandles (refineFrom 0) m) = m.
Proof.
  intros (pts & Hpts & _ & Hall)%commonLine_inv.
  unfold alterHandles at 2. rewrite Hpts. unfold alterHandles. cbn [handles with_handles].
  rewrite with_handles_with_handles. unfold refineFrom. rewrite take_0, drop_0. cbn [app].
  rewrite (refineLine_filter _ Hall). by apply with_handles_id.
Qed.

(** Removing the refinement points of a refined grid leaves its main
    lines, with their common points. *)
Lemma dropEmpty_refined n d :
  Grid4 (refinedLine (S n)) (subsidiaryLine (S n)) d →
  dropEmpty (alterHandles (List.filter isCommonPoint) <$> d)
  = alterHandles (List.filter isCommonPoint) <$> everyFourth d.
Proof.
  intros G. rewrite dropEmpty_filter.
  - eapply filter_hasPoints_Grid4; [exact G|..].
    + apply strip_refinedLine.
    + apply strip_subsidiaryLine.
  - intros m Hm. inversion G; subst; cbn in Hm; injection Hm as <-;
      by eapply strip_refinedLine.
Qed.

(** What enabling refinement makes, disabling it undoes. *)
Lemma dropEmpty_refinedGrid n u m ms :
  Forall (commonLine (S n)) (m :: ms) →
  dropEmpty (alterHandles (List.filter isCommonPoint) <$> refinedGrid u m ms) = m :: ms.
Proof.
  intros Hall.
  pose proof (Grid4_withSubsidiary (commonLine (S n)) (subsidiaryLine (S n))
                u m ms Hall (λ u sub x y, subsidiaryLine_between (S n) u sub x y)) as G.
  pose proof (Grid4_imap_refineMain _ _ (refinedLine (S n)) 0 _
                (refinedLine_refine (S n)) G) as G'.
  unfold refinedGrid. rewrite (dropEmpty_refined n _ G').
  rewrite everyFourth_imap_refineMain, everyFourth_withSubsidiary.
  rewrite <- list_fmap_compose.
  induction Hall as [|x l Hx _ IH]; [done|].
  cbn [fmap list_fmap]. cbn [compose]. by rewrite (strip_refine _ _ Hx), IH.
Qed.

End Restore.

Section Toggle.
Context {K : Type} `{Num K}.
Implicit Types (t : Tool K) (d : list (Measurement K)) (m : Measurement K).

Lemma data_nonempty t m l : data t = m :: l → getToolState t = Some (m :: l).
Proof. unfold data. destruct (getToolState t) as [d|]; cbn; [by intros ->|done]. Qed.

Lemma unrefinedGrid_inv P S t :
  unrefinedGrid (Datatypes.S P) S t →
  ∃ m ms, getToolState t = Some (m :: ms) ∧ length ms = P
          ∧ Forall (commonLine S) (m :: ms).
Proof.
  unfold unrefinedGrid. intros Hfl.
  destruct (data t) as [|m ms] eqn:Hd; [done|]. exists m, ms.
  split; [by apply data_nonempty|]. split.
  - apply (f_equal length) in Hfl. rewrite length_fmap, length_replicate in Hfl.
    cbn in Hfl. lia.
  - apply (proj1 (Forall_fmap lineFlags (λ fl, fl = Some (replicate S true)) (m :: ms))).
    rewrite Hfl. by apply Forall_replicate.
Qed.

Lemma getToolState_showRefinementPointsSet v t :
  getToolState (showRefinementPointsSet v t) = getToolState t.
Proof. done. Qed.

Lemma data_showRefinementPointsSet v t : data (showRefinementPointsSet v t) = data t.
Proof. done. Qed.

Lemma imageId_showRefinementPointsSet v t : imageId (showRefinementPointsSet v t) = imageId t.
Proof. done. Qed.

Lemma flag_showRefinementPointsSet v t :
  showRefinementPoints (configuration (showRefinementPointsSet v t))
    !! imageId (showRefinementPointsSet v t) = Some v.
Proof. cbn. apply lookup_insert_eq. Qed.

Lemma global_showRefinementPointsSet v t :
  showRefinementPoints (configuration (showRefinementPointsSet v t)) !! "global" = Some v.
Proof. cbn. apply lookup_insert_global. Qed.

Lemma length_withSubsidiary n m ms : length (withSubsidiary n m ms) = 4 * length ms + 1.
Proof.
  revert n m. induction ms as [|m' ms IH]; intros n m; [done|].
  cbn [withSubsidiary length]. rewrite IH. lia.
Qed.

Lemma Grid4_refinedGrid n u m ms :
  Forall (commonLine n) (m :: ms) →
  Grid4 (refinedLine n) (subsidiaryLine n) (refinedGrid u m ms).
Proof.
  intros Hall. apply (Grid4_imap_refineMain (commonLine n) _ _ 0).
  - apply refinedLine_refine.
  - apply Grid4_withSubsidiary; [done|]. intros. by apply subsidiaryLine_between.
Qed.

Lemma length_refinedGrid u m ms : length (refinedGrid u m ms) = 4 * length ms + 1.
Proof. unfold refinedGrid. by rewrite length_imap, length_withSubsidiary. Qed.

Lemma Grid4_handles PM PS d :
  Grid4 PM PS d → (∀ m, PM m → is_Some (handles m)) → (∀ m, PS m → is_Some (handles m)) →
  Forall (λ m, is_Some (handles m)) d.
Proof. intros G HM HS. induction G; repeat constructor; auto. Qed.

Lemma lineFlags_handles m fl : lineFlags m = Some fl → is_Some (handles m).
Proof. intros (pts & -> & _)%lineFlags_Some. done. Qed.

End Toggle.

Section Counts.
Context {K : Type} `{Num K}.
Implicit Types (t : Tool K) (d : list (Measurement K)) (m : Measurement K).

Lemma Grid4_kinds PM PS d :
  Grid4 PM PS d →
  (∀ m, PM m → firstPointIsCommon m = Some true) →
  (∀ m, PS m → firstPointIsCommon m = Some false) →
  ∃ p, length d = 4 * p + 1
       ∧ firstPointIsCommon <$> d = stride4 (Some true) (Some false) (S p).
Proof.
  intros G HM HS.
  pose proof (Grid4_mono _ _ (λ x, firstPointIsCommon x = Some true)
                (λ x, firstPointIsCommon x = Some false) _ HM HS G) as G'.
  apply Grid4_fmap in G' as [p Hp]. exists p. split; [|done].
  apply (f_equal length) in Hp. by rewrite length_fmap, length_stride4 in Hp.
Qed.

Lemma get_noOfPrimaryLines_Grid4 PM PS t d p :
  getToolState t = Some d → Grid4 PM PS d →
  (∀ m, PM m → firstPointIsCommon m = Some true) →
  (∀ m, PS m → firstPointIsCommon m = Some false) →
  length d = 4 * p + 1 →
  get_noOfPrimaryLines t = Some (Some (S p)).
Proof.
  intros E G HM HS Hlen.
  destruct (Grid4_kinds _ _ _ G HM HS) as (p' & Hlen' & Hk).
  assert (p' = p) as -> by lia.
  erewrite get_noOfPrimaryLines_flags; [|done|by eapply Grid4_nonempty|].
  - by rewrite count_stride4.
  - rewrite Hk. symmetry. apply fmap_stride4.
Qed.

Lemma get_totalNoOfPrimaryLines_Some t d :
  getToolState t = Some d → d ≠ [] → get_totalNoOfPrimaryLines t = Some (length d).
Proof.
  intros E Hne. unfold get_totalNoOfPrimaryLines.
  by rewrite (noGrid_Some _ _ E), (data_Some _ _ E), bool_decide_eq_false_2.
Qed.

Lemma refinedLine_length n m : refinedLine (S n) m → length (pointsOf m) = 4 * n + 1.
Proof.
  intros (pts & Hpts & Hfl)%lineFlags_Some. rewrite (pointsOf_Some _ _ Hpts).
  apply (f_equal length) in Hfl. by rewrite length_fmap, length_stride4 in Hfl.
Qed.

End Counts.

Section ToggleClaims.
Context {K : Type} `{Num K}.
Implicit Types (t : Tool K) (d : list (Measurement K)) (m : Measurement K).

(** C3: on a grid without refinement of 3 lines with 3 common points each,
    for which refinement is not on, setting showRefinementPoints to true
    returns; after it the grid has 9 primary lines in total, 3 of them
    main lines, and every main line has 9 points. *)
Theorem enabling_refinement_3x3 t :
  unrefinedGrid 3 3 t → ¬ refinementEnabled t →
  ∃ t', set_showRefinementPoints (JsBoolean true) t = Return () t'
    ∧ get_totalNoOfPrimaryLines t' = Some 9
    ∧ get_noOfPrimaryLines t' = Some (Some 3)
    ∧ ∀ m, m ∈ data t' → firstPointIsCommon m = Some true → length (pointsOf m) = 9.
Proof.
  intros (m & ms & E & Hlen & Hall)%unrefinedGrid_inv Hflag.
  eexists. split; [by eapply set_showRefinementPoints_true_spec|].
  set (t' := showRefinementPointsSet _ _).
  assert (getToolState t' = Some (refinedGrid (nextUuid t) m ms)) as E'
    by apply getToolState_upd.
  pose proof (Grid4_refinedGrid 3 (nextUuid t) m ms Hall) as G.
  pose proof (length_refinedGrid (nextUuid t) m ms) as Hl. rewrite Hlen in Hl.
  split; [|split].
  - rewrite (get_totalNoOfPrimaryLines_Some _ _ E'); [by rewrite Hl|].
    by eapply Grid4_nonempty.
  - eapply (get_noOfPrimaryLines_Grid4 _ _ _ _ 2 E' G); [| |done].
    + apply (refinedLine_first 2).
    + apply (subsidiaryLine_first 2).
  - intros x Hx Hfirst. rewrite (data_Some _ _ E') in Hx.
    apply list_elem_of_lookup in Hx as [i Hi].
    pose proof (Grid4_lookup _ _ _ _ _ G Hi) as L.
    destruct (i mod 4 =? 0)%nat.
    + by rewrite (refinedLine_length 2 _ L).
    + apply (subsidiaryLine_first 2) in L. congruence.
Qed.

(** C4: on a grid without refinement, [P] lines of [S] common points each,
    for which refinement is not on, setting showRefinementPoints to true
    and then to false returns both times and leaves the lines as they were
    before: the same lines with the same points, at the same coordinates,
    every one of them a common point. *)
Theorem refinement_toggle_restores t P S :
  0 < P → 0 < S → unrefinedGrid P S t → ¬ refinementEnabled t →
  ∃ t1 t2, set_showRefinementPoints (JsBoolean true) t = Return () t1
    ∧ set_showRefinementPoints (JsBoolean false) t1 = Return () t2
    ∧ data t2 = data t
    ∧ Forall (λ m, Forall (λ p, isCommonPoint p = true) (pointsOf m)) (data t2).
Proof.
  intros HP HS Hgrid Hflag.
  destruct P as [|P]; [lia|]. destruct S as [|S]; [lia|].
  destruct (unrefinedGrid_inv _ _ _ Hgrid) as (m & ms & E & Hlen & Hall).
  eexists. eexists. split; [by eapply set_showRefinementPoints_true_spec|].
  set (t1 := showRefinementPointsSet _ _).
  assert (getToolState t1 = Some (refinedGrid (nextUuid t) m ms)) as E1
    by apply getToolState_upd.
  pose proof (Grid4_refinedGrid (Datatypes.S S) (nextUuid t) m ms Hall) as G.
  split; [|split].
  - eapply set_showRefinementPoints_false_spec; [exact E1|by eapply Grid4_nonempty|..].
    + eapply Grid4_handles; [exact G|..]; intros x Hx; by eapply lineFlags_handles.
    + unfold t1. by rewrite flag_showRefinementPointsSet.
  - rewrite data_showRefinementPointsSet, data_with_data.
    rewrite (dropEmpty_refinedGrid _ _ _ _ Hall). by rewrite (data_Some _ _ E).
  - rewrite data_showRefinementPointsSet, data_with_data.
    rewrite (dropEmpty_refinedGrid _ _ _ _ Hall).
    eapply Forall_impl; [exact Hall|]. intros x (pts & Hpts & _ & Hc)%commonLine_inv.
    by rewrite (pointsOf_Some _ _ Hpts).
Qed.

End ToggleClaims.

Section NextMain.
Context {K : Type} `{Num K}.
Implicit Types (t : Tool K) (d l pre : list (Measurement K)) (m ml x : Measurement K).

Lemma previousMainFrom_app d l cur :
  cur ≤ length d → previousMainFrom (d ++ l) cur = previousMainFrom d cur.
Proof.
  induction cur as [|k IH]; intros Hk; [done|]. cbn.
  rewrite lookup_app_l by lia. rewrite IH by lia. done.
Qed.

Lemma previousMainFrom_total d cur :
  Forall (λ m, is_Some (firstPointIsCommon m)) d → cur ≤ length d →
  ∃ r, previousMainFrom d cur = Some r
       ∧ ∀ j, r = Some j → j < cur ∧ ∃ m, d !! j = Some m ∧ isMainLine m.
Proof.
  intros Hall. induction cur as [|k IH]; intros Hk.
  - exists None. by split.
  - cbn. destruct (lookup_lt_is_Some_2 d k) as [m Hm]; [lia|].
    rewrite Hm. cbn. rewrite Forall_lookup in Hall.
    destruct (Hall _ _ Hm) as [[|] Hb]; rewrite Hb.
    + exists (Some k). split; [done|]. intros j [= <-]. split; [lia|]. by exists m.
    + destruct IH as (r & Hr & Hj); [lia|]. exists r. split; [done|].
      intros j Ej. destruct (Hj j Ej) as [? ?]. split; [lia|done].
Qed.

Lemma previousMainFrom_last pre ml :
  isMainLine ml → previousMainFrom (pre ++ [ml]) (length (pre ++ [ml])) = Some (Some (length pre)).
Proof.
  intros Hml. rewrite length_app. cbn [length]. rewrite Nat.add_1_r. cbn.
  rewrite list_lookup_middle by done. cbn. by rewrite Hml.
Qed.

Lemma getIthCommonPoint_Some t d key m pts (j : nat) :
  getToolState t = Some d → d !! key = Some m → handles m = Some pts →
  j < length (List.filter isCommonPoint pts) →
  ∃ p, getIthCommonPointOnPrimaryLine (Z.of_nat j) (Some key) t = Some (Some p)
       ∧ isCommonPoint p = true.
Proof.
  intros E Hm Hpts Hj.
  destruct (lookup_lt_is_Some_2 (List.filter isCommonPoint pts) j Hj) as [p Hp].
  exists p. split.
  - rewrite (getIthCommonPoint_spec t d key m pts j); [by rewrite Hp|by apply data_Some|done..].
  - apply list_elem_of_lookup_2 in Hp. apply list_elem_of_In, List.filter_In in Hp. tauto.
Qed.

(** The points of a new main line after the others. *)
Lemma mainPrimaryLinePoints_next t d n x position :
  getToolState t = Some (d ++ [x]) → d ≠ [] →
  Forall (λ m, is_Some (firstPointIsCommon m)) d →
  (∀ m, m ∈ d → isMainLine m → is_Some (handles m) ∧ commonPoints m = n) →
  (∃ m, last d = Some m ∧ isMainLine m) →
  (∃ m, head d = Some m ∧ isMainLine m) →
  (is_Some position → noOfSecondaryLines_default (configuration t) = n) →
  ∃ nps, mainPrimaryLinePoints (Some (length d)) position t = Some nps
    ∧ length nps = n
    ∧ Forall (λ np, primaryLineIdx np = length d ∧ n_isCommonPoint np = true) nps.
Proof.
  intros E Hne Hall Hmain (ml & Hlast & Hml) (m0 & Hhead & Hm0) Hpos.
  pose proof (data_Some _ _ E) as Hd.
  unfold mainPrimaryLinePoints. rewrite Hd, length_app. cbn [length].
  destruct (Nat.ltb_spec (length d + 1) 2) as [Hlt|_].
  { destruct d; [done|cbn in Hlt; lia]. }
  unfold getPreviousMainPrimaryLine.
  rewrite (noGrid_Some _ _ E), bool_decide_eq_false_2 by (by destruct d).
  rewrite Hd. cbn [from_option Datatypes.id].
  apply last_Some in Hlast as [pre ->].
  rewrite previousMainFrom_app by done. rewrite (previousMainFrom_last pre ml Hml).
  cbn [mbind option_bind from_option Datatypes.id].
  rewrite previousMainFrom_app by (rewrite length_app; lia).
  destruct (previousMainFrom_total (pre ++ [ml]) (length pre) Hall) as (pp & -> & Hpp);
    [rewrite length_app; lia|].
  cbn [mbind option_bind].
  assert (match position with
          | None => get_noOfSecondaryLines t
          | Some _ => Some (Some (noOfSecondaryLines_default (configuration t)))
          end = Some (Some n)) as ->.
  { destruct position as [pos|]; [by rewrite Hpos|].
    destruct (Hmain m0) as [[p0 Hp0] Hn0]; [by apply head_Some_elem_of|done|].
    destruct (pre ++ [ml]) as [|y l] eqn:Ey; [done|]. cbn in Hhead. injection Hhead as ->.
    rewrite (get_noOfSecondaryLines_head t m0 (l ++ [x]) p0); [|exact E|exact Hp0].
    unfold commonPoints in Hn0. rewrite (pointsOf_Some _ _ Hp0) in Hn0. by rewrite Hn0. }
  cbn [mbind option_bind from_option Datatypes.id].
  destruct (Hmain ml) as [[pl Hpl] Hnl]; [apply elem_of_app; right; constructor|done|].
  unfold commonPoints in Hnl. rewrite (pointsOf_Some _ _ Hpl) in Hnl.
  assert (∀ idx, idx < n → ∃ np,
    nextLinePoint t (Some (length pre)) pp idx = Some np
    ∧ primaryLineIdx np = length pre + 1 ∧ n_isCommonPoint np = true) as Hstep.
  { intros idx Hidx. unfold nextLinePoint.
    destruct (getIthCommonPoint_Some t _ (length pre) ml pl idx E) as (p & -> & _);
      [|done|lia|].
    { rewrite <- app_assoc. by apply list_lookup_middle. }
    cbn [mbind option_bind]. rewrite Hd, length_app, length_app. cbn [length].
    replace (length pre + 1 + 1 - 1) with (length pre + 1) by lia.
    destruct pp as [j|]; [|by eexists].
    destruct (Hpp j eq_refl) as (Hj & mj & Hmj & Hmain_j).
    destruct (Hmain mj) as [[pj Hpj] Hnj]; [by eapply list_elem_of_lookup_2|done|].
    unfold commonPoints in Hnj. rewrite (pointsOf_Some _ _ Hpj) in Hnj.
    destruct (getIthCommonPoint_Some t _ j mj pj idx E) as (q & -> & _); [|done|lia|].
    { by apply lookup_app_l_Some. }
    cbn [mbind option_bind]. by eexists. }
  rewrite length_app. cbn [length].
  assert (∀ idxs : list nat, Forall (λ idx, idx < n) idxs → ∃ nps,
    mapM (nextLinePoint t (Some (length pre)) pp) idxs = Some nps
    ∧ length nps = length idxs
    ∧ Forall (λ np, primaryLineIdx np = length pre + 1 ∧ n_isCommonPoint np = true) nps)
    as Hloop.
  { induction 1 as [|idx idxs Hidx _ (nps & Hnps & Hlen & Hgood)].
    - exists []. by repeat split.
    - destruct (Hstep idx Hidx) as (np & Hnp & Hnp').
      exists (np :: nps). cbn. rewrite Hnp. cbn. rewrite Hnps. cbn.
      repeat split; [by rewrite Hlen|by constructor]. }
  destruct (Hloop (seq 0 n)) as (nps & Hnps & Hlen & Hgood).
  { apply Forall_seq. intros; lia. }
  exists nps. by rewrite length_seq in Hlen.
Qed.

End NextMain.

Section GrowPrimary.
Context {K : Type} `{Num K}.
Implicit Types (t : Tool K) (d l pre : list (Measurement K)) (m ml x : Measurement K).

(** A new main line after the others: as many common points as they have. *)
Lemma generateMainPrimaryLine_next t d n position :
  getToolState t = Some d → d ≠ [] →
  Forall (λ m, is_Some (firstPointIsCommon m)) d →
  (∀ m, m ∈ d → isMainLine m → is_Some (handles m) ∧ commonPoints m = n) →
  (∃ m, last d = Some m ∧ isMainLine m) →
  (∃ m, head d = Some m ∧ isMainLine m) →
  (is_Some position → noOfSecondaryLines_default (configuration t) = n) →
  ∃ pts, length pts = n ∧ Forall (λ p, isCommonPoint p = true) pts
    ∧ generateMainPrimaryLine (Some (length d)) position t
      = Return () (upd (d ++ [mkLine (nextUuid t) pts]) (N.succ (nextUuid t)) t).
Proof.
  intros E Hne Hall Hmain Hlast Hhead Hpos.
  set (t1 := upd (d ++ [createNewMeasurement (nextUuid t)]) (N.succ (nextUuid t)) t).
  destruct (mainPrimaryLinePoints_next t1 d n (createNewMeasurement (nextUuid t)) position)
    as (nps & Hnps & Hlen & Hgood); try done.
  { apply getToolState_upd. }
  exists (handleOf <$> nps). split; [by rewrite length_fmap|]. split.
  { apply Forall_fmap. eapply Forall_impl; [exact Hgood|]. by intros np [_ ?]. }
  unfold generateMainPrimaryLine.
  erewrite bind_Return; last first.
  { rewrite (addNewMeasurementToState_at t d [] (length d)); [|by rewrite app_nil_r|done].
    reflexivity. }
  fold t1. unfold bind at 1. unfold getTool at 1.
  unfold t1 at 1. rewrite getToolState_upd. unfold orTypeError at 1.
  unfold bind at 1. unfold ret at 1.
  erewrite bind_Return by (by apply read_Some).
  erewrite (forEach_addPoint_line nps d _ [] []).
  - unfold t1. rewrite with_data_upd. done.
  - apply getToolState_upd.
  - done.
  - eapply Forall_impl; [exact Hgood|]. by intros np [? _].
Qed.

End GrowPrimary.

Section Grid4More.
Context {K : Type} `{Num K}.
Implicit Types (t : Tool K) (d l pre : list (Measurement K)) (m ml x : Measurement K).
Implicit Types (PM PS : Measurement K → Prop).

Lemma Grid4_snoc PM PS d s1 s2 s3 m :
  Grid4 PM PS d → PS s1 → PS s2 → PS s3 → PM m → Grid4 PM PS (d ++ [s1; s2; s3; m]).
Proof.
  intros G H1 H2 H3 Hm. induction G as [m0 Hm0|m0 t1 t2 t3 d ????? IH].
  - cbn. constructor; try done. by constructor.
  - cbn [app]. by constructor.
Qed.

Lemma Grid4_last PM PS d : Grid4 PM PS d → ∃ pre m, d = pre ++ [m] ∧ PM m.
Proof.
  induction 1 as [m Hm|m s1 s2 s3 d ????? (pre & ml & -> & Hml)].
  - by exists [], m.
  - by exists (m :: s1 :: s2 :: s3 :: pre), ml.
Qed.

Lemma Grid4_head PM PS d : Grid4 PM PS d → ∃ m l, d = m :: l ∧ PM m.
Proof. inversion 1; subst; eauto. Qed.

Lemma Grid4_elem PM PS d x : Grid4 PM PS d → x ∈ d → PM x ∨ PS x.
Proof.
  intros G [i Hi]%list_elem_of_lookup.
  pose proof (Grid4_lookup _ _ _ _ _ G Hi) as L.
  destruct (i mod 4 =? 0)%nat; auto.
Qed.

Lemma Grid4_Forall_or PM PS d : Grid4 PM PS d → Forall (λ x, PM x ∨ PS x) d.
Proof. intros G. apply Forall_forall. intros x. by apply Grid4_elem. Qed.

Lemma refinedLine_commonPoints n m : refinedLine n m → commonPoints m = n.
Proof.
  intros (pts & Hpts & Hfl)%lineFlags_Some. unfold commonPoints.
  rewrite (pointsOf_Some _ _ Hpts), length_filter_flags, Hfl. apply count_stride4.
Qed.

Lemma commonLine_commonPoints n m : commonLine n m → commonPoints m = n.
Proof.
  intros (pts & Hpts & Hfl)%lineFlags_Some. unfold commonPoints.
  rewrite (pointsOf_Some _ _ Hpts), length_filter_flags, Hfl. apply count_replicate_true.
Qed.

Lemma lineFlags_length m fl : lineFlags m = Some fl → length (pointsOf m) = length fl.
Proof.
  intros (pts & Hpts & <-)%lineFlags_Some. by rewrite (pointsOf_Some _ _ Hpts), length_fmap.
Qed.

Lemma showRefinementPoints_on_Some t d :
  getToolState t = Some d → d ≠ [] →
  showRefinementPoints_on t
  = default false (showRefinementPoints (configuration t) !! "global").
Proof.
  intros E Hne. unfold showRefinementPoints_on, get_showRefinementPoints.
  rewrite (noGrid_Some _ _ E), bool_decide_eq_false_2 by done.
  by destruct (showRefinementPoints (configuration t) !! "global").
Qed.

Lemma showRefinementPoints_on_flag t d b :
  getToolState t = Some d → d ≠ [] →
  showRefinementPoints (configuration t) !! "global" = Some b →
  showRefinementPoints_on t = b.
Proof. intros E Hne Hb. by rewrite (showRefinementPoints_on_Some _ _ E Hne), Hb. Qed.

Lemma allMainLoop_last d m fuel :
  allMainLoop (S fuel) (d ++ [m]) (length d) = Some [].
Proof.
  cbn. unfold nextMainFrom.
  replace (Z.to_nat (Z.of_nat (length d) + 1)) with (length (d ++ [m]))
    by (rewrite length_app; cbn; lia).
  by rewrite drop_all.
Qed.

(** The refinement of the last line, just added. *)
Lemma generateRefinementPoints_last t d m pts n :
  getToolState t = Some (d ++ [m]) → d ≠ [] →
  handles m = Some pts → Forall (λ p, isCommonPoint p = true) pts →
  get_noOfSecondaryLines t = Some (Some n) → length pts ≤ S n →
  generateRefinementPointsOnCurrentPrimaryLines
    {| fromPrimaryLineIdx := Some (length d); fromSecondaryLineIdx := None |} t
  = Return () (with_data (d ++ [with_handles (refineLine pts) m]) t).
Proof.
  intros E Hne Hpts Hc Hn Hlen.
  unfold generateRefinementPointsOnCurrentPrimaryLines.
  unfold bind at 1. unfold getTool at 1.
  rewrite (noGrid_Some _ _ E), bool_decide_eq_false_2 by (by destruct d).
  cbn [fromPrimaryLineIdx fromSecondaryLineIdx].
  assert (orNull (Some (length d)) = Some (length d)) as -> by (by destruct d).
  erewrite bind_Return; last first.
  { apply read_Some. unfold getAllMainPrimaryLines.
    rewrite (noGrid_Some _ _ E), bool_decide_eq_false_2 by (by destruct d).
    rewrite (data_Some _ _ E), length_app. cbn [length]. rewrite Nat.add_1_r.
    cbn [from_option Datatypes.id]. rewrite allMainLoop_last. reflexivity. }
  unfold orTypeError at 1. erewrite bind_Return by reflexivity.
  cbn [forEach].
  change (bind (refineBody None (length d)) (λ _, ret ()) t = 
          Return () (with_data (d ++ [with_handles (refineLine pts) m]) t)).
  erewrite bind_Return; [reflexivity|].
  by apply (refineBody_spec t d m [] [] pts n None).
Qed.

End Grid4More.


Section Shape.
Context {K : Type} `{Num K}.
Implicit Types (t : Tool K) (d l pre : list (Measurement K)) (m ml x : Measurement K).

Lemma shape_unrefined P S d :
  shape false P S d ↔ length d = P ∧ Forall (commonLine S) d.
Proof.
  unfold shape. split.
  - intros Hfl. split.
    + apply (f_equal length) in Hfl. by rewrite length_fmap, length_replicate in Hfl.
    + apply (proj1 (Forall_fmap lineFlags (λ fl, fl = Some (replicate S true)) d)).
      rewrite Hfl. by apply Forall_replicate.
  - intros [<- Hall]. induction Hall as [|x l Hx _ IH]; [done|].
    cbn. by rewrite Hx, IH.
Qed.

Lemma shape_refined P S d :
  shape true (Datatypes.S P) S d
  ↔ length d = 4 * P + 1 ∧ Grid4 (refinedLine S) (subsidiaryLine S) d.
Proof.
  unfold shape. split.
  - intros Hfl. split.
    + apply (f_equal length) in Hfl. by rewrite length_fmap, length_stride4 in Hfl.
    + apply Grid4_fmap. by exists P.
  - intros [Hlen [n Hn]%Grid4_fmap]. rewrite Hn. do 2 f_equal.
    apply (f_equal length) in Hn. rewrite length_fmap, length_stride4 in Hn. lia.
Qed.

Lemma shape_refined_0 S d : shape true 0 S d ↔ d = [].
Proof. unfold shape. cbn. split; [apply fmap_nil_inv|by intros ->]. Qed.

Lemma regular_unrefined P S d :
  shape false (Datatypes.S P) (Datatypes.S S) d → regular (Datatypes.S S) d.
Proof.
  intros [Hlen Hall]%shape_unrefined.
  assert (d ≠ []) as Hne by (intros ->; done).
  split; [done|]. split; [|split; [|split]].
  - eapply Forall_impl; [exact Hall|]. intros m Hm.
    rewrite (commonLine_first _ _ Hm). done.
  - intros m Hm _. rewrite Forall_forall in Hall. split.
    + by eapply lineFlags_handles, Hall.
    + by eapply commonLine_commonPoints, Hall.
  - destruct (last d) as [m|] eqn:El; [|by apply last_None in El].
    exists m. split; [done|]. rewrite Forall_forall in Hall.
    eapply commonLine_first, Hall. by eapply last_Some_elem_of.
  - destruct d as [|m l]; [done|]. exists m. split; [done|].
    apply Forall_cons in Hall as [Hm _]. by eapply commonLine_first.
Qed.

Lemma regular_refined S d :
  Grid4 (refinedLine (Datatypes.S S)) (subsidiaryLine (Datatypes.S S)) d →
  regular (Datatypes.S S) d.
Proof.
  intros G. split; [by eapply Grid4_nonempty|]. split; [|split; [|split]].
  - eapply Forall_impl; [by apply Grid4_Forall_or|]. intros m [Hm|Hm]; cbn in Hm.
    + by rewrite (refinedLine_first _ _ Hm).
    + by rewrite (subsidiaryLine_first _ _ Hm).
  - intros m Hm Hmain. destruct (Grid4_elem _ _ _ _ G Hm) as [Hr|Hs].
    + split; [by eapply lineFlags_handles|by apply refinedLine_commonPoints].
    + apply subsidiaryLine_first in Hs. unfold isMainLine in Hmain. congruence.
  - destruct (Grid4_last _ _ _ G) as (pre & m & -> & Hm). exists m.
    split; [apply last_snoc|by eapply refinedLine_first].
  - destruct (Grid4_head _ _ _ G) as (m & l & -> & Hm). exists m.
    split; [done|by eapply refinedLine_first].
Qed.

End Shape.

Section PrimaryGrowth.
Context {K : Type} `{Num K}.
Implicit Types (t : Tool K) (d l pre : list (Measurement K)) (m ml x : Measurement K).

Lemma generateMainPrimaryLine_regular t d n :
  getToolState t = Some d → regular n d →
  ∃ pts, length pts = n ∧ Forall (λ p, isCommonPoint p = true) pts
    ∧ generateMainPrimaryLine (get_totalNoOfPrimaryLines t) None t
      = Return () (upd (d ++ [mkLine (nextUuid t) pts]) (N.succ (nextUuid t)) t).
Proof.
  intros E (Hne & Hall & Hmain & Hlast & Hhead).
  rewrite (get_totalNoOfPrimaryLines_Some _ _ E Hne).
  by apply generateMainPrimaryLine_next; [..|intros []].
Qed.

Lemma commonLine_mkLine u pts :
  Forall (λ p, isCommonPoint p = true) pts → commonLine (length pts) (mkLine (K:=K) u pts).
Proof.
  intros Hc. unfold commonLine. rewrite lineFlags_mkLine. f_equal.
  by apply flags_all_common.
Qed.

Lemma shape_unrefined_snoc P S d m :
  shape false P S d → commonLine S m → shape false (Datatypes.S P) S (d ++ [m]).
Proof.
  intros [Hlen Hall]%shape_unrefined Hm. apply shape_unrefined. split.
  - rewrite length_app. cbn. lia.
  - apply Forall_app. split; [done|]. by constructor.
Qed.

Lemma shape_refined_snoc P S d s1 s2 s3 m :
  shape true (Datatypes.S P) S d →
  subsidiaryLine S s1 → subsidiaryLine S s2 → subsidiaryLine S s3 → refinedLine S m →
  shape true (Datatypes.S (Datatypes.S P)) S (d ++ [s1; s2; s3; m]).
Proof.
  intros [Hlen G]%shape_refined H1 H2 H3 Hm. apply shape_refined. split.
  - rewrite length_app. cbn. lia.
  - by apply Grid4_snoc.
Qed.

(** One round of the growing loop on a grid without refinement. *)
Lemma growPrimaryLines_unrefined fuel : ∀ e n t d P S,
  getToolState t = Some d →
  shape false (Datatypes.S P) (Datatypes.S S) d →
  showRefinementPoints (configuration t) !! "global" = Some false →
  ∃ d' u' P', growPrimaryLines fuel e n t = Return () (upd (d ++ d') u' t)
    ∧ shape false (Datatypes.S P') (Datatypes.S S) (d ++ d')
    ∧ P' = P + roundsUp fuel e n.
Proof.
  induction fuel as [|fuel IH]; intros e n t d P S E Hshape Hflag.
  { exists [], (nextUuid t), P. rewrite app_nil_r. split; [|by cbn; rewrite Nat.add_0_r].
    cbn. by rewrite (upd_id _ _ E). }
  cbn [growPrimaryLines roundsUp]. destruct (kofZ e <? n)%K; last first.
  { exists [], (nextUuid t), P. rewrite app_nil_r. split; [|by rewrite Nat.add_0_r].
    by rewrite (upd_id _ _ E). }
  destruct (generateMainPrimaryLine_regular t d (Datatypes.S S) E)
    as (pts & Hlen & Hc & Hgen); [by eapply regular_unrefined|].
  unfold bind at 1. unfold getTool at 1.
  erewrite bind_Return by exact Hgen.
  set (t1 := upd _ _ t).
  assert (getToolState t1 = Some (d ++ [mkLine (nextUuid t) pts])) as E1
    by apply getToolState_upd.
  unfold bind at 1. unfold getTool at 1.
  rewrite (showRefinementPoints_on_Some t1 _ E1) by (by destruct d).
  unfold t1 at 1. rewrite configuration_upd, Hflag. cbn [from_option Datatypes.id].
  unfold bind at 1. unfold ret at 1.
  destruct (IH (e + 1)%Z n t1 _ (Datatypes.S P) S E1)
    as (d' & u' & P' & Hloop & Hshape' & HP').
  { apply shape_unrefined_snoc; [done|]. rewrite <- Hlen. by apply commonLine_mkLine. }
  { unfold t1. by rewrite configuration_upd. }
  exists (mkLine (nextUuid t) pts :: d'), u', P'.
  rewrite Hloop. unfold t1. rewrite upd_upd, <- app_assoc in *.
  repeat split; [done|lia].
Qed.

End PrimaryGrowth.

Section PrimaryGrowthRefined.
Context {K : Type} `{Num K}.
Implicit Types (t : Tool K) (d l pre : list (Measurement K)) (m ml x : Measurement K).

Lemma with_handles_mkLine u (p q : list (Point K)) :
  with_handles q (mkLine u p) = mkLine u q.
Proof. done. Qed.

Lemma length_refineLine_S (cs : list (Point K)) n :
  length cs = S n → length (refineLine cs) = 4 * n + 1.
Proof. intros Hn. rewrite length_refineLine, Hn. destruct cs; [done|lia]. Qed.

Lemma firstPointIsCommon_mkLine u (pts : list (Point K)) :
  firstPointIsCommon (mkLine u pts) = isCommonPoint <$> head pts.
Proof. by destruct pts. Qed.

Lemma refinedLine_mkLine u pts :
  Forall (λ p, isCommonPoint p = true) pts →
  refinedLine (length pts) (mkLine (K:=K) u (refineLine pts)).
Proof.
  intros Hc. unfold refinedLine. rewrite lineFlags_mkLine. f_equal.
  by apply refineLine_flags.
Qed.

Lemma refinedLine_inv n m :
  refinedLine (S n) m →
  ∃ pts, handles m = Some pts ∧ length pts = 4 * n + 1
         ∧ length (List.filter isCommonPoint pts) = S n.
Proof.
  intros Hm. pose proof (refinedLine_length _ _ Hm) as Hl.
  pose proof (refinedLine_commonPoints _ _ Hm) as Hc.
  apply lineFlags_Some in Hm as (pts & Hpts & _). exists pts.
  unfold commonPoints in Hc. by rewrite (pointsOf_Some _ _ Hpts) in Hl, Hc.
Qed.

Lemma subsidiaryLine_mkLine u sub (p1 p2 : list (Point K)) :
  length p2 = length p1 →
  subsidiaryLine (length (List.filter isCommonPoint p1))
    (mkLine u (subsidiaryHandles sub 0 p1 p2)).
Proof.
  intros Hlen. unfold subsidiaryLine. rewrite lineFlags_mkLine. f_equal.
  by rewrite subsidiaryHandles_flags, drop_0.
Qed.

(** The rounds of the growing loop on a refined grid: a main line, its
    refinement points, and the three subsidiary lines before it. *)
Lemma growPrimaryLines_refined fuel : ∀ e n t d P S,
  getToolState t = Some d →
  shape true (Datatypes.S P) (Datatypes.S S) d →
  showRefinementPoints (configuration t) !! "global" = Some true →
  ∃ d' u' P', growPrimaryLines fuel e n t = Return () (upd (d ++ d') u' t)
    ∧ shape true (Datatypes.S P') (Datatypes.S S) (d ++ d')
    ∧ P' = P + roundsUp fuel e n.
Proof.
  induction fuel as [|fuel IH]; intros e n t d P S E Hshape Hflag.
  { exists [], (nextUuid t), P. rewrite app_nil_r. split; [|by cbn; rewrite Nat.add_0_r].
    cbn. by rewrite (upd_id _ _ E). }
  cbn [growPrimaryLines roundsUp]. destruct (kofZ e <? n)%K; last first.
  { exists [], (nextUuid t), P. rewrite app_nil_r. split; [|by rewrite Nat.add_0_r].
    by rewrite (upd_id _ _ E). }
  pose proof Hshape as [Hlen G]%shape_refined.
  destruct (generateMainPrimaryLine_regular t d (Datatypes.S S) E)
    as (pts & Hpts & Hc & Hgen); [by eapply regular_refined|].
  destruct (Grid4_last _ _ _ G) as (pre & m1 & -> & Hm1).
  destruct (Grid4_head _ _ _ G) as (m0 & l0 & E0 & Hm0).
  destruct (refinedLine_inv _ _ Hm1) as (p1 & Hp1 & Hlen1 & Hcnt1).
  destruct (refinedLine_inv _ _ Hm0) as (p0 & Hp0 & Hlen0 & Hcnt0).
  set (u := nextUuid t) in *.
  unfold bind at 1. unfold getTool at 1.
  erewrite bind_Return by exact Hgen.
  set (t1 := upd _ _ t).
  assert (getToolState t1 = Some ((pre ++ [m1]) ++ [mkLine u pts])) as E1
    by apply getToolState_upd.
  unfold bind at 1. unfold getTool at 1.
  rewrite (showRefinementPoints_on_Some t1 _ E1) by (by destruct pre).
  unfold t1 at 1. rewrite configuration_upd, Hflag. cbn [from_option Datatypes.id].
  (* the index of the line just added *)
  erewrite bind_Return; last first.
  { erewrite bind_Return; last first.
    { apply read_Some. unfold getPreviousMainPrimaryLine.
      rewrite (noGrid_Some _ _ E1), bool_decide_eq_false_2 by (by destruct pre).
      rewrite (get_totalNoOfPrimaryLines_Some _ _ E1) by (by destruct pre).
      rewrite (data_Some _ _ E1). cbn [from_option Datatypes.id].
      apply previousMainFrom_last. unfold isMainLine.
      rewrite firstPointIsCommon_mkLine.
      destruct pts as [|p pts]; [done|]. apply Forall_cons in Hc as [Hp _].
      cbn. by rewrite Hp. }
    erewrite bind_Return; last first.
    { apply (generateRefinementPoints_last t1 (pre ++ [m1]) (mkLine u pts) pts
               (Datatypes.S S)); try done.
      - by destruct pre.
      - rewrite E0 in E1. rewrite (get_noOfSecondaryLines_head _ _ _ _ E1 Hp0).
        by rewrite Hcnt0.
      - lia. }
    rewrite with_handles_mkLine.
    unfold t1. rewrite with_data_upd.
    set (t2 := upd _ _ t).
    assert (getToolState t2 = Some (pre ++ m1 :: mkLine u (refineLine pts) :: [])) as E2.
    { unfold t2. by rewrite getToolState_upd, <- app_assoc. }
    unfold bind at 1. unfold getTool at 1.
    rewrite (get_totalNoOfPrimaryLines_Some _ _ E2) by (by destruct pre).
    unfold generateSubsidiaryPrimaryLines.
    replace (Z.to_nat _) with 1 by (unfold numberOf; cbn [from_option Datatypes.id]; lia).
    cbn [seq forEach].
    erewrite bind_Return; [reflexivity|].
    replace (numberOf _ - 2 + 4 * Z.of_nat 0)%Z with (Z.of_nat (length pre)).
    2:{ unfold numberOf. cbn [from_option Datatypes.id]. rewrite length_app. cbn [length]. lia. }
    apply (_generateSubsidiaryPrimaryLine_create t2 pre m1 (mkLine u (refineLine pts)) []
             p1 (refineLine pts)); try done.
    - by rewrite (length_refineLine_S _ _ Hpts), Hlen1.
    - rewrite firstPointIsCommon_mkLine, head_refineLine.
      destruct pts as [|p pts]; [done|]. apply Forall_cons in Hc as [Hp _].
      cbn. by rewrite Hp.
    - destruct pre as [|y pre]; cbn in E0.
      + injection E0 as <- _. by eapply get_totalNoOfSecondaryLines_head.
      + injection E0 as -> _. rewrite <- Hlen0 in Hlen1. rewrite Hlen1.
        by eapply get_totalNoOfSecondaryLines_head. }
  cbv beta zeta. rewrite !subsidiaryHandles_line.
  rewrite nextUuid_upd, upd_upd.
  set (s0 := mkLine (N.succ u) _). set (s1 := mkLine (N.succ (N.succ u)) _).
  set (s2 := mkLine (N.succ (N.succ (N.succ u))) _).
  set (m2 := mkLine u (refineLine pts)).
  replace (pre ++ [m1; s0; s1; s2; m2]) with ((pre ++ [m1]) ++ [s0; s1; s2; m2])
    by (by rewrite <- app_assoc).
  set (t3 := upd _ _ t).
  assert (getToolState t3 = Some ((pre ++ [m1]) ++ [s0; s1; s2; m2])) as E3
    by apply getToolState_upd.
  assert (length (refineLine pts) = length p1) as Hlen2
    by (by rewrite (length_refineLine_S _ _ Hpts), Hlen1).
  destruct (IH (e + 1)%Z n t3 _ (Datatypes.S P) S E3)
    as (d' & u' & P' & Hloop & Hshape' & HP').
  { apply shape_refined_snoc; try done.
    - rewrite <- Hcnt1. by apply subsidiaryLine_mkLine.
    - rewrite <- Hcnt1. by apply subsidiaryLine_mkLine.
    - rewrite <- Hcnt1. by apply subsidiaryLine_mkLine.
    - rewrite <- Hpts. by apply refinedLine_mkLine. }
  { unfold t3. by rewrite configuration_upd. }
  exists ([s0; s1; s2; m2] ++ d'), u', P'.
  rewrite app_assoc. split; [|split; [done|lia]].
  rewrite Hloop. unfold t3. by rewrite upd_upd.
Qed.

End PrimaryGrowthRefined.

Section PrimaryShrink.
Context {K : Type} `{NumLaws K}.
Implicit Types (t : Tool K) (d : list (Measurement K)).

(** A count that the loop has to go below is at least 3 when the new
    count is not below 2. *)
Lemma above_two (n : K) (e : Z) :
  (n <? kofZ 2)%K = false → (n <? kofZ e)%K = true → (2 < e)%Z.
Proof.
  intros Hn He. destruct (kltb_cotrans n (kofZ 2) (kofZ e) He) as [Hc|Hc]; [congruence|].
  rewrite kltb_ofZ in Hc. by apply bool_decide_eq_true in Hc.
Qed.

Lemma removelast_snoc4 {A} (l : list A) x1 x2 x3 x4 :
  removelast (removelast (removelast (removelast (l ++ [x1; x2; x3; x4])))) = l.
Proof.
  replace (l ++ [x1; x2; x3; x4]) with ((((l ++ [x1]) ++ [x2]) ++ [x3]) ++ [x4])
    by (by rewrite <- !app_assoc).
  by rewrite !removelast_last.
Qed.

Lemma fmap_removelast {A B} (f : A → B) (l : list A) :
  f <$> removelast l = removelast (f <$> l).
Proof.
  induction l as [|a l IH]; [done|]. destruct l as [|b l]; [done|].
  cbn [removelast fmap list_fmap] in *. by rewrite IH.
Qed.

Lemma removelast_prefix {A} (l : list A) : removelast l `prefix_of` l.
Proof.
  destruct l as [|a l] using rev_ind; [done|]. rewrite removelast_last.
  by apply prefix_app_r.
Qed.

Lemma removelast_replicate {A} (a : A) n : removelast (replicate (S n) a) = replicate n a.
Proof.
  induction n as [|n IH]; [done|].
  change (replicate (S (S n)) a) with (a :: replicate (S n) a).
  cbn [removelast]. rewrite IH. done.
Qed.

Lemma shape_pop P S d :
  shape false (Datatypes.S P) S d → shape false P S (pop d).
Proof.
  unfold shape, pop. intros Hd. by rewrite fmap_removelast, Hd, removelast_replicate.
Qed.

Lemma shape_pop4 P S d :
  shape true (Datatypes.S (Datatypes.S P)) S d →
  shape true (Datatypes.S P) S (pop (pop (pop (pop d)))).
Proof.
  unfold shape, pop. intros Hd. rewrite !fmap_removelast, Hd, stride4_snoc.
  apply removelast_snoc4.
Qed.

Lemma removeLastPrimaryLine_spec t d :
  getToolState t = Some d → d ≠ [] →
  removeLastPrimaryLine t
  = Return () (with_data (if showRefinementPoints_on t
                          then pop (pop (pop (pop d))) else pop d) t).
Proof.
  intros E Hne. unfold removeLastPrimaryLine. unfold bind at 1. unfold getTool at 1.
  destruct (showRefinementPoints_on t).
  - erewrite bind_Return by (by eapply updateData_Some).
    erewrite bind_Return by (eapply updateData_Some; [apply getToolState_with_data|done]).
    erewrite bind_Return by (eapply updateData_Some; [apply getToolState_with_data|done]).
    erewrite updateData_Some; [|apply getToolState_with_data|done].
    by rewrite !with_data_with_data.
  - by eapply updateData_Some.
Qed.

(** The shrinking loop: the grid keeps its shape, with fewer main lines,
    never fewer than two. *)
Lemma shrinkPrimaryLines_spec (b : bool) fuel : ∀ (n : K) t d P S,
  getToolState t = Some d →
  shape b P S d → 2 ≤ P →
  (n <? kofZ 2)%K = false →
  showRefinementPoints (configuration t) !! "global" = Some b →
  ∃ d' P', shrinkPrimaryLines fuel (Z.of_nat P) n t = Return () (with_data d' t)
    ∧ d' `prefix_of` d ∧ shape b P' S d' ∧ 2 ≤ P'
    ∧ P' = P - roundsDown fuel (Z.of_nat P) n.
Proof.
  induction fuel as [|fuel IH]; intros n t d P S E Hshape HP Hn Hflag.
  { exists d, P. cbn. rewrite (with_data_id _ _ E), Nat.sub_0_r. done. }
  cbn [shrinkPrimaryLines roundsDown].
  destruct (n <? kofZ (Z.of_nat P))%K eqn:Hlt; last first.
  { exists d, P. rewrite (with_data_id _ _ E), Nat.sub_0_r. done. }
  pose proof (above_two _ _ Hn Hlt) as H3.
  destruct P as [|[|P]]; [lia..|].
  assert (d ≠ []) as Hne.
  { intros ->. unfold shape in Hshape. by destruct b. }
  erewrite bind_Return by (by apply removeLastPrimaryLine_spec).
  rewrite (showRefinementPoints_on_flag _ _ _ E Hne Hflag).
  set (d1 := if b then _ else _).
  assert (d1 `prefix_of` d ∧ shape b (Datatypes.S P) S d1) as [Hpre Hshape1].
  { unfold d1. destruct b.
    - split; [|by apply shape_pop4].
      unfold pop. do 3 (etransitivity; [apply removelast_prefix|]). apply removelast_prefix.
    - split; [apply removelast_prefix|by apply shape_pop]. }
  replace (Z.of_nat (Datatypes.S (Datatypes.S P)) - 1)%Z with (Z.of_nat (Datatypes.S P)) by lia.
  destruct (IH n (with_data d1 t) d1 (Datatypes.S P) S)
    as (d' & P' & Hloop & Hpre' & Hs' & HP' & Hcount);
    try done; [apply getToolState_with_data|lia|].
  exists d', P'. rewrite Hloop, with_data_with_data.
  repeat split; try done. by etransitivity.
Qed.

End PrimaryShrink.

Section PerLine.
Context {K : Type} `{Num K}.
Implicit Types (t : Tool K) (d : list (Measurement K)) (m : Measurement K).
Implicit Types (PM PS : Measurement K → Prop).

Lemma Grid4_imap PM PS PM' PS' (F : nat → Measurement K → Measurement K) d :
  (∀ i m, F (S (S (S (S i)))) m = F i m) →
  (∀ m, PM m → PM' (F 0 m)) →
  (∀ i m, 1 ≤ i < 4 → PS m → PS' (F i m)) →
  Grid4 PM PS d → Grid4 PM' PS' (imap F d).
Proof.
  intros Hper HM HS. induction 1 as [m|m s1 s2 s3 d ????? IH].
  - constructor. by apply HM.
  - cbn [imap]. constructor; try (apply HS; [lia|done]); [by apply HM|].
    erewrite imap_ext; [exact IH|]. intros i x _. cbn. apply Hper.
Qed.

Lemma onEvery_1 (F : Measurement K → Measurement K) d : imap (onEvery 1 F) d = F <$> d.
Proof.
  rewrite <- imap_const. apply imap_ext. intros i x _. unfold onEvery.
  by rewrite Nat.mod_1_r.
Qed.

Lemma onEvery_4_periodic (F : Measurement K → Measurement K) i m :
  onEvery 4 F (S (S (S (S i)))) m = onEvery 4 F i m.
Proof.
  unfold onEvery. replace (S (S (S (S i)))) with (i + 1 * 4) by lia.
  by rewrite Nat.Div0.mod_add.
Qed.

Lemma onEvery_4_sub (F : Measurement K → Measurement K) i m :
  1 ≤ i < 4 → onEvery 4 F i m = m.
Proof. intros Hi. unfold onEvery. by destruct i as [|[|[|[|i]]]]; try lia. Qed.

Lemma uuid_imap (F : nat → Measurement K → Measurement K) d :
  (∀ i m, uuid (F i m) = uuid m) → uuid <$> imap F d = uuid <$> d.
Proof.
  intros HF. revert F HF. induction d as [|m d IH]; intros F HF; [done|].
  cbn. rewrite HF. f_equal. apply IH. intros i x. apply HF.
Qed.

Lemma uuid_onEvery step f i m : uuid (onEvery step (alterHandles f) i m) = uuid m.
Proof. unfold onEvery. destruct (_ =? _)%nat; [apply uuid_alterHandles|done]. Qed.

(** A loop that changes the points of every [step]-th line. *)
Lemma forEach_alterPoints_every step (f : list (Point K) → list (Point K)) t d :
  getToolState t = Some d →
  Forall (λ m, is_Some (handles m)) d →
  forEach (everyNth step (length d)) (λ idx, updateData (alterPoints idx f)) t
  = Return () (with_data (imap (onEvery step (alterHandles f)) d) t).
Proof.
  intros E Hall. unfold everyNth. rewrite forEach_filter.
  pose proof (forEach_lines
    (λ i, if (i mod step =? 0)%nat then updateData (alterPoints i f) else ret ())
    (onEvery step (alterHandles f)) (λ _, True) (λ _ m, is_Some (handles m))) as L.
  destruct (L) with (d2 := d) (d1 := @nil (Measurement K)) (t := t) as [L1 _]; try done.
  - intros t' d1 m d2 _ E' [pts Hm]. split; [|done]. unfold onEvery.
    destruct (_ =? _)%nat.
    + eapply updateData_Some; [done|]. unfold alterHandles. rewrite Hm.
      by apply alterPoints_app_r.
    + by rewrite (with_data_id _ _ E').
  - intros i m Hi. rewrite Forall_lookup in Hall. by eapply Hall.
Qed.

Lemma Forall_handles_imap (F : nat → Measurement K → Measurement K) d :
  (∀ i m, is_Some (handles m) → is_Some (handles (F i m))) →
  Forall (λ m, is_Some (handles m)) d →
  Forall (λ m, is_Some (handles m)) (imap F d).
Proof.
  intros HF Hall. revert F HF. induction Hall as [|m d Hm _ IH]; intros F HF; [constructor|].
  cbn. constructor; [by apply HF|]. apply IH. intros i x. apply HF.
Qed.

Lemma handles_onEvery step f i m :
  is_Some (handles m) → is_Some (handles (onEvery step (alterHandles f) i m)).
Proof.
  intros [pts Hm]. unfold onEvery. destruct (_ =? _)%nat; [|by rewrite Hm].
  unfold alterHandles. by rewrite Hm.
Qed.

End PerLine.

Section SecondaryShrink.
Context {K : Type} `{NumLaws K}.
Implicit Types (t : Tool K) (d : list (Measurement K)) (m : Measurement K).

Lemma removelast_stride4 {A} (a b : A) n :
  pop (pop (pop (pop (stride4 a b (S (S n)))))) = stride4 a b (S n).
Proof. rewrite stride4_snoc. apply removelast_snoc4. Qed.

Lemma lineFlags_pop m fl :
  lineFlags m = Some fl → lineFlags (alterHandles pop m) = Some (pop fl).
Proof.
  intros Hm. rewrite (lineFlags_alterHandles pop pop), Hm; [done|].
  intros pts. apply fmap_removelast.
Qed.

Lemma commonLine_pop n m : commonLine (S n) m → commonLine n (alterHandles pop m).
Proof.
  unfold commonLine. intros Hm. rewrite (lineFlags_pop _ _ Hm). f_equal.
  apply removelast_replicate.
Qed.

Lemma subsidiaryLine_pop n m : subsidiaryLine (S n) m → subsidiaryLine n (alterHandles pop m).
Proof.
  unfold subsidiaryLine. intros Hm. rewrite (lineFlags_pop _ _ Hm). f_equal.
  apply removelast_replicate.
Qed.

Lemma onEvery_1_eq (F : Measurement K → Measurement K) i m : onEvery 1 F i m = F m.
Proof. unfold onEvery. by rewrite Nat.mod_1_r. Qed.

Lemma Grid4_pop_all fl n d :
  Grid4 (λ m, lineFlags m = Some fl) (subsidiaryLine (S n)) d →
  Grid4 (λ m, lineFlags m = Some (pop fl)) (subsidiaryLine n)
        (imap (onEvery 1 (alterHandles pop)) d).
Proof.
  apply Grid4_imap.
  - intros i m. by rewrite !onEvery_1_eq.
  - intros m Hm. rewrite onEvery_1_eq. by apply lineFlags_pop.
  - intros i m _ Hm. rewrite onEvery_1_eq. by apply subsidiaryLine_pop.
Qed.

Lemma Grid4_pop_main fl PS d :
  Grid4 (λ m, lineFlags m = Some fl) PS d →
  Grid4 (λ m, lineFlags m = Some (pop fl)) PS (imap (onEvery 4 (alterHandles pop)) d).
Proof.
  apply Grid4_imap.
  - apply onEvery_4_periodic.
  - intros m Hm. by apply lineFlags_pop.
  - intros i m Hi Hm. by rewrite onEvery_4_sub.
Qed.

Lemma removeLastSecondaryLine_unrefined t d P S :
  getToolState t = Some d → shape false (Datatypes.S P) (Datatypes.S S) d →
  showRefinementPoints (configuration t) !! "global" = Some false →
  ∃ d', removeLastSecondaryLine t = Return () (with_data d' t)
    ∧ shape false (Datatypes.S P) S d' ∧ uuid <$> d' = uuid <$> d.
Proof.
  intros E Hshape Hflag.
  pose proof Hshape as [Hlen Hall]%shape_unrefined.
  assert (d ≠ []) as Hne by (intros ->; done).
  exists (alterHandles pop <$> d). split; [|split].
  - unfold removeLastSecondaryLine. unfold bind at 1. unfold getTool at 1.
    rewrite (noGrid_Some _ _ E), bool_decide_eq_false_2 by done.
    rewrite (showRefinementPoints_on_Some _ _ E Hne), Hflag. cbn [from_option Datatypes.id].
    rewrite (data_Some _ _ E).
    cbn [seq forEach Nat.eqb andb].
    erewrite bind_Return; [reflexivity|].
    rewrite (forEach_alterPoints_every 1 pop t d E); [by rewrite onEvery_1|].
    eapply Forall_impl; [exact Hall|]. intros m Hm. by eapply lineFlags_handles.
  - apply shape_unrefined. split; [by rewrite length_fmap|].
    apply Forall_fmap. eapply Forall_impl; [exact Hall|]. intros m Hm.
    by apply commonLine_pop.
  - rewrite <- list_fmap_compose. apply list_fmap_ext. intros i m _. cbn.
    apply uuid_alterHandles.
Qed.

Lemma removeLastSecondaryLine_refined t d P S :
  getToolState t = Some d →
  shape true (Datatypes.S P) (Datatypes.S (Datatypes.S S)) d →
  showRefinementPoints (configuration t) !! "global" = Some true →
  ∃ d', removeLastSecondaryLine t = Return () (with_data d' t)
    ∧ shape true (Datatypes.S P) (Datatypes.S S) d' ∧ uuid <$> d' = uuid <$> d.
Proof.
  intros E Hshape Hflag.
  pose proof Hshape as [Hlen G]%shape_refined.
  assert (d ≠ []) as Hne by (by eapply Grid4_nonempty).
  assert (Forall (λ m, is_Some (handles m)) d) as Hall.
  { eapply Grid4_handles; [exact G|..]; intros m Hm; by eapply lineFlags_handles. }
  set (d1 := imap (onEvery 1 (alterHandles pop)) d).
  set (d2 := imap (onEvery 4 (alterHandles pop)) d1).
  set (d3 := imap (onEvery 4 (alterHandles pop)) d2).
  set (d4 := imap (onEvery 4 (alterHandles pop)) d3).
  assert (length d1 = length d) as Hl1 by apply length_imap.
  assert (length d2 = length d) as Hl2 by (unfold d2; by rewrite length_imap).
  assert (length d3 = length d) as Hl3 by (unfold d3; by rewrite length_imap).
  assert (Forall (λ m, is_Some (handles m)) d1) as Hall1
    by (apply Forall_handles_imap; [apply handles_onEvery|done]).
  assert (Forall (λ m, is_Some (handles m)) d2) as Hall2
    by (apply Forall_handles_imap; [apply handles_onEvery|done]).
  assert (Forall (λ m, is_Some (handles m)) d3) as Hall3
    by (apply Forall_handles_imap; [apply handles_onEvery|done]).
  exists d4. split; [|split].
  - unfold removeLastSecondaryLine. unfold bind at 1. unfold getTool at 1.
    rewrite (noGrid_Some _ _ E), bool_decide_eq_false_2 by done.
    rewrite (showRefinementPoints_on_Some _ _ E Hne), Hflag. cbn [from_option Datatypes.id].
    rewrite (data_Some _ _ E).
    cbn [seq forEach Nat.eqb Nat.ltb Nat.leb andb].
    erewrite bind_Return by (by apply forEach_alterPoints_every).
    fold d1. rewrite <- Hl1 at 1.
    erewrite bind_Return
      by (apply forEach_alterPoints_every; [apply getToolState_with_data|done]).
    fold d2. rewrite with_data_with_data. rewrite <- Hl2 at 1.
    erewrite bind_Return
      by (apply forEach_alterPoints_every; [apply getToolState_with_data|done]).
    fold d3. rewrite with_data_with_data. rewrite <- Hl3 at 1.
    erewrite bind_Return
      by (apply forEach_alterPoints_every; [apply getToolState_with_data|done]).
    by rewrite with_data_with_data.
  - apply shape_refined. split; [unfold d4; by rewrite length_imap, Hl3|].
    pose proof (Grid4_pop_main _ _ _ (Grid4_pop_main _ _ _ (Grid4_pop_main _ _ _
                  (Grid4_pop_all _ _ _ G)))) as G4.
    rewrite removelast_stride4 in G4. exact G4.
  - unfold d4, d3, d2, d1. rewrite !uuid_imap; [done|..]; intros i m; apply uuid_onEvery.
Qed.

End SecondaryShrink.

Section SecondaryShrinkLoop.
Context {K : Type} `{NumLaws K}.
Implicit Types (t : Tool K) (d : list (Measurement K)) (m : Measurement K).

Lemma removeLastSecondaryLine_spec (b : bool) t d P S :
  getToolState t = Some d →
  shape b (Datatypes.S P) (Datatypes.S (Datatypes.S S)) d →
  showRefinementPoints (configuration t) !! "global" = Some b →
  ∃ d', removeLastSecondaryLine t = Return () (with_data d' t)
    ∧ shape b (Datatypes.S P) (Datatypes.S S) d' ∧ uuid <$> d' = uuid <$> d.
Proof.
  destruct b.
  - apply removeLastSecondaryLine_refined.
  - apply removeLastSecondaryLine_unrefined.
Qed.

(** The shrinking loop of the secondary lines: the grid keeps its shape
    and its lines, with fewer common points per main line, never fewer
    than two. *)
Lemma shrinkSecondaryLines_spec (b : bool) fuel : ∀ (n : K) t d P S,
  getToolState t = Some d →
  shape b (Datatypes.S P) S d → 2 ≤ S →
  (n <? kofZ 2)%K = false →
  showRefinementPoints (configuration t) !! "global" = Some b →
  ∃ d' S', shrinkSecondaryLines fuel (Z.of_nat S) n t = Return () (with_data d' t)
    ∧ shape b (Datatypes.S P) S' d' ∧ 2 ≤ S' ∧ uuid <$> d' = uuid <$> d
    ∧ S' = S - roundsDown fuel (Z.of_nat S) n.
Proof.
  induction fuel as [|fuel IH]; intros n t d P S E Hshape HS Hn Hflag.
  { exists d, S. cbn. rewrite (with_data_id _ _ E), Nat.sub_0_r. done. }
  cbn [shrinkSecondaryLines roundsDown].
  destruct (n <? kofZ (Z.of_nat S))%K eqn:Hlt; last first.
  { exists d, S. rewrite (with_data_id _ _ E), Nat.sub_0_r. done. }
  pose proof (above_two _ _ Hn Hlt) as H3.
  destruct S as [|[|S]]; [lia..|].
  destruct (removeLastSecondaryLine_spec b t d P S E Hshape Hflag)
    as (d1 & Hrem & Hshape1 & Hu1).
  erewrite bind_Return by exact Hrem.
  replace (Z.of_nat (Datatypes.S (Datatypes.S S)) - 1)%Z with (Z.of_nat (Datatypes.S S)) by lia.
  destruct (IH n (with_data d1 t) d1 P (Datatypes.S S))
    as (d' & S' & Hloop & Hs' & HS' & Hu' & Hcount);
    try done; [apply getToolState_with_data|lia|].
  exists d', S'. rewrite Hloop, with_data_with_data.
  repeat split; try done. by rewrite Hu'.
Qed.

End SecondaryShrinkLoop.

Section SecondaryLine.
Context {K : Type} `{Num K}.
Implicit Types (t : Tool K) (d : list (Measurement K)) (m : Measurement K).

Lemma generateSecondaryLine_body t :
  generateSecondaryLine t
  = forEach (seq 0 (default 0 (get_totalNoOfPrimaryLines t))) secondaryLineBody t.
Proof. done. Qed.

Lemma showRefinementPoints_on_with_data t d d' :
  getToolState t = Some d → d ≠ [] → d' ≠ [] →
  showRefinementPoints_on (with_data d' t) = showRefinementPoints_on t.
Proof.
  intros E Hne Hne'. rewrite (showRefinementPoints_on_Some _ _ E Hne).
  by rewrite (showRefinementPoints_on_Some _ d' (getToolState_with_data _ _) Hne').
Qed.

Lemma spacingNumber_with_data t d d' :
  getToolState t = Some d → d ≠ [] → d' ≠ [] →
  spacingNumber (with_data d' t) = spacingNumber t.
Proof.
  intros E Hne Hne'. unfold spacingNumber, get_spacing.
  rewrite (noGrid_Some _ _ E), (noGrid_Some _ d' (getToolState_with_data _ _)).
  by rewrite !bool_decide_eq_false_2.
Qed.

Lemma secondaryPoint_is_Some show sp (pts : list (Point K)) :
  pts ≠ [] → ∃ p, secondaryPoint show sp pts = Some p ∧ isCommonPoint p = true.
Proof.
  intros Hne. unfold secondaryPoint.
  destruct (lookupZ pts (Z.of_nat (length pts) - 1)) as [q|] eqn:Eq.
  - cbn. by eexists.
  - exfalso. unfold lookupZ in Eq. destruct pts as [|p pts]; [done|].
    cbn [length] in Eq. destruct (Z.ltb_spec (Z.of_nat (S (length pts)) - 1) 0); [lia|].
    apply lookup_ge_None in Eq. cbn [length] in Eq. lia.
Qed.

Lemma secondaryLineBody_spec show sp t d1 m d2 :
  showRefinementPoints_on t = show → spacingNumber t = sp →
  getToolState t = Some (d1 ++ m :: d2) →
  (show && negb (length d1 mod 4 =? 0)%nat = false →
   ∃ pts, handles m = Some pts ∧ pts ≠ []) →
  secondaryLineBody (length d1) t
  = Return () (with_data (d1 ++ extendLine show sp (length d1) m :: d2) t).
Proof.
  intros Hshow Hsp E Hm. unfold secondaryLineBody, extendLine.
  unfold bind at 1. unfold getTool at 1. rewrite Hshow.
  destruct (show && negb (length d1 mod 4 =? 0)%nat) eqn:Hskip.
  { by rewrite (with_data_id _ _ E). }
  destruct (Hm eq_refl) as (pts & Hpts & Hne). rewrite Hpts.
  destruct (secondaryPoint_is_Some show sp pts Hne) as (p & Hp & _).
  rewrite Hp. rewrite E. cbn [mbind option_bind]. unfold linePoints.
  rewrite list_lookup_middle by done. cbn [mbind option_bind]. rewrite Hpts.
  unfold orTypeError at 1. unfold bind at 1. unfold ret at 1.
  unfold secondaryPoint in Hp. rewrite Hsp.
  destruct (lookupZ pts (Z.of_nat (length pts) - 1)) as [q|]; [|done].
  cbn [mbind option_bind] in Hp. injection Hp as <-.
  unfold orTypeError at 1. unfold bind at 1. unfold ret at 1.
  by erewrite addPoint_app.
Qed.

(** [generateSecondaryLine]: every line that is not skipped gets one more
    common point. *)
Lemma generateSecondaryLine_spec t d :
  getToolState t = Some d → d ≠ [] →
  (∀ i m, d !! i = Some m →
     showRefinementPoints_on t && negb (i mod 4 =? 0)%nat = false →
     ∃ pts, handles m = Some pts ∧ pts ≠ []) →
  generateSecondaryLine t
  = Return () (with_data (imap (extendLine (showRefinementPoints_on t) (spacingNumber t)) d) t).
Proof.
  intros E Hne Hd. rewrite generateSecondaryLine_body.
  rewrite (get_totalNoOfPrimaryLines_Some _ _ E Hne). cbn [from_option Datatypes.id].
  set (show := showRefinementPoints_on t). set (sp := spacingNumber t).
  pose proof (forEach_lines secondaryLineBody (extendLine show sp)
    (λ t', showRefinementPoints_on t' = show ∧ spacingNumber t' = sp
           ∧ ∃ d', getToolState t' = Some d' ∧ d' ≠ [])
    (λ i m, show && negb (i mod 4 =? 0)%nat = false →
            ∃ pts, handles m = Some pts ∧ pts ≠ [])) as L.
  destruct L with (d2 := d) (d1 := @nil (Measurement K)) (t := t) as [L1 _]; try done.
  - intros t' d1 m d2 (Hshow & Hsp & d' & E' & Hne') E'' Hm. split.
    + by apply secondaryLineBody_spec.
    + assert (d1 ++ extendLine show sp (length d1) m :: d2 ≠ []) as Hne'' by (by destruct d1).
      rewrite (showRefinementPoints_on_with_data _ _ _ E' Hne' Hne'').
      rewrite (spacingNumber_with_data _ _ _ E' Hne' Hne'').
      repeat split; try done. eexists. split; [apply getToolState_with_data|done].
  - repeat split; try done. by exists d.
Qed.

Lemma uuid_extendLine show sp i m : uuid (extendLine (K:=K) show sp i m) = uuid m.
Proof.
  unfold extendLine. destruct (_ && _); [done|].
  destruct (handles m) as [pts|]; [|done]. by destruct (secondaryPoint _ _ _).
Qed.

Lemma extendLine_skip sp i m : 1 ≤ i < 4 → extendLine (K:=K) true sp i m = m.
Proof. intros Hi. unfold extendLine. by destruct i as [|[|[|[|i]]]]; try lia. Qed.

Lemma extendLine_flags show sp i m fl :
  show && negb (i mod 4 =? 0)%nat = false →
  lineFlags m = Some fl → fl ≠ [] →
  lineFlags (extendLine show sp i m) = Some (fl ++ [true]).
Proof.
  intros Hskip (pts & Hpts & <-)%lineFlags_Some Hne. unfold extendLine.
  rewrite Hskip, Hpts.
  destruct (secondaryPoint_is_Some show sp pts) as (p & -> & Hp); [by destruct pts|].
  rewrite lineFlags_with_handles, fmap_app. cbn. by rewrite Hp.
Qed.

Lemma extendLine_periodic sp i m :
  extendLine (K:=K) true sp (S (S (S (S i)))) m = extendLine true sp i m.
Proof.
  unfold extendLine. replace (S (S (S (S i)))) with (i + 1 * 4) by lia.
  by rewrite Nat.Div0.mod_add.
Qed.

End SecondaryLine.

Section ExtendSubsidiary.
Context {K : Type} `{Num K}.
Implicit Types (t : Tool K) (d pre : list (Measurement K)) (m : Measurement K).

Lemma get_totalNoOfSecondaryLines_same_head t t' x (l l' : list (Measurement K)) :
  getToolState t = Some (x :: l) → getToolState t' = Some (x :: l') →
  get_totalNoOfSecondaryLines t = get_totalNoOfSecondaryLines t'.
Proof.
  intros E E'. unfold get_totalNoOfSecondaryLines.
  by rewrite (noGrid_Some _ _ E), (noGrid_Some _ _ E'), (data_Some _ _ E), (data_Some _ _ E').
Qed.

Lemma extendSubsidiary_cons start m s1 s2 s3 m' d :
  extendSubsidiary start (m :: s1 :: s2 :: s3 :: m' :: d)
  = m :: alterHandles (λ q, q ++ subsidiaryHandles 0 start (pointsOf m) (pointsOf m')) s1
      :: alterHandles (λ q, q ++ subsidiaryHandles 1 start (pointsOf m) (pointsOf m')) s2
      :: alterHandles (λ q, q ++ subsidiaryHandles 2 start (pointsOf m) (pointsOf m')) s3
      :: extendSubsidiary start (m' :: d).
Proof. done. Qed.

Lemma extendSubsidiary_head start m d :
  ∃ d', extendSubsidiary start (m :: d) = m :: d'.
Proof.
  destruct d as [|s1 [|s2 [|s3 [|m' d]]]]; try by eexists.
Qed.

Lemma uuid_extendSubsidiary start d : uuid <$> extendSubsidiary start d = uuid <$> d.
Proof.
  remember (length d) as n eqn:Hn. revert d Hn.
  induction (lt_wf n) as [n _ IH]; intros d ->.
  destruct d as [|m [|s1 [|s2 [|s3 [|m' d]]]]]; try done.
  rewrite extendSubsidiary_cons. cbn [fmap list_fmap]. rewrite !uuid_alterHandles.
  do 4 f_equal. eapply (IH (length (m' :: d))); [cbn; lia|done].
Qed.

Lemma length_extendSubsidiary start d : length (extendSubsidiary start d) = length d.
Proof.
  rewrite <- (length_fmap uuid), uuid_extendSubsidiary. apply length_fmap.
Qed.

(** The second loop of the growth of the secondary lines on a refined
    grid. *)
Lemma generateSubsidiaryPrimaryLines_extend (T start : nat) d :
  Grid4 (λ m, ∃ p, handles m = Some p ∧ length p = T ∧ firstPointIsCommon m = Some true)
        (λ s, is_Some (handles s) ∧ firstPointIsCommon s = Some false) d →
  ∀ pre t c0 p,
  getToolState t = Some (pre ++ d) →
  length pre = 4 * c0 →
  get_totalNoOfSecondaryLines t = Some (Some T) →
  length d = 4 * p + 1 →
  forEach (seq c0 (S p)) (λ call,
    _generateSubsidiaryPrimaryLine (0 + 4 * Z.of_nat call) (Some (Z.of_nat start)) false) t
  = Return () (with_data (pre ++ extendSubsidiary start d) t).
Proof.
  induction 1 as [m (p1 & Hp1 & Hlen1 & Hm)
                 |m s1 s2 s3 d (p1 & Hp1 & Hlen1 & Hm) [[q1 Hq1] Hs1] [[q2 Hq2] Hs2]
                    [[q3 Hq3] Hs3] G IH];
    intros pre t c0 p E Hpre Htot Hlen.
  - assert (p = 0) as -> by (cbn in Hlen; lia). cbn [seq forEach extendSubsidiary].
    erewrite bind_Return; [reflexivity|].
    replace (0 + 4 * Z.of_nat c0)%Z with (Z.of_nat (length pre)) by lia.
    rewrite (_generateSubsidiaryPrimaryLine_last t pre m [] p1 (Some (Z.of_nat start)) start);
      try done; [by rewrite (with_data_id _ _ E)|by rewrite Hlen1].
  - destruct (Grid4_head _ _ _ G) as (m' & rest & -> & (p2 & Hp2 & Hlen2 & Hm')).
    destruct p as [|p]; [cbn in Hlen; lia|].
    change (seq c0 (S (S p))) with (c0 :: seq (S c0) (S p)). cbn [forEach].
    erewrite bind_Return; last first.
    { replace (0 + 4 * Z.of_nat c0)%Z with (Z.of_nat (length pre)) by lia.
      apply (_generateSubsidiaryPrimaryLine_extend t pre m s1 s2 s3 m' rest p1 p2 q1 q2 q3 start);
        try done; [congruence|by rewrite Hlen1]. }
    cbv beta zeta. rewrite !subsidiaryHandles_line.
    set (s1' := with_handles _ s1). set (s2' := with_handles _ s2).
    set (s3' := with_handles _ s3).
    rewrite (IH (pre ++ [m; s1'; s2'; s3']) _ (S c0) p).
    + rewrite with_data_with_data, <- app_assoc. do 2 f_equal. cbn [app].
      rewrite extendSubsidiary_cons. unfold alterHandles.
      rewrite Hq1, Hq2, Hq3, (pointsOf_Some _ _ Hp1), (pointsOf_Some _ _ Hp2). done.
    + rewrite getToolState_with_data. by rewrite <- app_assoc.
    + rewrite length_app. cbn [length]. lia.
    + rewrite <- Htot. destruct pre as [|y pre].
      * eapply get_totalNoOfSecondaryLines_same_head;
          [apply getToolState_with_data|exact E].
      * eapply get_totalNoOfSecondaryLines_same_head;
          [apply getToolState_with_data|exact E].
    + cbn [length] in Hlen |- *. lia.
Qed.

End ExtendSubsidiary.

Section Stride.
Context {K : Type} `{Num K}.
Implicit Types (t : Tool K) (d pre : list (Measurement K)) (m : Measurement K).

Lemma stride4_split {A} (a b : A) n :
  stride4 a b (S n) = take (4 * n) (stride4 a b (S n)) ++ [a].
Proof.
  destruct n as [|n]; [done|]. rewrite stride4_snoc.
  rewrite take_app_ge by (rewrite length_stride4; lia).
  rewrite length_stride4. replace (4 * S n - (4 * n + 1)) with 3 by lia.
  by rewrite <- app_assoc.
Qed.

Lemma stride4_drop {A} (a b : A) n : drop (4 * n) (stride4 a b (S n)) = [a].
Proof.
  pose proof (take_drop (4 * n) (stride4 a b (S n))) as Htd.
  rewrite (stride4_split a b n) in Htd at 3. by apply app_inv_head in Htd.
Qed.

Lemma stride4_grow {A} (a b : A) n :
  take (4 * n) (stride4 a b (S n)) ++ stride4 a b 2 = stride4 a b (S (S n)).
Proof.
  transitivity (take (4 * n) (stride4 a b (S n)) ++ [a] ++ [b; b; b; a]); [done|].
  rewrite app_assoc, <- stride4_split. symmetry. apply stride4_snoc.
Qed.

Lemma count_take_stride4 n :
  length (List.filter (λ b : bool, b) (take (4 * n) (stride4 true false (S n)))) = n.
Proof.
  pose proof (count_stride4 (S n)) as Hc. rewrite (stride4_split true false n) in Hc.
  rewrite List.filter_app, length_app in Hc. cbn [List.filter length] in Hc. lia.
Qed.

Lemma stride4_drop3 {A} (a b : A) n :
  drop (4 * n + 2) (stride4 a b (S (S n))) = [b; b; a].
Proof.
  rewrite stride4_snoc, drop_app_ge by (rewrite length_stride4; lia).
  rewrite length_stride4. by replace (4 * n + 2 - (4 * n + 1)) with 1 by lia.
Qed.

Lemma replicate_snoc {A} (a : A) n : replicate n a ++ [a] = replicate (S n) a.
Proof. induction n as [|n IH]; [done|]. cbn. by rewrite IH. Qed.

(** A refined main line with one more common point at its end can have
    its last part refined. *)
Lemma refinable_extended n m :
  lineFlags m = Some (stride4 true false (S n) ++ [true]) →
  refinable (4 * n) (S (S n)) m.
Proof.
  intros (pts & Hpts & Hfl)%lineFlags_Some. exists pts. split; [done|].
  assert (length pts = 4 * n + 2) as Hlen.
  { rewrite <- (length_fmap isCommonPoint), Hfl, length_app, length_stride4. cbn. lia. }
  assert (isCommonPoint <$> drop (4 * n) pts = [true; true]) as Hdrop.
  { rewrite fmap_drop, Hfl, drop_app_le by (rewrite length_stride4; lia).
    by rewrite stride4_drop. }
  assert (isCommonPoint <$> take (4 * n) pts = take (4 * n) (stride4 true false (S n)))
    as Htake.
  { by rewrite fmap_take, Hfl, take_app_le by (rewrite length_stride4; lia). }
  split; [|split; [|split]].
  - apply (flags_all_common _ 2) in Hdrop. tauto.
  - lia.
  - by rewrite length_filter_flags, Htake, count_take_stride4.
  - rewrite length_filter_flags, Hfl, List.filter_app, length_app, count_stride4. cbn. lia.
Qed.

Lemma refinedLine_extended n m :
  lineFlags m = Some (stride4 true false (S n) ++ [true]) →
  refinedLine (S (S n)) (alterHandles (refineFrom (4 * n)) m).
Proof.
  intros Hm. destruct (refinable_extended _ _ Hm) as (pts & Hpts & Hc & Hle & _).
  apply lineFlags_Some in Hm as (pts' & Hpts' & Hfl).
  assert (pts' = pts) as -> by congruence.
  unfold refinedLine, alterHandles. rewrite Hpts, lineFlags_with_handles. f_equal.
  unfold refineFrom. rewrite fmap_app, (refineLine_flags _ Hc), fmap_take, Hfl.
  rewrite take_app_le by (rewrite length_stride4; lia).
  rewrite length_drop. apply (f_equal length) in Hfl.
  rewrite length_fmap, length_app, length_stride4 in Hfl. cbn [length] in Hfl.
  replace (length pts - 4 * n) with 2 by lia. apply stride4_grow.
Qed.

Lemma subsidiaryLine_extended n sub (s m m' : Measurement K) :
  subsidiaryLine (S n) s → refinedLine (S (S n)) m → refinedLine (S (S n)) m' →
  subsidiaryLine (S (S n))
    (alterHandles (λ q, q ++ subsidiaryHandles sub (4 * n + 2) (pointsOf m) (pointsOf m')) s).
Proof.
  intros (q & Hq & Hfq)%lineFlags_Some Hm Hm'.
  pose proof (refinedLine_length _ _ Hm) as Hl. pose proof (refinedLine_length _ _ Hm') as Hl'.
  apply lineFlags_Some in Hm as (p & Hp & Hfp).
  unfold subsidiaryLine, alterHandles. rewrite Hq, lineFlags_with_handles. f_equal.
  rewrite fmap_app, Hfq, subsidiaryHandles_flags by congruence.
  rewrite (pointsOf_Some _ _ Hp), length_filter_flags, fmap_drop, Hfp, stride4_drop3.
  cbn [List.filter length replicate]. apply (replicate_snoc false (S n)).
Qed.

Lemma Grid4_extendSubsidiary (PM PS PS' : Measurement K → Prop) start d :
  Grid4 PM PS d →
  (∀ sub s m m', PS s → PM m → PM m' →
     PS' (alterHandles (λ q, q ++ subsidiaryHandles sub start (pointsOf m) (pointsOf m')) s)) →
  Grid4 PM PS' (extendSubsidiary start d).
Proof.
  intros G HS. induction G as [m Hm|m s1 s2 s3 d Hm H1 H2 H3 G IH].
  - by constructor.
  - destruct (Grid4_head _ _ _ G) as (m' & rest & -> & Hm').
    rewrite extendSubsidiary_cons. constructor; auto.
Qed.

End Stride.

Section SecondaryGrowth.
Context {K : Type} `{Num K}.
Implicit Types (t : Tool K) (d pre : list (Measurement K)) (m : Measurement K).

Lemma commonLine_nonempty n m : commonLine (S n) m → ∃ pts, handles m = Some pts ∧ pts ≠ [].
Proof.
  intros (pts & Hpts & Hlen & _)%commonLine_inv. exists pts. split; [done|].
  by destruct pts.
Qed.

Lemma refinedLine_nonempty n m : refinedLine (S n) m → ∃ pts, handles m = Some pts ∧ pts ≠ [].
Proof.
  intros (pts & Hpts & Hlen & _)%refinedLine_inv. exists pts. split; [done|].
  destruct pts; [cbn in Hlen; lia|done].
Qed.

Lemma commonLine_extended n sp i m :
  commonLine (S n) m → commonLine (S (S n)) (extendLine false sp i m).
Proof.
  intros Hm. unfold commonLine.
  rewrite (extendLine_flags false sp i m _ eq_refl Hm) by done.
  f_equal. apply (replicate_snoc true (S n)).
Qed.

(** The growing loop of the secondary lines on a grid without
    refinement. *)
Lemma growSecondaryLines_unrefined fuel : ∀ e n t d P S,
  getToolState t = Some d →
  shape false (Datatypes.S P) (Datatypes.S S) d →
  showRefinementPoints (configuration t) !! "global" = Some false →
  ∃ d' S', growSecondaryLines fuel e n t = Return () (with_data d' t)
    ∧ shape false (Datatypes.S P) (Datatypes.S S') d' ∧ uuid <$> d' = uuid <$> d
    ∧ S' = S + roundsUp fuel e n.
Proof.
  induction fuel as [|fuel IH]; intros e n t d P S E Hshape Hflag.
  { exists d, S. cbn. rewrite (with_data_id _ _ E), Nat.add_0_r. done. }
  cbn [growSecondaryLines roundsUp]. destruct (kofZ e <? n)%K; last first.
  { exists d, S. rewrite (with_data_id _ _ E), Nat.add_0_r. done. }
  pose proof Hshape as [Hlen Hall]%shape_unrefined.
  assert (d ≠ []) as Hne by (intros ->; done).
  pose proof (showRefinementPoints_on_Some _ _ E Hne) as Hon.
  rewrite Hflag in Hon. cbn [from_option Datatypes.id] in Hon.
  erewrite bind_Return; last first.
  { apply generateSecondaryLine_spec; [done..|]. intros i m Hi _.
    rewrite Forall_lookup in Hall. by eapply commonLine_nonempty, Hall. }
  rewrite Hon. set (d1 := imap _ d). set (t1 := with_data d1 t).
  assert (d1 ≠ []) as Hne1 by (unfold d1; by destruct d).
  unfold bind at 1. unfold getTool at 1.
  unfold t1 at 1. rewrite (showRefinementPoints_on_with_data _ _ _ E Hne Hne1), Hon.
  unfold bind at 1. unfold ret at 1.
  destruct (IH (e + 1)%Z n t1 d1 P (Datatypes.S S)) as (d' & S' & Hloop & Hs' & Hu' & HS').
  - apply getToolState_with_data.
  - apply shape_unrefined. split; [unfold d1; by rewrite length_imap|].
    apply Forall_lookup. intros i m Hi. unfold d1 in Hi.
    rewrite list_lookup_imap in Hi. destruct (d !! i) as [m0|] eqn:E0; [|done].
    cbn [fmap option_fmap option_map] in Hi. injection Hi as <-. apply commonLine_extended.
    rewrite Forall_lookup in Hall. by eapply Hall.
  - done.
  - exists d', S'. rewrite Hloop. unfold t1. rewrite with_data_with_data.
    repeat split; try done; [|lia]. rewrite Hu'. unfold d1. apply uuid_imap.
    intros i m. apply uuid_extendLine.
Qed.

(** One round of the growing loop on a refined grid: a common point on
    every main line, the refinement points before it, and a point on every
    subsidiary line. *)
Lemma growSecondaryLines_refined fuel : ∀ n t d P S,
  getToolState t = Some d →
  shape true (Datatypes.S P) (Datatypes.S S) d →
  showRefinementPoints (configuration t) !! "global" = Some true →
  ∃ d' S', growSecondaryLines fuel (Z.of_nat (Datatypes.S S)) n t
           = Return () (with_data d' t)
    ∧ shape true (Datatypes.S P) (Datatypes.S S') d' ∧ uuid <$> d' = uuid <$> d
    ∧ S' = S + roundsUp fuel (Z.of_nat (Datatypes.S S)) n.
Proof.
  induction fuel as [|fuel IH]; intros n t d P S E Hshape Hflag.
  { exists d, S. cbn. rewrite (with_data_id _ _ E), Nat.add_0_r. done. }
  cbn [growSecondaryLines roundsUp]. destruct (kofZ _ <? n)%K; last first.
  { exists d, S. rewrite (with_data_id _ _ E), Nat.add_0_r. done. }
  pose proof Hshape as [Hlen G]%shape_refined.
  assert (d ≠ []) as Hne by (by eapply Grid4_nonempty).
  pose proof (showRefinementPoints_on_Some _ _ E Hne) as Hon.
  rewrite Hflag in Hon. cbn [from_option Datatypes.id] in Hon.
  (* a common point on every main line *)
  erewrite bind_Return; last first.
  { apply generateSecondaryLine_spec; [done..|]. intros i m Hi Hskip.
    rewrite Hon in Hskip. cbn in Hskip. apply negb_false_iff, Nat.eqb_eq in Hskip.
    by eapply refinedLine_nonempty, (Grid4_lookup_main _ _ _ _ _ G Hi). }
  rewrite Hon. set (sp := spacingNumber t).
  set (d1 := imap (extendLine true sp) d). set (t1 := with_data d1 t).
  assert (length d1 = 4 * P + 1) as Hlen1 by (unfold d1; by rewrite length_imap).
  assert (Grid4 (λ m, lineFlags m = Some (stride4 true false (Datatypes.S S) ++ [true]))
                (subsidiaryLine (Datatypes.S S)) d1) as G1.
  { eapply Grid4_imap; [apply extendLine_periodic| |idtac|exact G].
    - intros m Hm. by apply (extendLine_flags true sp 0 m _ eq_refl Hm).
    - intros i m Hi Hm. by rewrite extendLine_skip. }
  assert (d1 ≠ []) as Hne1 by (by eapply Grid4_nonempty).
  assert (getToolState t1 = Some d1) as E1 by apply getToolState_with_data.
  unfold bind at 1. unfold getTool at 1.
  unfold t1 at 1. rewrite (showRefinementPoints_on_with_data _ _ _ E Hne Hne1), Hon.
  (* the refinement points before it *)
  set (d2 := imap (refineMain (4 * S)) d1).
  assert (Grid4 (refinedLine (Datatypes.S (Datatypes.S S))) (subsidiaryLine (Datatypes.S S)) d2)
    as G2.
  { eapply Grid4_imap_refineMain; [|exact G1]. intros m Hm. by apply refinedLine_extended. }
  assert (length d2 = 4 * P + 1) as Hlen2 by (unfold d2; by rewrite length_imap).
  set (t2 := with_data d2 t).
  assert (getToolState t2 = Some d2) as E2 by apply getToolState_with_data.
  set (T := 4 * Datatypes.S S + 1).
  assert (Grid4 (λ m, ∃ p, handles m = Some p ∧ length p = T ∧ firstPointIsCommon m = Some true)
                (λ s, is_Some (handles s) ∧ firstPointIsCommon s = Some false) d2) as G2'.
  { eapply Grid4_mono; [| |exact G2].
    - intros m Hm. destruct (refinedLine_inv _ _ Hm) as (p & Hp & Hl & _).
      exists p. repeat split; try done. by eapply refinedLine_first.
    - intros s Hs. split; [by eapply lineFlags_handles|by eapply subsidiaryLine_first]. }
  assert (get_totalNoOfSecondaryLines t2 = Some (Some T)) as Htot.
  { destruct (Grid4_head _ _ _ G2) as (m0 & l0 & E0 & Hm0).
    destruct (refinedLine_inv _ _ Hm0) as (p0 & Hp0 & Hlen0 & _).
    rewrite E0 in E2. rewrite (get_totalNoOfSecondaryLines_head _ _ _ _ E2 Hp0).
    by rewrite Hlen0. }
  set (d3 := extendSubsidiary (4 * S + 2) d2).
  erewrite bind_Return; last first.
  { erewrite bind_Return; last first.
    { apply (generateRefinementPoints_from t1 d1 P (4 * S) (Datatypes.S (Datatypes.S S))).
      - done.
      - destruct (Grid4_kinds _ _ _ G1) as (p & Hp & Hk).
        + intros m Hm. by rewrite firstPointIsCommon_flags, Hm.
        + apply subsidiaryLine_first.
        + by replace P with p by lia.
      - destruct (Grid4_head _ _ _ G1) as (m0 & l0 & E0 & (p0 & Hp0 & Hf0)%lineFlags_Some).
        rewrite E0 in E1. rewrite (get_noOfSecondaryLines_head _ _ _ _ E1 Hp0).
        rewrite length_filter_flags, Hf0, List.filter_app, length_app, count_stride4.
        do 2 f_equal. cbn. lia.
      - intros i m Hi Hmod. apply refinable_extended.
        by apply (Grid4_lookup_main _ _ _ _ _ G1 Hi).
      - lia. }
    unfold t1. rewrite with_data_with_data. fold d2. fold t2.
    erewrite bind_Return; last first.
    { apply read_Some. eapply (get_noOfPrimaryLines_Grid4 _ _ _ _ P E2 G2); [| |done].
      - apply refinedLine_first.
      - apply subsidiaryLine_first. }
    erewrite bind_Return by (apply read_Some; exact Htot).
    unfold generateSubsidiaryPrimaryLines.
    replace (Z.to_nat (numberOf (Some (Datatypes.S P)) - 0)) with (Datatypes.S P)
      by (unfold numberOf; cbn [from_option Datatypes.id]; lia).
    replace (numberOf (Some T) - 3)%Z with (Z.of_nat (4 * S + 2))
      by (unfold numberOf, T; cbn [from_option Datatypes.id]; lia).
    by apply (generateSubsidiaryPrimaryLines_extend T (4 * S + 2) d2 G2' [] t2 0 P). }
  cbn [app]. fold d3. unfold t2. rewrite with_data_with_data.
  replace (Z.of_nat (Datatypes.S S) + 1)%Z with (Z.of_nat (Datatypes.S (Datatypes.S S))) by lia.
  destruct (IH n (with_data d3 t) d3 P (Datatypes.S S)) as (d' & S' & Hloop & Hs' & Hu' & HS').
  - apply getToolState_with_data.
  - apply shape_refined. split; [unfold d3; by rewrite length_extendSubsidiary|].
    eapply Grid4_extendSubsidiary; [exact G2|]. intros sub s m m' Hs Hm Hm'.
    by apply subsidiaryLine_extended.
  - done.
  - exists d', S'. rewrite Hloop, with_data_with_data. repeat split; try done; [|lia].
    rewrite Hu'. unfold d3, d2, d1. rewrite uuid_extendSubsidiary.
    unfold refineMain. rewrite !uuid_imap; [done|..].
    + intros i m. apply uuid_extendLine.
    + intros i m. destruct (_ =? _)%nat; [apply uuid_alterHandles|done].
Qed.

End SecondaryGrowth.

Section Coordinates.
Context {K : Type} `{Num K}.
Implicit Types (t : Tool K) (d : list (Measurement K)) (m : Measurement K).

#[local] Existing Instance frame_refl.
#[local] Existing Instance frame_trans.
#[local] Existing Instance sameHandles_refl.
#[local] Existing Instance sameHandles_trans.
#[local] Existing Instance sameFlags_refl.
#[local] Existing Instance sameFlags_trans.

Lemma sameFlags_with_data t d d' :
  getToolState t = Some d →
  Forall2 (λ m m', uuid m' = uuid m ∧ lineFlags m' = lineFlags m) d d' →
  sameFlags t (with_data d' t).
Proof.
  intros E F. split.
  - repeat split; try done. intros _. by rewrite getToolState_with_data.
  - rewrite (data_Some _ _ E), data_with_data. done.
Qed.

Lemma keeps_updateData (g : list (Measurement K) → option (list (Measurement K))) :
  (∀ d d', g d = Some d' →
     Forall2 (λ m m', uuid m' = uuid m ∧ lineFlags m' = lineFlags m) d d') →
  keeps sameFlags (updateData g).
Proof.
  intros Hg t. unfold keepsAt, updateData.
  destruct (getToolState t) as [d|] eqn:E; [|reflexivity].
  destruct (g d) as [d'|] eqn:Eg; [|reflexivity].
  eapply sameFlags_with_data; [done|]. by apply Hg.
Qed.

Lemma Forall2_insert_line d i m m' :
  d !! i = Some m → uuid m' = uuid m → lineFlags m' = lineFlags m →
  Forall2 (λ m m', uuid m' = uuid m ∧ lineFlags m' = lineFlags m) d (<[i := m']> d).
Proof.
  intros Hm Hu Hf. apply Forall2_same_length_lookup_2; [by rewrite length_insert|].
  intros j x y Hx Hy. destruct (decide (j = i)) as [->|Hne].
  - rewrite list_lookup_insert_eq in Hy by (by eapply lookup_lt_Some). by simplify_eq.
  - rewrite list_lookup_insert_ne in Hy by done. by simplify_eq.
Qed.

Lemma keeps_alterPoints i (f : list (Point K) → list (Point K)) :
  (∀ pts, isCommonPoint <$> f pts = isCommonPoint <$> pts) →
  keeps sameFlags (updateData (alterPoints i f)).
Proof.
  intros Hf. apply keeps_updateData. intros d d'. unfold alterPoints.
  destruct (d !! i) as [m|] eqn:Em; [|done]. cbn.
  destruct (handles m) as [pts|] eqn:Ep; [|done]. cbn. intros [= <-].
  apply (Forall2_insert_line d i m); [done..|].
  unfold lineFlags. rewrite Ep. cbn. by rewrite Hf.
Qed.

Lemma keeps_writePoint address (x y : K) : keeps sameFlags (writePoint address x y).
Proof.
  apply keeps_updateData. intros d d'.
  destruct (d !! address.1) as [m|] eqn:Em; [|done]. cbn.
  destruct (handles m) as [pts|] eqn:Ep; [|done]. cbn.
  destruct (pts !! address.2) as [p|] eqn:Ea; [|done]. cbn. intros [= <-].
  apply (Forall2_insert_line d address.1 m); [done..|].
  unfold lineFlags. rewrite Ep. cbn. f_equal.
  rewrite list_fmap_insert. cbn. apply list_insert_id. by rewrite list_lookup_fmap, Ea.
Qed.

Lemma respace_flags (dx dy : K) (pts : list (Point K)) :
  isCommonPoint <$> respace dx dy pts = isCommonPoint <$> pts.
Proof.
  unfold respace. generalize (seq 0 (length pts)) as idxs. intros idxs. revert pts.
  induction idxs as [|i idxs IH]; intros pts; [done|]. cbn [foldl].
  rewrite IH. destruct (head pts) as [first|]; [|done].
  erewrite (list_fmap_alter isCommonPoint _ (λ b, b)).
  - by apply list_alter_id.
  - by apply Forall_true.
Qed.

Lemma keeps_untouched (f : Tool K → Tool K) :
  (∀ t, imageId (f t) = imageId t ∧ nextUuid (f t) = nextUuid t
        ∧ toolState (f t) = toolState t
        ∧ showRefinementPoints (configuration (f t))
          = showRefinementPoints (configuration t)
        ∧ noOfPrimaryLines_default (configuration (f t))
          = noOfPrimaryLines_default (configuration t)
        ∧ noOfSecondaryLines_default (configuration (f t))
          = noOfSecondaryLines_default (configuration t)) →
  keeps sameFlags (modify f).
Proof.
  intros Hf t. destruct (Hf t) as (?&?&?&?&?&?).
  apply sameHandles_sameFlags. by apply sameHandles_untouched.
Qed.

Lemma keeps_sameFlags_activateDraw : keeps sameFlags (activateDraw (K:=K)).
Proof. eapply keeps_mono; [apply sameHandles_sameFlags|apply keeps_activateDraw]. Qed.

Lemma keeps_sameFlags_completeDrawing : keeps sameFlags (completeDrawing (K:=K)).
Proof. eapply keeps_mono; [apply sameHandles_sameFlags|apply keeps_completeDrawing]. Qed.

Lemma keeps_sameFlags_fireCompletedEvent : keeps sameFlags (fireCompletedEvent (K:=K)).
Proof. eapply keeps_mono; [apply sameHandles_sameFlags|apply keeps_fireCompletedEvent]. Qed.

End Coordinates.

Section CoordinateEdits.
Context {K : Type} `{Num K}.
Implicit Types (t : Tool K) (d : list (Measurement K)) (m : Measurement K).

#[local] Existing Instance sameFlags_refl.
#[local] Existing Instance sameFlags_trans.

Lemma keeps_onSpacingChange newSpacing id : keeps sameFlags (onSpacingChange newSpacing id).
Proof.
  intros t. unfold onSpacingChange. apply keepsAt_getTool.
  destruct (noGrid t); [keeps_ret|].
  keeps_bind; [apply keeps_sameFlags_activateDraw|]. intros _ t1 _.
  apply keepsAt_getTool.
  keeps_bind; [apply keeps_read; tc_solve|]. intros mx t2 _.
  keeps_bind; [apply keeps_orTypeError; tc_solve|]. intros mx' t3 _.
  keeps_bind; [apply keeps_read; tc_solve|]. intros my t4 _.
  keeps_bind; [apply keeps_orTypeError; tc_solve|]. intros my' t5 _.
  keeps_bind; [apply keeps_read; tc_solve|]. intros total t6 _.
  keeps_bind.
  { apply keeps_forEach; [tc_solve..|]. intros secondaryLineIdx t7.
    keeps_bind; [apply keeps_read; tc_solve|]. intros pts t8 _.
    apply keepsAt_getTool.
    keeps_bind; [apply keeps_orTypeError; tc_solve|]. intros _ t9 _.
    apply keeps_forEach; [tc_solve..|]. intros entry t10.
    apply keepsAt_getTool.
    keeps_bind; [apply keeps_orTypeError; tc_solve|]. intros firstPoint t11 _.
    apply keeps_writePoint. }
  intros _ t7 _. apply keepsAt_getTool.
  keeps_bind.
  { apply keeps_forEach; [tc_solve..|]. intros primaryLineIdx t8.
    keeps_bind; [apply keeps_read; tc_solve|]. intros sx t9 _.
    keeps_bind; [apply keeps_orTypeError; tc_solve|]. intros sx' t10 _.
    keeps_bind; [apply keeps_read; tc_solve|]. intros sy t11 _.
    keeps_bind; [apply keeps_orTypeError; tc_solve|]. intros sy' t12 _.
    apply keeps_alterPoints. intros pts. apply respace_flags. }
  intros _ t8 _.
  keeps_bind.
  { apply keeps_untouched. intros t9. unfold spacing_assign. by case_decide. }
  intros _ t9 _.
  apply keeps_sameFlags_completeDrawing.
Qed.

Lemma keeps_set_spacing value : keeps sameFlags (set_spacing value).
Proof.
  intros t. unfold set_spacing.
  destruct value as [| | |[|v]| |]; try (apply keeps_throw; tc_solve); [keeps_ret|].
  destruct (v <? kofZ 1)%K; [keeps_ret|].
  apply keepsAt_getTool. apply keeps_onSpacingChange.
Qed.

Lemma keeps_setOffset newLocation usingMouseInput :
  keeps sameFlags (setOffset newLocation usingMouseInput).
Proof.
  intros t. unfold setOffset. destruct newLocation as [[|x] y]; [keeps_ret|].
  destruct (x <? kofZ 0)%K; [keeps_ret|]. destruct y as [|y]; [keeps_ret|].
  destruct (y <? kofZ 0)%K; [keeps_ret|].
  apply keepsAt_getTool. cbv zeta.
  keeps_bind; [apply keeps_orTypeError; tc_solve|]. intros d t1 _.
  keeps_bind; [apply keeps_orTypeError; tc_solve|]. intros point t2 _.
  keeps_bind.
  { apply keeps_forEach; [tc_solve..|]. intros tool. apply keeps_alterPoints.
    intros pts. rewrite <- list_fmap_compose. by apply list_fmap_ext. }
  intros _ t3 _. apply keeps_sameFlags_fireCompletedEvent.
Qed.

Lemma keeps_rotateGrid `{Trig K} angle : keeps sameFlags (rotateGrid angle).
Proof.
  intros t. unfold rotateGrid. apply keepsAt_getTool.
  destruct (noGrid t); [keeps_ret|].
  keeps_bind; [apply keeps_read; tc_solve|]. intros middle t1 _.
  keeps_bind; [apply keeps_orTypeError; tc_solve|]. intros middle' t2 _.
  keeps_bind; [apply keeps_sameFlags_activateDraw|]. intros _ t3 _.
  apply keepsAt_getTool.
  keeps_bind.
  { apply keeps_forEach; [tc_solve..|]. intros primaryLine. apply keeps_alterPoints.
    intros pts. rewrite <- list_fmap_compose. by apply list_fmap_ext. }
  intros _ t4 _. apply keeps_sameFlags_completeDrawing.
Qed.

End CoordinateEdits.

Section Views.
Context {K : Type} `{Num K}.
Implicit Types (t : Tool K) (d : list (Measurement K)) (m : Measurement K).

Lemma everyFourth_fmap {A B} (f : A → B) (l : list A) :
  everyFourth (f <$> l) = f <$> everyFourth l.
Proof.
  remember (length l) as n eqn:Hn. revert l Hn.
  induction (lt_wf n) as [n _ IH]; intros l ->.
  destruct l as [|a [|b [|c [|e l]]]]; try done.
  cbn [fmap list_fmap everyFourth]. f_equal. eapply IH; [|done]. cbn [length]. lia.
Qed.

Lemma mainUuidsOf_Grid4 (PM PS : Measurement K → Prop) d :
  Grid4 PM PS d →
  (∀ m, PM m → firstPointIsCommon m = Some true) →
  (∀ m, PS m → firstPointIsCommon m = Some false) →
  mainUuidsOf d = uuid <$> everyFourth d.
Proof.
  intros G HM HS. unfold mainUuidsOf.
  induction G as [m Hm|m s1 s2 s3 d Hm H1 H2 H3 G IH].
  - cbn [List.filter everyFourth]. by rewrite (HM _ Hm), bool_decide_eq_true_2.
  - cbn [List.filter everyFourth].
    rewrite (HM _ Hm), (HS _ H1), (HS _ H2), (HS _ H3).
    rewrite (bool_decide_eq_true_2 (Some true = Some true)) by done.
    rewrite !(bool_decide_eq_false_2 (Some false = Some true)) by done.
    cbn [fmap list_fmap]. by rewrite IH.
Qed.

Lemma mainUuidsOf_shape (b : bool) P S d :
  shape b P (Datatypes.S S) d →
  mainUuidsOf d = if b then everyFourth (uuid <$> d) else uuid <$> d.
Proof.
  destruct b.
  - destruct P as [|P].
    + by intros ->%shape_refined_0.
    + intros [_ G]%shape_refined. rewrite everyFourth_fmap.
      eapply mainUuidsOf_Grid4; [exact G|..].
      * apply refinedLine_first.
      * apply subsidiaryLine_first.
  - intros [_ Hall]%shape_unrefined. unfold mainUuidsOf. f_equal.
    apply filter_all. eapply Forall_impl; [exact Hall|]. intros m Hm.
    apply bool_decide_eq_true_2. by eapply commonLine_first.
Qed.

Lemma mainUuidsOf_app d d' : mainUuidsOf (d ++ d') = mainUuidsOf d ++ mainUuidsOf d'.
Proof. unfold mainUuidsOf. by rewrite List.filter_app, fmap_app. Qed.

Lemma mainUuidsOf_prefix d d' : d `prefix_of` d' → mainUuidsOf d `prefix_of` mainUuidsOf d'.
Proof. intros [k ->]. rewrite mainUuidsOf_app. by apply prefix_app_r. Qed.

Lemma mainUuidsOf_same d d' :
  Forall2 (λ m m', uuid m' = uuid m ∧ lineFlags m' = lineFlags m) d d' →
  mainUuidsOf d' = mainUuidsOf d.
Proof.
  unfold mainUuidsOf. induction 1 as [|m m' d d' [Hu Hf] _ IH]; [done|].
  cbn [List.filter]. rewrite !firstPointIsCommon_flags, Hf.
  case_bool_decide; cbn [fmap list_fmap]; by rewrite ?Hu, IH.
Qed.

Lemma sameFlags_lists t t' :
  sameFlags t t' →
  lineFlags <$> data t' = lineFlags <$> data t ∧ uuid <$> data t' = uuid <$> data t.
Proof.
  intros [_ F]. induction F as [|m m' d d' [Hu Hf] _ [IH1 IH2]]; [done|].
  cbn. by rewrite Hu, Hf, IH1, IH2.
Qed.

Lemma sameFlags_mainUuids t t' : sameFlags t t' → mainUuids t' = mainUuids t.
Proof. intros [_ F]. by apply mainUuidsOf_same. Qed.

Lemma sameFlags_nil t t' : sameFlags t t' → data t = [] → data t' = [].
Proof. intros [_ F] E. rewrite E in F. by inversion F. Qed.

Lemma sameFlags_inShape b P S t t' : sameFlags t t' → inShape b P S t → inShape b P S t'.
Proof.
  intros Hs (Hshape & Hg & Hi & Hd).
  destruct (sameFlags_lists _ _ Hs) as [Hfl _].
  destruct Hs as [(Hid & _ & Hg' & _ & Hd' & _) _].
  repeat split.
  - unfold shape in *. by rewrite Hfl.
  - by rewrite Hg'.
  - by rewrite Hg', Hid.
  - by rewrite Hd'.
Qed.

Lemma sameFlags_wellFormed t t' : sameFlags t t' → wellFormed t → wellFormed t'.
Proof.
  intros Hs [[Hd Hdef]|(b & P & S & HP & HS & Hin)].
  - left. split; [by eapply sameFlags_nil|].
    destruct Hs as [(_ & _ & _ & _ & Hd' & _) _]. by rewrite Hd'.
  - right. exists b, P, S. split; [done|]. split; [done|]. by eapply sameFlags_inShape.
Qed.

Lemma sameFlags_sameIdentity t t' : sameFlags t t' → sameIdentity t t'.
Proof. intros Hs. left. by rewrite (sameFlags_mainUuids _ _ Hs). Qed.

Lemma inShape_upd b P S P' S' t d n :
  inShape b P S t → shape b P' S' d → inShape b P' S' (upd d n t).
Proof.
  intros (_ & Hg & Hi & Hd) Hshape. repeat split; try done.
  by rewrite data_upd.
Qed.

Lemma inShape_with_data b P S P' S' t d :
  inShape b P S t → shape b P' S' d → inShape b P' S' (with_data d t).
Proof. rewrite with_data_as_upd. apply inShape_upd. Qed.

Lemma inShape_getToolState b P S t :
  inShape b (Datatypes.S P) S t → getToolState t = Some (data t) ∧ data t ≠ [].
Proof.
  intros (Hshape & _). destruct (data t) as [|m l] eqn:Ed.
  - exfalso. unfold shape in Hshape. by destruct b.
  - split; [by apply data_nonempty|done].
Qed.

Lemma get_noOfPrimaryLines_shape b P S t d :
  getToolState t = Some d → shape b (Datatypes.S P) (Datatypes.S S) d →
  get_noOfPrimaryLines t = Some (Some (Datatypes.S P)).
Proof.
  intros E Hshape. destruct b.
  - apply shape_refined in Hshape as [Hlen G].
    eapply (get_noOfPrimaryLines_Grid4 _ _ _ _ P E G); [| |done].
    + apply refinedLine_first.
    + apply subsidiaryLine_first.
  - apply shape_unrefined in Hshape as [Hlen Hall].
    rewrite (get_noOfPrimaryLines_flags t d (replicate (Datatypes.S P) true)).
    + by rewrite count_replicate_true.
    + done.
    + intros ->. done.
    + rewrite fmap_replicate, <- Hlen. clear Hlen E.
      induction Hall as [|m l Hm _ IH]; [done|]. cbn.
      by rewrite (commonLine_first _ _ Hm), IH.
Qed.

Lemma get_noOfSecondaryLines_shape b P S t d :
  getToolState t = Some d → shape b (Datatypes.S P) S d →
  get_noOfSecondaryLines t = Some (Some S).
Proof.
  intros E Hshape.
  assert (∃ m l fl, d = m :: l ∧ lineFlags m = Some fl
                    ∧ length (List.filter (λ b : bool, b) fl) = S) as (m & l & fl & -> & Hm & Hc).
  { destruct b.
    - apply shape_refined in Hshape as [Hlen G].
      destruct (Grid4_head _ _ _ G) as (m & l & -> & Hm).
      exists m, l, (stride4 true false S). repeat split; try done. apply count_stride4.
    - unfold shape in Hshape. destruct d as [|m l]; [done|].
      cbn in Hshape. injection Hshape as Hm _.
      exists m, l, (replicate S true). repeat split; try done. apply count_replicate_true. }
  apply lineFlags_Some in Hm as (pts & Hpts & <-).
  rewrite (get_noOfSecondaryLines_head _ _ _ _ E Hpts). by rewrite length_filter_flags, Hc.
Qed.

End Views.

Section Sessions2.
Context {K : Type} `{NumLaws K}.
Implicit Types (t : Tool K) (d : list (Measurement K)) (m : Measurement K).

Lemma session_inv (loop : M K unit) t t' :
  (activateDraw ;; loop ;; completeDrawing) t = Return () t' →
  ∃ t1 t2, sameHandles t t1 ∧ loop t1 = Return () t2 ∧ sameHandles t2 t'.
Proof.
  intros Hrun. apply bind_inv_Return in Hrun as ([] & t1 & H1 & Hrun).
  apply bind_inv_Return in Hrun as ([] & t2 & H2 & H3).
  exists t1, t2. split; [|split; [done|]].
  - by apply (keeps_inv_Return _ _ _ _ _ keeps_activateDraw H1).
  - by apply (keeps_inv_Return _ _ _ _ _ keeps_completeDrawing H3).
Qed.

Lemma mainUuids_upd d n t : mainUuids (upd d n t) = mainUuidsOf d.
Proof. unfold mainUuids. by rewrite data_upd. Qed.

Lemma mainUuids_with_data d t : mainUuids (with_data d t) = mainUuidsOf d.
Proof. unfold mainUuids. by rewrite data_with_data. Qed.

Lemma sameHandles_inShape b P S t t' : sameHandles t t' → inShape b P S t → inShape b P S t'.
Proof. intros Hs. by apply sameFlags_inShape, sameHandles_sameFlags. Qed.

Lemma sameHandles_mainUuids t t' : sameHandles t t' → mainUuids t' = mainUuids t.
Proof. intros Hs. by apply sameFlags_mainUuids, sameHandles_sameFlags. Qed.

(** [set noOfPrimaryLines] on a grid: the shape stays, with at least two
    main lines, and the main lines that stay keep their uuids. *)
Lemma set_noOfPrimaryLines_inShape v (b : bool) P S t t' :
  2 ≤ P → 2 ≤ S → inShape b P S t →
  set_noOfPrimaryLines v t = Return () t' →
  ∃ P', 2 ≤ P' ∧ inShape b P' S t' ∧ sameIdentity t t'.
Proof.
  intros HP HS Hin Hrun.
  assert (∃ P', 2 ≤ P' ∧ inShape b P' S t ∧ sameIdentity t t) as Hsame.
  { exists P. repeat split; try done; try apply Hin. by left. }
  destruct v as [| | |[|n]| |]; try done; cbn [set_noOfPrimaryLines] in Hrun.
  { by injection Hrun as <-. }
  destruct (n <? kofZ 2)%K eqn:Hn; [by injection Hrun as <-|].
  destruct P as [|P]; [lia|]. destruct S as [|S]; [lia|].
  destruct (inShape_getToolState _ _ _ _ Hin) as [E Hne].
  pose proof Hin as (Hshape & Hg & Hi & Hd).
  erewrite bind_Return in Hrun
    by (apply read_Some; by eapply get_noOfPrimaryLines_shape).
  destruct (strictEquals n _); [by injection Hrun as <-|].
  apply session_inv in Hrun as (t1 & t2 & Hs1 & Hloop & Hs2).
  pose proof (sameHandles_inShape _ _ _ _ _ Hs1 Hin) as Hin1.
  destruct (inShape_getToolState _ _ _ _ Hin1) as [E1 Hne1].
  pose proof Hin1 as (Hshape1 & Hg1 & Hi1 & Hd1).
  assert (mainUuids t' = mainUuids t2) as Hu2 by (by apply sameHandles_mainUuids).
  assert (mainUuids t1 = mainUuids t) as Hu1 by (by apply sameHandles_mainUuids).
  destruct (kofZ _ <? n)%K.
  - assert (∃ d' u' P', growPrimaryLines (Z.to_nat (kupper n))
                (numberOf (Some (Datatypes.S P))) n t1
              = Return () (upd (data t1 ++ d') u' t1)
              ∧ shape b (Datatypes.S P') (Datatypes.S S) (data t1 ++ d')
              ∧ P' = P + roundsUp (Z.to_nat (kupper n))
                                  (numberOf (Some (Datatypes.S P))) n)
      as (d' & u' & P' & Hgrow & Hshape' & HP').
    { destruct b; [by eapply growPrimaryLines_refined|by eapply growPrimaryLines_unrefined]. }
    rewrite Hgrow in Hloop. injection Hloop as <-.
    exists (Datatypes.S P'). split; [lia|]. split.
    + eapply sameHandles_inShape; [exact Hs2|]. by eapply inShape_upd.
    + left. rewrite Hu2, mainUuids_upd, <- Hu1, mainUuidsOf_app.
      by apply prefix_app_r.
  - destruct (shrinkPrimaryLines_spec b (Z.to_nat (numberOf (Some (Datatypes.S P)))) n t1
                (data t1) (Datatypes.S P) (Datatypes.S S))
      as (d' & P' & Hshrink & Hpre & Hshape' & HP' & _); try done.
    unfold numberOf in Hloop. cbn [from_option Datatypes.id] in Hloop.
    unfold numberOf in Hshrink. cbn [from_option Datatypes.id] in Hshrink.
    rewrite Hshrink in Hloop. injection Hloop as <-.
    exists P'. split; [done|]. split.
    + eapply sameHandles_inShape; [exact Hs2|]. by eapply inShape_with_data.
    + right. rewrite Hu2, mainUuids_with_data, <- Hu1. by apply mainUuidsOf_prefix.
Qed.

(** [set noOfSecondaryLines] on a grid: the shape stays, with at least two
    common points per main line, and the lines keep their uuids. *)
Lemma set_noOfSecondaryLines_inShape v (b : bool) P S t t' :
  2 ≤ P → 2 ≤ S → inShape b P S t →
  set_noOfSecondaryLines v t = Return () t' →
  ∃ S', 2 ≤ S' ∧ inShape b P S' t' ∧ sameIdentity t t'.
Proof.
  intros HP HS Hin Hrun.
  assert (∃ S', 2 ≤ S' ∧ inShape b P S' t ∧ sameIdentity t t) as Hsame.
  { exists S. repeat split; try done; try apply Hin. by left. }
  destruct v as [| | |[|n]| |]; try done; cbn [set_noOfSecondaryLines] in Hrun.
  { by injection Hrun as <-. }
  destruct (n <? kofZ 2)%K eqn:Hn; [by injection Hrun as <-|].
  destruct P as [|P]; [lia|]. destruct S as [|S]; [lia|].
  destruct (inShape_getToolState _ _ _ _ Hin) as [E Hne].
  pose proof Hin as (Hshape & Hg & Hi & Hd).
  erewrite bind_Return in Hrun
    by (apply read_Some; by eapply get_noOfSecondaryLines_shape).
  destruct (strictEquals n _); [by injection Hrun as <-|].
  apply session_inv in Hrun as (t1 & t2 & Hs1 & Hloop & Hs2).
  pose proof (sameHandles_inShape _ _ _ _ _ Hs1 Hin) as Hin1.
  destruct (inShape_getToolState _ _ _ _ Hin1) as [E1 Hne1].
  pose proof Hin1 as (Hshape1 & Hg1 & Hi1 & Hd1).
  assert (mainUuids t' = mainUuids t2) as Hu2 by (by apply sameHandles_mainUuids).
  assert (mainUuids t1 = mainUuids t) as Hu1 by (by apply sameHandles_mainUuids).
  unfold numberOf in Hloop. cbn [from_option Datatypes.id] in Hloop.
  assert (∃ d' S', t2 = with_data d' t1
            ∧ shape b (Datatypes.S P) S' d' ∧ 2 ≤ S' ∧ uuid <$> d' = uuid <$> data t1)
    as (d' & S' & -> & Hshape' & HS' & Hu').
  { destruct (kofZ _ <? n)%K.
    - assert (∃ d' S', growSecondaryLines (Z.to_nat (kupper n))
                  (Z.of_nat (Datatypes.S S)) n t1 = Return () (with_data d' t1)
                ∧ shape b (Datatypes.S P) (Datatypes.S S') d'
                ∧ uuid <$> d' = uuid <$> data t1
                ∧ S' = S + roundsUp (Z.to_nat (kupper n)) (Z.of_nat (Datatypes.S S)) n)
        as (d' & S' & Hgrow & Hshape' & Hu' & HS').
      { destruct b; [by eapply growSecondaryLines_refined
                    |by eapply growSecondaryLines_unrefined]. }
      rewrite Hgrow in Hloop. injection Hloop as <-.
      exists d', (Datatypes.S S'). repeat split; try done. lia.
    - destruct (shrinkSecondaryLines_spec b (Z.to_nat (Z.of_nat (Datatypes.S S))) n t1
                  (data t1) P (Datatypes.S S))
        as (d' & S' & Hshrink & Hshape' & HS' & Hu' & _); try done.
      rewrite Hshrink in Hloop. injection Hloop as <-.
      by exists d', S'. }
  exists S'. split; [done|]. split.
  - eapply sameHandles_inShape; [exact Hs2|]. by eapply inShape_with_data.
  - left. rewrite Hu2, mainUuids_with_data, <- Hu1. unfold mainUuids.
    destruct S' as [|S']; [lia|].
    rewrite (mainUuidsOf_shape _ _ _ _ Hshape'), (mainUuidsOf_shape _ _ _ _ Hshape1).
    by rewrite Hu'.
Qed.

End Sessions2.

Section ToggleShape.
Context {K : Type} `{Num K}.
Implicit Types (t : Tool K) (d : list (Measurement K)) (m : Measurement K).

Lemma length_everyFourth (PM PS : Measurement K → Prop) d p :
  Grid4 PM PS d → length d = 4 * p + 1 → length (everyFourth d) = S p.
Proof.
  intros G. revert p. induction G as [m Hm|m s1 s2 s3 d Hm H1 H2 H3 G IH]; intros p Hlen.
  - cbn in *. lia.
  - destruct p as [|p]; [cbn in Hlen; lia|].
    change (everyFourth (m :: s1 :: s2 :: s3 :: d)) with (m :: everyFourth d).
    cbn [length] in Hlen |- *. rewrite (IH p); [done|lia].
Qed.

Lemma Forall_everyFourth (PM PS : Measurement K → Prop) d :
  Grid4 PM PS d → Forall PM (everyFourth d).
Proof.
  induction 1 as [m Hm|m s1 s2 s3 d Hm H1 H2 H3 G IH]; [by repeat constructor|].
  change (everyFourth (m :: s1 :: s2 :: s3 :: d)) with (m :: everyFourth d).
  by constructor.
Qed.

Lemma commonLine_strip n m :
  refinedLine n m → commonLine n (alterHandles (List.filter isCommonPoint) m).
Proof.
  intros (pts & Hpts & Hfl)%lineFlags_Some.
  unfold commonLine, alterHandles. rewrite Hpts, lineFlags_with_handles. f_equal.
  apply flags_all_common. split.
  - by rewrite length_filter_flags, Hfl, count_stride4.
  - apply Forall_forall. intros p Hp. apply list_elem_of_In, List.filter_In in Hp. tauto.
Qed.

Lemma inShape_showRefinementPointsSet v P S t :
  1 ≤ noOfSecondaryLines_default (configuration t) →
  shape v P S (data t) → inShape v P S (showRefinementPointsSet v t).
Proof.
  intros Hd Hshape. repeat split; try done.
  - apply global_showRefinementPointsSet.
  - apply flag_showRefinementPointsSet.
Qed.

(** The showRefinementPoints setter on a grid: the main lines and their
    common points stay, refined or not as the value says. *)
Lemma set_showRefinementPoints_inShape v (b : bool) P S t t' :
  1 ≤ P → 1 ≤ S → inShape b P S t →
  set_showRefinementPoints v t = Return () t' →
  ∃ b', inShape b' P S t' ∧ mainUuids t' = mainUuids t.
Proof.
  intros HP HS Hin Hrun.
  destruct v as [| |v| | |]; try done.
  destruct P as [|P]; [lia|]. destruct S as [|S]; [lia|].
  destruct (inShape_getToolState _ _ _ _ Hin) as [E Hne].
  pose proof Hin as (Hshape & Hg & Hi & Hd).
  destruct (decide (v = b)) as [->|Hvb].
  { unfold set_showRefinementPoints in Hrun. unfold bind at 1 in Hrun.
    unfold getTool at 1 in Hrun. rewrite bool_decide_eq_true_2 in Hrun by done.
    injection Hrun as <-. by exists b. }
  destruct v, b; try done.
  - (* enabling *)
    apply shape_unrefined in Hshape as [Hlen Hall].
    destruct (data t) as [|m ms] eqn:Ed; [done|].
    rewrite (set_showRefinementPoints_true_spec t m ms S E Hall) in Hrun
      by (rewrite Hi; done).
    injection Hrun as <-. exists true.
    pose proof (Grid4_refinedGrid _ (nextUuid t) m ms Hall) as G.
    split.
    + apply inShape_showRefinementPointsSet; [done|].
      rewrite data_upd. apply shape_refined. split; [|done].
      rewrite length_refinedGrid. cbn [length] in Hlen. lia.
    + unfold mainUuids. rewrite data_showRefinementPointsSet, data_upd, Ed.
      rewrite (mainUuidsOf_Grid4 _ _ _ G (refinedLine_first S) (subsidiaryLine_first S)).
      unfold refinedGrid. rewrite everyFourth_imap_refineMain, everyFourth_withSubsidiary.
      rewrite (mainUuidsOf_shape false (Datatypes.S P) S (m :: ms))
        by (by apply shape_unrefined).
      rewrite <- list_fmap_compose. apply list_fmap_ext. intros i x _. cbn.
      apply uuid_alterHandles.
  - (* disabling *)
    apply shape_refined in Hshape as [Hlen G].
    assert (Forall (λ x, is_Some (handles x)) (data t)) as Hfull.
    { eapply Grid4_handles; [exact G|..]; intros x Hx; by eapply lineFlags_handles. }
    rewrite (set_showRefinementPoints_false_spec t _ E Hne Hfull) in Hrun
      by (rewrite Hi; done).
    injection Hrun as <-. exists false.
    rewrite (dropEmpty_refined _ _ G).
    set (d' := alterHandles (List.filter isCommonPoint) <$> everyFourth (data t)).
    assert (shape false (Datatypes.S P) (Datatypes.S S) d') as Hshape'.
    { apply shape_unrefined. split.
      - unfold d'. by rewrite length_fmap, (length_everyFourth _ _ _ P G).
      - unfold d'. apply Forall_fmap. eapply Forall_impl; [by eapply Forall_everyFourth|].
        intros x Hx. by apply commonLine_strip. }
    split.
    + apply inShape_showRefinementPointsSet; [done|]. by rewrite data_with_data.
    + unfold mainUuids. rewrite data_showRefinementPointsSet, data_with_data.
      rewrite (mainUuidsOf_shape false _ _ _ Hshape').
      rewrite (mainUuidsOf_Grid4 _ _ _ G (refinedLine_first S) (subsidiaryLine_first S)).
      unfold d'. rewrite <- list_fmap_compose. apply list_fmap_ext. intros i x _. cbn.
      apply uuid_alterHandles.
Qed.

End ToggleShape.

Section NoGrid.
Context {K : Type} `{Num K}.
Implicit Types (t : Tool K) (d : list (Measurement K)) (m : Measurement K).

Lemma noGrid_nil t : data t = [] → noGrid t = true.
Proof. unfold noGrid. by intros ->. Qed.

Lemma generateSecondaryLine_empty t : data t = [] → generateSecondaryLine t = Return () t.
Proof.
  intros Hd. unfold generateSecondaryLine, bind, getTool, get_totalNoOfPrimaryLines.
  by rewrite (noGrid_nil _ Hd).
Qed.

Lemma showRefinementPoints_on_empty t : data t = [] → showRefinementPoints_on t = false.
Proof.
  intros Hd. unfold showRefinementPoints_on, get_showRefinementPoints.
  by rewrite (noGrid_nil _ Hd).
Qed.

Lemma growSecondaryLines_empty fuel : ∀ e n t,
  data t = [] → growSecondaryLines fuel e n t = Return () t.
Proof.
  induction fuel as [|fuel IH]; intros e n t Hd; [done|].
  cbn [growSecondaryLines]. destruct (kofZ e <? n)%K; [|done].
  erewrite bind_Return by (by apply generateSecondaryLine_empty).
  unfold bind at 1. unfold getTool at 1. rewrite (showRefinementPoints_on_empty _ Hd).
  unfold bind at 1. unfold ret at 1. by apply IH.
Qed.

Lemma shrinkSecondaryLines_empty fuel : ∀ e n t,
  data t = [] → shrinkSecondaryLines fuel e n t = Return () t.
Proof.
  induction fuel as [|fuel IH]; intros e n t Hd; [done|].
  cbn [shrinkSecondaryLines]. destruct (n <? kofZ e)%K; [|done].
  erewrite bind_Return; [by apply IH|].
  unfold removeLastSecondaryLine, bind, getTool. by rewrite (noGrid_nil _ Hd).
Qed.

(** Without a grid and without a position there is nothing to build the
    first line from. *)
Lemma generateMainPrimaryLine_empty t :
  data t = [] → 1 ≤ noOfSecondaryLines_default (configuration t) →
  ∃ t', generateMainPrimaryLine None None t = Throw TypeError t'.
Proof.
  intros Hd Hdef. unfold generateMainPrimaryLine.
  assert (addNewMeasurementToState None t
          = Return () (upd (data t ++ [createNewMeasurement (nextUuid t)])
                           (N.succ (nextUuid t)) t)) as Hadd by done.
  rewrite (bind_Return _ _ _ _ _ Hadd), Hd. cbn [app].
  set (t1 := upd _ _ _).
  assert (data t1 = [createNewMeasurement (nextUuid t)]) as Hd1 by apply data_upd.
  unfold bind at 1. unfold getTool at 1.
  unfold t1 at 1. rewrite getToolState_upd. unfold orTypeError at 1.
  unfold bind at 1. unfold ret at 1.
  eexists. apply bind_Throw. unfold read, mainPrimaryLinePoints. rewrite Hd1.
  cbn [length Nat.ltb Nat.leb].
  destruct (noOfSecondaryLines_default (configuration t1)) as [|k] eqn:Ek.
  { unfold t1 in Ek. cbn in Ek. lia. }
  reflexivity.
Qed.

Lemma growPrimaryLines_empty fuel e n t t' :
  data t = [] → 1 ≤ noOfSecondaryLines_default (configuration t) →
  growPrimaryLines fuel e n t = Return () t' → t' = t.
Proof.
  intros Hd Hdef Hrun. destruct fuel as [|fuel]; [by injection Hrun as <-|].
  cbn [growPrimaryLines] in Hrun. destruct (kofZ e <? n)%K; [|by injection Hrun as <-].
  unfold bind at 1 in Hrun. unfold getTool at 1 in Hrun.
  unfold get_totalNoOfPrimaryLines in Hrun. rewrite (noGrid_nil _ Hd) in Hrun.
  destruct (generateMainPrimaryLine_empty t Hd Hdef) as [t1 Ht1].
  by rewrite (bind_Throw _ _ _ _ _ Ht1) in Hrun.
Qed.

Lemma set_showRefinementPoints_empty v t t' :
  data t = [] → set_showRefinementPoints v t = Return () t' →
  data t' = []
  ∧ noOfSecondaryLines_default (configuration t')
    = noOfSecondaryLines_default (configuration t).
Proof.
  intros Hd Hrun. destruct v as [| |v| | |]; try done.
  unfold set_showRefinementPoints in Hrun. unfold bind at 1 in Hrun.
  unfold getTool at 1 in Hrun. case_bool_decide; [by injection Hrun as <-|].
  assert ((if v
           then generateSubsidiaryPrimaryLines 0
                  (numberOf (get_totalNoOfPrimaryLines t) - 1) true None ;;
                generateRefinementPointsOnCurrentPrimaryLines defaultRefinementOptions
           else removeAllRefinementPoints) t = Return () t) as Hbody.
  { destruct v.
    - unfold get_totalNoOfPrimaryLines. rewrite (noGrid_nil _ Hd).
      unfold generateSubsidiaryPrimaryLines, numberOf. cbn [from_option Datatypes.id].
      change (Z.to_nat (Z.of_nat 0 - 1 - 0)) with 0. cbn [seq forEach].
      unfold generateRefinementPointsOnCurrentPrimaryLines, bind, getTool, ret.
      by rewrite (noGrid_nil _ Hd).
    - unfold removeAllRefinementPoints, bind, getTool. by rewrite (noGrid_nil _ Hd). }
  rewrite (bind_Return _ _ _ _ _ Hbody) in Hrun. injection Hrun as <-.
  split; [exact Hd|done].
Qed.

End NoGrid.

Section Calls.
Context {K : Type} `{NumLaws K} `{Trig K}.
Implicit Types (t : Tool K) (d : list (Measurement K)) (m : Measurement K).

Lemma sameHandles_nil t t' : sameHandles t t' → data t = [] → data t' = [].
Proof. intros Hs. by apply sameFlags_nil, sameHandles_sameFlags. Qed.

Lemma sameHandles_default t t' :
  sameHandles t t' →
  noOfSecondaryLines_default (configuration t')
  = noOfSecondaryLines_default (configuration t).
Proof. by intros [(_ & _ & _ & _ & ? & _) _]. Qed.

Lemma get_noOfPrimaryLines_empty t : data t = [] → get_noOfPrimaryLines t = Some None.
Proof. intros Hd. unfold get_noOfPrimaryLines. by rewrite (noGrid_nil _ Hd). Qed.

Lemma get_noOfSecondaryLines_empty t : data t = [] → get_noOfSecondaryLines t = Some None.
Proof. intros Hd. unfold get_noOfSecondaryLines. by rewrite (noGrid_nil _ Hd). Qed.

Lemma set_noOfPrimaryLines_empty v t t' :
  data t = [] → 1 ≤ noOfSecondaryLines_default (configuration t) →
  set_noOfPrimaryLines v t = Return () t' →
  data t' = [] ∧ 1 ≤ noOfSecondaryLines_default (configuration t').
Proof.
  intros Hd Hdef Hrun.
  destruct v as [| | |[|n]| |]; try done; cbn [set_noOfPrimaryLines] in Hrun.
  { by injection Hrun as <-. }
  destruct (n <? kofZ 2)%K; [by injection Hrun as <-|].
  erewrite bind_Return in Hrun by (apply read_Some; by apply get_noOfPrimaryLines_empty).
  cbn [strictEquals] in Hrun.
  apply session_inv in Hrun as (t1 & t2 & Hs1 & Hloop & Hs2).
  pose proof (sameHandles_nil _ _ Hs1 Hd) as Hd1.
  pose proof (sameHandles_default _ _ Hs1) as Hdef1.
  assert (t2 = t1) as ->.
  { destruct (kofZ _ <? n)%K.
    - eapply growPrimaryLines_empty; [done| |exact Hloop]. lia.
    - by injection Hloop as <-. }
  split; [by eapply sameHandles_nil|]. rewrite (sameHandles_default _ _ Hs2). lia.
Qed.

Lemma set_noOfSecondaryLines_empty v t t' :
  data t = [] → 1 ≤ noOfSecondaryLines_default (configuration t) →
  set_noOfSecondaryLines v t = Return () t' →
  data t' = [] ∧ 1 ≤ noOfSecondaryLines_default (configuration t').
Proof.
  intros Hd Hdef Hrun.
  destruct v as [| | |[|n]| |]; try done; cbn [set_noOfSecondaryLines] in Hrun.
  { by injection Hrun as <-. }
  destruct (n <? kofZ 2)%K; [by injection Hrun as <-|].
  erewrite bind_Return in Hrun by (apply read_Some; by apply get_noOfSecondaryLines_empty).
  cbn [strictEquals] in Hrun.
  apply session_inv in Hrun as (t1 & t2 & Hs1 & Hloop & Hs2).
  pose proof (sameHandles_nil _ _ Hs1 Hd) as Hd1.
  pose proof (sameHandles_default _ _ Hs1) as Hdef1.
  assert (t2 = t1) as ->.
  { destruct (kofZ _ <? n)%K.
    - rewrite growSecondaryLines_empty in Hloop by done. by injection Hloop as <-.
    - rewrite shrinkSecondaryLines_empty in Hloop by done. by injection Hloop as <-. }
  split; [by eapply sameHandles_nil|]. rewrite (sameHandles_default _ _ Hs2). lia.
Qed.

Lemma sameIdentity_nil t t' : data t = [] → sameIdentity t t'.
Proof. intros Hd. left. unfold mainUuids. rewrite Hd. apply prefix_nil. Qed.

Lemma sameIdentity_nil_r t t' : data t' = [] → sameIdentity t t'.
Proof. intros Hd. right. unfold mainUuids. rewrite Hd. apply prefix_nil. Qed.

Lemma keeps_run_coordinates (c : Call K) :
  match c with
  | SetSpacing _ | RotateGrid _ | SetOffset _ _ => keeps sameFlags (run c)
  | _ => True
  end.
Proof.
  destruct c; try done; cbn [run].
  - apply keeps_set_spacing.
  - apply keeps_rotateGrid.
  - apply keeps_setOffset.
Qed.

(** Every call that returns leaves the tool well formed, and the main
    lines that stay keep their uuids. *)
Lemma run_wellFormed (c : Call K) t t' :
  wellFormed t → run c t = Return () t' → wellFormed t' ∧ sameIdentity t t'.
Proof.
  intros Hwf Hrun.
  assert (sameFlags t t' → wellFormed t' ∧ sameIdentity t t') as Hcoord.
  { intros Hs. split; [by eapply sameFlags_wellFormed|by apply sameFlags_sameIdentity]. }
  pose proof (keeps_run_coordinates c) as Hk.
  destruct c as [v|v|v|v|angle|newLocation usingMouseInput|]; cbn [run] in Hrun.
  - destruct Hwf as [[Hd Hdef]|(b & P & S & HP & HS & Hin)].
    + destruct (set_noOfPrimaryLines_empty _ _ _ Hd Hdef Hrun) as [Hd' Hdef'].
      split; [by left|by apply sameIdentity_nil].
    + destruct (set_noOfPrimaryLines_inShape _ _ _ _ _ _ HP HS Hin Hrun)
        as (P' & HP' & Hin' & Hid).
      split; [|done]. right. by exists b, P', S.
  - destruct Hwf as [[Hd Hdef]|(b & P & S & HP & HS & Hin)].
    + destruct (set_noOfSecondaryLines_empty _ _ _ Hd Hdef Hrun) as [Hd' Hdef'].
      split; [by left|by apply sameIdentity_nil].
    + destruct (set_noOfSecondaryLines_inShape _ _ _ _ _ _ HP HS Hin Hrun)
        as (S' & HS' & Hin' & Hid).
      split; [|done]. right. by exists b, P, S'.
  - destruct Hwf as [[Hd Hdef]|(b & P & S & HP & HS & Hin)].
    + destruct (set_showRefinementPoints_empty _ _ _ Hd Hrun) as [Hd' Hdef'].
      split; [left; split; [done|lia]|by apply sameIdentity_nil].
    + destruct (set_showRefinementPoints_inShape v b P S t t') as (b' & Hin' & Hid);
        [lia|lia|done..|].
      split; [right; by exists b', P, S|]. left. by rewrite Hid.
  - apply Hcoord. by eapply keeps_inv_Return.
  - apply Hcoord. by eapply keeps_inv_Return.
  - apply Hcoord. by eapply keeps_inv_Return.
  - destruct (removeGrid_spec t) as (t1 & E1 & Hd1 & _ & _ & _ & _ & Hdef1).
    rewrite E1 in Hrun. injection Hrun as <-.
    split; [|by apply sameIdentity_nil_r].
    left. split; [done|].
    destruct Hwf as [[_ Hdef]|(b & P & S & _ & _ & _ & _ & _ & Hdef)]; lia.
Qed.

End Calls.

Section Placement2.
Context {K : Type} `{Num K}.
Implicit Types (t : Tool K) (d : list (Measurement K)) (m : Measurement K).

Lemma noGrid_data t : noGrid t = true → data t = [].
Proof. unfold noGrid. by destruct (data t). Qed.

(** The first line of a new grid. *)
Lemma generateMainPrimaryLine_first t position :
  data t = [] →
  ∃ pts, length pts = noOfSecondaryLines_default (configuration t)
    ∧ Forall (λ p, isCommonPoint p = true) pts
    ∧ generateMainPrimaryLine (Some 0) (Some position) t
      = Return () (upd [mkLine (nextUuid t) pts] (N.succ (nextUuid t)) t).
Proof.
  intros Hd.
  set (t1 := upd [createNewMeasurement (nextUuid t)] (N.succ (nextUuid t)) t).
  set (g := λ idx : nat,
    {| n_x := (position.1 + kofZ (currentTool (configuration t1)) * spacingNumber t1)%K;
       n_y := if (idx =? 0)%nat then position.2
              else (position.2 + spacingNumber t1 * kofZ (Z.of_nat idx))%K;
       primaryLineIdx := 0;
       n_isCommonPoint := true |}).
  set (nps := g <$> seq 0 (noOfSecondaryLines_default (configuration t))).
  exists (handleOf <$> nps). split; [|split].
  - unfold nps. by rewrite !length_fmap, length_seq.
  - apply Forall_fmap, Forall_fmap. by apply Forall_true.
  - unfold generateMainPrimaryLine.
    erewrite bind_Return; last first.
    { rewrite addNewMeasurementToState_spec, Hd. reflexivity. }
    cbn [take drop app]. fold t1.
    unfold bind at 1. unfold getTool at 1.
    unfold t1 at 1. rewrite getToolState_upd. unfold orTypeError at 1.
    unfold bind at 1. unfold ret at 1.
    erewrite bind_Return; last first.
    { apply read_Some. unfold mainPrimaryLinePoints.
      unfold t1 at 1. rewrite data_upd. cbn [length Nat.ltb Nat.leb].
      apply (mapM_fmap_Some _ _ nps). unfold nps. rewrite <- list_fmap_compose.
      reflexivity. }
    fold nps.
    erewrite (forEach_addPoint_line nps [] _ [] []).
    + unfold t1. rewrite with_data_upd. done.
    + apply getToolState_upd.
    + done.
    + apply Forall_fmap. by apply Forall_true.
Qed.

(** The other lines of a new grid, one after the other. *)
Lemma forEach_generateMainPrimaryLine position S k : ∀ d t,
  getToolState t = Some d →
  shape false (length d) (Datatypes.S S) d → d ≠ [] →
  noOfSecondaryLines_default (configuration t) = Datatypes.S S →
  ∃ d' u', forEach (seq (length d) k) (λ lineIdx,
             generateMainPrimaryLine (Some lineIdx) (Some position)) t
           = Return () (upd d' u' t)
    ∧ shape false (length d + k) (Datatypes.S S) d'.
Proof.
  induction k as [|k IH]; intros d t E Hshape Hne Hdef.
  { exists d, (nextUuid t). cbn. rewrite (upd_id _ _ E), Nat.add_0_r. done. }
  cbn [seq forEach].
  destruct (generateMainPrimaryLine_next t d (Datatypes.S S) (Some position))
    as (pts & Hlen & Hc & Hgen); try done.
  1-4: destruct d as [|m0 l0]; [done|];
       destruct (regular_unrefined (length l0) S (m0 :: l0) Hshape) as (_ & ? & ? & ? & ?);
       done.
  erewrite bind_Return by exact Hgen.
  set (d1 := d ++ [mkLine (nextUuid t) pts]).
  destruct (IH d1 (upd d1 (N.succ (nextUuid t)) t)) as (d' & u' & Hloop & Hshape').
  - apply getToolState_upd.
  - unfold d1. rewrite length_app. cbn [length]. rewrite Nat.add_1_r.
    apply shape_unrefined_snoc; [done|]. rewrite <- Hlen. by apply commonLine_mkLine.
  - unfold d1. by destruct d.
  - done.
  - exists d', u'. unfold d1 in *. rewrite length_app in Hloop, Hshape'.
    cbn [length] in Hloop, Hshape'. rewrite Nat.add_1_r in Hloop, Hshape'.
    rewrite Hloop, upd_upd. split; [done|].
    by replace (length d + Datatypes.S k) with (Datatypes.S (length d) + k) by lia.
Qed.

Lemma strip_common n m :
  commonLine n m → alterHandles (List.filter isCommonPoint) m = m.
Proof.
  intros (pts & Hpts & _ & Hc)%commonLine_inv. unfold alterHandles. rewrite Hpts.
  rewrite (filter_all _ _ Hc). by apply with_handles_id.
Qed.

Lemma dropEmpty_unrefined n d :
  Forall (commonLine (S n)) d →
  dropEmpty (alterHandles (List.filter isCommonPoint) <$> d) = d.
Proof.
  intros Hall.
  assert (alterHandles (List.filter isCommonPoint) <$> d = d) as ->.
  { induction Hall as [|m l Hm _ IH]; [done|]. cbn. by rewrite (strip_common _ _ Hm), IH. }
  destruct Hall as [|m l Hm Hall]; [done|]. cbn. f_equal.
  apply filter_all. eapply Forall_impl; [exact Hall|]. intros x Hx.
  destruct (commonLine_nonempty _ _ Hx) as (pts & Hpts & Hne).
  unfold hasPoints. rewrite (pointsOf_Some _ _ Hpts). by destruct pts.
Qed.

End Placement2.

Section Placement3.
Context {K : Type} `{Num K}.
Implicit Types (t : Tool K) (d : list (Measurement K)) (m : Measurement K).

Lemma sameHandles_flag t t' :
  sameHandles t t' →
  showRefinementPoints (configuration t') !! imageId t'
  = showRefinementPoints (configuration t) !! imageId t
  ∧ showRefinementPoints (configuration t') !! "global"
    = showRefinementPoints (configuration t) !! "global"
  ∧ noOfPrimaryLines_default (configuration t') = noOfPrimaryLines_default (configuration t)
  ∧ noOfSecondaryLines_default (configuration t')
    = noOfSecondaryLines_default (configuration t).
Proof. intros [(Hid & _ & Hi & ? & ? & _) _]. by rewrite Hi, Hid. Qed.

(** The placement of a grid returns, and leaves a grid of the default
    counts, refined when the global flag says so. *)
Lemma addNewMeasurement_inShape t0 position :
  initial t0 →
  ∃ g t, showRefinementPoints (configuration t0) !! "global" = Some g
    ∧ addNewMeasurement position t0 = Return () t
    ∧ inShape g
              (noOfPrimaryLines_default (configuration t0))
              (noOfSecondaryLines_default (configuration t0)) t.
Proof.
  intros (Hno & HP & HS & [g Eglob] & Hflag). exists g.
  pose proof (noGrid_data _ Hno) as Hd0.
  unfold addNewMeasurement. unfold bind at 1. unfold getTool at 1.
  rewrite Hno. cbn [negb].
  destruct (activateDraw_returns t0) as [t1 H1].
  pose proof (keeps_inv_Return _ _ _ _ _ keeps_activateDraw H1) as Hs1.
  rewrite (bind_Return _ _ _ _ _ H1).
  pose proof (sameHandles_nil _ _ Hs1 Hd0) as Hd1.
  destruct (sameHandles_flag _ _ Hs1) as (Hf1 & Hg1 & HP1 & HS1).
  destruct (noOfPrimaryLines_default (configuration t0)) as [|P] eqn:EP; [lia|].
  destruct (noOfSecondaryLines_default (configuration t0)) as [|S] eqn:ES; [lia|].
  (* the lines *)
  destruct (generateMainPrimaryLine_first t1 position Hd1) as (pts & Hlen & Hc & Hgen).
  change (seq 0 (Datatypes.S P)) with (0 :: seq 1 P). cbn [forEach].
  set (d1 := [mkLine (nextUuid t1) pts]).
  destruct (forEach_generateMainPrimaryLine position S P d1
              (upd d1 (N.succ (nextUuid t1)) t1)) as (d2 & u2 & Hloop & Hshape2).
  { apply getToolState_upd. }
  { apply shape_unrefined. split; [done|]. repeat constructor.
    rewrite <- HS1, <- Hlen. by apply commonLine_mkLine. }
  { done. }
  { by rewrite configuration_upd. }
  erewrite bind_Return; last first.
  { erewrite bind_Return by exact Hgen. exact Hloop. }
  rewrite upd_upd. set (t2 := upd d2 u2 t1).
  (* the end of the session *)
  destruct (completeDrawing_returns t2) as [t3 H3].
  { unfold t2. by rewrite getToolState_upd. }
  pose proof (keeps_inv_Return _ _ _ _ _ keeps_completeDrawing H3) as Hs3.
  rewrite (bind_Return _ _ _ _ _ H3).
  destruct (sameHandles_flag _ _ Hs3) as (Hf3 & Hg3 & HP3 & HS3).
  destruct (sameFlags_lists _ _ (sameHandles_sameFlags _ _ Hs3)) as [Hfl3 _].
  assert (shape false (Datatypes.S P) (Datatypes.S S) (data t3)) as Hshape3.
  { unfold shape. rewrite Hfl3. unfold t2. by rewrite data_upd. }
  pose proof Hshape3 as [Hlen3 Hall3]%shape_unrefined.
  destruct (data t3) as [|m ms] eqn:Ed3; [done|].
  pose proof (data_nonempty _ _ _ Ed3) as E3.
  assert (showRefinementPoints (configuration t3) !! imageId t3
          = showRefinementPoints (configuration t0) !! imageId t0) as Hflag3.
  { rewrite Hf3. unfold t2. cbn. by rewrite Hf1. }
  assert (showRefinementPoints (configuration t3) !! "global" = Some g) as Hglob3.
  { rewrite Hg3. unfold t2. cbn. by rewrite Hg1. }
  assert (1 ≤ noOfSecondaryLines_default (configuration t3)) as Hdef3.
  { rewrite HS3. unfold t2. cbn. lia. }
  unfold bind at 1. unfold getTool at 1. rewrite Hglob3. cbn [jsBoolean].
  destruct g.
  - eexists. split; [done|]. split.
    + apply (set_showRefinementPoints_true_spec t3 m ms S E3 Hall3).
      rewrite Hflag3. intros Hset. by apply Hflag.
    + apply inShape_showRefinementPointsSet; [done|]. rewrite data_upd.
      apply shape_refined. split.
      * rewrite length_refinedGrid. cbn [length] in Hlen3. lia.
      * by apply Grid4_refinedGrid.
  - destruct (decide (showRefinementPoints (configuration t3) !! imageId t3
                      = Some false)) as [Hset|Hunset].
    { exists t3. split; [done|]. split.
      - unfold set_showRefinementPoints. unfold bind at 1. unfold getTool at 1.
        by rewrite bool_decide_eq_true_2.
      - repeat split; try done. by rewrite Ed3. }
    eexists. split; [done|]. split.
    + apply (set_showRefinementPoints_false_spec t3 (m :: ms) E3); [done| |done].
      eapply Forall_impl; [exact Hall3|]. intros x Hx. by eapply lineFlags_handles.
    + apply inShape_showRefinementPointsSet; [done|]. rewrite data_with_data.
      by rewrite (dropEmpty_unrefined S _ Hall3).
Qed.

End Placement3.

Section Invariants.
Context {K : Type} `{Num K}.
Implicit Types (t : Tool K) (d : list (Measurement K)) (m : Measurement K).

Lemma Invariants_empty t : data t = [] → Invariants t.
Proof.
  intros Hd. unfold Invariants, I1, I2, I3, I4, I5, I6.
  rewrite (showRefinementPoints_on_empty _ Hd), Hd.
  repeat split; auto; try done.
  - intros m p Hm. by apply elem_of_nil in Hm.
Qed.

Lemma pointsOf_flags m fl j p :
  lineFlags m = Some fl → pointsOf m !! j = Some p → fl !! j = Some (isCommonPoint p).
Proof.
  intros (pts & Hpts & <-)%lineFlags_Some. rewrite (pointsOf_Some _ _ Hpts).
  intros Hj. by rewrite list_lookup_fmap, Hj.
Qed.

Lemma Invariants_unrefined P S t :
  2 ≤ P → 2 ≤ S → inShape false P S t → Invariants t.
Proof.
  intros HP HS Hin. destruct P as [|P]; [lia|].
  destruct (inShape_getToolState _ _ _ _ Hin) as [E Hne].
  destruct Hin as (Hshape & Hg & _ & _).
  pose proof (showRefinementPoints_on_Some _ _ E Hne) as Hon.
  rewrite Hg in Hon. cbn [from_option Datatypes.id] in Hon.
  pose proof Hshape as [Hlen Hall]%shape_unrefined. rewrite Forall_forall in Hall.
  assert (∀ m p, m ∈ data t → p ∈ pointsOf m → isCommonPoint p = true) as Hcommon.
  { intros m p Hm Hp. destruct (commonLine_inv _ _ (Hall _ Hm)) as (pts & Hpts & _ & Hc).
    rewrite (pointsOf_Some _ _ Hpts) in Hp. rewrite Forall_forall in Hc. by apply Hc. }
  unfold Invariants, I1, I2, I3, I4, I5, I6. rewrite Hon.
  split; [|split; [|split; [|split; [|split]]]].
  - right. split; [lia|]. intros m Hm.
    destruct (commonLine_inv _ _ (Hall _ Hm)) as (pts & Hpts & Hl & _).
    rewrite (pointsOf_Some _ _ Hpts). lia.
  - intros i m Hi. destruct S as [|S]; [lia|].
    eapply commonLine_first, Hall. by eapply list_elem_of_lookup_2.
  - done.
  - right. exists S. destruct S as [|S]; [lia|]. split.
    + by eapply get_noOfSecondaryLines_shape.
    + intros m Hm _. by eapply commonLine_commonPoints, Hall.
  - right. exists (Datatypes.S P). destruct S as [|S]; [lia|]. split; [|done].
    by eapply get_noOfPrimaryLines_shape.
  - done.
Qed.

Lemma Invariants_refined P S t :
  2 ≤ P → 2 ≤ S → inShape true P S t → Invariants t.
Proof.
  intros HP HS Hin. destruct P as [|P]; [lia|]. destruct S as [|S]; [lia|].
  destruct (inShape_getToolState _ _ _ _ Hin) as [E Hne].
  destruct Hin as (Hshape & Hg & _ & _).
  pose proof (showRefinementPoints_on_Some _ _ E Hne) as Hon.
  rewrite Hg in Hon. cbn [from_option Datatypes.id] in Hon.
  pose proof Hshape as [Hlen G]%shape_refined.
  assert (∀ i m, data t !! i = Some m → i mod 4 = 0 → refinedLine (Datatypes.S S) m) as Hmain
    by (intros i m Hi H4; by eapply (Grid4_lookup_main _ _ _ _ _ G Hi)).
  assert (∀ i m, data t !! i = Some m → i mod 4 ≠ 0 → subsidiaryLine (Datatypes.S S) m) as Hsub
    by (intros i m Hi H4; by eapply (Grid4_lookup_sub _ _ _ _ _ G Hi)).
  assert (∀ m p, subsidiaryLine (Datatypes.S S) m → p ∈ pointsOf m → isCommonPoint p = false)
    as Hnone.
  { intros m p (pts & Hpts & Hfl)%lineFlags_Some Hp.
    apply flags_none_common in Hfl as [_ Hc]. rewrite (pointsOf_Some _ _ Hpts) in Hp.
    rewrite Forall_forall in Hc. by apply Hc. }
  unfold Invariants, I1, I2, I3, I4, I5, I6. rewrite Hon.
  split; [|split; [|split; [|split; [|split]]]].
  - right. split; [lia|]. intros m [i Hi]%list_elem_of_lookup.
    destruct (Nat.eq_dec (i mod 4) 0) as [H4|H4].
    + rewrite (refinedLine_length _ _ (Hmain _ _ Hi H4)). lia.
    + rewrite (lineFlags_length _ _ (Hsub _ _ Hi H4)), length_replicate. lia.
  - intros i m Hi. destruct (Nat.eq_dec (i mod 4) 0) as [H4|H4].
    + split; [|done]. split; [done|]. intros _. by eapply refinedLine_first, Hmain.
    + split.
      * split; [|done]. intros Hm. pose proof (subsidiaryLine_first _ _ (Hsub _ _ Hi H4)).
        unfold isMainLine in Hm. congruence.
      * intros _ p Hp. by eapply Hnone, Hp; eapply Hsub.
  - intros _ i m j p Hi Hj. destruct (Nat.eqb_spec (i mod 4) 0) as [H4|H4].
    + pose proof (pointsOf_flags _ _ _ _ (Hmain _ _ Hi H4) Hj) as Hfl.
      apply stride4_lookup in Hfl. rewrite Hfl.
      destruct (Nat.eqb_spec (j mod 4) 0); split; try done. 
    + apply (Hnone m); [by eapply Hsub|by eapply list_elem_of_lookup_2].
  - right. exists (Datatypes.S S). split; [by eapply get_noOfSecondaryLines_shape|].
    intros m [i Hi]%list_elem_of_lookup Hm. destruct (Nat.eq_dec (i mod 4) 0) as [H4|H4].
    + by eapply refinedLine_commonPoints, Hmain.
    + pose proof (subsidiaryLine_first _ _ (Hsub _ _ Hi H4)).
      unfold isMainLine in Hm. congruence.
  - right. exists (Datatypes.S P). split; [by eapply get_noOfPrimaryLines_shape|].
    rewrite Hlen. lia.
  - split.
    + intros _. rewrite Hlen. by rewrite Nat.add_comm, Nat.mul_comm, Nat.Div0.mod_add.
    + intros i m Hi H4. rewrite (refinedLine_length _ _ (Hmain _ _ Hi H4)).
      by rewrite Nat.add_comm, Nat.mul_comm, Nat.Div0.mod_add.
Qed.

Lemma wellFormed_Invariants t : wellFormed t → Invariants t.
Proof.
  intros [[Hd _]|(b & P & S & HP & HS & Hin)]; [by apply Invariants_empty|].
  destruct b; [exact (Invariants_refined P S t HP HS Hin)
              |exact (Invariants_unrefined P S t HP HS Hin)].
Qed.

End Invariants.

Section Laws.

#[export] Instance NumLaws_R : NumLaws R.
Proof.
  split; cbn.
  - intros a b. destruct (Rlt_dec (IZR a) (IZR b)) as [Hlt|Hge]; case_bool_decide; try done.
    + by apply lt_IZR in Hlt.
    + exfalso. by apply Hge, IZR_lt.
  - intros a b c. destruct (Rlt_dec a b), (Rlt_dec b c), (Rlt_dec a c); try done.
    exfalso. eauto using Rlt_trans.
  - intros a b c. destruct (Rlt_dec a c) as [Hac|]; [|done]. intros _.
    destruct (Rlt_dec a b) as [|Hab]; [by left|]. right.
    destruct (Rlt_dec b c) as [|Hbc]; [done|]. exfalso. lra.
  - intros z k. destruct (Rlt_dec (IZR z) k) as [Hlt|]; [|done]. intros _.
    apply lt_IZR. destruct (archimed k) as [Hup _]. lra.
Qed.

#[export] Instance NumLaws_Q : NumLaws Q.
Proof.
  split; cbn.
  - intros a b. destruct (Qlt_le_dec (inject_Z a) (inject_Z b)) as [Hlt|Hge];
      case_bool_decide as Hab; try done.
    + exfalso. apply Hab. by rewrite Zlt_Qlt.
    + exfalso. rewrite Zlt_Qlt in Hab. by apply Qle_not_lt in Hge.
  - intros a b c. destruct (Qlt_le_dec a b), (Qlt_le_dec b c), (Qlt_le_dec a c); try done.
    exfalso. eapply Qle_not_lt; [eassumption|]. by eapply Qlt_trans.
  - intros a b c. destruct (Qlt_le_dec a c) as [Hac|]; [|done]. intros _.
    destruct (Qlt_le_dec a b) as [|Hab]; [by left|]. right.
    destruct (Qlt_le_dec b c) as [|Hbc]; [done|]. exfalso.
    eapply Qle_not_lt; [exact Hbc|]. by eapply Qle_lt_trans.
  - intros z k. destruct (Qlt_le_dec (inject_Z z) k) as [Hlt|]; [|done]. intros _.
    rewrite Zlt_Qlt. eapply Qlt_le_trans; [exact Hlt|]. apply Qle_ceiling.
Qed.

End Laws.

Section Fuel.
Context {K : Type} `{NumLaws K}.
Implicit Types (t : Tool K).

Lemma bind_ext {A B} (m : M K A) (f g : A → M K B) t :
  (∀ a t', f a t' = g a t') → bind m f t = bind m g t.
Proof. intros Hfg. unfold bind. destruct (m t); [apply Hfg|done]. Qed.

Lemma not_below (n : K) (e : Z) :
  (kupper n ≤ e)%Z → (kofZ e <? n)%K = false.
Proof.
  intros He. destruct (kofZ e <? n)%K eqn:Hlt; [|done].
  apply kltb_upper in Hlt. lia.
Qed.

Lemma not_above (n : K) (e : Z) :
  (n <? kofZ 2)%K = false → (e ≤ 2)%Z → (n <? kofZ e)%K = false.
Proof.
  intros Hn He. destruct (n <? kofZ e)%K eqn:Hlt; [|done].
  pose proof (above_two _ _ Hn Hlt). lia.
Qed.

(** The counting loops of the setters stop by their own condition before
    the fuel of the model is used up: more fuel changes nothing. *)
Lemma growPrimaryLines_fuel fuel : ∀ extra e (n : K) t,
  (kupper n - e ≤ Z.of_nat fuel)%Z →
  growPrimaryLines (fuel + extra) e n t = growPrimaryLines fuel e n t.
Proof.
  induction fuel as [|fuel IH]; intros extra e n t Hfuel.
  - destruct extra as [|extra]; [done|]. cbn [Nat.add growPrimaryLines].
    by rewrite not_below by lia.
  - cbn [Nat.add growPrimaryLines]. destruct (kofZ e <? n)%K; [|done].
    apply bind_ext. intros t1 t1'. apply bind_ext. intros _ t2.
    apply bind_ext. intros t3 t3'. apply bind_ext. intros _ t4.
    apply IH. lia.
Qed.

Lemma growSecondaryLines_fuel fuel : ∀ extra e (n : K) t,
  (kupper n - e ≤ Z.of_nat fuel)%Z →
  growSecondaryLines (fuel + extra) e n t = growSecondaryLines fuel e n t.
Proof.
  induction fuel as [|fuel IH]; intros extra e n t Hfuel.
  - destruct extra as [|extra]; [done|]. cbn [Nat.add growSecondaryLines].
    by rewrite not_below by lia.
  - cbn [Nat.add growSecondaryLines]. destruct (kofZ e <? n)%K; [|done].
    apply bind_ext. intros _ t1. apply bind_ext. intros t2 t2'.
    apply bind_ext. intros _ t3. apply IH. lia.
Qed.

Lemma shrinkPrimaryLines_fuel fuel : ∀ extra e (n : K) t,
  (n <? kofZ 2)%K = false → (e - 2 ≤ Z.of_nat fuel)%Z →
  shrinkPrimaryLines (fuel + extra) e n t = shrinkPrimaryLines fuel e n t.
Proof.
  induction fuel as [|fuel IH]; intros extra e n t Hn Hfuel.
  - destruct extra as [|extra]; [done|]. cbn [Nat.add shrinkPrimaryLines].
    by rewrite not_above by (done || lia).
  - cbn [Nat.add shrinkPrimaryLines]. destruct (n <? kofZ e)%K; [|done].
    apply bind_ext. intros _ t1. apply IH; [done|lia].
Qed.

Lemma shrinkSecondaryLines_fuel fuel : ∀ extra e (n : K) t,
  (n <? kofZ 2)%K = false → (e - 2 ≤ Z.of_nat fuel)%Z →
  shrinkSecondaryLines (fuel + extra) e n t = shrinkSecondaryLines fuel e n t.
Proof.
  induction fuel as [|fuel IH]; intros extra e n t Hn Hfuel.
  - destruct extra as [|extra]; [done|]. cbn [Nat.add shrinkSecondaryLines].
    by rewrite not_above by (done || lia).
  - cbn [Nat.add shrinkSecondaryLines]. destruct (n <? kofZ e)%K; [|done].
    apply bind_ext. intros _ t1. apply IH; [done|lia].
Qed.

End Fuel.

Section InvariantPreservation.
Context {K : Type} `{NumLaws K} `{Trig K}.
Implicit Types (t : Tool K).

Lemma Reachable_wellFormed t : Reachable t → wellFormed t.
Proof.
  induction 1 as [t0 position t Hinit Hplace|c t t' _ IH Hrun].
  - destruct (addNewMeasurement_inShape t0 position Hinit) as (g & t1 & _ & E1 & Hin).
    rewrite E1 in Hplace. injection Hplace as <-.
    destruct Hinit as (_ & HP & HS & _). right. eauto 10.
  - by destruct (run_wellFormed c t t' IH Hrun).
Qed.

(** X30.  After the placement of a grid on a tool on which refinement was
    not switched on for the image beforehand ([initial]), and any calls of
    the mutators (the three counting and refinement setters, the spacing
    setter, rotateGrid, setOffset, removeGrid) that have returned, the
    invariants I1-I6 hold, and any further call that returns leaves them
    holding and keeps the uuids of the main lines that stay (I7).  In
    particular, with refinement the line at index [i] is a main line iff
    [i mod 4 = 0], the point at position [j] of a main line is a common
    point iff [j mod 4 = 0], and no point of another line is a common
    point. *)
Theorem invariants_after_every_call t :
  Reachable t →
  Invariants t
  ∧ ∀ c t', run c t = Return () t' → Invariants t' ∧ sameIdentity t t'.
Proof.
  intros Hreach. pose proof (Reachable_wellFormed t Hreach) as Hwf.
  split; [by apply wellFormed_Invariants|].
  intros c t' Hrun. destruct (run_wellFormed c t t' Hwf Hrun) as [Hwf' Hid].
  split; [by apply wellFormed_Invariants|done].
Qed.

End InvariantPreservation.

Lemma initial_newTool {K} `{Num K} (P S : nat) (id : string) :
  2 ≤ P → 2 ≤ S → initial (newTool (K:=K) P S id).
Proof.
  intros HP HS. split; [done|]. split; [done|]. split; [done|].
  cbn. rewrite lookup_singleton_eq. split; [by exists false|]. by intros [[=] _].
Qed.

Section Examples.

Lemma initial_newToolR : initial newToolR.
Proof. apply initial_newTool; lia. Qed.

Lemma placedR_placed : addNewMeasurement (0%R, 0%R) newToolR = Return () placedR.
Proof.
  unfold placedR.
  destruct (addNewMeasurement_inShape newToolR (0%R, 0%R) initial_newToolR)
    as (g & t & _ & -> & _).
  reflexivity.
Qed.

Lemma invariants_after_every_call_witness :
  Reachable placedR
  ∧ Invariants placedR
  ∧ ∀ c t', run c placedR = Return () t' → Invariants t' ∧ sameIdentity placedR t'.
Proof.
  assert (Reachable placedR) as Hreach.
  { apply (reach_placement newToolR (0%R, 0%R) placedR).
    - apply initial_newTool; lia.
    - exact placedR_placed. }
  split; [exact Hreach|]. exact (invariants_after_every_call placedR Hreach).
Defined.

(** C1.  The invariants do not hold after every call.  When the
    showRefinementPoints setter is called with [true] while the image has
    no grid, it records the value for the image; the placement that follows
    ends with the setter called with the global value, which returns at
    once because the image has that value already.  The grid is left
    without refinement points although the getter says [true], whatever
    is called next: the line at index 1 is a main line, against I2. *)
Theorem early_refinement_breaks_I2 :
  ∃ t1 t2 t3 : Tool Q,
    set_showRefinementPoints (JsBoolean true) (newTool 3 3 "image") = Return () t1
    ∧ addNewMeasurement (0%Q, 0%Q) t1 = Return () t2
    ∧ setOffset (Fin 1%Q, Fin 1%Q) false t2 = Return () t3
    ∧ get_showRefinementPoints t2 = JsBoolean true
    ∧ unrefinedGrid 3 3 t2
    ∧ ¬ I2 t2
    ∧ ¬ I2 t3.
Proof.
  do 3 eexists. split; [vm_compute; reflexivity|]. split; [vm_compute; reflexivity|].
  split; [vm_compute; reflexivity|]. split; [vm_compute; reflexivity|].
  split; [vm_compute; reflexivity|].
  split; intros HI2.
  - specialize (HI2 1 _ ltac:(vm_compute; reflexivity)).
    vm_compute in HI2. destruct HI2 as [[Hmain _] _]. by specialize (Hmain eq_refl).
  - specialize (HI2 1 _ ltac:(vm_compute; reflexivity)).
    vm_compute in HI2. destruct HI2 as [[Hmain _] _]. by specialize (Hmain eq_refl).
Qed.

(** C10.  [removeGrid] does not always leave the global flag alone.  The
    flag and the values of the images are properties of one object, and on
    an image whose id is the string [global] the property that
    [removeGrid] deletes is the global flag: it is gone afterwards, and
    the next placement builds its lines and then throws, since the value it
    hands to the showRefinementPoints setter is [undefined]. *)
Theorem removeGrid_deletes_global_flag :
  ∃ t1 t2 t3 : Tool Q,
    addNewMeasurement (0%Q, 0%Q) (newTool 3 3 "global") = Return () t1
    ∧ showRefinementPoints (configuration t1) !! "global" = Some false
    ∧ removeGrid t1 = Return () t2
    ∧ showRefinementPoints (configuration t2) !! "global" = None
    ∧ addNewMeasurement (0%Q, 0%Q) t2
      = Throw (Error "Attempting to set showRefinementPoints to a value other than a boolean.")
              t3
    ∧ length (data t3) = 3.
Proof.
  do 3 eexists. split; [vm_compute; reflexivity|]. split; [vm_compute; reflexivity|].
  split; [vm_compute; reflexivity|]. split; [vm_compute; reflexivity|].
  split; vm_compute; reflexivity.
Qed.

(** A count setter called while the image has no grid does not return: the
    first line has no anchor, and the line just inserted is left without
    points. *)
Lemma set_noOfPrimaryLines_without_grid :
  ∃ t' : Tool Q,
    set_noOfPrimaryLines (JsNum (Fin 5%Q)) (newTool 3 3 "image") = Throw TypeError t'
    ∧ lineFlags <$> data t' = [Some []].
Proof. eexists. split; vm_compute; reflexivity. Qed.

End Examples.

Section Totality.
Context {K : Type} `{NumLaws K}.
Implicit Types (t : Tool K) (d : list (Measurement K)) (m : Measurement K).

Lemma session_returns (loop : M K unit) t :
  (∀ t1, sameHandles t t1 → ∃ t2, loop t1 = Return () t2 ∧ is_Some (getToolState t2)) →
  ∃ t', (activateDraw ;; loop ;; completeDrawing) t = Return () t'.
Proof.
  intros Hloop. destruct (activateDraw_returns t) as [t1 H1].
  pose proof (keeps_inv_Return _ _ _ _ _ keeps_activateDraw H1) as Hs1.
  destruct (Hloop t1 Hs1) as (t2 & H2 & Hsome).
  destruct (completeDrawing_returns t2 Hsome) as [t3 H3].
  exists t3. rewrite (bind_Return _ _ _ _ _ H1), (bind_Return _ _ _ _ _ H2). exact H3.
Qed.

(** On a grid, [set noOfPrimaryLines] returns for every number. *)
Lemma set_noOfPrimaryLines_returns (b : bool) P S t (n : JsNumber K) :
  2 ≤ P → 2 ≤ S → inShape b P S t →
  ∃ t', set_noOfPrimaryLines (JsNum n) t = Return () t'.
Proof.
  intros HP HS Hin. destruct n as [|n]; cbn [set_noOfPrimaryLines]; [eexists; reflexivity|].
  destruct (n <? kofZ 2)%K eqn:Hn; [eexists; reflexivity|].
  destruct P as [|P]; [lia|]. destruct S as [|S]; [lia|].
  destruct (inShape_getToolState _ _ _ _ Hin) as [E Hne].
  pose proof Hin as (Hshape & Hg & Hi & Hd).
  erewrite bind_Return by (apply read_Some; by eapply get_noOfPrimaryLines_shape).
  destruct (strictEquals n _); [eexists; reflexivity|].
  apply session_returns. intros t1 Hs1.
  pose proof (sameHandles_inShape _ _ _ _ _ Hs1 Hin) as Hin1.
  destruct (inShape_getToolState _ _ _ _ Hin1) as [E1 Hne1].
  pose proof Hin1 as (Hshape1 & Hg1 & Hi1 & Hd1).
  destruct (kofZ _ <? n)%K.
  - assert (∃ d' u' P', growPrimaryLines (Z.to_nat (kupper n))
                (numberOf (Some (Datatypes.S P))) n t1
              = Return () (upd (data t1 ++ d') u' t1)
              ∧ shape b (Datatypes.S P') (Datatypes.S S) (data t1 ++ d')
              ∧ P' = P + roundsUp (Z.to_nat (kupper n))
                                  (numberOf (Some (Datatypes.S P))) n)
      as (d' & u' & P' & Hgrow & _).
    { destruct b; [by eapply growPrimaryLines_refined|by eapply growPrimaryLines_unrefined]. }
    eexists. split; [exact Hgrow|]. by rewrite getToolState_upd.
  - destruct (shrinkPrimaryLines_spec b (Z.to_nat (numberOf (Some (Datatypes.S P)))) n t1
                (data t1) (Datatypes.S P) (Datatypes.S S))
      as (d' & P' & Hshrink & _); try done.
    unfold numberOf. cbn [from_option Datatypes.id].
    unfold numberOf in Hshrink. cbn [from_option Datatypes.id] in Hshrink.
    eexists. split; [exact Hshrink|]. by rewrite getToolState_with_data.
Qed.

(** On a grid, [set noOfSecondaryLines] returns for every number. *)
Lemma set_noOfSecondaryLines_returns (b : bool) P S t (n : JsNumber K) :
  2 ≤ P → 2 ≤ S → inShape b P S t →
  ∃ t', set_noOfSecondaryLines (JsNum n) t = Return () t'.
Proof.
  intros HP HS Hin. destruct n as [|n]; cbn [set_noOfSecondaryLines]; [eexists; reflexivity|].
  destruct (n <? kofZ 2)%K eqn:Hn; [eexists; reflexivity|].
  destruct P as [|P]; [lia|]. destruct S as [|S]; [lia|].
  destruct (inShape_getToolState _ _ _ _ Hin) as [E Hne].
  pose proof Hin as (Hshape & Hg & Hi & Hd).
  erewrite bind_Return by (apply read_Some; by eapply get_noOfSecondaryLines_shape).
  destruct (strictEquals n _); [eexists; reflexivity|].
  apply session_returns. intros t1 Hs1.
  pose proof (sameHandles_inShape _ _ _ _ _ Hs1 Hin) as Hin1.
  destruct (inShape_getToolState _ _ _ _ Hin1) as [E1 Hne1].
  pose proof Hin1 as (Hshape1 & Hg1 & Hi1 & Hd1).
  unfold numberOf. cbn [from_option Datatypes.id].
  destruct (kofZ _ <? n)%K.
  - assert (∃ d' S', growSecondaryLines (Z.to_nat (kupper n))
                (Z.of_nat (Datatypes.S S)) n t1 = Return () (with_data d' t1)
              ∧ shape b (Datatypes.S P) (Datatypes.S S') d'
              ∧ uuid <$> d' = uuid <$> data t1
              ∧ S' = S + roundsUp (Z.to_nat (kupper n)) (Z.of_nat (Datatypes.S S)) n)
      as (d' & S' & Hgrow & _).
    { destruct b; [by eapply growSecondaryLines_refined
                  |by eapply growSecondaryLines_unrefined]. }
    eexists. split; [exact Hgrow|]. by rewrite getToolState_with_data.
  - destruct (shrinkSecondaryLines_spec b (Z.to_nat (Z.of_nat (Datatypes.S S))) n t1
                (data t1) P (Datatypes.S S))
      as (d' & S' & Hshrink & _); try done.
    eexists. split; [exact Hshrink|]. by rewrite getToolState_with_data.
Qed.

(** On a grid, the showRefinementPoints setter returns for both values. *)
Lemma set_showRefinementPoints_returns (b : bool) P S t (v : bool) :
  1 ≤ P → 1 ≤ S → inShape b P S t →
  ∃ t', set_showRefinementPoints (JsBoolean v) t = Return () t'.
Proof.
  intros HP HS Hin.
  destruct P as [|P]; [lia|]. destruct S as [|S]; [lia|].
  destruct (inShape_getToolState _ _ _ _ Hin) as [E Hne].
  pose proof Hin as (Hshape & Hg & Hi & Hd).
  destruct (decide (v = b)) as [->|Hvb].
  { unfold set_showRefinementPoints. unfold bind at 1. unfold getTool at 1.
    rewrite bool_decide_eq_true_2 by done. eexists; reflexivity. }
  destruct v, b; try done.
  - apply shape_unrefined in Hshape as [Hlen Hall].
    destruct (data t) as [|m ms] eqn:Ed; [done|].
    rewrite (set_showRefinementPoints_true_spec t m ms S E Hall) by (rewrite Hi; done).
    by eexists.
  - apply shape_refined in Hshape as [Hlen G].
    assert (Forall (λ x, is_Some (handles x)) (data t)) as Hfull.
    { eapply Grid4_handles; [exact G|..]; intros x Hx; by eapply lineFlags_handles. }
    rewrite (set_showRefinementPoints_false_spec t _ E Hne Hfull) by (rewrite Hi; done).
    by eexists.
Qed.

End Totality.

Section MoreExamples.

Lemma enabling_refinement_3x3_witness :
  ∃ t', set_showRefinementPoints (JsBoolean true) placedQ = Return () t'
    ∧ get_totalNoOfPrimaryLines t' = Some 9
    ∧ get_noOfPrimaryLines t' = Some (Some 3)
    ∧ ∀ m, m ∈ data t' → firstPointIsCommon m = Some true → length (pointsOf m) = 9.
Proof.
  apply (enabling_refinement_3x3 placedQ).
  - vm_compute. reflexivity.
  - vm_compute. discriminate.
Defined.

Lemma refinement_toggle_restores_witness :
  ∃ t1 t2, set_showRefinementPoints (JsBoolean true) placedQ = Return () t1
    ∧ set_showRefinementPoints (JsBoolean false) t1 = Return () t2
    ∧ data t2 = data placedQ
    ∧ Forall (λ m, Forall (λ p, isCommonPoint p = true) (pointsOf m)) (data t2).
Proof.
  apply (refinement_toggle_restores placedQ 3 3).
  - lia.
  - lia.
  - vm_compute. reflexivity.
  - vm_compute. discriminate.
Defined.



Lemma setters_reject_witness :
  (∃ message, callSetter Spacing (JsString "wide") newToolR = Throw (Error message) newToolR)
  ∧ callSetter Spacing (JsNum NaN) newToolR = Return () newToolR.
Proof.
  split.
  - apply (proj1 (setters_reject Spacing (JsString "wide") newToolR)). vm_compute. discriminate.
  - apply (proj2 (setters_reject Spacing (JsNum NaN) newToolR)). reflexivity.
Defined.

Lemma queries_without_grid_witness :
  read get_angle newToolR = Return None newToolR
  ∧ read get_noOfPrimaryLines newToolR = Return None newToolR
  ∧ read get_noOfSecondaryLines newToolR = Return None newToolR
  ∧ read getGridMiddlePointCoords newToolR = Return None newToolR
  ∧ ∃ r, getStateForImageId (imageId newToolR) true newToolR = Return r newToolR
         ∧ (r = None ∨ r = Some []).
Proof. apply (queries_without_grid newToolR true). reflexivity. Defined.

End MoreExamples.

Section RotationMore.
Implicit Types (t : Tool R).
Local Open Scope R_scope.

Lemma rotatePoint_compose a b (mid : R * R) (p : Point R) :
  p_x (rotatePoint b mid (rotatePoint a mid p)) = p_x (rotatePoint (a + b) mid p)
  ∧ p_y (rotatePoint b mid (rotatePoint a mid p)) = p_y (rotatePoint (a + b) mid p).
Proof.
  destruct (rotatePoint_coords b mid (rotatePoint a mid p)) as [-> ->].
  destruct (rotatePoint_coords a mid p) as [-> ->].
  destruct (rotatePoint_coords (a + b) mid p) as [-> ->].
  replace ((a + b) * PI / 180) with (a * PI / 180 + b * PI / 180) by lra.
  rewrite cos_plus, sin_plus. split; ring.
Qed.

Lemma rotatePoint_distance a (mid : R * R) (p q : Point R) :
  (p_x (rotatePoint a mid p) - p_x (rotatePoint a mid q)) ^ 2
  + (p_y (rotatePoint a mid p) - p_y (rotatePoint a mid q)) ^ 2
  = (p_x p - p_x q) ^ 2 + (p_y p - p_y q) ^ 2.
Proof.
  destruct (rotatePoint_coords a mid p) as [-> ->].
  destruct (rotatePoint_coords a mid q) as [-> ->].
  pose proof (sin2_cos2 (a * PI / 180)) as Hsc. unfold Rsqr in Hsc.
  set (c := cos _) in *. set (s := sin _) in *.
  transitivity (((p_x p - p_x q) ^ 2 + (p_y p - p_y q) ^ 2) * (s * s + c * c));
    [ring | rewrite Hsc; ring].
Qed.

Lemma rotateGrid_full t angle mid t' :
  Forall (λ m, is_Some (handles m)) (data t) →
  handles <$> data t' = rotateHandles angle mid <$> (handles <$> data t) →
  Forall (λ m, is_Some (handles m)) (data t').
Proof.
  intros Hfull H1. apply (Forall_fmap handles is_Some). rewrite H1.
  apply Forall_fmap, Forall_fmap.
  eapply Forall_impl; [exact Hfull|]. cbn. intros m [pts ->]. by eexists.
Qed.

(** X1.  Two rotations one after the other give the coordinates
    of one rotation by the sum of the angles, over the real numbers: both
    turn about the same middle point. *)
Theorem rotateGrid_additive t (a b : R) (middle : R * R) :
  Forall (λ m, is_Some (handles m)) (data t) →
  getGridMiddlePointCoords t = Some (Some middle) →
  ∃ t1 t2 t3,
    rotateGrid a t = Return () t1
    ∧ rotateGrid b t1 = Return () t2
    ∧ rotateGrid (a + b) t = Return () t3
    ∧ coordinates t2 = coordinates t3.
Proof.
  intros Hfull Hmid.
  destruct (rotateGrid_spec t a middle Hfull Hmid) as (t1 & E1 & H1 & _).
  assert (getGridMiddlePointCoords t1 = Some (Some middle)) as Hmid1.
  { rewrite getGridMiddlePointCoords_handles, H1. apply middleOf_rotate.
    by rewrite <- getGridMiddlePointCoords_handles. }
  pose proof (rotateGrid_full t a middle t1 Hfull H1) as Hfull1.
  destruct (rotateGrid_spec t1 b middle Hfull1 Hmid1) as (t2 & E2 & H2 & _).
  destruct (rotateGrid_spec t (a + b) middle Hfull Hmid) as (t3 & E3 & H3 & _).
  exists t1, t2, t3. repeat split; try done.
  rewrite !coordinates_handles, H2, H1, H3. rewrite <- !list_fmap_compose.
  apply list_fmap_ext. intros i m _. cbn. destruct (handles m) as [pts|]; [|done]. cbn.
  rewrite <- !list_fmap_compose. apply list_fmap_ext. intros j p _.
  unfold compose. destruct (rotatePoint_compose a b middle p) as [-> ->]. done.
Qed.

Lemma rotateGrid_additive_witness :
  ∃ t1 t2 t3,
    rotateGrid 30 squareR = Return () t1
    ∧ rotateGrid 15 t1 = Return () t2
    ∧ rotateGrid (30 + 15) squareR = Return () t3
    ∧ coordinates t2 = coordinates t3.
Proof.
  apply (rotateGrid_additive squareR 30 15 (((0 + 5) / 2)%R, ((0 + 5) / 2)%R)).
  - repeat constructor; by eexists.
  - reflexivity.
Defined.

(** X2.  A rotation changes the distance between no two points
    of the grid: whatever the angle, the point at every position is still
    there, and the squared distance of every pair is what it was. *)
Theorem rotateGrid_rigid t (angle : R) (middle : R * R) :
  Forall (λ m, is_Some (handles m)) (data t) →
  getGridMiddlePointCoords t = Some (Some middle) →
  ∃ t', rotateGrid angle t = Return () t'
    ∧ ∀ i j i' j' (p q : R * R),
        coordinates t !! i ≫= (.!! j) = Some p →
        coordinates t !! i' ≫= (.!! j') = Some q →
        ∃ p' q', coordinates t' !! i ≫= (.!! j) = Some p'
          ∧ coordinates t' !! i' ≫= (.!! j') = Some q'
          ∧ (p'.1 - q'.1) ^ 2 + (p'.2 - q'.2) ^ 2 = (p.1 - q.1) ^ 2 + (p.2 - q.2) ^ 2.
Proof.
  intros Hfull Hmid.
  destruct (rotateGrid_spec t angle middle Hfull Hmid) as (t' & E & Hh & _).
  exists t'. split; [done|]. intros i j i' j' p q Hp Hq.
  assert (∀ i j c, coordinates t !! i ≫= (.!! j) = Some c →
            ∃ x, c = (p_x x, p_y x)
              ∧ coordinates t' !! i ≫= (.!! j)
                = Some (p_x (rotatePoint angle middle x), p_y (rotatePoint angle middle x)))
    as Hrot.
  { clear -Hh. intros i j c Hc. rewrite !coordinates_handles in *. rewrite Hh.
    rewrite !list_lookup_fmap in *. destruct (data t !! i) as [m|]; [|done]. cbn in *.
    destruct (handles m) as [pts|]; [|done]. cbn in *.
    rewrite !list_lookup_fmap in *. destruct (pts !! j) as [x|]; [|done]. cbn in *.
    injection Hc as <-. by exists x. }
  destruct (Hrot _ _ _ Hp) as (x & -> & Hx). destruct (Hrot _ _ _ Hq) as (y & -> & Hy).
  do 2 eexists. split; [exact Hx|]. split; [exact Hy|]. cbn [fst snd].
  apply rotatePoint_distance.
Qed.

Lemma rotateGrid_rigid_witness :
  ∃ t', rotateGrid 30 squareR = Return () t'
    ∧ ∀ i j i' j' (p q : R * R),
        coordinates squareR !! i ≫= (.!! j) = Some p →
        coordinates squareR !! i' ≫= (.!! j') = Some q →
        ∃ p' q', coordinates t' !! i ≫= (.!! j) = Some p'
          ∧ coordinates t' !! i' ≫= (.!! j') = Some q'
          ∧ (p'.1 - q'.1) ^ 2 + (p'.2 - q'.2) ^ 2 = (p.1 - q.1) ^ 2 + (p.2 - q.2) ^ 2.
Proof.
  apply (rotateGrid_rigid squareR 30 (((0 + 5) / 2)%R, ((0 + 5) / 2)%R)).
  - repeat constructor; by eexists.
  - reflexivity.
Defined.

End RotationMore.

Section Offset.
Context {K : Type} `{Num K}.
Implicit Types (t : Tool K) (d : list (Measurement K)).

Lemma handles_alterHandles' (f : list (Point K) → list (Point K)) (m : Measurement K) :
  handles (alterHandles f m) = f <$> handles m.
Proof. unfold alterHandles. destruct (handles m) eqn:E; cbn; [done | by rewrite E]. Qed.

Lemma getToolState_data t : data t ≠ [] → getToolState t = Some (data t).
Proof. unfold data. by destruct (getToolState t). Qed.

(** What [setOffset] does to a grid. *)
Lemma setOffset_spec t (x y : K) usingMouseInput (reference : Point K) :
  Forall (λ m, is_Some (handles m)) (data t) →
  offsetReference usingMouseInput t = Some reference →
  (x <? kofZ 0)%K = false → (y <? kofZ 0)%K = false →
  setOffset (Fin x, Fin y) usingMouseInput t
  = Return () (add_event MEASUREMENT_COMPLETED
      (with_data
         (alterHandles (fmap (λ point, with_xy (p_x point + (x - p_x reference))%K
                                              (p_y point + (y - p_y reference))%K point))
            <$> data t) t)).
Proof.
  intros Hfull Href Hx Hy.
  assert (data t ≠ []) as Hne.
  { intros E. unfold offsetReference in Href. rewrite E in Href.
    set (ct := if usingMouseInput then currentTool (configuration t) else 0%Z) in Href.
    unfold lookupZ in Href. destruct (ct <? 0)%Z; [done|].
    by rewrite lookup_nil in Href. }
  pose proof (getToolState_data t Hne) as E.
  unfold setOffset. rewrite Hx, Hy. unfold bind at 1. unfold getTool at 1. cbv zeta.
  unfold bind at 1. rewrite E. unfold orTypeError at 1, ret at 1. cbv beta iota.
  unfold offsetReference in Href. unfold bind at 1. rewrite Href.
  unfold orTypeError at 1, ret at 1. cbv beta iota.
  pose proof (forEach_alterPoints_all
                (fmap (λ point, with_xy (p_x point + (x - p_x reference))%K
                                       (p_y point + (y - p_y reference))%K point))
                (data t) [] t Hfull E) as Hloop.
  cbn [length app] in Hloop. unfold bind. rewrite Hloop. reflexivity.
Qed.

Lemma data_add_event e t : data (add_event e t) = data t.
Proof. done. Qed.

Lemma configuration_add_event_with_data e d t :
  configuration (add_event e (with_data d t)) = configuration t.
Proof. done. Qed.

End Offset.

Section OffsetR.
Implicit Types (t : Tool R).
Local Open Scope R_scope.

Lemma kltb_R_false (a b : R) : (a <? b)%K = false ↔ b <= a.
Proof. cbn. destruct (Rlt_dec a b); split; intros; try done; lra. Qed.

Lemma offsetReference_shift t mouse (dx dy : R) (reference : Point R) :
  offsetReference mouse t = Some reference →
  offsetReference mouse
    (add_event MEASUREMENT_COMPLETED
       (with_data (alterHandles (fmap (λ point, with_xy (p_x point + dx)%K
                                                       (p_y point + dy)%K point))
                     <$> data t) t))
  = Some (with_xy (p_x reference + dx) (p_y reference + dy) reference).
Proof.
  unfold offsetReference. rewrite data_add_event, data_with_data.
  rewrite configuration_add_event_with_data.
  set (ct := if mouse then currentTool (configuration t) else 0%Z).
  set (ch := if mouse then currentHandle (configuration t) else 0%Z).
  unfold lookupZ. destruct (ct <? 0)%Z; [done|]. rewrite list_lookup_fmap.
  destruct (data t !! Z.to_nat ct) as [m|]; [|done]. cbn.
  rewrite handles_alterHandles'. destruct (handles m) as [pts|]; [|done]. cbn.
  destruct (ch <? 0)%Z; [done|]. rewrite list_lookup_fmap.
  destruct (pts !! Z.to_nat ch) as [p|]; [|done]. cbn. by intros [= ->].
Qed.

Lemma coordinates_shift t (dx dy : R) :
  coordinates
    (add_event MEASUREMENT_COMPLETED
       (with_data (alterHandles (fmap (λ point, with_xy (p_x point + dx)%K
                                                       (p_y point + dy)%K point))
                     <$> data t) t))
  = translated dx dy (coordinates t).
Proof.
  unfold translated, coordinates. rewrite data_add_event, data_with_data.
  rewrite <- !list_fmap_compose. apply list_fmap_ext. intros i m _. cbn.
  rewrite handles_alterHandles'. destruct (handles m) as [pts|]; [|done]. cbn.
  rewrite <- !list_fmap_compose. by apply list_fmap_ext.
Qed.

Lemma Forall_handles_shift t (f : list (Point R) → list (Point R)) e :
  Forall (λ m, is_Some (handles m)) (data t) →
  Forall (λ m, is_Some (handles m))
    (data (add_event e (with_data (alterHandles f <$> data t) t))).
Proof.
  intros Hfull. rewrite data_add_event, data_with_data. apply Forall_fmap.
  eapply Forall_impl; [exact Hfull|]. intros m [pts Hm]. cbn.
  rewrite handles_alterHandles', Hm. by eexists.
Qed.

(** X3.  [setOffset] with a location of non-negative
    coordinates moves every point of the grid by the same amount, and the
    point the offset is measured from (the first point of the first line,
    or the dragged handle with mouse input) ends at the location, over the
    real numbers. *)
Theorem setOffset_translates t (x y : R) usingMouseInput (reference : Point R) :
  Forall (λ m, is_Some (handles m)) (data t) →
  offsetReference usingMouseInput t = Some reference →
  0 <= x → 0 <= y →
  ∃ t' reference',
    setOffset (Fin x, Fin y) usingMouseInput t = Return () t'
    ∧ coordinates t'
      = translated (x - p_x reference) (y - p_y reference) (coordinates t)
    ∧ offsetReference usingMouseInput t' = Some reference'
    ∧ p_x reference' = x ∧ p_y reference' = y.
Proof.
  intros Hfull Href Hx Hy.
  eexists _, _. split; [|split; [|split]].
  - apply (setOffset_spec t x y usingMouseInput reference Hfull Href);
      by apply kltb_R_false.
  - apply coordinates_shift.
  - by apply offsetReference_shift.
  - cbn. split; lra.
Qed.

Lemma setOffset_translates_witness :
  ∃ t' reference',
    setOffset (Fin 7, Fin 3) false squareR = Return () t'
    ∧ coordinates t'
      = translated (7 - 0) (3 - 0) (coordinates squareR)
    ∧ offsetReference false t' = Some reference'
    ∧ p_x reference' = 7 ∧ p_y reference' = 3.
Proof.
  apply (setOffset_translates squareR 7 3 false (FreehandHandleData 0 0 true)).
  - repeat constructor; by eexists.
  - reflexivity.
  - lra.
  - lra.
Defined.

(** X4.  The offset is absolute: after two calls of
    [setOffset] the coordinates are those the second call alone gives. *)
Theorem setOffset_absolute t (x1 y1 x2 y2 : R) (reference : Point R) :
  Forall (λ m, is_Some (handles m)) (data t) →
  offsetReference false t = Some reference →
  0 <= x1 → 0 <= y1 → 0 <= x2 → 0 <= y2 →
  ∃ t1 t2 t3,
    setOffset (Fin x1, Fin y1) false t = Return () t1
    ∧ setOffset (Fin x2, Fin y2) false t1 = Return () t2
    ∧ setOffset (Fin x2, Fin y2) false t = Return () t3
    ∧ coordinates t2 = coordinates t3.
Proof.
  intros Hfull Href Hx1 Hy1 Hx2 Hy2.
  pose proof (setOffset_spec t x1 y1 false reference Hfull Href) as E1.
  rewrite !kltb_R_false in E1. specialize (E1 Hx1 Hy1).
  set (t1 := add_event _ _) in E1.
  pose proof (offsetReference_shift t false (x1 - p_x reference) (y1 - p_y reference)
                reference Href) as Href1.
  fold t1 in Href1.
  pose proof (Forall_handles_shift t
                (fmap (λ point, with_xy (p_x point + (x1 - p_x reference))%K
                                       (p_y point + (y1 - p_y reference))%K point))
                MEASUREMENT_COMPLETED Hfull) as Hfull1.
  fold t1 in Hfull1.
  pose proof (setOffset_spec t1 x2 y2 false _ Hfull1 Href1) as E2.
  rewrite !kltb_R_false in E2. specialize (E2 Hx2 Hy2).
  pose proof (setOffset_spec t x2 y2 false reference Hfull Href) as E3.
  rewrite !kltb_R_false in E3. specialize (E3 Hx2 Hy2).
  eexists _, _, _. split; [exact E1|]. split; [exact E2|]. split; [exact E3|].
  rewrite !coordinates_shift. unfold t1. rewrite coordinates_shift.
  unfold translated. rewrite <- !list_fmap_compose. apply list_fmap_ext. intros i l _. cbn.
  rewrite <- !list_fmap_compose. apply list_fmap_ext. intros j c _. cbn.
  f_equal; lra.
Qed.

Lemma setOffset_absolute_witness :
  ∃ t1 t2 t3,
    setOffset (Fin 7, Fin 3) false squareR = Return () t1
    ∧ setOffset (Fin 1, Fin 2) false t1 = Return () t2
    ∧ setOffset (Fin 1, Fin 2) false squareR = Return () t3
    ∧ coordinates t2 = coordinates t3.
Proof.
  apply (setOffset_absolute squareR 7 3 1 2 (FreehandHandleData 0 0 true)).
  - repeat constructor; by eexists.
  - reflexivity.
  - lra.
  - lra.
  - lra.
  - lra.
Defined.

End OffsetR.

Section WithoutGrid.
Context {K : Type} `{NumLaws K} `{Trig K}.
Implicit Types (t : Tool K).

Lemma lookupZ_nil {A} (z : Z) : lookupZ (A:=A) [] z = None.
Proof. unfold lookupZ. by destruct (z <? 0)%Z. Qed.

Lemma setOffset_without_grid t (x y : K) usingMouseInput :
  noGrid t = true → (x <? kofZ 0)%K = false → (y <? kofZ 0)%K = false →
  setOffset (Fin x, Fin y) usingMouseInput t = Throw TypeError t.
Proof.
  intros Hno Hx Hy. unfold setOffset. rewrite Hx, Hy.
  unfold bind at 1. unfold getTool at 1. cbv zeta.
  pose proof (noGrid_data _ Hno) as Hd. unfold data in Hd.
  destruct (getToolState t) as [d|] eqn:E; [|reflexivity]. cbn in Hd. subst d.
  unfold bind at 1. unfold orTypeError at 1, ret at 1. cbv beta iota.
  apply bind_Throw.
  by rewrite lookupZ_nil.
Qed.

(** X5.  On an image without a grid, [rotateGrid], the
    spacing setter and the angle setter return for every number and change
    nothing, while [setOffset] with a location of non-negative coordinates
    throws a TypeError (it has no guard); the tool is unchanged there too. *)
Theorem coordinate_edits_without_grid t :
  noGrid t = true →
  (∀ angle, rotateGrid angle t = Return () t)
  ∧ (∀ n, set_spacing (JsNum n) t = Return () t)
  ∧ (∀ n, set_angle (JsNum n) t = Return () t)
  ∧ (∀ x y usingMouseInput,
       (x <? kofZ 0)%K = false → (y <? kofZ 0)%K = false →
       setOffset (Fin x, Fin y) usingMouseInput t = Throw TypeError t).
Proof.
  intros Hno.
  assert (∀ angle, rotateGrid angle t = Return () t) as Hrot.
  { intros angle. unfold rotateGrid, bind, getTool. by rewrite Hno. }
  split; [done|]. split; [|split].
  - intros [|v]; cbn [set_spacing]; [done|]. destruct (v <? kofZ 1)%K; [done|].
    unfold bind at 1. unfold getTool at 1. unfold onSpacingChange.
    unfold bind at 1. unfold getTool at 1. by rewrite Hno.
  - intros [|a]; cbn [set_angle]; [done|].
    destruct ((a <? kofZ 0)%K || (kofZ 90 <? a)%K); [done|].
    unfold bind at 1. unfold read, get_angle. rewrite Hno. cbn. apply Hrot.
  - intros x y usingMouseInput. by apply setOffset_without_grid.
Qed.

Lemma generateMainPrimaryLine_no_anchor t :
  data t = [] → 1 ≤ noOfSecondaryLines_default (configuration t) →
  generateMainPrimaryLine None None t
  = Throw TypeError (upd [createNewMeasurement (nextUuid t)] (N.succ (nextUuid t)) t).
Proof.
  intros Hd Hdef. unfold generateMainPrimaryLine.
  assert (addNewMeasurementToState None t
          = Return () (upd (data t ++ [createNewMeasurement (nextUuid t)])
                           (N.succ (nextUuid t)) t)) as Hadd by done.
  rewrite (bind_Return _ _ _ _ _ Hadd), Hd. cbn [app].
  set (t1 := upd _ _ _).
  assert (data t1 = [createNewMeasurement (nextUuid t)]) as Hd1 by apply data_upd.
  unfold bind at 1. unfold getTool at 1.
  unfold t1 at 1. rewrite getToolState_upd. unfold orTypeError at 1.
  unfold bind at 1. unfold ret at 1.
  apply bind_Throw. unfold read, mainPrimaryLinePoints. rewrite Hd1.
  cbn [length Nat.ltb Nat.leb].
  destruct (noOfSecondaryLines_default (configuration t1)) as [|k] eqn:Ek.
  { unfold t1 in Ek. cbn in Ek. lia. }
  reflexivity.
Qed.

(** X6.  The noOfPrimaryLines setter called with a
    number not below 2 while the image has no grid throws a TypeError: the
    first line has no anchor.  The line inserted before the error stays,
    without points, and a placement that follows finds a grid and does
    nothing. *)
Theorem noOfPrimaryLines_without_grid t (n : K) (position : K * K) :
  noGrid t = true →
  1 ≤ noOfSecondaryLines_default (configuration t) →
  (n <? kofZ 2)%K = false →
  ∃ t', set_noOfPrimaryLines (JsNum (Fin n)) t = Throw TypeError t'
    ∧ data t' = [createNewMeasurement (nextUuid t)]
    ∧ addNewMeasurement position t' = Return () t'.
Proof.
  intros Hno Hdef Hn. pose proof (noGrid_data _ Hno) as Hd.
  cbn [set_noOfPrimaryLines]. rewrite Hn.
  erewrite bind_Return by (apply read_Some; by apply get_noOfPrimaryLines_empty).
  cbn [strictEquals].
  assert ((kofZ 0 <? n)%K = true) as Hpos.
  { destruct (kltb_cotrans (kofZ 0) n (kofZ 2)) as [Hc|Hc]; [|done|congruence].
    by rewrite kltb_ofZ. }
  unfold numberOf. cbn [from_option Datatypes.id default].
  change (Z.of_nat 0) with 0%Z. rewrite Hpos.
  assert (activateDraw t = Return () (with_drawing true true t)) as Hact.
  { unfold activateDraw, bind, modify, getTool.
    replace (noGrid (with_drawing true true t)) with (noGrid t) by done.
    by rewrite Hno. }
  rewrite (bind_Return _ _ _ _ _ Hact). set (t1 := with_drawing true true t).
  assert (data t1 = []) as Hd1 by done.
  pose proof (kltb_upper 0 n Hpos) as Hup.
  destruct (Z.to_nat (kupper n)) as [|fuel] eqn:Ef; [lia|].
  cbn [growPrimaryLines]. rewrite Hpos.
  eexists. split; [|split].
  - apply bind_Throw. unfold bind at 1. unfold getTool at 1.
    apply bind_Throw. unfold get_totalNoOfPrimaryLines.
    rewrite (noGrid_nil _ Hd1). cbn [orNull].
    by apply generateMainPrimaryLine_no_anchor.
  - by rewrite data_upd.
  - unfold addNewMeasurement, bind, getTool. unfold noGrid. by rewrite data_upd.
Qed.

End WithoutGrid.

Section WithoutGridExamples.

Lemma coordinate_edits_without_grid_witness :
  (∀ angle, rotateGrid angle newToolR = Return () newToolR)
  ∧ (∀ n, set_spacing (JsNum n) newToolR = Return () newToolR)
  ∧ (∀ n, set_angle (JsNum n) newToolR = Return () newToolR)
  ∧ (∀ x y usingMouseInput,
       (x <? kofZ 0)%K = false → (y <? kofZ 0)%K = false →
       setOffset (Fin x, Fin y) usingMouseInput newToolR = Throw TypeError newToolR).
Proof. apply (coordinate_edits_without_grid newToolR). reflexivity. Defined.

Lemma noOfPrimaryLines_without_grid_witness :
  ∃ t' : Tool Q,
    set_noOfPrimaryLines (JsNum (Fin 5%Q)) (newTool 3 3 "image") = Throw TypeError t'
    ∧ data t' = [createNewMeasurement (nextUuid (newTool (K:=Q) 3 3 "image"))]
    ∧ addNewMeasurement (0%Q, 0%Q) t' = Return () t'.
Proof.
  apply (noOfPrimaryLines_without_grid (newTool 3 3 "image") 5%Q (0%Q, 0%Q)).
  - reflexivity.
  - cbn. lia.
  - reflexivity.
Defined.

End WithoutGridExamples.

Section EqLawsInstances.

#[export] Instance EqLaws_R : EqLaws R.
Proof.
  split. intros a b. cbn. destruct (Req_dec_T (IZR a) (IZR b)) as [E|E]; case_bool_decide;
    try done.
  - by apply eq_IZR in E.
  - exfalso. apply E. by subst.
Qed.

#[export] Instance EqLaws_Q : EqLaws Q.
Proof.
  split. intros a b. cbn. case_bool_decide as E.
  - subst. apply Qeq_bool_iff. reflexivity.
  - destruct (Qeq_bool (inject_Z a) (inject_Z b)) eqn:E'; [|done].
    apply Qeq_bool_iff in E'. exfalso. apply E. by apply inject_Z_injective.
Qed.

End EqLawsInstances.

Section Rounds.
Context {K : Type} `{NumLaws K}.

Lemma kupper_ofZ (z : Z) : (z ≤ kupper (kofZ z))%Z.
Proof.
  assert ((kofZ (z - 1) <? kofZ z)%K = true) as Hlt.
  { rewrite kltb_ofZ. apply bool_decide_eq_true. lia. }
  apply kltb_upper in Hlt. lia.
Qed.

Lemma roundsUp_ofZ fuel : ∀ (e z : Z),
  (z - e ≤ Z.of_nat fuel)%Z → roundsUp fuel e (kofZ z) = Z.to_nat (z - e).
Proof.
  induction fuel as [|fuel IH]; intros e z Hfuel; cbn [roundsUp].
  - lia.
  - rewrite kltb_ofZ. case_bool_decide; [|lia]. rewrite IH by lia. lia.
Qed.

Lemma roundsDown_ofZ fuel : ∀ (e z : Z),
  (e - z ≤ Z.of_nat fuel)%Z → roundsDown fuel e (kofZ z) = Z.to_nat (e - z).
Proof.
  induction fuel as [|fuel IH]; intros e z Hfuel; cbn [roundsDown].
  - lia.
  - rewrite kltb_ofZ. case_bool_decide; [|lia]. rewrite IH by lia. lia.
Qed.

End Rounds.

Section Counts.
Context {K : Type} `{NumLaws K} `{!EqLaws K}.
Implicit Types (t : Tool K) (d : list (Measurement K)) (m : Measurement K).

Lemma sameHandles_lineIdentity t t' :
  sameHandles t t' → lineIdentity <$> data t' = lineIdentity <$> data t.
Proof.
  intros [_ F]. induction F as [|m m' l l' [Hu Hh] _ IH]; [done|].
  cbn. unfold lineIdentity at 1 3. by rewrite Hu, Hh, IH.
Qed.

(** A session around a loop that returns. *)
Lemma session_spec (loop : M K unit) t :
  (∀ t1, sameHandles t t1 → ∃ t2, loop t1 = Return () t2 ∧ is_Some (getToolState t2)) →
  ∃ t1 t2 t', (activateDraw ;; loop ;; completeDrawing) t = Return () t'
    ∧ sameHandles t t1 ∧ loop t1 = Return () t2 ∧ sameHandles t2 t'.
Proof.
  intros Hloop. destruct (activateDraw_returns t) as [t1 H1].
  pose proof (keeps_inv_Return _ _ _ _ _ keeps_activateDraw H1) as Hs1.
  destruct (Hloop t1 Hs1) as (t2 & H2 & Hsome).
  destruct (completeDrawing_returns t2 Hsome) as [t3 H3].
  pose proof (keeps_inv_Return _ _ _ _ _ keeps_completeDrawing H3) as Hs3.
  exists t1, t2, t3. split; [|done].
  rewrite (bind_Return _ _ _ _ _ H1), (bind_Return _ _ _ _ _ H2). exact H3.
Qed.

(** [set noOfPrimaryLines] with an integer on a grid. *)
Lemma set_noOfPrimaryLines_exact (b : bool) P S t (z : Z) :
  2 ≤ P → 2 ≤ S → inShape b P S t → (2 ≤ z)%Z →
  ∃ t', set_noOfPrimaryLines (JsNum (Fin (kofZ z))) t = Return () t'
    ∧ inShape b (Z.to_nat z) S t'
    ∧ (lineIdentity <$> data t `prefix_of` lineIdentity <$> data t'
       ∨ lineIdentity <$> data t' `prefix_of` lineIdentity <$> data t).
Proof.
  intros HP HS Hin Hz. cbn [set_noOfPrimaryLines].
  assert ((kofZ z <? kofZ 2)%K = false) as Hn.
  { rewrite kltb_ofZ. apply bool_decide_eq_false. lia. }
  rewrite Hn.
  destruct P as [|P]; [lia|]. destruct S as [|S]; [lia|].
  destruct (inShape_getToolState _ _ _ _ Hin) as [E Hne].
  pose proof Hin as (Hshape & Hg & Hi & Hd).
  erewrite bind_Return by (apply read_Some; by eapply get_noOfPrimaryLines_shape).
  cbn [strictEquals]. rewrite keqb_ofZ. case_bool_decide as Heq.
  { exists t. split; [done|]. split; [|by left].
    by replace (Z.to_nat z) with (Datatypes.S P) by lia. }
  unfold numberOf. cbn [from_option Datatypes.id]. rewrite kltb_ofZ.
  case_bool_decide as Hlt.
  - (* more lines *)
    destruct (session_spec (growPrimaryLines (Z.to_nat (kupper (kofZ z)))
                              (Z.of_nat (Datatypes.S P)) (kofZ z)) t)
      as (t1 & t2 & t' & Hrun & Hs1 & Hloop & Hs2).
    { intros t1 Hs1.
      pose proof (sameHandles_inShape _ _ _ _ _ Hs1 Hin) as Hin1.
      destruct (inShape_getToolState _ _ _ _ Hin1) as [E1 Hne1].
      pose proof Hin1 as (Hshape1 & Hg1 & Hi1 & Hd1).
      assert (∃ d' u' P', growPrimaryLines (Z.to_nat (kupper (kofZ z)))
                  (Z.of_nat (Datatypes.S P)) (kofZ z) t1
                = Return () (upd (data t1 ++ d') u' t1)
                ∧ shape b (Datatypes.S P') (Datatypes.S S) (data t1 ++ d')
                ∧ P' = P + roundsUp (Z.to_nat (kupper (kofZ z)))
                                    (Z.of_nat (Datatypes.S P)) (kofZ z))
        as (d' & u' & P' & Hgrow & _).
      { destruct b; [by eapply growPrimaryLines_refined|by eapply growPrimaryLines_unrefined]. }
      eexists. split; [exact Hgrow|]. by rewrite getToolState_upd. }
    pose proof (sameHandles_inShape _ _ _ _ _ Hs1 Hin) as Hin1.
    destruct (inShape_getToolState _ _ _ _ Hin1) as [E1 Hne1].
    pose proof Hin1 as (Hshape1 & Hg1 & Hi1 & Hd1).
    assert (∃ d' u' P', growPrimaryLines (Z.to_nat (kupper (kofZ z)))
                (Z.of_nat (Datatypes.S P)) (kofZ z) t1
              = Return () (upd (data t1 ++ d') u' t1)
              ∧ shape b (Datatypes.S P') (Datatypes.S S) (data t1 ++ d')
              ∧ P' = P + roundsUp (Z.to_nat (kupper (kofZ z)))
                                  (Z.of_nat (Datatypes.S P)) (kofZ z))
      as (d' & u' & P' & Hgrow & Hshape' & HP').
    { destruct b; [by eapply growPrimaryLines_refined|by eapply growPrimaryLines_unrefined]. }
    rewrite Hgrow in Hloop. injection Hloop as <-.
    rewrite roundsUp_ofZ in HP' by (pose proof (kupper_ofZ z); lia).
    exists t'. split; [exact Hrun|]. split.
    + eapply sameHandles_inShape; [exact Hs2|]. eapply inShape_upd; [exact Hin1|].
      by replace (Z.to_nat z) with (Datatypes.S P') by lia.
    + left. rewrite (sameHandles_lineIdentity _ _ Hs2), data_upd, fmap_app.
      rewrite (sameHandles_lineIdentity _ _ Hs1). by apply prefix_app_r.
  - (* fewer lines *)
    destruct (session_spec (shrinkPrimaryLines (Z.to_nat (Z.of_nat (Datatypes.S P)))
                              (Z.of_nat (Datatypes.S P)) (kofZ z)) t)
      as (t1 & t2 & t' & Hrun & Hs1 & Hloop & Hs2).
    { intros t1 Hs1.
      pose proof (sameHandles_inShape _ _ _ _ _ Hs1 Hin) as Hin1.
      destruct (inShape_getToolState _ _ _ _ Hin1) as [E1 Hne1].
      pose proof Hin1 as (Hshape1 & Hg1 & Hi1 & Hd1).
      destruct (shrinkPrimaryLines_spec b (Z.to_nat (Z.of_nat (Datatypes.S P))) (kofZ z) t1
                  (data t1) (Datatypes.S P) (Datatypes.S S))
        as (d' & P' & Hshrink & _); try done.
      eexists. split; [exact Hshrink|]. by rewrite getToolState_with_data. }
    pose proof (sameHandles_inShape _ _ _ _ _ Hs1 Hin) as Hin1.
    destruct (inShape_getToolState _ _ _ _ Hin1) as [E1 Hne1].
    pose proof Hin1 as (Hshape1 & Hg1 & Hi1 & Hd1).
    destruct (shrinkPrimaryLines_spec b (Z.to_nat (Z.of_nat (Datatypes.S P))) (kofZ z) t1
                (data t1) (Datatypes.S P) (Datatypes.S S))
      as (d' & P' & Hshrink & Hpre & Hshape' & HP' & Hcount); try done.
    rewrite Hshrink in Hloop. injection Hloop as <-.
    rewrite roundsDown_ofZ in Hcount by lia.
    exists t'. split; [exact Hrun|]. split.
    + eapply sameHandles_inShape; [exact Hs2|]. eapply inShape_with_data; [exact Hin1|].
      by replace (Z.to_nat z) with P' by lia.
    + right. rewrite (sameHandles_lineIdentity _ _ Hs2), data_with_data.
      rewrite <- (sameHandles_lineIdentity _ _ Hs1).
      destruct Hpre as [k ->]. rewrite fmap_app. by apply prefix_app_r.
Qed.

(** [set noOfSecondaryLines] with an integer on a grid. *)
Lemma set_noOfSecondaryLines_exact (b : bool) P S t (z : Z) :
  2 ≤ P → 2 ≤ S → inShape b P S t → (2 ≤ z)%Z →
  ∃ t', set_noOfSecondaryLines (JsNum (Fin (kofZ z))) t = Return () t'
    ∧ inShape b P (Z.to_nat z) t'
    ∧ uuid <$> data t' = uuid <$> data t.
Proof.
  intros HP HS Hin Hz. cbn [set_noOfSecondaryLines].
  assert ((kofZ z <? kofZ 2)%K = false) as Hn.
  { rewrite kltb_ofZ. apply bool_decide_eq_false. lia. }
  rewrite Hn.
  destruct P as [|P]; [lia|]. destruct S as [|S]; [lia|].
  destruct (inShape_getToolState _ _ _ _ Hin) as [E Hne].
  pose proof Hin as (Hshape & Hg & Hi & Hd).
  erewrite bind_Return by (apply read_Some; by eapply get_noOfSecondaryLines_shape).
  cbn [strictEquals]. rewrite keqb_ofZ. case_bool_decide as Heq.
  { exists t. split; [done|]. split; [|done].
    by replace (Z.to_nat z) with (Datatypes.S S) by lia. }
  unfold numberOf. cbn [from_option Datatypes.id]. rewrite kltb_ofZ.
  assert (∀ t1, sameHandles t t1 →
            ∃ d' S', (if bool_decide (Z.of_nat (Datatypes.S S) < z)%Z
                      then growSecondaryLines (Z.to_nat (kupper (kofZ z)))
                             (Z.of_nat (Datatypes.S S)) (kofZ z)
                      else shrinkSecondaryLines (Z.to_nat (Z.of_nat (Datatypes.S S)))
                             (Z.of_nat (Datatypes.S S)) (kofZ z)) t1
                     = Return () (with_data d' t1)
              ∧ shape b (Datatypes.S P) S' d' ∧ S' = Z.to_nat z
              ∧ uuid <$> d' = uuid <$> data t1) as Hstep.
  { intros t1 Hs1.
    pose proof (sameHandles_inShape _ _ _ _ _ Hs1 Hin) as Hin1.
    destruct (inShape_getToolState _ _ _ _ Hin1) as [E1 Hne1].
    pose proof Hin1 as (Hshape1 & Hg1 & Hi1 & Hd1).
    case_bool_decide as Hlt.
    - assert (∃ d' S', growSecondaryLines (Z.to_nat (kupper (kofZ z)))
                  (Z.of_nat (Datatypes.S S)) (kofZ z) t1 = Return () (with_data d' t1)
                ∧ shape b (Datatypes.S P) (Datatypes.S S') d'
                ∧ uuid <$> d' = uuid <$> data t1
                ∧ S' = S + roundsUp (Z.to_nat (kupper (kofZ z)))
                                    (Z.of_nat (Datatypes.S S)) (kofZ z))
        as (d' & S' & Hgrow & Hshape' & Hu' & HS').
      { destruct b; [by eapply growSecondaryLines_refined
                    |by eapply growSecondaryLines_unrefined]. }
      rewrite roundsUp_ofZ in HS' by (pose proof (kupper_ofZ z); lia).
      exists d', (Datatypes.S S'). repeat split; try done. lia.
    - destruct (shrinkSecondaryLines_spec b (Z.to_nat (Z.of_nat (Datatypes.S S))) (kofZ z) t1
                  (data t1) P (Datatypes.S S))
        as (d' & S' & Hshrink & Hshape' & HS' & Hu' & Hcount); try done.
      rewrite roundsDown_ofZ in Hcount by lia.
      exists d', S'. repeat split; try done. lia. }
  match goal with |- ∃ t', (_ ;; ?loop ;; _) t = _ ∧ _ =>
    destruct (session_spec loop t) as (t1 & t2 & t' & Hrun & Hs1 & Hloop & Hs2)
  end.
  { intros t1 Hs1. destruct (Hstep t1 Hs1) as (d' & S' & Hl & _).
    eexists. split; [exact Hl|]. by rewrite getToolState_with_data. }
  destruct (Hstep t1 Hs1) as (d' & S' & Hl & Hshape' & -> & Hu').
  rewrite Hl in Hloop. injection Hloop as <-.
  pose proof (sameHandles_inShape _ _ _ _ _ Hs1 Hin) as Hin1.
  exists t'. split; [exact Hrun|]. split.
  - eapply sameHandles_inShape; [exact Hs2|]. by eapply inShape_with_data.
  - destruct Hs2 as [_ F2]. destruct Hs1 as [_ F1].
    transitivity (uuid <$> data (with_data d' t1)).
    { clear -F2. induction F2 as [|m m' l l' [Hu _] _ IH]; [done|]. cbn. by rewrite Hu, IH. }
    rewrite data_with_data, Hu'.
    clear -F1. induction F1 as [|m m' l l' [Hu _] _ IH]; [done|]. cbn. by rewrite Hu, IH.
Qed.

End Counts.

Section CountRoundTrips.
Context {K : Type} `{NumLaws K} `{!EqLaws K}.
Implicit Types (t : Tool K).

Lemma inShape_getters (b : bool) P S t :
  1 ≤ P → 1 ≤ S → inShape b P S t →
  get_noOfPrimaryLines t = Some (Some P)
  ∧ get_noOfSecondaryLines t = Some (Some S)
  ∧ get_showRefinementPoints t = JsBoolean b.
Proof.
  intros HP HS Hin. destruct P as [|P]; [lia|]. destruct S as [|S]; [lia|].
  destruct (inShape_getToolState _ _ _ _ Hin) as [E Hne].
  pose proof Hin as (Hshape & Hg & _).
  split; [by eapply get_noOfPrimaryLines_shape|].
  split; [by eapply get_noOfSecondaryLines_shape|].
  unfold get_showRefinementPoints. rewrite (noGrid_Some _ _ E).
  rewrite bool_decide_eq_false_2 by done. by rewrite Hg.
Qed.

(** X7.  On a grid of [P] main lines with [S] common
    points each, the noOfPrimaryLines setter called with an integer [z] not
    below 2 returns, and afterwards the noOfPrimaryLines getter gives [z];
    the noOfSecondaryLines and showRefinementPoints getters give what they
    gave before. *)
Theorem noOfPrimaryLines_set_get (refined : bool) P S t (z : Z) :
  2 ≤ P → 2 ≤ S → inShape refined P S t → (2 ≤ z)%Z →
  ∃ t', set_noOfPrimaryLines (JsNum (Fin (kofZ z))) t = Return () t'
    ∧ get_noOfPrimaryLines t' = Some (Some (Z.to_nat z))
    ∧ get_noOfSecondaryLines t' = get_noOfSecondaryLines t
    ∧ get_showRefinementPoints t' = get_showRefinementPoints t.
Proof.
  intros HP HS Hin Hz.
  destruct (set_noOfPrimaryLines_exact refined P S t z HP HS Hin Hz) as (t' & Hrun & Hin' & _).
  exists t'. split; [done|].
  destruct (inShape_getters refined P S t) as (_ & -> & ->); [lia..|done|].
  by destruct (inShape_getters refined (Z.to_nat z) S t') as (-> & -> & ->); [lia..|done|].
Qed.

(** X8.  The noOfPrimaryLines setter adds and removes
    lines at the end only: the lines that are there before and after have
    the uuids and the points they had, in the same order. *)
Theorem noOfPrimaryLines_keeps_lines (refined : bool) P S t (z : Z) :
  2 ≤ P → 2 ≤ S → inShape refined P S t → (2 ≤ z)%Z →
  ∃ t', set_noOfPrimaryLines (JsNum (Fin (kofZ z))) t = Return () t'
    ∧ (lineIdentity <$> data t `prefix_of` lineIdentity <$> data t'
       ∨ lineIdentity <$> data t' `prefix_of` lineIdentity <$> data t).
Proof.
  intros HP HS Hin Hz.
  destruct (set_noOfPrimaryLines_exact refined P S t z HP HS Hin Hz) as (t' & Hrun & _ & Hid).
  by exists t'.
Qed.

(** X9.  On a grid of [P] main lines with [S] common
    points each, the noOfSecondaryLines setter called with an integer [z]
    not below 2 returns, and afterwards the noOfSecondaryLines getter gives
    [z]; the noOfPrimaryLines and showRefinementPoints getters give what
    they gave before, and every line has the uuid it had. *)
Theorem noOfSecondaryLines_set_get (refined : bool) P S t (z : Z) :
  2 ≤ P → 2 ≤ S → inShape refined P S t → (2 ≤ z)%Z →
  ∃ t', set_noOfSecondaryLines (JsNum (Fin (kofZ z))) t = Return () t'
    ∧ get_noOfSecondaryLines t' = Some (Some (Z.to_nat z))
    ∧ get_noOfPrimaryLines t' = get_noOfPrimaryLines t
    ∧ get_showRefinementPoints t' = get_showRefinementPoints t
    ∧ uuid <$> data t' = uuid <$> data t.
Proof.
  intros HP HS Hin Hz.
  destruct (set_noOfSecondaryLines_exact refined P S t z HP HS Hin Hz)
    as (t' & Hrun & Hin' & Hu).
  exists t'. split; [done|].
  destruct (inShape_getters refined P S t) as (-> & _ & ->); [lia..|done|].
  by destruct (inShape_getters refined P (Z.to_nat z) t') as (-> & -> & ->); [lia..|done|].
Qed.

End CountRoundTrips.

Section CountExamples.

Lemma inShape_placedQ : inShape false 3 3 placedQ.
Proof. repeat split; vm_compute; (reflexivity || lia). Qed.

Lemma noOfPrimaryLines_set_get_witness :
  ∃ t', set_noOfPrimaryLines (JsNum (Fin (kofZ 5))) placedQ = Return () t'
    ∧ get_noOfPrimaryLines t' = Some (Some (Z.to_nat 5))
    ∧ get_noOfSecondaryLines t' = get_noOfSecondaryLines placedQ
    ∧ get_showRefinementPoints t' = get_showRefinementPoints placedQ.
Proof.
  apply (noOfPrimaryLines_set_get false 3 3 placedQ 5).
  - lia.
  - lia.
  - repeat split; vm_compute; (reflexivity || lia).
  - lia.
Defined.

Lemma noOfPrimaryLines_keeps_lines_witness :
  ∃ t', set_noOfPrimaryLines (JsNum (Fin (kofZ 2))) placedQ = Return () t'
    ∧ (lineIdentity <$> data placedQ `prefix_of` lineIdentity <$> data t'
       ∨ lineIdentity <$> data t' `prefix_of` lineIdentity <$> data placedQ).
Proof.
  apply (noOfPrimaryLines_keeps_lines false 3 3 placedQ 2).
  - lia.
  - lia.
  - repeat split; vm_compute; (reflexivity || lia).
  - lia.
Defined.

Lemma noOfSecondaryLines_set_get_witness :
  ∃ t', set_noOfSecondaryLines (JsNum (Fin (kofZ 4))) placedQ = Return () t'
    ∧ get_noOfSecondaryLines t' = Some (Some (Z.to_nat 4))
    ∧ get_noOfPrimaryLines t' = get_noOfPrimaryLines placedQ
    ∧ get_showRefinementPoints t' = get_showRefinementPoints placedQ
    ∧ uuid <$> data t' = uuid <$> data placedQ.
Proof.
  apply (noOfSecondaryLines_set_get false 3 3 placedQ 4).
  - lia.
  - lia.
  - repeat split; vm_compute; (reflexivity || lia).
  - lia.
Defined.

End CountExamples.

Section ToggleMore.
Context {K : Type} `{Num K}.
Implicit Types (t : Tool K) (d : list (Measurement K)) (m : Measurement K).

Lemma filter_main_Grid4 (PM PS : Measurement K → Prop) d :
  Grid4 PM PS d →
  (∀ m, PM m → firstPointIsCommon m = Some true) →
  (∀ m, PS m → firstPointIsCommon m = Some false) →
  List.filter (λ m, bool_decide (firstPointIsCommon m = Some true)) d = everyFourth d.
Proof.
  intros G HM HS.
  induction G as [m Hm|m s1 s2 s3 d Hm H1 H2 H3 G IH].
  - cbn [List.filter everyFourth]. by rewrite (HM _ Hm), bool_decide_eq_true_2.
  - cbn [List.filter everyFourth].
    rewrite (HM _ Hm), (HS _ H1), (HS _ H2), (HS _ H3).
    rewrite (bool_decide_eq_true_2 (Some true = Some true)) by done.
    rewrite !(bool_decide_eq_false_2 (Some false = Some true)) by done.
    by rewrite IH.
Qed.

Lemma filter_main_common n d :
  Forall (commonLine (S n)) d →
  List.filter (λ m, bool_decide (firstPointIsCommon m = Some true)) d = d.
Proof.
  intros Hall. apply filter_all. eapply Forall_impl; [exact Hall|]. intros m Hm.
  apply bool_decide_eq_true_2. by eapply commonLine_first.
Qed.

Lemma pointsOf_alterHandles f m : pointsOf (alterHandles f m) = f (pointsOf m) ∨ handles m = None.
Proof.
  unfold pointsOf, alterHandles. destruct (handles m) as [pts|] eqn:E; [by left|by right].
Qed.

(** The common grid of a grid without refinement, once refined. *)
Lemma commonGridOf_refinedGrid n u m ms :
  Forall (commonLine (S n)) (m :: ms) →
  commonGridOf (refinedGrid u m ms) = commonGridOf (m :: ms).
Proof.
  intros Hall. unfold commonGridOf.
  rewrite (filter_main_Grid4 _ _ _ (Grid4_refinedGrid _ u m ms Hall)
             (refinedLine_first n) (subsidiaryLine_first n)).
  rewrite (filter_main_common n _ Hall).
  unfold refinedGrid. rewrite everyFourth_imap_refineMain, everyFourth_withSubsidiary.
  rewrite <- list_fmap_compose.
  apply Forall_fmap_ext_1. eapply Forall_impl; [exact Hall|]. intros x Hx. cbn.
  rewrite uuid_alterHandles. f_equal.
  destruct (commonLine_inv _ _ Hx) as (pts & Hpts & _ & Hc).
  unfold alterHandles, pointsOf. rewrite Hpts. cbn. unfold refineFrom.
  rewrite take_0, drop_0. cbn [app]. rewrite (refineLine_filter _ Hc).
  by rewrite (filter_all _ _ Hc).
Qed.

(** The common grid of a refined grid, once stripped. *)
Lemma commonGridOf_strip n d :
  Grid4 (refinedLine (S n)) (subsidiaryLine (S n)) d →
  commonGridOf (alterHandles (List.filter isCommonPoint) <$> everyFourth d) = commonGridOf d.
Proof.
  intros G. unfold commonGridOf.
  rewrite (filter_main_Grid4 _ _ _ G (refinedLine_first n) (subsidiaryLine_first n)).
  pose proof (Forall_everyFourth _ _ _ G) as Hall.
  rewrite (filter_main_common n).
  2:{ apply Forall_fmap. eapply Forall_impl; [exact Hall|]. intros x Hx.
      by apply commonLine_strip. }
  rewrite <- list_fmap_compose.
  apply Forall_fmap_ext_1. eapply Forall_impl; [exact Hall|]. intros x Hx. cbn.
  rewrite uuid_alterHandles. f_equal.
  destruct (refinedLine_inv _ _ Hx) as (pts & Hpts & _).
  unfold alterHandles, pointsOf. rewrite Hpts. cbn.
  clear. induction pts as [|p pts IH]; [done|]. cbn.
  destruct (isCommonPoint p) eqn:E; cbn; rewrite ?E, IH; done.
Qed.

(** The showRefinementPoints setter on a grid. *)
Lemma set_showRefinementPoints_exact (b v : bool) P S t :
  1 ≤ P → 1 ≤ S → inShape b P S t →
  ∃ t', set_showRefinementPoints (JsBoolean v) t = Return () t'
    ∧ inShape v P S t'
    ∧ commonGrid t' = commonGrid t.
Proof.
  intros HP HS Hin.
  destruct P as [|P]; [lia|]. destruct S as [|S]; [lia|].
  destruct (inShape_getToolState _ _ _ _ Hin) as [E Hne].
  pose proof Hin as (Hshape & Hg & Hi & Hd).
  destruct (decide (v = b)) as [->|Hvb].
  { exists t. split; [|done]. unfold set_showRefinementPoints. unfold bind at 1.
    unfold getTool at 1. by rewrite bool_decide_eq_true_2. }
  destruct v, b; try done.
  - (* enabling *)
    apply shape_unrefined in Hshape as [Hlen Hall].
    destruct (data t) as [|m ms] eqn:Ed; [done|].
    eexists. split; [|split].
    + apply (set_showRefinementPoints_true_spec t m ms S E Hall). by rewrite Hi.
    + apply inShape_showRefinementPointsSet; [done|].
      rewrite data_upd. apply shape_refined. split.
      * rewrite length_refinedGrid. cbn [length] in Hlen. lia.
      * by apply Grid4_refinedGrid.
    + unfold commonGrid. rewrite data_showRefinementPointsSet, data_upd, Ed.
      by apply (commonGridOf_refinedGrid S).
  - (* disabling *)
    apply shape_refined in Hshape as [Hlen G].
    assert (Forall (λ x, is_Some (handles x)) (data t)) as Hfull.
    { eapply Grid4_handles; [exact G|..]; intros x Hx; by eapply lineFlags_handles. }
    eexists. split; [|split].
    + apply (set_showRefinementPoints_false_spec t _ E Hne Hfull). by rewrite Hi.
    + rewrite (dropEmpty_refined _ _ G).
      apply inShape_showRefinementPointsSet; [done|]. rewrite data_with_data.
      apply shape_unrefined. split.
      * by rewrite length_fmap, (length_everyFourth _ _ _ P G).
      * apply Forall_fmap. eapply Forall_impl; [by eapply Forall_everyFourth|].
        intros x Hx. by apply commonLine_strip.
    + unfold commonGrid. rewrite data_showRefinementPointsSet, data_with_data.
      rewrite (dropEmpty_refined _ _ G). by apply (commonGridOf_strip S).
Qed.


End ToggleMore.

Section ToggleTheorems.
Context {K : Type} `{Num K}.
Implicit Types (t : Tool K).


(** X11.  The showRefinementPoints setter neither moves
    nor removes a common point: the main lines, their uuids and their
    common points, with their coordinates and in their order, are after
    the call what they were before it. *)
Theorem showRefinementPoints_keeps_common (refined value : bool) P S t :
  1 ≤ P → 1 ≤ S → inShape refined P S t →
  ∃ t', set_showRefinementPoints (JsBoolean value) t = Return () t'
    ∧ commonGrid t' = commonGrid t.
Proof.
  intros HP HS Hin.
  destruct (set_showRefinementPoints_exact refined value P S t HP HS Hin)
    as (t' & Hrun & _ & Hc).
  by exists t'.
Qed.

End ToggleTheorems.

Section ToggleExamples.


Lemma showRefinementPoints_keeps_common_witness :
  ∃ t', set_showRefinementPoints (JsBoolean true) placedQ = Return () t'
    ∧ commonGrid t' = commonGrid placedQ.
Proof.
  apply (showRefinementPoints_keeps_common false true 3 3 placedQ).
  - lia.
  - lia.
  - repeat split; vm_compute; (reflexivity || lia).
Defined.

End ToggleExamples.

Section Navigation.
Context {K : Type} `{Num K}.
Implicit Types (t : Tool K) (d l : list (Measurement K)) (m : Measurement K).

Lemma nextMainIn_least l : ∀ idx r,
  nextMainIn l idx = Some r →
  match r with
  | Some j => idx ≤ j
              ∧ (∃ m, l !! (j - idx) = Some m ∧ isMainLine m)
              ∧ ∀ k m, k < j - idx → l !! k = Some m → ¬ isMainLine m
  | None => ∀ k m, l !! k = Some m → ¬ isMainLine m
  end.
Proof.
  induction l as [|x l IH]; intros idx r; cbn [nextMainIn].
  - intros [= <-]. intros k m. by rewrite lookup_nil.
  - destruct (firstPointIsCommon x) as [[|]|] eqn:Hx; [| |done].
    + intros [= <-]. split; [done|]. rewrite Nat.sub_diag. split; [by exists x|].
      intros k m Hk. lia.
    + intros Hr. specialize (IH _ _ Hr). destruct r as [j|].
      * destruct IH as (Hj & (m & Hm & Hmain) & Hbefore). split; [lia|]. split.
        -- exists m. split; [|done].
           replace (j - idx) with (Datatypes.S (j - Datatypes.S idx)) by lia. done.
        -- intros k m' Hk Hm'. destruct k as [|k].
           ++ injection Hm' as <-. unfold isMainLine. by rewrite Hx.
           ++ apply (Hbefore k); [lia|done].
      * intros k m Hm. destruct k as [|k].
        -- injection Hm as <-. unfold isMainLine. by rewrite Hx.
        -- by apply (IH k).
Qed.

(** X12.  [getNextMainPrimaryLine] gives the least index above
    the given one at which there is a main line, and null when there is
    none; it throws nothing as long as every line has a first point. *)
Theorem getNextMainPrimaryLine_least t (i : nat) :
  noGrid t = false →
  Forall (λ m, is_Some (firstPointIsCommon m)) (data t) →
  ∃ r, getNextMainPrimaryLine (Z.of_nat i) t = Some r
    ∧ match r with
      | Some j => i < j
                  ∧ (∃ m, data t !! j = Some m ∧ isMainLine m)
                  ∧ ∀ k m, i < k < j → data t !! k = Some m → ¬ isMainLine m
      | None => ∀ k m, i < k → data t !! k = Some m → ¬ isMainLine m
      end.
Proof.
  intros Hgrid Hall. unfold getNextMainPrimaryLine. rewrite Hgrid.
  destruct (nextMainFrom_total (data t) (Z.of_nat i) Hall) as [r Hr].
  exists r. split; [done|]. unfold nextMainFrom in Hr.
  replace (Z.to_nat (Z.of_nat i + 1)) with (Datatypes.S i) in Hr by lia.
  pose proof (nextMainIn_least _ _ _ Hr) as Hspec. destruct r as [j|].
  - destruct Hspec as (Hj & (m & Hm & Hmain) & Hbefore). split; [lia|]. split.
    + exists m. split; [|done]. rewrite lookup_drop in Hm.
      by replace (Datatypes.S i + (j - Datatypes.S i)) with j in Hm by lia.
    + intros k m' Hk Hm'. apply (Hbefore (k - Datatypes.S i)); [lia|].
      rewrite lookup_drop. by replace (Datatypes.S i + (k - Datatypes.S i)) with k by lia.
  - intros k m Hk Hm. apply (Hspec (k - Datatypes.S i)).
    rewrite lookup_drop. by replace (Datatypes.S i + (k - Datatypes.S i)) with k by lia.
Qed.

Lemma previousMainFrom_greatest d : ∀ cur r,
  previousMainFrom d cur = Some r →
  match r with
  | Some j => j < cur
              ∧ (∃ m, d !! j = Some m ∧ isMainLine m)
              ∧ ∀ k m, j < k < cur → d !! k = Some m → ¬ isMainLine m
  | None => ∀ k m, k < cur → d !! k = Some m → ¬ isMainLine m
  end.
Proof.
  induction cur as [|c IH]; intros r; cbn [previousMainFrom].
  - intros [= <-]. intros k m Hk. lia.
  - destruct (d !! c) as [x|] eqn:Hx; [|done]. cbn.
    destruct (firstPointIsCommon x) as [[|]|] eqn:Hfx; [| |done].
    + intros [= <-]. split; [lia|]. split; [by exists x|]. intros k m Hk. lia.
    + intros Hr. specialize (IH _ Hr). destruct r as [j|].
      * destruct IH as (Hj & Hm & Hbetween). split; [lia|]. split; [done|].
        intros k m Hk Hkm. destruct (decide (k = c)) as [->|Hne].
        -- rewrite Hx in Hkm. injection Hkm as <-. unfold isMainLine. by rewrite Hfx.
        -- apply (Hbetween k); [lia|done].
      * intros k m Hk Hkm. destruct (decide (k = c)) as [->|Hne].
        -- rewrite Hx in Hkm. injection Hkm as <-. unfold isMainLine. by rewrite Hfx.
        -- apply (IH k); [lia|done].
Qed.

(** X13.  [getPreviousMainPrimaryLine] gives the greatest
    index below the given one at which there is a main line, and null when
    there is none, for every index up to the number of lines. *)
Theorem getPreviousMainPrimaryLine_greatest t (i : nat) :
  noGrid t = false →
  Forall (λ m, is_Some (firstPointIsCommon m)) (data t) →
  i ≤ length (data t) →
  ∃ r, getPreviousMainPrimaryLine (Some i) t = Some r
    ∧ match r with
      | Some j => j < i
                  ∧ (∃ m, data t !! j = Some m ∧ isMainLine m)
                  ∧ ∀ k m, j < k < i → data t !! k = Some m → ¬ isMainLine m
      | None => ∀ k m, k < i → data t !! k = Some m → ¬ isMainLine m
      end.
Proof.
  intros Hgrid Hall Hi. unfold getPreviousMainPrimaryLine. rewrite Hgrid.
  cbn [default from_option Datatypes.id].
  destruct (previousMainFrom_total (data t) i Hall Hi) as (r & Hr & _).
  exists r. split; [done|]. by apply previousMainFrom_greatest.
Qed.

End Navigation.

Section NavigationExamples.

Lemma getNextMainPrimaryLine_least_witness :
  ∃ r, getNextMainPrimaryLine (Z.of_nat 0) placedQ = Some r
    ∧ match r with
      | Some j => 0 < j
                  ∧ (∃ m, data placedQ !! j = Some m ∧ isMainLine m)
                  ∧ ∀ k m, 0 < k < j → data placedQ !! k = Some m → ¬ isMainLine m
      | None => ∀ k m, 0 < k → data placedQ !! k = Some m → ¬ isMainLine m
      end.
Proof.
  apply (getNextMainPrimaryLine_least placedQ 0).
  - reflexivity.
  - vm_compute. repeat constructor; by eexists.
Defined.

Lemma getPreviousMainPrimaryLine_greatest_witness :
  ∃ r, getPreviousMainPrimaryLine (Some 2) placedQ = Some r
    ∧ match r with
      | Some j => j < 2
                  ∧ (∃ m, data placedQ !! j = Some m ∧ isMainLine m)
                  ∧ ∀ k m, j < k < 2 → data placedQ !! k = Some m → ¬ isMainLine m
      | None => ∀ k m, k < 2 → data placedQ !! k = Some m → ¬ isMainLine m
      end.
Proof.
  apply (getPreviousMainPrimaryLine_greatest placedQ 2).
  - reflexivity.
  - vm_compute. repeat constructor; by eexists.
  - vm_compute. lia.
Defined.

End NavigationExamples.

Section MainLines.
Context {K : Type} `{Num K}.
Implicit Types (t : Tool K) (d l : list (Measurement K)) (m : Measurement K).

Lemma filter_seq_nil (P : nat → bool) from n :
  (∀ k, from ≤ k < from + n → P k = false) → List.filter P (seq from n) = [].
Proof.
  revert from. induction n as [|n IH]; intros from HP; [done|].
  cbn. rewrite HP by lia. apply IH. intros k Hk. apply HP. lia.
Qed.

Lemma mainIndices_none d from :
  (∀ k m, from ≤ k → d !! k = Some m → ¬ isMainLine m) → mainIndices d from = [].
Proof.
  intros Hnone. apply filter_seq_nil. intros k Hk. apply bool_decide_eq_false.
  destruct (d !! k) as [m|] eqn:Hm; [|done]. cbn. apply (Hnone k m); [lia|done].
Qed.

Lemma mainIndices_next d from j m :
  from ≤ j → d !! j = Some m → isMainLine m →
  (∀ k m', from ≤ k < j → d !! k = Some m' → ¬ isMainLine m') →
  mainIndices d from = j :: mainIndices d (S j).
Proof.
  intros Hj Hm Hmain Hbefore. unfold mainIndices.
  pose proof (lookup_lt_Some _ _ _ Hm) as Hlen.
  replace (length d - from) with ((j - from) + S (length d - S j)) by lia.
  rewrite seq_app, List.filter_app. rewrite filter_seq_nil; last first.
  { intros k Hk. apply bool_decide_eq_false.
    destruct (d !! k) as [m'|] eqn:Hm'; [|done]. cbn. apply (Hbefore k m'); [lia|done]. }
  replace (from + (j - from)) with j by lia. cbn [seq List.filter app].
  rewrite Hm. cbn. unfold isMainLine in Hmain. rewrite Hmain.
  by rewrite bool_decide_eq_true_2.
Qed.

Lemma allMainLoop_spec d :
  Forall (λ m, is_Some (firstPointIsCommon m)) d →
  ∀ fuel cur, 1 ≤ fuel → length d - cur ≤ fuel →
  allMainLoop fuel d cur = Some (mainIndices d (S cur)).
Proof.
  intros Hall. induction fuel as [|fuel IH]; intros cur H1 Hfuel; [lia|].
  cbn [allMainLoop].
  destruct (nextMainFrom_total d (Z.of_nat cur) Hall) as [r Hr]. rewrite Hr. cbn.
  unfold nextMainFrom in Hr.
  replace (Z.to_nat (Z.of_nat cur + 1)) with (S cur) in Hr by lia.
  pose proof (nextMainIn_least _ _ _ Hr) as Hspec. destruct r as [j|].
  - destruct Hspec as (Hj & (m & Hm & Hmain) & Hbefore).
    rewrite lookup_drop in Hm. replace (S cur + (j - S cur)) with j in Hm by lia.
    pose proof (lookup_lt_Some _ _ _ Hm) as Hlen.
    rewrite IH by lia. cbn. f_equal. symmetry.
    apply (mainIndices_next d (S cur) j m); try done.
    intros k m' Hk Hm'. apply (Hbefore (k - S cur)); [lia|].
    rewrite lookup_drop. by replace (S cur + (k - S cur)) with k by lia.
  - f_equal. symmetry. apply mainIndices_none. intros k m Hk Hm.
    apply (Hspec (k - S cur)). rewrite lookup_drop.
    by replace (S cur + (k - S cur)) with k by lia.
Qed.

(** X14.  [getAllMainPrimaryLines] gives, in ascending order, the
    indices of the main lines above the start index, preceded by the start
    index itself when one is given (whatever line is there); without a
    start index the search begins after line 0, so that line 0 is not among
    the lines returned. *)
Theorem getAllMainPrimaryLines_spec t (fromPrimaryLineIdx : option nat) :
  noGrid t = false →
  Forall (λ m, is_Some (firstPointIsCommon m)) (data t) →
  getAllMainPrimaryLines fromPrimaryLineIdx t
  = Some (Some (match fromPrimaryLineIdx with
                | Some i => i :: mainIndices (data t) (S i)
                | None => mainIndices (data t) 1
                end)).
Proof.
  intros Hgrid Hall. unfold getAllMainPrimaryLines. rewrite Hgrid.
  assert (1 ≤ length (data t)) as Hlen.
  { unfold noGrid in Hgrid. destruct (data t); [done|cbn; lia]. }
  rewrite (allMainLoop_spec _ Hall) by lia. cbn. by destruct fromPrimaryLineIdx.
Qed.

(** X15.  [getIthCommonPointOnPrimaryLine] gives the common
    points of a line by their rank: the point returned for [j] is the
    [j]-th of the line's common points in their order, null when the line
    has no more than [j] of them or when there is no line at the index. *)
Theorem getIthCommonPointOnPrimaryLine_spec t (j : nat) (primaryLineIdx : nat) :
  noGrid t = false →
  Forall (λ m, is_Some (handles m)) (data t) →
  getIthCommonPointOnPrimaryLine (Z.of_nat j) (Some primaryLineIdx) t
  = Some (data t !! primaryLineIdx ≫= λ m, List.filter isCommonPoint (pointsOf m) !! j).
Proof.
  intros Hgrid Hall. unfold getIthCommonPointOnPrimaryLine. rewrite Hgrid. cbn.
  destruct (data t !! primaryLineIdx) as [m|] eqn:Hm; [|done]. cbn.
  rewrite Forall_lookup in Hall. destruct (Hall _ _ Hm) as [pts Hpts].
  rewrite Hpts, (pointsOf_Some _ _ Hpts). cbn. by rewrite ithCommonPoint_nat.
Qed.

End MainLines.

Section MainLinesExamples.

Lemma getAllMainPrimaryLines_spec_witness :
  getAllMainPrimaryLines None placedQ = Some (Some (mainIndices (data placedQ) 1)).
Proof.
  apply (getAllMainPrimaryLines_spec placedQ None).
  - reflexivity.
  - vm_compute. repeat constructor; by eexists.
Defined.

Lemma getIthCommonPointOnPrimaryLine_spec_witness :
  getIthCommonPointOnPrimaryLine (Z.of_nat 1) (Some 2) placedQ
  = Some (data placedQ !! 2 ≫= λ m, List.filter isCommonPoint (pointsOf m) !! 1).
Proof.
  apply (getIthCommonPointOnPrimaryLine_spec placedQ 1 2).
  - reflexivity.
  - vm_compute. repeat constructor; by eexists.
Defined.

End MainLinesExamples.

Section StoreMore.
Context {K : Type} `{Num K}.
Implicit Types (t : Tool K) (d lines : list (Measurement K)) (m : Measurement K).

Lemma getStateForImageId_full t id :
  getStateForImageId id false t
  = Return (if oldStateManager t then Some (default [] (toolState t !! id)) else None) t.
Proof.
  unfold getStateForImageId, bind, getTool. destruct (oldStateManager t); cbn; [|done].
  by destruct (toolState t !! id).
Qed.

Lemma countGrids_spec t ids : ∀ n,
  ∃ c, countGrids ids n t = Return (n + c) t
    ∧ c ≤ length ids
    ∧ (c = length ids ↔ Forall (hasGridOn t) ids).
Proof.
  induction ids as [|id ids IH]; intros n; cbn [countGrids].
  - exists 0. rewrite Nat.add_0_r. split; [done|]. split; [done|]. by split.
  - rewrite (bind_Return _ _ _ _ _ (getStateForImageId_full t id)).
    set (n' := match _ with Some (_ :: _) => S n | _ => n end).
    destruct (IH n') as (c & Hc & Hle & Hiff). rewrite Hc.
    assert ((n' = S n ∧ hasGridOn t id) ∨ (n' = n ∧ ¬ hasGridOn t id)) as [[-> Hid]|[-> Hid]].
    { unfold n', hasGridOn. destruct (oldStateManager t); [|right; split; [done|by intros [? _]]].
      destruct (toolState t !! id) as [[|m l]|]; cbn.
      - right. split; [done|]. by intros [_ [? ?]].
      - left. split; [done|]. split; [done|]. by eexists.
      - right. split; [done|]. by intros [_ [? ?]]. }
    + exists (S c). split; [f_equal; lia|]. cbn [length]. split; [lia|].
      rewrite Forall_cons. split.
      * intros Hc'. split; [done|]. apply Hiff. lia.
      * intros [_ Hall]. f_equal. by apply Hiff.
    + exists c. split; [done|]. cbn [length]. split; [lia|].
      rewrite Forall_cons. split; [lia|]. by intros [? _].
Qed.

(** X16.  [hasGridForImageIds] changes nothing and says whether
    lines are stored for every image of the list: it is [true] exactly when
    each of the ids has a non-empty stored list (and there is a state
    manager to read them from, unless the list of ids is empty). *)
Theorem hasGridForImageIds_spec t (imageIds : list string) :
  ∃ b, hasGridForImageIds imageIds t = Return b t
    ∧ (b = true ↔ Forall (hasGridOn t) imageIds).
Proof.
  unfold hasGridForImageIds.
  destruct (countGrids_spec t imageIds 0) as (c & Hc & Hle & Hiff).
  rewrite (bind_Return _ _ _ _ _ Hc). cbn [Nat.add]. eexists. split; [reflexivity|].
  rewrite Nat.eqb_eq. done.
Qed.

Lemma regenerateUuids_exact lines : ∀ t,
  regenerateUuids lines t
  = Return (imap (λ j m, with_uuid (nextUuid t + N.of_nat j)%N m) lines)
           (with_nextUuid (nextUuid t + N.of_nat (length lines))%N t).
Proof.
  induction lines as [|m l IH]; intros t; cbn [regenerateUuids].
  - cbn. unfold ret. f_equal. destruct t; unfold with_nextUuid; cbn. f_equal. lia.
  - unfold bind at 1. unfold uuidv4 at 1. unfold bind at 1. rewrite IH. unfold ret.
    cbn [imap length]. f_equal.
    + f_equal; [f_equal; lia|]. apply imap_ext. intros j x _. cbn. f_equal. lia.
    + unfold with_nextUuid. cbn. f_equal. lia.
Qed.

(** One round of the loop of [setStateForImageIds]. *)
Lemma clone_round lines id v t :
  oldStateManager t = true →
  ∃ t', (copiedState <- regenerateUuids lines ;;
         t <- getTool ;;
         if negb (oldStateManager t) then throw TypeError
         else
           modify (λ t, with_toolState (<[id := copiedState]> (toolState t)) t) ;;
           _setShowRefinementPointsForImageId id v) t = Return () t'
    ∧ toolState t'
      = <[id := imap (λ j m, with_uuid (nextUuid t + N.of_nat j)%N m) lines]> (toolState t)
    ∧ nextUuid t' = (nextUuid t + N.of_nat (length lines))%N
    ∧ oldStateManager t' = true
    ∧ imageId t' = imageId t
    ∧ events t' = events t
    ∧ configuration t'
      = (if noGrid t' then configuration t
         else with_showRefinementPoints
                (<[id := v]> (<["global" := v]> (showRefinementPoints (configuration t))))
                (configuration t)).
Proof.
  intros Hmgr. rewrite (bind_Return _ _ _ _ _ (regenerateUuids_exact lines t)).
  unfold bind at 1. unfold getTool at 1.
  replace (oldStateManager (with_nextUuid _ t)) with (oldStateManager t) by done.
  rewrite Hmgr. cbn [negb].
  unfold bind at 1. unfold modify at 1.
  set (t1 := with_toolState _ _).
  unfold _setShowRefinementPointsForImageId, bind, getTool.
  destruct (noGrid t1) eqn:Hno.
  - exists t1. split; [done|]. repeat split; try done. by rewrite Hno.
  - eexists. split; [reflexivity|]. unfold modifyConfiguration, modify.
    repeat split; try done.
    replace (noGrid (with_configuration _ t1)) with (noGrid t1) by done.
    by rewrite Hno.
Qed.

End StoreMore.

Section Cloning2.
Context {K : Type} `{Num K}.
Implicit Types (t : Tool K) (d lines : list (Measurement K)) (m : Measurement K).

Lemma noGrid_toolState t t' :
  imageId t' = imageId t → toolState t' !! imageId t = toolState t !! imageId t →
  noGrid t' = noGrid t.
Proof. intros Hid Hst. unfold noGrid, data, getToolState. by rewrite Hid, Hst. Qed.

(** The loop of [setStateForImageIds]. *)
Lemma clone_loop lines v ids : ∀ t,
  oldStateManager t = true → NoDup ids →
  ∃ t', forEach ids (λ id,
          copiedState <- regenerateUuids lines ;;
          t <- getTool ;;
          if negb (oldStateManager t) then throw TypeError
          else
            modify (λ t, with_toolState (<[id := copiedState]> (toolState t)) t) ;;
            _setShowRefinementPointsForImageId id v) t = Return () t'
    ∧ oldStateManager t' = true
    ∧ imageId t' = imageId t
    ∧ (∀ k id, ids !! k = Some id →
         toolState t' !! id
         = Some (imap (λ j m, with_uuid (nextUuid t + N.of_nat (k * length lines + j))%N m)
                      lines))
    ∧ (∀ id, id ∉ ids → toolState t' !! id = toolState t !! id)
    ∧ (∀ id, showRefinementPoints (configuration t) !! id = Some v →
             showRefinementPoints (configuration t') !! id = Some v)
    ∧ (noGrid t = false → lines ≠ [] →
         noGrid t' = false
         ∧ ∀ id, id ∈ ids →
             showRefinementPoints (configuration t') !! "global" = Some v
             ∧ showRefinementPoints (configuration t') !! id = Some v)
    ∧ (noGrid t = true → imageId t ∉ ids → configuration t' = configuration t).
Proof.
  induction ids as [|id ids IH]; intros t Hmgr Hnd.
  { exists t. split; [done|]. split; [done|]. split; [done|].
    split; [intros k id Hk; by rewrite lookup_nil in Hk|]. split; [done|]. split; [done|].
    split; [|done]. intros Hgrid _. split; [done|].
    intros id Hid. by apply not_elem_of_nil in Hid. }
  apply NoDup_cons in Hnd as [Hid Hnd]. cbn [forEach].
  destruct (clone_round lines id v t Hmgr)
    as (t1 & Hround & Hst1 & Hu1 & Hmgr1 & Himg1 & _ & Hcfg1).
  rewrite (bind_Return _ _ _ _ _ Hround).
  destruct (IH t1 Hmgr1 Hnd)
    as (t' & Hloop & Hmgr' & Himg' & Hin & Hout & Hkeep & Hon & Hoff).
  exists t'. split; [done|]. split; [done|]. split; [congruence|].
  split; [|split; [|split; [|split]]].
  - intros [|k] id' Hk.
    + injection Hk as <-. by rewrite (Hout id Hid), Hst1, lookup_insert_eq.
    + cbn in Hk. rewrite (Hin k id' Hk). f_equal. apply imap_ext. intros j m _. cbn.
      f_equal. rewrite Hu1. lia.
  - intros id' Hid'. apply not_elem_of_cons in Hid' as [Hne Hid'].
    rewrite (Hout id' Hid'), Hst1. by rewrite lookup_insert_ne.
  - intros id' Hid'. apply Hkeep. rewrite Hcfg1. destruct (noGrid t1); [done|]. cbn.
    destruct (decide (id = id')) as [->|Hne]; [by rewrite lookup_insert_eq|].
    rewrite lookup_insert_ne by done.
    destruct (decide ("global" = id')) as [<-|Hne']; [by rewrite lookup_insert_eq|].
    by rewrite lookup_insert_ne.
  - intros Hgrid Hlines.
    assert (noGrid t1 = false) as Hgrid1.
    { unfold noGrid, data, getToolState. rewrite Himg1, Hst1.
      destruct (decide (id = imageId t)) as [->|Hne].
      - rewrite lookup_insert_eq. cbn. by destruct lines.
      - rewrite lookup_insert_ne by done. apply Hgrid. }
    destruct (Hon Hgrid1 Hlines) as [Hgrid' Hflags]. split; [done|].
    rewrite Hgrid1 in Hcfg1.
    intros id' [->|Hid']%elem_of_cons; [|by apply Hflags].
    split.
    + destruct ids as [|id2 ids].
      * cbn in Hloop. injection Hloop as <-. rewrite Hcfg1. cbn.
        apply lookup_insert_global.
      * destruct (Hflags id2) as [Hg _]; [by left|done].
    + apply Hkeep. rewrite Hcfg1. cbn. by rewrite lookup_insert_eq.
  - intros Hno Hcur. apply not_elem_of_cons in Hcur as [Hne Hcur].
    assert (noGrid t1 = true) as Hno1.
    { rewrite <- Hno. apply noGrid_toolState; [done|]. rewrite Hst1.
      by rewrite lookup_insert_ne. }
    rewrite Hno1 in Hcfg1. rewrite <- Hcfg1. apply Hoff; [done|]. by rewrite Himg1.
Qed.

End Cloning2.

Section Cloning3.
Context {K : Type} `{Num K}.
Implicit Types (t : Tool K) (d lines : list (Measurement K)) (m : Measurement K).

Lemma setStateForImageIds_loop lines ids v t t1 :
  forEach ids (λ id,
    copiedState <- regenerateUuids lines ;;
    t <- getTool ;;
    if negb (oldStateManager t) then throw TypeError
    else
      modify (λ t, with_toolState (<[id := copiedState]> (toolState t)) t) ;;
      _setShowRefinementPointsForImageId id v) t = Return () t1 →
  setStateForImageIds lines ids v t = Return () (add_event MEASUREMENT_COMPLETED t1).
Proof. intros Hloop. unfold setStateForImageIds. by rewrite (bind_Return _ _ _ _ _ Hloop). Qed.

Lemma clone_lookup (g : nat → N) lines i (c : Measurement K) :
  imap (λ j m, with_uuid (g j) m) lines !! i = Some c →
  ∃ m, lines !! i = Some m ∧ c = with_uuid (g i) m.
Proof.
  rewrite list_lookup_imap. destruct (lines !! i) as [m|]; [|done]. cbn.
  intros [= <-]. by exists m.
Qed.

(** X17.  [setStateForImageIds] stores, for each of the given
    images, a copy of the lines that differs from them in the uuids only;
    the uuids of a copy are new and distinct, no uuid occurs in the copies
    of two images, and the stored state of every other image is what it
    was. *)
Theorem setStateForImageIds_targets t lines (imageIds : list string) hasRefinementPoints :
  oldStateManager t = true → NoDup imageIds →
  ∃ t', setStateForImageIds lines imageIds hasRefinementPoints t = Return () t'
    ∧ (∀ id, id ∈ imageIds →
         ∃ cloned, toolState t' !! id = Some cloned
           ∧ Forall2 (λ m c, c = with_uuid (uuid c) m) lines cloned
           ∧ NoDup (uuid <$> cloned)
           ∧ Forall (λ c, (nextUuid t ≤ uuid c)%N) cloned)
    ∧ (∀ id id' u, id ∈ imageIds → id' ∈ imageIds → id ≠ id' →
         u ∈ uuidsOn t' id → u ∉ uuidsOn t' id')
    ∧ (∀ id, id ∉ imageIds → toolState t' !! id = toolState t !! id).
Proof.
  intros Hmgr Hnd.
  destruct (clone_loop lines hasRefinementPoints imageIds t Hmgr Hnd)
    as (t1 & Hloop & _ & _ & Hin & Hout & _).
  exists (add_event MEASUREMENT_COMPLETED t1).
  split; [by apply setStateForImageIds_loop|].
  replace (toolState (add_event MEASUREMENT_COMPLETED t1)) with (toolState t1) by done.
  split; [|split; [|done]].
  - intros id [k Hk]%list_elem_of_lookup. eexists. split; [by apply Hin|].
    set (g := λ j, (nextUuid t + N.of_nat (k * length lines + j))%N).
    split; [|split].
    + apply Forall2_same_length_lookup. split; [by rewrite length_imap|].
      intros i m c Hm Hc. apply (clone_lookup g) in Hc as (m' & Hm' & ->).
      rewrite Hm in Hm'. by injection Hm' as <-.
    + apply NoDup_alt. intros i j u Hi Hj. rewrite list_lookup_fmap in Hi, Hj.
      destruct (imap _ lines !! i) as [ci|] eqn:Ei; [|done].
      destruct (imap _ lines !! j) as [cj|] eqn:Ej; [|done].
      apply (clone_lookup g) in Ei as (mi & _ & ->).
      apply (clone_lookup g) in Ej as (mj & _ & ->).
      cbn in Hi, Hj. unfold g in Hi, Hj. injection Hi as <-. injection Hj as Hj. lia.
    + apply Forall_lookup. intros i c Hc.
      apply (clone_lookup g) in Hc as (m & _ & ->). cbn. unfold g. lia.
  - intros id id' u [k Hk]%list_elem_of_lookup [k' Hk']%list_elem_of_lookup Hne.
    unfold uuidsOn.
    replace (toolState (add_event MEASUREMENT_COMPLETED t1)) with (toolState t1) by done.
    rewrite (Hin k id Hk), (Hin k' id' Hk'). cbn.
    intros [i Hi]%list_elem_of_lookup [i' Hi']%list_elem_of_lookup.
    rewrite list_lookup_fmap in Hi, Hi'.
    destruct (imap _ lines !! i) as [ci|] eqn:Ei; [|done].
    destruct (imap _ lines !! i') as [ci'|] eqn:Ei'; [|done].
    pose proof (lookup_lt_Some _ _ _ Ei) as Hlt. rewrite length_imap in Hlt.
    pose proof (lookup_lt_Some _ _ _ Ei') as Hlt'. rewrite length_imap in Hlt'.
    apply (clone_lookup (λ j, (nextUuid t + N.of_nat (k * length lines + j))%N))
      in Ei as (mi & _ & ->).
    apply (clone_lookup (λ j, (nextUuid t + N.of_nat (k' * length lines + j))%N))
      in Ei' as (mi' & _ & ->).
    cbn in Hi, Hi'. injection Hi as <-. injection Hi' as Hi'.
    assert (k = k') as -> by nia.
    apply Hne. rewrite Hk in Hk'. by injection Hk'.
Qed.


End Cloning3.

Section StoreExamples.

Lemma setStateForImageIds_targets_witness :
  ∃ t', setStateForImageIds (data placedQ) ["first"; "second"] false placedQ = Return () t'
    ∧ (∀ id, id ∈ ["first"; "second"] →
         ∃ cloned, toolState t' !! id = Some cloned
           ∧ Forall2 (λ m c, c = with_uuid (uuid c) m) (data placedQ) cloned
           ∧ NoDup (uuid <$> cloned)
           ∧ Forall (λ c, (nextUuid placedQ ≤ uuid c)%N) cloned)
    ∧ (∀ id id' u, id ∈ ["first"; "second"] → id' ∈ ["first"; "second"] → id ≠ id' →
         u ∈ uuidsOn t' id → u ∉ uuidsOn t' id')
    ∧ (∀ id, id ∉ ["first"; "second"] → toolState t' !! id = toolState placedQ !! id).
Proof.
  apply (setStateForImageIds_targets placedQ (data placedQ) ["first"; "second"] false).
  - reflexivity.
  - apply (bool_decide_unpack (NoDup ["first"; "second"])). vm_compute. exact I.
Defined.


End StoreExamples.

Section Extrapolation.
Context {K : Type} `{Num K}.
Implicit Types (t : Tool K) (d pre : list (Measurement K)) (m ml : Measurement K).

Lemma mapM_seq_lookup {B} (f : nat → option B) (k : list B) :
  (∀ i, i < length k → f i = k !! i) → mapM f (seq 0 (length k)) = Some k.
Proof.
  intros Hf. apply mapM_fmap_Some. apply list_eq. intros i.
  rewrite !list_lookup_fmap. destruct (decide (i < length k)) as [Hi|Hi].
  - rewrite lookup_seq_lt by done. cbn. rewrite (Hf i Hi).
    by destruct (lookup_lt_is_Some_2 k i Hi) as [b ->].
  - rewrite lookup_seq_ge by lia. rewrite lookup_ge_None_2 by lia. done.
Qed.

Lemma spacingNumber_spacingOf t : noGrid t = false → spacingNumber t = spacingOf t.
Proof. intros Hgrid. unfold spacingNumber, get_spacing. by rewrite Hgrid. Qed.

Lemma previousMainFrom_common n d cur :
  Forall (commonLine (S n)) d → cur ≤ length d →
  previousMainFrom d cur = Some (if cur is S k then Some k else None).
Proof.
  intros Hall Hcur. destruct cur as [|k]; [done|]. cbn.
  destruct (lookup_lt_is_Some_2 d k) as [m Hm]; [lia|]. rewrite Hm. cbn.
  rewrite Forall_lookup in Hall. by rewrite (commonLine_first n m (Hall _ _ Hm)).
Qed.

Lemma commonLine_Forall_first n d :
  Forall (commonLine (S n)) d → Forall (λ m, is_Some (firstPointIsCommon m)) d.
Proof.
  intros Hall. eapply Forall_impl; [exact Hall|]. intros m Hm.
  rewrite (commonLine_first n m Hm). by eexists.
Qed.

(** The points of a new line at the end of a grid without refinement. *)
Lemma mainPrimaryLinePoints_extrapolates t pre ml x n position :
  getToolState t = Some ((pre ++ [ml]) ++ [x]) →
  Forall (commonLine (S n)) (pre ++ [ml]) →
  (is_Some position → noOfSecondaryLines_default (configuration t) = S n) →
  ∃ nps, mainPrimaryLinePoints (Some (length (pre ++ [ml]))) position t = Some nps
    ∧ Forall (λ np, primaryLineIdx np = length (pre ++ [ml])) nps
    ∧ handleOf <$> nps
      = extrapolated (spacingOf t) (pointsOf ml) (pointsOf <$> last pre).
Proof.
  intros E Hall Hpos.
  pose proof (data_Some _ _ E) as Hd.
  assert (noGrid t = false) as Hgrid by (unfold noGrid; rewrite Hd; by destruct pre).
  pose proof Hall as [Hpre Hml]%Forall_app. apply Forall_cons in Hml as [Hml _].
  destruct (commonLine_inv _ _ Hml) as (pl & Hpl & Hlenl & Hcl).
  unfold mainPrimaryLinePoints. rewrite Hd, !length_app. cbn [length].
  destruct (Nat.ltb_spec (length pre + 1 + 1) 2) as [Hlt|_]; [lia|].
  unfold getPreviousMainPrimaryLine. rewrite Hgrid, Hd.
  cbn [default from_option Datatypes.id].
  rewrite previousMainFrom_app by (rewrite length_app; cbn; lia).
  rewrite (previousMainFrom_common n) by (done || rewrite length_app; cbn; lia).
  replace (length pre + 1) with (S (length pre)) by lia.
  cbn [mbind option_bind default from_option Datatypes.id].
  rewrite previousMainFrom_app by (rewrite length_app; cbn; lia).
  rewrite (previousMainFrom_common n) by (done || rewrite length_app; cbn; lia).
  cbn [mbind option_bind].
  assert (match position with
          | None => get_noOfSecondaryLines t
          | Some _ => Some (Some (noOfSecondaryLines_default (configuration t)))
          end = Some (Some (S n))) as ->.
  { destruct position as [pos|]; [by rewrite Hpos|].
    assert (∃ m0 l0 p0, (pre ++ [ml]) ++ [x] = m0 :: l0 ∧ handles m0 = Some p0
              ∧ length (List.filter isCommonPoint p0) = S n) as (m0 & l0 & p0 & E0 & Hp0 & Hc0).
    { destruct pre as [|m0 pre'].
      - exists ml, [x], pl. repeat split; try done. by rewrite (filter_all _ _ Hcl).
      - apply Forall_cons in Hpre as [Hm0 _].
        destruct (commonLine_inv _ _ Hm0) as (p0 & Hp0 & Hlen0 & Hc0).
        exists m0, ((pre' ++ [ml]) ++ [x]), p0. repeat split; try done.
        by rewrite (filter_all _ _ Hc0). }
    rewrite E0 in E. rewrite (get_noOfSecondaryLines_head _ _ _ _ E Hp0). by rewrite Hc0. }
  cbn [mbind option_bind default from_option Datatypes.id].
  set (L := S (length pre)).
  rewrite (pointsOf_Some _ _ Hpl).
  assert (∀ idx, getIthCommonPointOnPrimaryLine (Z.of_nat idx) (Some (length pre)) t
                 = Some (pl !! idx)) as Hprev.
  { intros idx. rewrite (getIthCommonPoint_spec t _ (length pre) ml pl idx Hd); [|by
      rewrite <- app_assoc; apply list_lookup_middle|done].
    by rewrite (filter_all _ _ Hcl). }
  rewrite <- Hlenl.
  destruct (last pre) as [mq|] eqn:Hlast.
  - (* two lines before *)
    apply last_Some in Hlast as [pre' ->].
    apply Forall_app in Hpre as [_ Hmq]. apply Forall_cons in Hmq as [Hmq _].
    destruct (commonLine_inv _ _ Hmq) as (ql & Hql & Hlenq & Hcq).
    rewrite length_app. cbn [length fmap option_fmap option_map].
    rewrite (pointsOf_Some _ _ Hql).
    replace (length pre' + 1) with (S (length pre')) by lia.
    assert (∀ idx, getIthCommonPointOnPrimaryLine (Z.of_nat idx) (Some (length pre')) t
                   = Some (ql !! idx)) as Hpp.
    { intros idx. rewrite (getIthCommonPoint_spec t _ (length pre') mq ql idx Hd); [|by
        rewrite <- !app_assoc; apply list_lookup_middle|done].
      by rewrite (filter_all _ _ Hcq). }
    set (nps := zip_with (λ p q,
                  {| n_x := (p_x p + (p_x p - p_x q))%K;
                     n_y := (p_y p + (p_y p - p_y q))%K;
                     primaryLineIdx := L; n_isCommonPoint := true |}) pl ql).
    assert (length nps = length pl) as Hlen.
    { unfold nps. rewrite length_zip_with. lia. }
    exists nps. split; [|split].
    + rewrite <- Hlen. apply mapM_seq_lookup. intros idx Hidx.
      unfold nextLinePoint.
      replace (length pre' + 1) with (S (length pre')) in Hprev by lia.
      rewrite length_app in Hprev. cbn [length] in Hprev.
      replace (length pre' + 1) with (S (length pre')) in Hprev by lia.
      rewrite Hprev, Hpp. cbn [mbind option_bind].
      unfold nps. rewrite lookup_zip_with.
      destruct (pl !! idx) as [p|] eqn:Ep; [|done]. cbn.
      destruct (ql !! idx) as [q|] eqn:Eq; [|done]. cbn.
      rewrite Hd, !length_app. cbn [length]. do 2 f_equal. unfold L.
      rewrite length_app. cbn [length]. lia.
    + unfold nps. apply Forall_lookup. intros i np. rewrite lookup_zip_with.
      destruct (pl !! i); [|done]. cbn. destruct (ql !! i); [|done]. cbn.
      intros [= <-]. cbn. unfold L. rewrite length_app. cbn. lia.
    + unfold nps, extrapolated. apply list_eq. intros i.
      rewrite list_lookup_fmap, !lookup_zip_with.
      destruct (pl !! i); [|done]. cbn. by destruct (ql !! i).
  - (* one line before *)
    apply last_None in Hlast. subst pre. cbn [length fmap option_fmap option_map] in *.
    set (nps := (λ p, {| n_x := (p_x p + spacingNumber t)%K;
                         n_y := (p_y p + kofZ 0)%K;
                         primaryLineIdx := L; n_isCommonPoint := true |}) <$> pl).
    assert (length nps = length pl) as Hlen by (unfold nps; by rewrite length_fmap).
    exists nps. split; [|split].
    + rewrite <- Hlen. apply mapM_seq_lookup. intros idx Hidx.
      unfold nextLinePoint. rewrite Hprev. cbn [mbind option_bind].
      unfold nps. rewrite list_lookup_fmap.
      destruct (pl !! idx) as [p|] eqn:Ep; [|done]. cbn.
      rewrite Hd. cbn [length app]. done.
    + unfold nps. apply Forall_fmap. by apply Forall_true.
    + unfold nps, extrapolated. rewrite <- list_fmap_compose.
      rewrite (spacingNumber_spacingOf _ Hgrid). done.
Qed.

(** A new main line at the end of a grid without refinement. *)
Lemma generateMainPrimaryLine_extrapolates t pre ml n position :
  getToolState t = Some (pre ++ [ml]) →
  Forall (commonLine (S n)) (pre ++ [ml]) →
  (is_Some position → noOfSecondaryLines_default (configuration t) = S n) →
  generateMainPrimaryLine (Some (length (pre ++ [ml]))) position t
  = Return () (upd ((pre ++ [ml])
                      ++ [mkLine (nextUuid t)
                            (extrapolated (spacingOf t) (pointsOf ml) (pointsOf <$> last pre))])
                   (N.succ (nextUuid t)) t).
Proof.
  intros E Hall Hpos. set (d := pre ++ [ml]) in *.
  set (t1 := upd (d ++ [createNewMeasurement (nextUuid t)]) (N.succ (nextUuid t)) t).
  destruct (mainPrimaryLinePoints_extrapolates t1 pre ml (createNewMeasurement (nextUuid t))
              n position) as (nps & Hnps & Hline & Hpts); try done.
  { apply getToolState_upd. }
  unfold generateMainPrimaryLine.
  erewrite bind_Return; last first.
  { rewrite (addNewMeasurementToState_at t d [] (length d)); [|by rewrite app_nil_r|done].
    reflexivity. }
  fold t1. unfold bind at 1. unfold getTool at 1.
  unfold t1 at 1. rewrite getToolState_upd. unfold orTypeError at 1.
  unfold bind at 1. unfold ret at 1.
  erewrite bind_Return by (by apply read_Some).
  erewrite (forEach_addPoint_line nps d _ [] []).
  - unfold t1. rewrite with_data_upd. cbn [app]. rewrite Hpts. done.
  - apply getToolState_upd.
  - done.
  - done.
Qed.

End Extrapolation.

Section Continuation.
Context {K : Type} `{Num K}.
Implicit Types (t : Tool K) (d pre : list (Measurement K)) (m ml : Measurement K).

Lemma continues_app s d d' from :
  from ≤ length d → continues s d from → continues s (d ++ d') (length d) →
  continues s (d ++ d') from.
Proof.
  intros Hfrom Hd Hd' i m Hi Hm. destruct (decide (i < length d)) as [Hlt|Hge].
  - rewrite lookup_app_l in Hm by done. destruct (Hd i m Hi Hm) as (prev & Hprev & Hh).
    exists prev. rewrite lookup_app_l by lia. split; [done|].
    by rewrite take_app_le by lia.
  - apply Hd'; [lia|done].
Qed.

Lemma continues_snoc s pre ml x :
  handles x = Some (extrapolated s (pointsOf ml) (pointsOf <$> last pre)) →
  continues s ((pre ++ [ml]) ++ [x]) (length (pre ++ [ml])).
Proof.
  intros Hx i m Hi Hm. rewrite length_app in Hi. cbn [length] in Hi.
  assert (i = length pre + 1) as ->.
  { apply lookup_lt_Some in Hm. rewrite !length_app in Hm. cbn in Hm. lia. }
  replace (length pre + 1 - 1) with (length pre) by lia.
  rewrite <- app_assoc in *. cbn [app] in *.
  rewrite lookup_app_r in Hm by lia.
  replace (length pre + 1 - length pre) with 1 in Hm by lia. injection Hm as <-.
  exists ml. rewrite list_lookup_middle by done. split; [done|].
  by rewrite take_app_length.
Qed.

Lemma continues_mono s d from from' : from ≤ from' → continues s d from → continues s d from'.
Proof. intros Hle Hd i m Hi. apply Hd. lia. Qed.

(** The growing loop of [set noOfPrimaryLines] on a grid without
    refinement: every line added continues the grid. *)
Lemma growPrimaryLines_continues fuel : ∀ e n t d P S,
  getToolState t = Some d →
  shape false (Datatypes.S P) (Datatypes.S S) d →
  showRefinementPoints (configuration t) !! "global" = Some false →
  ∃ d' u', growPrimaryLines fuel e n t = Return () (upd (d ++ d') u' t)
    ∧ length (d ++ d') = Datatypes.S P + roundsUp fuel e n
    ∧ continues (spacingOf t) (d ++ d') (length d).
Proof.
  induction fuel as [|fuel IH]; intros e n t d P S E Hshape Hflag.
  { exists [], (nextUuid t). rewrite app_nil_r. cbn. rewrite (upd_id _ _ E).
    apply shape_unrefined in Hshape as [Hlen _]. split; [done|]. split; [lia|].
    intros i m Hi Hm. apply lookup_lt_Some in Hm. lia. }
  cbn [growPrimaryLines roundsUp]. destruct (kofZ e <? n)%K; last first.
  { exists [], (nextUuid t). rewrite app_nil_r. rewrite (upd_id _ _ E).
    apply shape_unrefined in Hshape as [Hlen _]. split; [done|]. split; [lia|].
    intros i m Hi Hm. apply lookup_lt_Some in Hm. lia. }
  pose proof Hshape as [Hlen Hall]%shape_unrefined.
  assert (d ≠ []) as Hne by (intros ->; done).
  destruct (exists_last Hne) as (pre & ml & ->).
  unfold bind at 1. unfold getTool at 1.
  rewrite (get_totalNoOfPrimaryLines_Some _ _ E Hne).
  erewrite bind_Return; last first.
  { apply (generateMainPrimaryLine_extrapolates t pre ml S None E Hall). by intros []. }
  set (x := mkLine _ _). set (t1 := upd _ _ t).
  assert (getToolState t1 = Some ((pre ++ [ml]) ++ [x])) as E1 by apply getToolState_upd.
  unfold bind at 1. unfold getTool at 1.
  rewrite (showRefinementPoints_on_Some t1 _ E1) by (by destruct pre).
  unfold t1 at 1. rewrite configuration_upd, Hflag. cbn [from_option Datatypes.id].
  unfold bind at 1. unfold ret at 1.
  assert (commonLine (Datatypes.S S) x) as Hx.
  { pose proof Hall as [_ [Hml _]%Forall_cons]%Forall_app.
    destruct (commonLine_inv _ _ Hml) as (pl & Hpl & Hlenl & Hcl).
    assert (length (extrapolated (spacingOf t) (pointsOf ml) (pointsOf <$> last pre))
            = Datatypes.S S
            ∧ Forall (λ p, isCommonPoint p = true)
                (extrapolated (spacingOf t) (pointsOf ml) (pointsOf <$> last pre)))
      as [Hl Hc].
    { rewrite (pointsOf_Some _ _ Hpl). unfold extrapolated.
      destruct (last pre) as [mq|] eqn:Hlast; cbn.
      - apply last_Some in Hlast as [pre' ->].
        apply Forall_app in Hall as [[_ Hmq]%Forall_app _].
        apply Forall_cons in Hmq as [Hmq _].
        destruct (commonLine_inv _ _ Hmq) as (ql & Hql & Hlenq & _).
        rewrite (pointsOf_Some _ _ Hql). split.
        + rewrite length_zip_with. lia.
        + apply Forall_lookup. intros i p. rewrite lookup_zip_with.
          destruct (pl !! i); [|done]. cbn. destruct (ql !! i); [|done]. cbn.
          by intros [= <-].
      - split; [by rewrite length_fmap|]. apply Forall_fmap. by apply Forall_true. }
    unfold x. rewrite <- Hl. by apply commonLine_mkLine. }
  destruct (IH (e + 1)%Z n t1 _ (Datatypes.S P) S E1) as (d' & u' & Hloop & Hlen' & Hcont').
  { by apply shape_unrefined_snoc. }
  { unfold t1. by rewrite configuration_upd. }
  exists (x :: d'), u'. rewrite Hloop. unfold t1. rewrite upd_upd.
  replace ((pre ++ [ml]) ++ x :: d') with (((pre ++ [ml]) ++ [x]) ++ d')
    by (by rewrite <- (app_assoc _ [x] d')).
  split; [done|]. split; [rewrite Hlen'; apply Nat.add_succ_comm|].
  replace (spacingOf t1) with (spacingOf t) in Hcont' by done.
  apply continues_app; [rewrite !length_app; cbn; lia| |].
  - apply continues_snoc. unfold x. done.
  - eapply continues_mono; [|exact Hcont']. lia.
Qed.

End Continuation.

Section GrowEvenly.
Context {K : Type} `{NumLaws K} `{!EqLaws K}.
Implicit Types (t : Tool K) (d : list (Measurement K)) (m : Measurement K).

Lemma Forall2_handles_pointsOf d d' i m m' :
  Forall2 (λ m m', uuid m' = uuid m ∧ handles m' = handles m) d d' →
  d !! i = Some m → d' !! i = Some m' → handles m' = handles m ∧ pointsOf m' = pointsOf m.
Proof.
  intros F Hm Hm'. destruct (Forall2_lookup_lr _ _ _ _ _ _ F Hm Hm') as [_ Hh].
  split; [done|]. unfold pointsOf. by rewrite Hh.
Qed.

(** [set noOfPrimaryLines] with more lines than the grid has, without
    refinement: the lines are added, and what is added. *)
Lemma set_noOfPrimaryLines_grows P S t (z : Z) :
  2 ≤ P → 2 ≤ S → inShape false P S t → (Z.of_nat P < z)%Z →
  ∃ t1 d' u' t', set_noOfPrimaryLines (JsNum (Fin (kofZ z))) t = Return () t'
    ∧ sameHandles t t1
    ∧ sameHandles (upd (data t1 ++ d') u' t1) t'
    ∧ length (data t1 ++ d') = Z.to_nat z
    ∧ continues (spacingOf t1) (data t1 ++ d') P.
Proof.
  intros HP HS Hin Hz. cbn [set_noOfPrimaryLines].
  assert ((kofZ z <? kofZ 2)%K = false) as Hn.
  { rewrite kltb_ofZ. apply bool_decide_eq_false. lia. }
  rewrite Hn.
  destruct P as [|P]; [lia|]. destruct S as [|S]; [lia|].
  destruct (inShape_getToolState _ _ _ _ Hin) as [E Hne].
  pose proof Hin as (Hshape & Hg & Hi & Hd).
  erewrite bind_Return by (apply read_Some; by eapply get_noOfPrimaryLines_shape).
  cbn [strictEquals]. rewrite keqb_ofZ. rewrite bool_decide_eq_false_2 by lia.
  unfold numberOf. cbn [from_option Datatypes.id]. rewrite kltb_ofZ.
  rewrite bool_decide_eq_true_2 by lia.
  assert (∀ t1, sameHandles t t1 →
            ∃ d' u', growPrimaryLines (Z.to_nat (kupper (kofZ z)))
                       (Z.of_nat (Datatypes.S P)) (kofZ z) t1
                     = Return () (upd (data t1 ++ d') u' t1)
              ∧ length (data t1 ++ d') = Z.to_nat z
              ∧ continues (spacingOf t1) (data t1 ++ d') (Datatypes.S P)) as Hgrow.
  { intros t1 Hs1.
    pose proof (sameHandles_inShape _ _ _ _ _ Hs1 Hin) as Hin1.
    destruct (inShape_getToolState _ _ _ _ Hin1) as [E1 Hne1].
    pose proof Hin1 as (Hshape1 & Hg1 & Hi1 & Hd1).
    destruct (growPrimaryLines_continues (Z.to_nat (kupper (kofZ z)))
                (Z.of_nat (Datatypes.S P)) (kofZ z) t1 (data t1) P S E1 Hshape1 Hg1)
      as (d' & u' & Hrun & Hlen & Hcont).
    exists d', u'. split; [done|].
    rewrite roundsUp_ofZ in Hlen by (pose proof (kupper_ofZ z); lia).
    split; [lia|].
    apply shape_unrefined in Hshape1 as [Hl1 _]. by rewrite Hl1 in Hcont. }
  destruct (session_spec (growPrimaryLines (Z.to_nat (kupper (kofZ z)))
                            (Z.of_nat (Datatypes.S P)) (kofZ z)) t)
    as (t1 & t2 & t' & Hrun & Hs1 & Hloop & Hs2).
  { intros t1 Hs1. destruct (Hgrow t1 Hs1) as (d' & u' & Hrun & _).
    eexists. split; [exact Hrun|]. by rewrite getToolState_upd. }
  destruct (Hgrow t1 Hs1) as (d' & u' & Hrun' & Hlen & Hcont).
  rewrite Hrun' in Hloop. injection Hloop as <-.
  by exists t1, d', u', t'.
Qed.

(** X19.  [set noOfPrimaryLines] with a number above the number of
    lines of a grid without refinement returns, and every line it adds
    continues the two lines before it: each of its points is as far from the
    point of the line before as that one is from the point of the line
    before it. *)
Theorem noOfPrimaryLines_adds_evenly P S t (z : Z) :
  2 ≤ P → 2 ≤ S → inShape false P S t → (Z.of_nat P < z)%Z →
  ∃ t', set_noOfPrimaryLines (JsNum (Fin (kofZ z))) t = Return () t'
    ∧ length (data t') = Z.to_nat z
    ∧ ∀ i m, P ≤ i → data t' !! i = Some m →
        ∃ a b, data t' !! (i - 1) = Some a ∧ data t' !! (i - 2) = Some b
          ∧ handles m
            = Some (extrapolated (spacingOf t) (pointsOf a) (Some (pointsOf b))).
Proof.
  intros HP HS Hin Hz.
  destruct (set_noOfPrimaryLines_grows P S t z HP HS Hin Hz)
    as (t1 & d' & u' & t' & Hrun & _ & [_ F] & Hlen & Hcont).
  rewrite data_upd in F. exists t'. split; [done|].
  pose proof (Forall2_length _ _ _ F) as HL. split; [lia|].
  intros i m Hi Hm.
  assert (i < length (data t1 ++ d')) as Hlt by (apply lookup_lt_Some in Hm; lia).
  destruct (lookup_lt_is_Some_2 _ _ Hlt) as [m2 Hm2].
  destruct (Hcont i m2 Hi Hm2) as (a2 & Ha2 & Hh2).
  assert (is_Some ((data t1 ++ d') !! (i - 2))) as [b2 Hb2]
    by (apply lookup_lt_is_Some_2; lia).
  assert (last (take (i - 1) (data t1 ++ d')) = Some b2) as Hlast.
  { rewrite last_lookup, length_take, Nat.min_l by lia.
    rewrite lookup_take_lt by lia. by replace (Nat.pred (i - 1)) with (i - 2) by lia. }
  rewrite Hlast in Hh2. cbn [fmap option_fmap option_map] in Hh2.
  assert (is_Some (data t' !! (i - 1))) as [a Ha] by (apply lookup_lt_is_Some_2; lia).
  assert (is_Some (data t' !! (i - 2))) as [b Hb] by (apply lookup_lt_is_Some_2; lia).
  destruct (Forall2_handles_pointsOf _ _ _ _ _ F Hm2 Hm) as [Hhm _].
  destruct (Forall2_handles_pointsOf _ _ _ _ _ F Ha2 Ha) as [_ Hpa].
  destruct (Forall2_handles_pointsOf _ _ _ _ _ F Hb2 Hb) as [_ Hpb].
  exists a, b. split; [done|]. split; [done|].
  rewrite Hhm, Hh2, Hpa, Hpb. reflexivity.
Qed.

End GrowEvenly.

Lemma noOfPrimaryLines_adds_evenly_witness :
  ∃ t', set_noOfPrimaryLines (JsNum (Fin (kofZ 5))) placedQ = Return () t'
    ∧ length (data t') = Z.to_nat 5
    ∧ ∀ i m, 3 ≤ i → data t' !! i = Some m →
        ∃ a b, data t' !! (i - 1) = Some a ∧ data t' !! (i - 2) = Some b
          ∧ handles m
            = Some (extrapolated (spacingOf placedQ) (pointsOf a) (Some (pointsOf b))).
Proof.
  apply (noOfPrimaryLines_adds_evenly 3 3 placedQ 5).
  - lia.
  - lia.
  - repeat split; vm_compute; (reflexivity || lia).
  - lia.
Defined.

Section PlacementExact.
Context {K : Type} `{Num K}.
Implicit Types (t : Tool K) (d pre : list (Measurement K)) (m ml : Measurement K).




End PlacementExact.

Section PlacementResult.
Context {K : Type} `{Num K}.
Implicit Types (t : Tool K) (d : list (Measurement K)) (m : Measurement K).




End PlacementResult.

Section PlacementLattice.
Local Open Scope R_scope.

Section Lattice.
Implicit Types (t : Tool R) (d : list (Measurement R)) (m : Measurement R).








End Lattice.


End PlacementLattice.

Section SpacingLattice.
Local Open Scope R_scope.

Section LaidOut.
Context {K : Type} `{Num K}.
Implicit Types (t : Tool K) (D : list (Measurement K)) (m : Measurement K)
  (f : nat → nat → K * K).

Lemma laidOut_lookup P S D f k j :
  laidOut P S D f → (k < P)%nat → (j < S)%nat →
  ∃ m pts p, D !! k = Some m ∧ handles m = Some pts ∧ length pts = S
    ∧ Forall (λ p, isCommonPoint p = true) pts
    ∧ pts !! j = Some p ∧ xyOf p = f k j.
Proof.
  intros [[Hlen Hall]%shape_unrefined Hf] Hk Hj.
  destruct (lookup_lt_is_Some_2 D k) as [m Hm]; [lia|].
  rewrite Forall_lookup in Hall.
  destruct (commonLine_inv _ _ (Hall _ _ Hm)) as (pts & Hpts & Hl & Hc).
  destruct (lookup_lt_is_Some_2 pts j) as [p Hp]; [lia|].
  exists m, pts, p. repeat split; try done.
  specialize (Hf k j Hk Hj). unfold xyAt in Hf. rewrite Hm in Hf. cbn in Hf.
  rewrite Hpts in Hf. cbn in Hf. rewrite Hp in Hf. cbn in Hf. by injection Hf.
Qed.




End LaidOut.

Section SpacingReads.
Implicit Types (t : Tool R) (D : list (Measurement R)) (m : Measurement R)
  (f : nat → nat → R * R).


Section Reads.
Variables (P S : nat) (t : Tool R) (D : list (Measurement R)) (f : nat → nat → R * R).
Hypothesis (HP : (2 ≤ P)%nat) (HS : (2 ≤ S)%nat).
Hypothesis (E : getToolState t = Some D) (Hlaid : laidOut P S D f).
Hypothesis (Hglob : showRefinementPoints (configuration t) !! "global" = Some false).











End Reads.
End SpacingReads.

Section SpacingLoops.
Variables (P S : nat) (t0 : Tool R) (ddx ddy : R).
Hypothesis (HP : (2 ≤ P)%nat) (HS : (2 ≤ S)%nat).
Hypothesis (Hglob : showRefinementPoints (configuration t0) !! "global" = Some false).
Implicit Types (D : list (Measurement R)) (f : nat → nat → R * R).




End SpacingLoops.

Section SpacingRows.
Variables (P S : nat) (t0 : Tool R) (s v : R).
Hypothesis (HP : (2 ≤ P)%nat) (HS : (2 ≤ S)%nat).
Hypothesis (Hglob : showRefinementPoints (configuration t0) !! "global" = Some false).
Implicit Types (D : list (Measurement R)) (f : nat → nat → R * R).


End SpacingRows.

Section SpacingChange.
Implicit Types (t : Tool R) (D : list (Measurement R)) (f : nat → nat → R * R).







End SpacingChange.

Section SpacingSetter.
Implicit Types (t : Tool R).




End SpacingSetter.



End SpacingLattice.

Section AngleRoundTrip.
Local Open Scope R_scope.

Section Angle.
Implicit Types (t : Tool R) (m : Measurement R).

Lemma xyAt_first t k j (q : R * R) :
  xyAt (data t) k j = Some q →
  ∃ m pts p, data t !! k = Some m ∧ handles m = Some pts ∧ pts !! j = Some p
    ∧ q = (p_x p, p_y p).
Proof.
  unfold xyAt. destruct (data t !! k) as [m|] eqn:Hm; [|done]. cbn.
  destruct (handles m) as [pts|] eqn:Hpts; [|done]. cbn.
  destruct (pts !! j) as [p|] eqn:Hp; [|done]. cbn. intros [= <-].
  exists m, pts, p. repeat split; done.
Qed.

(** What [get angle] computes from the points it reads. *)
Lemma get_angle_read t (n : nat) (topLeft bottomLeft middle : R * R) :
  getGridMiddlePointCoords t = Some (Some middle) →
  get_totalNoOfSecondaryLines t = Some (Some n) →
  xyAt (data t) 0 0 = Some topLeft → xyAt (data t) 0 (n - 1) = Some bottomLeft →
  get_angle t
  = Some (Some (kround (atan ((middle.2 - (topLeft.2 + bottomLeft.2) / 2)
                              / (middle.1 - (topLeft.1 + bottomLeft.1) / 2))
                        * 180 / PI))).
Proof.
  intros Hmid Htotal Htl Hbl.
  assert (noGrid t = false) as Hgrid.
  { unfold getGridMiddlePointCoords in Hmid. by destruct (noGrid t). }
  destruct (xyAt_first _ _ _ _ Htl) as (m & pts & p & Hm & Hpts & Hp & ->).
  destruct (xyAt_first _ _ _ _ Hbl) as (m' & pts' & q & Hm' & Hpts' & Hq & ->).
  simplify_eq.
  assert (length pts = n) as Hn.
  { unfold get_totalNoOfSecondaryLines, linePoints in Htotal.
    rewrite Hgrid, Hm in Htotal. cbn in Htotal. rewrite Hpts in Htotal. cbn in Htotal.
    by injection Htotal. }
  assert (1 ≤ n)%nat as Hn1 by (apply lookup_lt_Some in Hp; lia).
  subst n.
  unfold get_angle. rewrite Hgrid, Htotal, Hmid. unfold linePoints. rewrite Hm. cbn.
  rewrite Hpts. cbn. rewrite head_lookup, Hp. cbn.
  unfold lookupZ, numberOf. cbn [default from_option]. unfold Datatypes.id.
  destruct (Z.ltb_spec (Z.of_nat (length pts) - 1) 0) as [Hlt|_]; [lia|].
  replace (Z.to_nat (Z.of_nat (length pts) - 1)) with (length pts - 1)%nat by lia.
  rewrite Hq. cbn. done.
Qed.

Lemma kround_0 : kround 0 = 0.
Proof.
  cbn. rewrite Rplus_0_l. f_equal. symmetry. apply Int_part_spec. cbn. lra.
Qed.

(** The angle of a grid whose left edge has its middle level with the
    middle of the grid. *)
Lemma get_angle_level t (n : nat) (topLeft bottomLeft middle : R * R) :
  getGridMiddlePointCoords t = Some (Some middle) →
  get_totalNoOfSecondaryLines t = Some (Some n) →
  xyAt (data t) 0 0 = Some topLeft → xyAt (data t) 0 (n - 1) = Some bottomLeft →
  (topLeft.2 + bottomLeft.2) / 2 = middle.2 →
  get_angle t = Some (Some 0).
Proof.
  intros Hmid Htotal Htl Hbl Hlevel.
  rewrite (get_angle_read t n topLeft bottomLeft middle) by done.
  rewrite Hlevel, Rminus_diag. unfold Rdiv at 2. rewrite Rmult_0_l, atan_0.
  unfold Rdiv. rewrite !Rmult_0_l. by rewrite kround_0.
Qed.

(** The points [get angle] reads, after a rotation. *)
Lemma rotated_reads t t' (angle : R) (mid : R * R) :
  handles <$> data t' = rotateHandles angle mid <$> (handles <$> data t) →
  (∀ n, get_totalNoOfSecondaryLines t = Some (Some n) →
        xyAt (data t) 0 0 ≠ None →
        get_totalNoOfSecondaryLines t' = Some (Some n))
  ∧ ∀ k j q, xyAt (data t) k j = Some q →
      xyAt (data t') k j
      = Some ((q.1 - mid.1) * cos (angle * PI / 180)
                - (q.2 - mid.2) * sin (angle * PI / 180) + mid.1,
              (q.1 - mid.1) * sin (angle * PI / 180)
                + (q.2 - mid.2) * cos (angle * PI / 180) + mid.2).
Proof.
  intros Hh.
  assert (∀ k m, data t !! k = Some m →
            ∃ m', data t' !! k = Some m' ∧ handles m' = rotateHandles angle mid (handles m))
    as Hline.
  { intros k m Hm. apply (f_equal (.!! k)) in Hh. rewrite !list_lookup_fmap, Hm in Hh.
    destruct (data t' !! k) as [m'|]; [|done]. cbn in Hh. injection Hh as Hh. by exists m'. }
  split.
  - intros n Htotal Hsome. unfold get_totalNoOfSecondaryLines in *.
    destruct (noGrid t) eqn:Hgrid; [done|].
    unfold linePoints in Htotal. destruct (data t !! 0%nat) as [m|] eqn:Hm; [|done].
    cbn in Htotal. destruct (handles m) as [pts|] eqn:Hpts; [|done]. cbn in Htotal.
    destruct (Hline _ _ Hm) as (m' & Hm' & Hh').
    assert (noGrid t' = false) as ->.
    { unfold noGrid. by destruct (data t'). }
    unfold linePoints. rewrite Hm'. cbn. rewrite Hh', Hpts. cbn.
    rewrite length_fmap. done.
  - intros k j q Hq.
    destruct (xyAt_first _ _ _ _ Hq) as (m & pts & p & Hm & Hpts & Hp & ->).
    destruct (Hline _ _ Hm) as (m' & Hm' & Hh').
    unfold xyAt. rewrite Hm'. cbn. rewrite Hh', Hpts. cbn.
    rewrite list_lookup_fmap, Hp. cbn. unfold xyOf.
    by destruct (rotatePoint_coords angle mid p) as [-> ->].
Qed.

(** [rotateGrid] on a grid whose left edge has its middle level with the
    middle of the grid and to the left of it. *)
Lemma rotateGrid_angle t (a : R) (n : nat) (topLeft bottomLeft middle : R * R) :
  Forall (λ m, is_Some (handles m)) (data t) →
  getGridMiddlePointCoords t = Some (Some middle) →
  get_totalNoOfSecondaryLines t = Some (Some n) →
  xyAt (data t) 0 0 = Some topLeft → xyAt (data t) 0 (n - 1) = Some bottomLeft →
  (topLeft.2 + bottomLeft.2) / 2 = middle.2 →
  (topLeft.1 + bottomLeft.1) / 2 < middle.1 →
  -90 < a < 90 →
  ∃ t', rotateGrid a t = Return () t' ∧ get_angle t' = Some (Some (kround a)).
Proof.
  intros Hfull Hmid Htotal Htl Hbl Hlevel Hleft Ha.
  destruct (rotateGrid_spec t a middle Hfull Hmid) as (t' & Hrun & Hh & _).
  exists t'. split; [done|].
  destruct (rotated_reads t t' a middle Hh) as [Htotal' Hxy].
  assert (getGridMiddlePointCoords t' = Some (Some middle)) as Hmid'.
  { rewrite getGridMiddlePointCoords_handles, Hh. apply middleOf_rotate.
    by rewrite <- getGridMiddlePointCoords_handles. }
  rewrite (get_angle_read t' n _ _ middle Hmid' (Htotal' n Htotal ltac:(by rewrite Htl))
             (Hxy _ _ _ Htl) (Hxy _ _ _ Hbl)).
  cbn [fst snd]. do 3 f_equal.
  set (θ := a * PI / 180).
  set (L := middle.1 - (topLeft.1 + bottomLeft.1) / 2).
  assert (0 < L) as HL by (unfold L; lra).
  assert (- (PI / 2) < θ < PI / 2) as Hθ.
  { pose proof PI_RGT_0. unfold θ. split; nra. }
  assert (0 < cos θ) as Hcos by (by apply cos_gt_0; lra).
  match goal with |- atan (?num / ?den) * _ / _ = _ =>
    replace (num / den) with (tan θ)
  end.
  - rewrite atan_tan by done. unfold θ. pose proof PI_RGT_0. field. lra.
  - unfold tan.
    replace (middle.2 - _) with (L * sin θ) by (unfold L; rewrite <- Hlevel; field).
    replace (middle.1 - _) with (L * cos θ) by (unfold L; rewrite <- Hlevel; field).
    field. split; lra.
Qed.

(** X23.  On a grid whose left edge has its middle level with the
    middle point of the grid and to the left of it (a grid that has not been
    turned), [rotateGrid] with an angle between -90 and 90 degrees returns,
    and [get angle] then gives that angle, rounded. *)
Theorem rotateGrid_sets_angle t (a : R) (n : nat) (topLeft bottomLeft middle : R * R) :
  Forall (λ m, is_Some (handles m)) (data t) →
  getGridMiddlePointCoords t = Some (Some middle) →
  get_totalNoOfSecondaryLines t = Some (Some n) →
  xyAt (data t) 0 0 = Some topLeft → xyAt (data t) 0 (n - 1) = Some bottomLeft →
  (topLeft.2 + bottomLeft.2) / 2 = middle.2 →
  (topLeft.1 + bottomLeft.1) / 2 < middle.1 →
  -90 < a < 90 →
  ∃ t', rotateGrid a t = Return () t' ∧ get_angle t' = Some (Some (kround a)).
Proof. apply rotateGrid_angle. Qed.

(** X24.  On a grid whose left edge has its middle level with
    the middle point of the grid and to the left of it, [get angle] gives 0,
    and [set angle] with a number from 0 up to, but not including, 90
    returns, after which [get angle] gives that number, rounded. *)
Theorem angle_set_get t (a : R) (n : nat) (topLeft bottomLeft middle : R * R) :
  Forall (λ m, is_Some (handles m)) (data t) →
  getGridMiddlePointCoords t = Some (Some middle) →
  get_totalNoOfSecondaryLines t = Some (Some n) →
  xyAt (data t) 0 0 = Some topLeft → xyAt (data t) 0 (n - 1) = Some bottomLeft →
  (topLeft.2 + bottomLeft.2) / 2 = middle.2 →
  (topLeft.1 + bottomLeft.1) / 2 < middle.1 →
  0 <= a < 90 →
  get_angle t = Some (Some 0)
  ∧ ∃ t', set_angle (JsNum (Fin a)) t = Return () t'
      ∧ get_angle t' = Some (Some (kround a)).
Proof.
  intros Hfull Hmid Htotal Htl Hbl Hlevel Hleft Ha.
  pose proof (get_angle_level t n topLeft bottomLeft middle Hmid Htotal Htl Hbl Hlevel)
    as Hangle.
  split; [done|].
  destruct (rotateGrid_angle t a n topLeft bottomLeft middle) as (t' & Hrun & Hget);
    try done; [lra|].
  exists t'. split; [|done]. cbn [set_angle].
  assert ((a <? kofZ 0)%K = false) as -> by (apply kltb_R_false; cbn; lra).
  assert ((kofZ 90 <? a)%K = false) as -> by (apply kltb_R_false; cbn; lra).
  cbn [orb]. rewrite (bind_Return _ _ _ _ _ (read_Some _ _ _ Hangle)). cbn [default].
  replace (a - Datatypes.id 0)%K with a by (cbv [ksub Num_R Datatypes.id]; lra). exact Hrun.
Qed.

End Angle.

Lemma rotateGrid_sets_angle_witness :
  ∃ t', rotateGrid 30 squareR = Return () t' ∧ get_angle t' = Some (Some (kround 30)).
Proof.
  apply (rotateGrid_sets_angle squareR 30 2 (0, 0) (0, 5) ((0 + 5) / 2, (0 + 5) / 2)).
  - repeat constructor; by eexists.
  - reflexivity.
  - reflexivity.
  - reflexivity.
  - reflexivity.
  - cbn. lra.
  - cbn. lra.
  - lra.
Defined.

Lemma angle_set_get_witness :
  get_angle squareR = Some (Some 0)
  ∧ ∃ t', set_angle (JsNum (Fin 45)) squareR = Return () t'
      ∧ get_angle t' = Some (Some (kround 45)).
Proof.
  apply (angle_set_get squareR 45 2 (0, 0) (0, 5) ((0 + 5) / 2, (0 + 5) / 2)).
  - repeat constructor; by eexists.
  - reflexivity.
  - reflexivity.
  - reflexivity.
  - reflexivity.
  - cbn. lra.
  - cbn. lra.
  - lra.
Defined.

End AngleRoundTrip.

Create HintDb session.

Section SessionFrame.
Context {K : Type} `{Num K}.
Implicit Types (t : Tool K) (d : list (Measurement K)).

#[local] Instance sameSession_refl : Reflexive (sameSession (K:=K)).
Proof. intros t. by repeat split. Qed.

#[local] Instance sameSession_trans : Transitive (sameSession (K:=K)).
Proof. intros t1 t2 t3 (?&?&?&?) (?&?&?&?). repeat split; congruence. Qed.

Lemma keeps_at {A} (R : Tool K → Tool K → Prop) (c : M K A) t : keeps R c → keepsAt R c t.
Proof. intros Hk. apply Hk. Qed.

Lemma session_updateData g : keeps sameSession (updateData (K:=K) g).
Proof.
  intros t. unfold keepsAt, updateData.
  destruct (getToolState t) as [d|]; [|reflexivity].
  destruct (g d); [by repeat split|reflexivity].
Qed.

Lemma session_modify_data (f : Tool K → list (Measurement K)) :
  keeps sameSession (modify (λ t, with_data (f t) t)).
Proof. intros t. by repeat split. Qed.

Lemma session_add_event e : keeps sameSession (modify (add_event (K:=K) e)).
Proof. intros t. by repeat split. Qed.

Lemma session_modifyConfiguration (f : Configuration K → Configuration K) :
  (∀ c, currentTool (f c) = currentTool c ∧ currentHandle (f c) = currentHandle c) →
  keeps sameSession (modifyConfiguration f).
Proof. intros Hf t. destruct (Hf (configuration t)). by repeat split. Qed.

Lemma session_uuidv4 : keeps sameSession (uuidv4 (K:=K)).
Proof. intros t. by repeat split. Qed.

Lemma session_clearToolState : keeps sameSession (clearToolState (K:=K)).
Proof. intros t. unfold keepsAt, clearToolState. destruct (getToolState t); by repeat split. Qed.

End SessionFrame.

#[export] Hint Resolve session_updateData session_modify_data session_add_event
  session_uuidv4 session_clearToolState : session.

Ltac session_step :=
  match goal with
  | |- keeps _ _ => intros ?
  | |- keepsAt _ (bind getTool _) _ => apply keepsAt_getTool
  | |- keepsAt _ (bind _ _) _ => apply keepsAt_bind; [tc_solve| |intros ? ? _]
  | |- keepsAt _ (ret _) _ => apply keeps_ret; tc_solve
  | |- keepsAt _ (throw _) _ => apply keeps_throw; tc_solve
  | |- keepsAt _ (read _) _ => apply keeps_read; tc_solve
  | |- keepsAt _ (orTypeError _) _ => apply keeps_orTypeError; tc_solve
  | |- keepsAt _ (forEach _ _) _ => apply keeps_forEach; [tc_solve..|intros ?]
  | |- keepsAt _ (if ?b then _ else _) _ => destruct b
  | |- keepsAt _ (match ?x with _ => _ end) _ => destruct x
  | |- keepsAt _ _ _ => apply keeps_at; solve [eauto with session]
  end.

Ltac session_auto := repeat session_step.

Section SessionSteps.
Context {K : Type} `{Num K}.
Implicit Types (t : Tool K) (d : list (Measurement K)).

#[local] Existing Instance sameSession_refl.
#[local] Existing Instance sameSession_trans.

Lemma session_addToolState measurement idx :
  keeps sameSession (addToolState (K:=K) measurement idx).
Proof. unfold addToolState. session_auto. Qed.

Lemma session_addNewMeasurementToState idx :
  keeps sameSession (addNewMeasurementToState (K:=K) idx).
Proof. apply session_addToolState. Qed.

Lemma session_addPoint point : keeps sameSession (addPoint (K:=K) point).
Proof. apply session_updateData. Qed.

Lemma session_writePoint address (x y : K) : keeps sameSession (writePoint address x y).
Proof. apply session_updateData. Qed.

Lemma session_fireCompletedEvent : keeps sameSession (fireCompletedEvent (K:=K)).
Proof. apply session_add_event. Qed.

Lemma session_fireRemovedEvent : keeps sameSession (fireRemovedEvent (K:=K)).
Proof. apply session_add_event. Qed.

Hint Resolve session_addNewMeasurementToState session_addPoint session_writePoint
  session_fireCompletedEvent session_fireRemovedEvent : session.

Lemma session_generateMainPrimaryLine primaryLineIndex position :
  keeps sameSession (generateMainPrimaryLine (K:=K) primaryLineIndex position).
Proof. unfold generateMainPrimaryLine. session_auto. Qed.

Lemma session__generateSubsidiaryPrimaryLine a b c :
  keeps sameSession (_generateSubsidiaryPrimaryLine (K:=K) a b c).
Proof. unfold _generateSubsidiaryPrimaryLine. session_auto. Qed.

Hint Resolve session_generateMainPrimaryLine session__generateSubsidiaryPrimaryLine : session.

Lemma session_generateSubsidiaryPrimaryLines a b c e :
  keeps sameSession (generateSubsidiaryPrimaryLines (K:=K) a b c e).
Proof. unfold generateSubsidiaryPrimaryLines. session_auto. Qed.

Lemma session_generateRefinementPoints options :
  keeps sameSession (generateRefinementPointsOnCurrentPrimaryLines (K:=K) options).
Proof. unfold generateRefinementPointsOnCurrentPrimaryLines. session_auto. Qed.

Lemma session_removeAllRefinementPoints :
  keeps sameSession (removeAllRefinementPoints (K:=K)).
Proof. unfold removeAllRefinementPoints. session_auto. Qed.

Lemma session_removeLastPrimaryLine : keeps sameSession (removeLastPrimaryLine (K:=K)).
Proof. unfold removeLastPrimaryLine. session_auto. Qed.

Lemma session_generateSecondaryLine : keeps sameSession (generateSecondaryLine (K:=K)).
Proof. unfold generateSecondaryLine. session_auto. Qed.

Lemma session_removeLastSecondaryLine : keeps sameSession (removeLastSecondaryLine (K:=K)).
Proof. unfold removeLastSecondaryLine. session_auto. Qed.

Hint Resolve session_generateSubsidiaryPrimaryLines session_generateRefinementPoints
  session_removeAllRefinementPoints session_removeLastPrimaryLine
  session_generateSecondaryLine session_removeLastSecondaryLine : session.

Lemma session_growPrimaryLines fuel : ∀ e (n : K), keeps sameSession (growPrimaryLines fuel e n).
Proof.
  induction fuel as [|fuel IH]; intros e n; cbn [growPrimaryLines]; [session_auto|].
  intros t. destruct (_ <? _)%K; session_auto.
Qed.

Lemma session_shrinkPrimaryLines fuel : ∀ e (n : K),
  keeps sameSession (shrinkPrimaryLines fuel e n).
Proof.
  induction fuel as [|fuel IH]; intros e n; cbn [shrinkPrimaryLines]; [session_auto|].
  intros t. destruct (_ <? _)%K; session_auto.
Qed.

Lemma session_growSecondaryLines fuel : ∀ e (n : K),
  keeps sameSession (growSecondaryLines fuel e n).
Proof.
  induction fuel as [|fuel IH]; intros e n; cbn [growSecondaryLines]; [session_auto|].
  intros t. destruct (_ <? _)%K; session_auto.
Qed.

Lemma session_shrinkSecondaryLines fuel : ∀ e (n : K),
  keeps sameSession (shrinkSecondaryLines fuel e n).
Proof.
  induction fuel as [|fuel IH]; intros e n; cbn [shrinkSecondaryLines]; [session_auto|].
  intros t. destruct (_ <? _)%K; session_auto.
Qed.

End SessionSteps.

#[export] Hint Resolve session_addNewMeasurementToState session_addPoint session_writePoint
  session_fireCompletedEvent session_fireRemovedEvent
  session_generateMainPrimaryLine session__generateSubsidiaryPrimaryLine
  session_generateSubsidiaryPrimaryLines session_generateRefinementPoints
  session_removeAllRefinementPoints session_removeLastPrimaryLine
  session_generateSecondaryLine session_removeLastSecondaryLine
  session_growPrimaryLines session_shrinkPrimaryLines
  session_growSecondaryLines session_shrinkSecondaryLines : session.


Section Idle.
Context {K : Type} `{Num K}.
Implicit Types (t : Tool K) (d : list (Measurement K)).

#[local] Existing Instance sameSession_refl.
#[local] Existing Instance sameSession_trans.

Lemma endsIdle_bind {A B} (m : M K A) (f : A → M K B) :
  keeps sameSession m → (∀ a, endsIdle (f a)) → endsIdle (bind m f).
Proof.
  intros Hm Hf t b t' Hd Hrun. unfold bind in Hrun.
  destruct (m t) as [a t1|] eqn:E; [|done].
  destruct (keeps_inv_Return _ _ _ _ _ Hm E) as (Hd1 & _).
  apply (Hf a t1 b t'); [congruence|done].
Qed.

Lemma endsIdle_getTool {B} (f : Tool K → M K B) :
  (∀ t, endsIdle (f t)) → endsIdle (bind getTool f).
Proof. intros Hf t b t' Hd Hrun. by apply (Hf t t b t'). Qed.

Lemma endsIdle_completeDrawing : endsIdle (completeDrawing (K:=K)).
Proof.
  intros t [] t' Hd. unfold completeDrawing, bind, getTool. rewrite Hd. cbn [negb].
  unfold _endDrawing, bind, getTool, modify, modifyConfiguration, orTypeError,
    _deactivateDraw, fireCompletedEvent, ret, throw.
  destruct (bool_decide _); [destruct (getToolState t) as [a|]; [destruct (lookupZ a _)|]|];
    unfold modify; cbn; try done; rewrite ?Hd; cbn; by intros [= <-].
Qed.

(** After the session, steps that leave the session alone. *)
Lemma endsIdle_then {A B} (m : M K A) (f : A → M K B) :
  endsIdle m → (∀ a, keeps sameSession (f a)) → endsIdle (bind m f).
Proof.
  intros Hm Hf t b t' Hd Hrun. unfold bind in Hrun.
  destruct (m t) as [a t1|] eqn:E; [|done].
  pose proof (Hm t a t1 Hd E) as (I1 & I2 & I3 & I4).
  destruct (keeps_inv_Return _ _ _ _ _ (Hf a) Hrun) as (? & ? & ? & ?).
  repeat split; congruence.
Qed.

Lemma returnsIdle_keeps {A} (c : M K A) : keeps sameSession c → returnsIdle c.
Proof.
  intros Hc t a t' (I1 & I2 & I3 & I4) Hrun.
  destruct (keeps_inv_Return _ _ _ _ _ Hc Hrun) as (? & ? & ? & ?).
  repeat split; congruence.
Qed.

Lemma returnsIdle_bind {A B} (m : M K A) (f : A → M K B) :
  returnsIdle m → (∀ a, returnsIdle (f a)) → returnsIdle (bind m f).
Proof.
  intros Hm Hf t b t' Hi Hrun. unfold bind in Hrun.
  destruct (m t) as [a t1|] eqn:E; [|done].
  apply (Hf a t1 b t'); [by apply (Hm t a t1)|done].
Qed.

Lemma returnsIdle_getTool {B} (f : Tool K → M K B) :
  (∀ t, returnsIdle (f t)) → returnsIdle (bind getTool f).
Proof. intros Hf t b t' Hi Hrun. by apply (Hf t t b t'). Qed.

Lemma activateDraw_drawing t t1 : activateDraw t = Return () t1 → _drawing t1 = true.
Proof.
  unfold activateDraw, bind, modify, getTool, modifyConfiguration.
  destruct (noGrid _); by intros [= <-].
Qed.

(** A drawing session, from any state. *)
Lemma session_endsIdle {B} (k : M K B) t b t' :
  endsIdle k → (activateDraw ;; k) t = Return b t' → idle t'.
Proof.
  intros Hk Hrun. unfold bind in Hrun. destruct (activateDraw t) as [[] t1|] eqn:E; [|done].
  apply (Hk t1 b t'); [by eapply activateDraw_drawing|done].
Qed.

Lemma returnsIdle_session {B} (k : M K B) : endsIdle k → returnsIdle (activateDraw ;; k).
Proof. intros Hk t b t' _. by apply session_endsIdle. Qed.

End Idle.

Ltac session_more :=
  repeat first
    [ session_step
    | match goal with
      | |- keepsAt _ (modifyConfiguration _) _ =>
          apply keeps_at, session_modifyConfiguration;
          intros ?; unfold spacing_assign; try case_decide; done
      end ].

Ltac ends_auto :=
  repeat match goal with
    | |- endsIdle completeDrawing => apply endsIdle_completeDrawing
    | |- endsIdle (bind getTool _) => apply endsIdle_getTool; intros ?
    | |- endsIdle (bind _ _) => apply endsIdle_bind; [session_more|intros ?]
    | |- endsIdle (if ?b then _ else _) => destruct b
    end.

Ltac idle_auto :=
  repeat match goal with
    | |- returnsIdle (bind getTool _) => apply returnsIdle_getTool; intros ?
    | |- returnsIdle (bind activateDraw _) => apply returnsIdle_session; ends_auto
    | |- returnsIdle (bind _ _) =>
        apply returnsIdle_bind; [apply returnsIdle_keeps; session_more|intros ?]
    | |- returnsIdle (if ?b then _ else _) => destruct b
    | |- returnsIdle (match ?x with _ => _ end) => destruct x
    | |- returnsIdle _ => apply returnsIdle_keeps; session_more
    end.

Section IdleCalls.
Context {K : Type} `{Num K} `{Trig K}.
Implicit Types (t : Tool K).

#[local] Existing Instance sameSession_refl.
#[local] Existing Instance sameSession_trans.

Lemma session_set_showRefinementPoints v :
  keeps sameSession (set_showRefinementPoints (K:=K) v).
Proof. unfold set_showRefinementPoints. session_more. Qed.

Lemma run_idle (c : Call K) : returnsIdle (run c).
Proof.
  destruct c as [v|v|v|v|angle|newLocation usingMouseInput|]; cbn [run].
  - unfold set_noOfPrimaryLines. idle_auto.
  - unfold set_noOfSecondaryLines. idle_auto.
  - apply returnsIdle_keeps, session_set_showRefinementPoints.
  - unfold set_spacing, onSpacingChange. idle_auto.
  - unfold rotateGrid. idle_auto.
  - unfold setOffset. idle_auto.
  - unfold removeGrid. idle_auto.
Qed.

Lemma addNewMeasurement_idle position t0 t :
  noGrid t0 = true → addNewMeasurement position t0 = Return () t → idle t.
Proof.
  intros Hno. unfold addNewMeasurement. unfold bind at 1. unfold getTool at 1.
  rewrite Hno. cbn [negb]. apply session_endsIdle.
  apply endsIdle_bind; [session_more|intros _].
  apply endsIdle_then; [apply endsIdle_completeDrawing|intros _].
  intros t1. apply keepsAt_getTool. apply keeps_at, session_set_showRefinementPoints.
Qed.

Lemma Reachable_idle t : Reachable t → idle t.
Proof.
  induction 1 as [t0 position t Hinit Hplace|c t t' _ IH Hrun].
  - destruct Hinit as (Hno & _). by eapply addNewMeasurement_idle.
  - by eapply run_idle.
Qed.

End IdleCalls.

Section IdleTool.
Context {K : Type} `{Num K} `{Trig K}.
Implicit Types (t : Tool K).

(** X25.  After the placement of a grid and any calls of the mutators
    that have returned, the tool is idle: no drawing session is left open
    ([_drawing] and [isMultiPartToolActive] are false) and
    [config.currentTool] and [config.currentHandle] are 0; a further call
    that returns leaves it so. *)
Theorem idle_between_calls t :
  Reachable t → idle t ∧ ∀ c t', run c t = Return () t' → idle t'.
Proof.
  intros Hreach. pose proof (Reachable_idle t Hreach) as Hidle.
  split; [done|]. intros c t' Hrun. by apply (run_idle c t () t').
Qed.


End IdleTool.

Lemma idle_between_calls_witness :
  idle placedR ∧ ∀ c t', run c placedR = Return () t' → idle t'.
Proof.
  apply (idle_between_calls placedR).
  apply (reach_placement newToolR (0%R, 0%R) placedR).
  - exact initial_newToolR.
  - exact placedR_placed.
Defined.

Section Replacement.
Local Open Scope R_scope.


End Replacement.


Section GrowSecondary.
Context {K : Type} `{Num K}.
Implicit Types (t : Tool K) (d : list (Measurement K)) (m : Measurement K).

Lemma grown_refl m pts : handles m = Some pts → grown m m.
Proof.
  intros Hpts. exists pts, []. rewrite app_nil_r. split; [done|]. split; [done|].
  intros j p Hj Hp. apply lookup_lt_Some in Hp. lia.
Qed.

Lemma grown_trans m1 m2 m3 : grown m1 m2 → grown m2 m3 → grown m1 m3.
Proof.
  intros (pts & e1 & H1 & H2 & Hc1) (pts2 & e2 & H2' & H3 & Hc2).
  rewrite H2 in H2'. injection H2' as <-.
  exists pts, (e1 ++ e2). split; [done|]. rewrite app_assoc. split; [done|].
  intros j p Hj Hp. destruct (decide (j < length (pts ++ e1))) as [Hlt|Hge].
  - rewrite lookup_app_l in Hp by done.
    destruct (Hc1 j p Hj Hp) as (a & b & Ha & Hb & ->).
    exists a, b. pose proof (lookup_lt_Some _ _ _ Ha). pose proof (lookup_lt_Some _ _ _ Hb).
    rewrite !(lookup_app_l (pts ++ e1) e2) by done. done.
  - apply Hc2; [lia|done].
Qed.

Lemma grown_handles m1 m1' m2 m2' :
  handles m1' = handles m1 → handles m2' = handles m2 → grown m1 m2 → grown m1' m2'.
Proof. intros E1 E2 (pts & e & ? & ? & ?). exists pts, e. by rewrite E1, E2. Qed.

(** One more point on a line of at least two points. *)
Lemma extendLine_grown sp i n m :
  commonLine (S (S n)) m → grown m (extendLine false sp i m).
Proof.
  intros (pts & Hpts & Hlen & _)%commonLine_inv.
  unfold extendLine. cbn [andb]. rewrite Hpts. unfold secondaryPoint, lookupZ.
  destruct (Z.ltb_spec (Z.of_nat (length pts) - 2) 0) as [?|_]; [lia|].
  destruct (Z.ltb_spec (Z.of_nat (length pts) - 1) 0) as [?|_]; [lia|].
  replace (Z.to_nat (Z.of_nat (length pts) - 2)) with n by lia.
  replace (Z.to_nat (Z.of_nat (length pts) - 1)) with (S n) by lia.
  destruct (lookup_lt_is_Some_2 pts n) as [b Hb]; [lia|].
  destruct (lookup_lt_is_Some_2 pts (S n)) as [a Ha]; [lia|].
  rewrite Ha, Hb. cbn. exists pts, [FreehandHandleData (p_x a + (p_x a - p_x b))%K
                                      (p_y a + (p_y a - p_y b))%K true].
  split; [done|]. split; [done|].
  intros j p Hj Hp.
  assert (j = length pts) as ->.
  { apply lookup_lt_Some in Hp. rewrite length_app in Hp. cbn in Hp. lia. }
  rewrite list_lookup_middle in Hp by done. injection Hp as <-.
  exists a, b. rewrite !lookup_app_l by lia.
  replace (length pts - 1) with (S n) by lia. replace (length pts - 2) with n by lia.
  done.
Qed.

Lemma Forall2_grown_refl n d : Forall (commonLine n) d → Forall2 grown d d.
Proof.
  induction 1 as [|m l Hm _ IHl]; [constructor|]. constructor; [|done].
  destruct (commonLine_inv _ _ Hm) as (pts & Hpts & _). by eapply grown_refl.
Qed.

(** The growing loop of [set noOfSecondaryLines] on a grid without
    refinement: every line grows by points that continue it. *)
Lemma growSecondaryLines_grown fuel : ∀ e n t d P S,
  getToolState t = Some d →
  shape false (Datatypes.S P) (Datatypes.S (Datatypes.S S)) d →
  showRefinementPoints (configuration t) !! "global" = Some false →
  ∃ d', growSecondaryLines fuel e n t = Return () (with_data d' t)
    ∧ Forall2 grown d d'.
Proof.
  induction fuel as [|fuel IH]; intros e n t d P S E Hshape Hflag.
  { exists d. cbn. rewrite (with_data_id _ _ E). split; [done|].
    apply shape_unrefined in Hshape as [_ Hall]. by eapply Forall2_grown_refl. }
  pose proof Hshape as [Hlen Hall]%shape_unrefined.
  pose proof (Forall2_grown_refl _ _ Hall) as Hrefl.
  cbn [growSecondaryLines]. destruct (kofZ e <? n)%K; last first.
  { exists d. by rewrite (with_data_id _ _ E). }
  assert (d ≠ []) as Hne by (intros ->; done).
  pose proof (showRefinementPoints_on_Some _ _ E Hne) as Hon.
  rewrite Hflag in Hon. cbn [from_option Datatypes.id] in Hon.
  erewrite bind_Return; last first.
  { apply generateSecondaryLine_spec; [done..|]. intros i m Hi _.
    rewrite Forall_lookup in Hall. by eapply commonLine_nonempty, Hall. }
  rewrite Hon. set (d1 := imap _ d). set (t1 := with_data d1 t).
  assert (d1 ≠ []) as Hne1 by (unfold d1; by destruct d).
  unfold bind at 1. unfold getTool at 1.
  unfold t1 at 1. rewrite (showRefinementPoints_on_with_data _ _ _ E Hne Hne1), Hon.
  unfold bind at 1. unfold ret at 1.
  destruct (IH (e + 1)%Z n t1 d1 P (Datatypes.S S)) as (d' & Hloop & Hgrown).
  - apply getToolState_with_data.
  - apply shape_unrefined. split; [unfold d1; by rewrite length_imap|].
    apply Forall_lookup. intros i m Hi. unfold d1 in Hi.
    rewrite list_lookup_imap in Hi. destruct (d !! i) as [m0|] eqn:E0; [|done].
    cbn [fmap option_fmap option_map] in Hi. injection Hi as <-. apply commonLine_extended.
    rewrite Forall_lookup in Hall. by eapply Hall.
  - done.
  - exists d'. rewrite Hloop. unfold t1. rewrite with_data_with_data. split; [done|].
    apply Forall2_same_length_lookup_2.
    { rewrite <- (Forall2_length _ _ _ Hgrown). unfold d1. by rewrite length_imap. }
    intros i m m' Hm Hm'.
    assert (d1 !! i = Some (extendLine false (spacingNumber t) i m)) as Hm1.
    { unfold d1. by rewrite list_lookup_imap, Hm. }
    eapply grown_trans; [|exact (Forall2_lookup_lr _ _ _ _ _ _ Hgrown Hm1 Hm')].
    eapply extendLine_grown. rewrite Forall_lookup in Hall. by eapply Hall.
Qed.

End GrowSecondary.

Section GrowSecondarySetter.
Context {K : Type} `{NumLaws K} `{!EqLaws K}.
Implicit Types (t : Tool K) (d : list (Measurement K)) (m : Measurement K).

(** [set noOfSecondaryLines] with more points than the lines have, without
    refinement. *)
Lemma set_noOfSecondaryLines_grows P S t (z : Z) :
  2 ≤ P → 2 ≤ S → inShape false P S t → (Z.of_nat S < z)%Z →
  ∃ t', set_noOfSecondaryLines (JsNum (Fin (kofZ z))) t = Return () t'
    ∧ Forall2 grown (data t) (data t').
Proof.
  intros HP HS Hin Hz. cbn [set_noOfSecondaryLines].
  assert ((kofZ z <? kofZ 2)%K = false) as Hn.
  { rewrite kltb_ofZ. apply bool_decide_eq_false. lia. }
  rewrite Hn.
  destruct P as [|P]; [lia|]. destruct S as [|[|S]]; [lia..|].
  destruct (inShape_getToolState _ _ _ _ Hin) as [E Hne].
  pose proof Hin as (Hshape & Hg & Hi & Hd).
  erewrite bind_Return by (apply read_Some; by eapply get_noOfSecondaryLines_shape).
  cbn [strictEquals]. rewrite keqb_ofZ. rewrite bool_decide_eq_false_2 by lia.
  unfold numberOf. cbn [from_option Datatypes.id]. rewrite kltb_ofZ.
  rewrite bool_decide_eq_true_2 by lia.
  assert (∀ t1, sameHandles t t1 →
            ∃ d', growSecondaryLines (Z.to_nat (kupper (kofZ z)))
                    (Z.of_nat (Datatypes.S (Datatypes.S S))) (kofZ z) t1
                  = Return () (with_data d' t1)
              ∧ Forall2 grown (data t1) d') as Hstep.
  { intros t1 Hs1.
    pose proof (sameHandles_inShape _ _ _ _ _ Hs1 Hin) as Hin1.
    destruct (inShape_getToolState _ _ _ _ Hin1) as [E1 Hne1].
    pose proof Hin1 as (Hshape1 & Hg1 & Hi1 & Hd1).
    by eapply growSecondaryLines_grown. }
  destruct (session_spec (growSecondaryLines (Z.to_nat (kupper (kofZ z)))
                            (Z.of_nat (Datatypes.S (Datatypes.S S))) (kofZ z)) t)
    as (t1 & t2 & t' & Hrun & Hs1 & Hloop & Hs2).
  { intros t1 Hs1. destruct (Hstep t1 Hs1) as (d' & Hl & _).
    eexists. split; [exact Hl|]. by rewrite getToolState_with_data. }
  destruct (Hstep t1 Hs1) as (d' & Hl & Hgrown).
  rewrite Hl in Hloop. injection Hloop as <-.
  exists t'. split; [exact Hrun|].
  destruct Hs1 as [_ F1]. destruct Hs2 as [_ F2]. rewrite data_with_data in F2.
  apply Forall2_same_length_lookup_2.
  { rewrite (Forall2_length _ _ _ F1), (Forall2_length _ _ _ Hgrown).
    apply (Forall2_length _ _ _ F2). }
  intros i m m' Hm Hm'.
  destruct (Forall2_lookup_l _ _ _ _ _ F1 Hm) as (m1 & Hm1 & _ & Hh1).
  destruct (Forall2_lookup_r _ _ _ _ _ F2 Hm') as (m2 & Hm2 & _ & Hh2).
  eapply grown_handles; [symmetry; exact Hh1| exact Hh2|].
  exact (Forall2_lookup_lr _ _ _ _ _ _ Hgrown Hm1 Hm2).
Qed.

(** X27.  [set noOfSecondaryLines] with a number above the number
    of points of the lines of a grid without refinement returns; every line
    keeps the points it had, where they were, and gets that number of
    points, each added point as far from the point before it as that one
    is from the point before it. *)
Theorem noOfSecondaryLines_adds_evenly P S t (z : Z) :
  2 ≤ P → 2 ≤ S → inShape false P S t → (Z.of_nat S < z)%Z →
  ∃ t', set_noOfSecondaryLines (JsNum (Fin (kofZ z))) t = Return () t'
    ∧ Forall2 (λ m m', ∃ pts extra,
                 handles m = Some pts ∧ handles m' = Some (pts ++ extra)
                 ∧ length (pts ++ extra) = Z.to_nat z
                 ∧ continuesLine (pts ++ extra) (length pts))
        (data t) (data t').
Proof.
  intros HP HS Hin Hz.
  destruct (set_noOfSecondaryLines_grows P S t z HP HS Hin Hz) as (t' & Hrun & Hgrown).
  destruct (set_noOfSecondaryLines_exact false P S t z HP HS Hin) as (t'' & Hrun' & Hin' & _);
    [lia|].
  rewrite Hrun in Hrun'. injection Hrun' as <-.
  exists t'. split; [done|].
  destruct Hin' as [[_ Hall]%shape_unrefined _].
  apply Forall2_same_length_lookup_2; [by eapply Forall2_length|].
  intros i m m' Hm Hm'.
  destruct (Forall2_lookup_lr _ _ _ _ _ _ Hgrown Hm Hm') as (pts & extra & Hpts & Hpts' & Hc).
  exists pts, extra. repeat split; try done.
  rewrite Forall_lookup in Hall.
  destruct (commonLine_inv _ _ (Hall _ _ Hm')) as (pts' & Hp' & Hl & _).
  rewrite Hpts' in Hp'. by injection Hp' as <-.
Qed.

End GrowSecondarySetter.

Lemma noOfSecondaryLines_adds_evenly_witness :
  ∃ t', set_noOfSecondaryLines (JsNum (Fin (kofZ 5))) placedQ = Return () t'
    ∧ Forall2 (λ m m', ∃ pts extra,
                 handles m = Some pts ∧ handles m' = Some (pts ++ extra)
                 ∧ length (pts ++ extra) = Z.to_nat 5
                 ∧ continuesLine (pts ++ extra) (length pts))
        (data placedQ) (data t').
Proof.
  apply (noOfSecondaryLines_adds_evenly 3 3 placedQ 5).
  - lia.
  - lia.
  - repeat split; vm_compute; (reflexivity || lia).
  - lia.
Defined.

Section ShrinkSecondary.
Context {K : Type} `{NumLaws K} `{!EqLaws K}.
Implicit Types (t : Tool K) (d : list (Measurement K)) (m : Measurement K).

Lemma removeLastSecondaryLine_pops t d P S :
  getToolState t = Some d → shape false (Datatypes.S P) (Datatypes.S S) d →
  showRefinementPoints (configuration t) !! "global" = Some false →
  removeLastSecondaryLine t = Return () (with_data (alterHandles pop <$> d) t).
Proof.
  intros E Hshape Hflag.
  pose proof Hshape as [Hlen Hall]%shape_unrefined.
  assert (d ≠ []) as Hne by (intros ->; done).
  unfold removeLastSecondaryLine. unfold bind at 1. unfold getTool at 1.
  rewrite (noGrid_Some _ _ E), bool_decide_eq_false_2 by done.
  rewrite (showRefinementPoints_on_Some _ _ E Hne), Hflag. cbn [from_option Datatypes.id].
  rewrite (data_Some _ _ E).
  cbn [seq forEach Nat.eqb andb].
  erewrite bind_Return; [reflexivity|].
  rewrite (forEach_alterPoints_every 1 pop t d E); [by rewrite onEvery_1|].
  eapply Forall_impl; [exact Hall|]. intros m Hm. by eapply lineFlags_handles.
Qed.

(** The shrinking loop of [set noOfSecondaryLines] on a grid without
    refinement: every line loses its last points, the same number on
    every line. *)
Lemma shrinkSecondaryLines_takes fuel : ∀ (n : K) t d P S,
  getToolState t = Some d →
  shape false (Datatypes.S P) S d → 2 ≤ S →
  (n <? kofZ 2)%K = false →
  showRefinementPoints (configuration t) !! "global" = Some false →
  ∃ d' k, shrinkSecondaryLines fuel (Z.of_nat S) n t = Return () (with_data d' t)
    ∧ Forall2 (λ m m', ∃ pts, handles m = Some pts
                 ∧ handles m' = Some (take (length pts - k) pts)) d d'.
Proof.
  induction fuel as [|fuel IH]; intros n t d P S E Hshape HS Hn Hflag.
  { exists d, 0. cbn. rewrite (with_data_id _ _ E). split; [done|].
    apply shape_unrefined in Hshape as [_ Hall].
    apply Forall2_same_length_lookup_2; [done|]. intros i m m' Hm Hm'. simplify_eq.
    rewrite Forall_lookup in Hall.
    destruct (commonLine_inv _ _ (Hall _ _ Hm)) as (pts & Hpts & _).
    exists pts. by rewrite Nat.sub_0_r, firstn_all. }
  cbn [shrinkSecondaryLines].
  destruct (n <? kofZ (Z.of_nat S))%K eqn:Hlt; last first.
  { exists d, 0. rewrite (with_data_id _ _ E). split; [done|].
    apply shape_unrefined in Hshape as [_ Hall].
    apply Forall2_same_length_lookup_2; [done|]. intros i m m' Hm Hm'. simplify_eq.
    rewrite Forall_lookup in Hall.
    destruct (commonLine_inv _ _ (Hall _ _ Hm)) as (pts & Hpts & _).
    exists pts. by rewrite Nat.sub_0_r, firstn_all. }
  pose proof (above_two _ _ Hn Hlt) as H3.
  destruct S as [|[|S]]; [lia..|].
  pose proof (removeLastSecondaryLine_pops t d P _ E Hshape Hflag) as Hrem.
  assert (shape false (Datatypes.S P) (Datatypes.S S) (alterHandles pop <$> d)) as Hshape1.
  { pose proof Hshape as [Hlen Hall]%shape_unrefined.
    apply shape_unrefined. split; [by rewrite length_fmap|].
    apply Forall_fmap. eapply Forall_impl; [exact Hall|]. intros m Hm.
    by apply commonLine_pop. }
  erewrite bind_Return by exact Hrem.
  replace (Z.of_nat (Datatypes.S (Datatypes.S S)) - 1)%Z with (Z.of_nat (Datatypes.S S)) by lia.
  destruct (IH n (with_data (alterHandles pop <$> d) t) (alterHandles pop <$> d) P
              (Datatypes.S S)) as (d' & k & Hloop & Hk);
    try done; [apply getToolState_with_data|lia|].
  exists d', (Datatypes.S k). rewrite Hloop, with_data_with_data. split; [done|].
  apply Forall2_same_length_lookup_2.
  { rewrite <- (Forall2_length _ _ _ Hk). by rewrite length_fmap. }
  intros i m m' Hm Hm'.
  assert ((alterHandles pop <$> d) !! i = Some (alterHandles pop m)) as Hm1
    by (by rewrite list_lookup_fmap, Hm).
  destruct (Forall2_lookup_lr _ _ _ _ _ _ Hk Hm1 Hm') as (pts1 & Hpts1 & Hpts').
  apply shape_unrefined in Hshape as [_ Hall]. rewrite Forall_lookup in Hall.
  destruct (commonLine_inv _ _ (Hall _ _ Hm)) as (pts & Hpts & _).
  exists pts. split; [done|]. rewrite Hpts'.
  unfold alterHandles in Hpts1. rewrite Hpts in Hpts1. cbn in Hpts1.
  injection Hpts1 as <-. unfold pop. rewrite removelast_firstn_len.
  rewrite length_take, take_take. f_equal. f_equal. lia.
Qed.

(** X28.  [set noOfSecondaryLines] with an integer [z] of at least
    2 below the number of points of the lines of a grid without refinement
    returns, and every line is left with its first [z] points, as they
    were. *)
Theorem noOfSecondaryLines_keeps_first P S t (z : Z) :
  2 ≤ P → 2 ≤ S → inShape false P S t → (2 ≤ z < Z.of_nat S)%Z →
  ∃ t', set_noOfSecondaryLines (JsNum (Fin (kofZ z))) t = Return () t'
    ∧ Forall2 (λ m m', ∃ pts, handles m = Some pts
                 ∧ handles m' = Some (take (Z.to_nat z) pts)) (data t) (data t').
Proof.
  intros HP HS Hin Hz.
  destruct (set_noOfSecondaryLines_exact false P S t z HP HS Hin) as (t' & Hrun & Hin' & _);
    [lia|].
  exists t'. split; [done|].
  revert Hrun. cbn [set_noOfSecondaryLines].
  assert ((kofZ z <? kofZ 2)%K = false) as Hn.
  { rewrite kltb_ofZ. apply bool_decide_eq_false. lia. }
  rewrite Hn.
  destruct P as [|P]; [lia|]. destruct S as [|S]; [lia|].
  destruct (inShape_getToolState _ _ _ _ Hin) as [E Hne].
  pose proof Hin as (Hshape & Hg & Hi & Hd).
  erewrite bind_Return by (apply read_Some; by eapply get_noOfSecondaryLines_shape).
  cbn [strictEquals]. rewrite keqb_ofZ. rewrite bool_decide_eq_false_2 by lia.
  unfold numberOf. cbn [from_option Datatypes.id]. rewrite kltb_ofZ.
  rewrite bool_decide_eq_false_2 by lia.
  assert (∀ t1, sameHandles t t1 →
            ∃ d' k, shrinkSecondaryLines (Z.to_nat (Z.of_nat (Datatypes.S S)))
                      (Z.of_nat (Datatypes.S S)) (kofZ z) t1
                    = Return () (with_data d' t1)
              ∧ Forall2 (λ m m', ∃ pts, handles m = Some pts
                           ∧ handles m' = Some (take (length pts - k) pts))
                  (data t1) d') as Hstep.
  { intros t1 Hs1.
    pose proof (sameHandles_inShape _ _ _ _ _ Hs1 Hin) as Hin1.
    destruct (inShape_getToolState _ _ _ _ Hin1) as [E1 Hne1].
    pose proof Hin1 as (Hshape1 & Hg1 & Hi1 & Hd1).
    by eapply shrinkSecondaryLines_takes. }
  destruct (session_spec (shrinkSecondaryLines (Z.to_nat (Z.of_nat (Datatypes.S S)))
                            (Z.of_nat (Datatypes.S S)) (kofZ z)) t)
    as (t1 & t2 & t'' & Hrun' & Hs1 & Hloop & Hs2).
  { intros t1 Hs1. destruct (Hstep t1 Hs1) as (d' & k & Hl & _).
    eexists. split; [exact Hl|]. by rewrite getToolState_with_data. }
  rewrite Hrun'. intros [= <-].
  destruct (Hstep t1 Hs1) as (d' & k & Hl & Htakes).
  rewrite Hl in Hloop. injection Hloop as <-.
  destruct Hs1 as [_ F1]. destruct Hs2 as [_ F2]. rewrite data_with_data in F2.
  destruct Hin' as [[_ Hall']%shape_unrefined _]. rewrite Forall_lookup in Hall'.
  apply Forall2_same_length_lookup_2.
  { rewrite (Forall2_length _ _ _ F1), (Forall2_length _ _ _ Htakes).
    apply (Forall2_length _ _ _ F2). }
  intros i m m' Hm Hm'.
  destruct (Forall2_lookup_l _ _ _ _ _ F1 Hm) as (m1 & Hm1 & _ & Hh1).
  destruct (Forall2_lookup_r _ _ _ _ _ F2 Hm') as (m2 & Hm2 & _ & Hh2).
  destruct (Forall2_lookup_lr _ _ _ _ _ _ Htakes Hm1 Hm2) as (pts & Hpts & Hpts2).
  exists pts. split; [congruence|].
  destruct (commonLine_inv _ _ (Hall' _ _ Hm')) as (pts' & Hpts' & Hlen' & _).
  rewrite Hh2, Hpts2 in Hpts'. injection Hpts' as <-.
  rewrite Hh2, Hpts2. f_equal. rewrite length_take in Hlen'.
  f_equal. lia.
Qed.

End ShrinkSecondary.

Lemma noOfSecondaryLines_keeps_first_witness :
  ∃ t', set_noOfSecondaryLines (JsNum (Fin (kofZ 2))) placedQ = Return () t'
    ∧ Forall2 (λ m m', ∃ pts, handles m = Some pts
                 ∧ handles m' = Some (take (Z.to_nat 2) pts)) (data placedQ) (data t').
Proof.
  apply (noOfSecondaryLines_keeps_first 3 3 placedQ 2).
  - lia.
  - lia.
  - repeat split; vm_compute; (reflexivity || lia).
  - lia.
Defined.

Section RefinedLookups.
Context {K : Type} `{Num K}.
Implicit Types (t : Tool K) (d ms : list (Measurement K)) (m : Measurement K)
  (cs : list (Point K)).

Lemma lookup_cons4 {A} (a b c e : A) (l : list A) (n : nat) :
  (a :: b :: c :: e :: l) !! S (S (S (S n))) = l !! n.
Proof. done. Qed.

Lemma refineLine_lookup_common cs : ∀ j, refineLine cs !! (4 * j) = cs !! j.
Proof.
  induction cs as [|c [|c' cs] IH]; intros j; [done| |].
  - destruct j as [|j]; [done|]. cbn. by replace (4 * S j) with (S (S (S (S (4 * j))))) by lia.
  - destruct j as [|j]; [done|]. rewrite refineLine_cons.
    replace (4 * S j) with (S (S (S (S (4 * j))))) by lia.
    destruct (refinementTriple_three c c') as (x1 & x2 & x3 & -> & _). cbn [app].
    rewrite lookup_cons4, IH. done.
Qed.

Lemma refineLine_lookup_triple cs : ∀ j k p q,
  cs !! j = Some p → cs !! S j = Some q → 1 ≤ k ≤ 3 →
  refineLine cs !! (4 * j + k) = refinementTriple p q !! (k - 1).
Proof.
  induction cs as [|c [|c' cs] IH]; intros j k p q Hp Hq Hk; [done| |].
  - by destruct j.
  - rewrite refineLine_cons. destruct j as [|j].
    + cbn in Hp, Hq. simplify_eq.
      destruct (refinementTriple_three p q) as (x1 & x2 & x3 & -> & _).
      destruct k as [|[|[|[|k]]]]; try lia; done.
    + destruct (refinementTriple_three c c') as (x1 & x2 & x3 & -> & _). cbn [app].
      replace (4 * S j + k) with (S (S (S (S (4 * j + k))))) by lia.
      rewrite lookup_cons4. by apply IH.
Qed.

Lemma withSubsidiary_lookup_main ms : ∀ n m i,
  withSubsidiary n m ms !! (4 * i) = (m :: ms) !! i.
Proof.
  induction ms as [|m' ms IH]; intros n m i.
  - destruct i as [|i]; [done|]. cbn.
    by replace (4 * S i) with (S (S (S (S (4 * i))))) by lia.
  - destruct i as [|i]; [done|]. cbn [withSubsidiary].
    replace (4 * S i) with (S (S (S (S (4 * i))))) by lia.
    by rewrite lookup_cons4, IH.
Qed.

Lemma withSubsidiary_lookup_sub ms : ∀ n m i k a b,
  (m :: ms) !! i = Some a → (m :: ms) !! S i = Some b → 1 ≤ k ≤ 3 →
  ∃ u, withSubsidiary n m ms !! (4 * i + k)
       = Some (mkLine u (subsidiaryHandles (k - 1) 0 (pointsOf a) (pointsOf b))).
Proof.
  induction ms as [|m' ms IH]; intros n m i k a b Ha Hb Hk.
  - by destruct i.
  - destruct i as [|i].
    + cbn in Ha, Hb. simplify_eq. cbn [withSubsidiary].
      destruct k as [|[|[|[|k]]]]; try lia; eexists; reflexivity.
    + cbn [withSubsidiary].
      replace (4 * S i + k) with (S (S (S (S (4 * i + k))))) by lia.
      rewrite lookup_cons4. by eapply IH.
Qed.

Lemma subsidiaryHandles_lookup sub (p1 p2 : list (Point K)) j p q :
  Forall (λ p, isCommonPoint p = true) p1 →
  p1 !! j = Some p → p2 !! j = Some q →
  subsidiaryHandles sub 0 p1 p2 !! j = Some (handleOf (interpolated sub 0 p q)).
Proof.
  intros Hc Hp Hq. unfold subsidiaryHandles, subsidiaryRow. rewrite drop_0.
  revert p2 j Hp Hq. induction Hc as [|c p1 Hcc _ IH]; intros p2 j Hp Hq; [done|].
  destruct p2 as [|c2 p2]; [done|]. cbn [zip zip_with omap list_omap].
  unfold subsidiaryCell at 1. cbn [fst snd]. rewrite Hcc.
  destruct j as [|j]; cbn in Hp, Hq |- *; [by simplify_eq|]. by apply IH.
Qed.

End RefinedLookups.

Lemma refineMain_main {K} `{Num K} (z i : nat) (m : Measurement K) :
  refineMain z (4 * i) m = alterHandles (refineFrom z) m.
Proof.
  unfold refineMain.
  by replace ((4 * i) mod 4) with 0
    by (symmetry; rewrite Nat.mul_comm; apply Nat.Div0.mod_mul).
Qed.

Lemma refineMain_sub {K} `{Num K} (z i k : nat) (m : Measurement K) :
  1 ≤ k ≤ 3 → refineMain z (4 * i + k) m = m.
Proof.
  intros Hk. unfold refineMain.
  replace ((4 * i + k) mod 4) with k; last first.
  { rewrite Nat.add_comm, Nat.mul_comm, Nat.Div0.mod_add.
    symmetry. apply Nat.mod_small. lia. }
  by destruct (Nat.eqb_spec k 0) as [?|_]; [lia|].
Qed.

Section RefinementGeometry.
Local Open Scope R_scope.
Implicit Types (t : Tool R) (d ms : list (Measurement R)) (m : Measurement R).

Lemma refinementTriple_xy (p q : Point R) (k : nat) :
  (1 ≤ k ≤ 3)%nat →
  xyOf <$> refinementTriple p q !! (k - 1)%nat
  = Some (p_x p + (p_x q - p_x p) / 4 * INR k, p_y p + (p_y q - p_y p) / 4 * INR k).
Proof.
  intros Hk. destruct k as [|[|[|[|k]]]]; try lia; cbn; unfold xyOf; cbn;
    f_equal; f_equal; lra.
Qed.

Lemma interpolated_xy (sub line : nat) (p q : Point R) :
  xyOf (handleOf (interpolated sub line p q))
  = (p_x p + (p_x q - p_x p) / 4 * INR (S sub), p_y p + (p_y q - p_y p) / 4 * INR (S sub)).
Proof.
  unfold xyOf, handleOf, interpolated. cbn [p_x p_y n_x n_y FreehandHandleData].
  cbv [kadd ksub kmul kdiv kofZ Num_R]. rewrite S_INR, plus_IZR, <- INR_IZR_INZ. done.
Qed.

(** The points of the grid that the showRefinementPoints setter builds
    from a grid without refinement. *)
Lemma refinedGrid_xy P S (n : N) m ms (f : nat → nat → R * R) :
  laidOut P S (m :: ms) f →
  (∀ i j, (i < P)%nat → (j < S)%nat →
     xyAt (refinedGrid n m ms) (4 * i) (4 * j) = Some (f i j))
  ∧ (∀ i j k, (i < P)%nat → (j + 1 < S)%nat → (1 ≤ k ≤ 3)%nat →
       xyAt (refinedGrid n m ms) (4 * i) (4 * j + k)
       = Some ((f i j).1 + ((f i (j + 1)%nat).1 - (f i j).1) / 4 * INR k,
               (f i j).2 + ((f i (j + 1)%nat).2 - (f i j).2) / 4 * INR k))
  ∧ (∀ i j k, (i + 1 < P)%nat → (j < S)%nat → (1 ≤ k ≤ 3)%nat →
       xyAt (refinedGrid n m ms) (4 * i + k) j
       = Some ((f i j).1 + ((f (i + 1)%nat j).1 - (f i j).1) / 4 * INR k,
               (f i j).2 + ((f (i + 1)%nat j).2 - (f i j).2) / 4 * INR k)).
Proof.
  intros Hlaid.
  assert (∀ i a, (m :: ms) !! i = Some a →
            refinedGrid n m ms !! (4 * i)%nat = Some (alterHandles (refineFrom 0) a)) as Hmain.
  { intros i a Ha. unfold refinedGrid.
    rewrite list_lookup_imap, withSubsidiary_lookup_main, Ha.
    cbn [fmap option_fmap option_map]. by rewrite refineMain_main. }
  split; [|split].
  - intros i j Hi Hj.
    destruct (laidOut_lookup _ _ _ _ _ _ Hlaid Hi Hj)
      as (a & pts & p & Ha & Hpts & _ & _ & Hp & Hxy).
    unfold xyAt. rewrite (Hmain i a Ha). cbn -[Nat.mul refineLine]. unfold alterHandles. rewrite Hpts. cbn -[Nat.mul refineLine].
    unfold refineFrom. rewrite take_0, drop_0. cbn [app].
    rewrite refineLine_lookup_common, Hp. cbn -[Nat.mul refineLine]. by rewrite Hxy.
  - intros i j k Hi Hj Hk.
    destruct (laidOut_lookup _ _ _ _ i j Hlaid) as (a & pts & p & Ha & Hpts & _ & _ & Hp & Hxy);
      [lia..|].
    destruct (laidOut_lookup _ _ _ _ i (j + 1)%nat Hlaid)
      as (a' & pts' & q & Ha' & Hpts' & _ & _ & Hq & Hxy'); [lia..|].
    simplify_eq. rewrite Nat.add_1_r in Hq.
    unfold xyAt. rewrite (Hmain i a Ha). cbn -[Nat.mul refineLine]. unfold alterHandles. rewrite Hpts. cbn -[Nat.mul refineLine].
    unfold refineFrom. rewrite take_0, drop_0. cbn [app].
    rewrite (refineLine_lookup_triple pts j k p q Hp Hq Hk).
    pose proof (refinementTriple_xy p q k Hk) as Ht.
    destruct (refinementTriple p q !! (k - 1)%nat) as [x|]; [|done]. cbn in Ht |- *.
    rewrite <- Hxy, <- Hxy'. unfold xyOf at 2 3 4 5 6 7. cbn [fst snd]. done.
  - intros i j k Hi Hj Hk.
    destruct (laidOut_lookup _ _ _ _ i j Hlaid)
      as (a & pts & p & Ha & Hpts & _ & Hc & Hp & Hxy); [lia..|].
    destruct (laidOut_lookup _ _ _ _ (i + 1)%nat j Hlaid)
      as (b & pts' & q & Hb & Hpts' & _ & _ & Hq & Hxy'); [lia..|].
    rewrite Nat.add_1_r in Hb.
    destruct (withSubsidiary_lookup_sub ms n m i k a b Ha Hb Hk) as (u & Hsub).
    unfold xyAt, refinedGrid. rewrite list_lookup_imap, Hsub.
    cbn [fmap option_fmap option_map]. rewrite (refineMain_sub _ _ _ _ Hk).
    cbn -[Nat.mul refineLine]. rewrite (pointsOf_Some _ _ Hpts), (pointsOf_Some _ _ Hpts').
    rewrite (subsidiaryHandles_lookup (k - 1)%nat pts pts' j p q Hc Hp Hq). cbn -[Nat.mul refineLine].
    rewrite interpolated_xy. replace (Datatypes.S (k - 1)%nat) with k by lia.
    rewrite <- Hxy, <- Hxy'. done.
Qed.

(** X29.  The showRefinementPoints setter called with [true] on
    a grid without refinement returns and puts the refinement points at
    the quarter steps: the common point [j] of the main line [i] stays
    where it was, now at position [4 j] of the line [4 i]; the three points
    after it on that line are a quarter, a half and three quarters of the
    way to the next common point of the line; and the point [j] of the
    three lines after the line [4 i] are a quarter, a half and three
    quarters of the way to the common point [j] of the next main line. *)
Theorem refinement_at_quarter_steps P S t (f : nat → nat → R * R) :
  (2 ≤ P)%nat → (2 ≤ S)%nat → inShape false P S t →
  (∀ i j, (i < P)%nat → (j < S)%nat → xyAt (data t) i j = Some (f i j)) →
  ∃ t', set_showRefinementPoints (JsBoolean true) t = Return () t'
    ∧ (∀ i j, (i < P)%nat → (j < S)%nat →
         xyAt (data t') (4 * i) (4 * j) = Some (f i j))
    ∧ (∀ i j k, (i < P)%nat → (j + 1 < S)%nat → (1 ≤ k ≤ 3)%nat →
         xyAt (data t') (4 * i) (4 * j + k)
         = Some ((f i j).1 + ((f i (j + 1)%nat).1 - (f i j).1) / 4 * INR k,
                 (f i j).2 + ((f i (j + 1)%nat).2 - (f i j).2) / 4 * INR k))
    ∧ (∀ i j k, (i + 1 < P)%nat → (j < S)%nat → (1 ≤ k ≤ 3)%nat →
         xyAt (data t') (4 * i + k) j
         = Some ((f i j).1 + ((f (i + 1)%nat j).1 - (f i j).1) / 4 * INR k,
                 (f i j).2 + ((f (i + 1)%nat j).2 - (f i j).2) / 4 * INR k)).
Proof.
  intros HP HS Hin Hf.
  destruct P as [|P']; [lia|]. destruct S as [|S']; [lia|].
  destruct (inShape_getToolState _ _ _ _ Hin) as [E Hne].
  pose proof Hin as (Hshape & Hg & Hi & Hd).
  pose proof Hshape as [_ Hall]%shape_unrefined.
  destruct (data t) as [|m ms] eqn:Ed; [done|].
  eexists. split.
  - apply (set_showRefinementPoints_true_spec t m ms S' E Hall). by rewrite Hi.
  - rewrite data_showRefinementPointsSet, data_upd.
    apply (refinedGrid_xy (Datatypes.S P') (Datatypes.S S')). by split.
Qed.

End RefinementGeometry.

Lemma refinement_at_quarter_steps_witness :
  ∃ t', set_showRefinementPoints (JsBoolean true) placedR = Return () t'
    ∧ (∀ i j, i < 3 → j < 3 →
         xyAt (data t') (4 * i) (4 * j) = Some (default (0, 0)%R (xyAt (data placedR) i j)))
    ∧ (∀ i j k, i < 3 → j + 1 < 3 → 1 ≤ k ≤ 3 →
         xyAt (data t') (4 * i) (4 * j + k)
         = Some (((default (0, 0) (xyAt (data placedR) i j)).1
                  + ((default (0, 0) (xyAt (data placedR) i (j + 1))).1
                     - (default (0, 0) (xyAt (data placedR) i j)).1) / 4 * INR k)%R,
                 ((default (0, 0) (xyAt (data placedR) i j)).2
                  + ((default (0, 0) (xyAt (data placedR) i (j + 1))).2
                     - (default (0, 0) (xyAt (data placedR) i j)).2) / 4 * INR k)%R))
    ∧ (∀ i j k, i + 1 < 3 → j < 3 → 1 ≤ k ≤ 3 →
         xyAt (data t') (4 * i + k) j
         = Some (((default (0, 0) (xyAt (data placedR) i j)).1
                  + ((default (0, 0) (xyAt (data placedR) (i + 1) j)).1
                     - (default (0, 0) (xyAt (data placedR) i j)).1) / 4 * INR k)%R,
                 ((default (0, 0) (xyAt (data placedR) i j)).2
                  + ((default (0, 0) (xyAt (data placedR) (i + 1) j)).2
                     - (default (0, 0) (xyAt (data placedR) i j)).2) / 4 * INR k)%R)).
Proof.
  apply (refinement_at_quarter_steps 3 3 placedR
           (λ i j, default (0, 0)%R (xyAt (data placedR) i j))).
  - lia.
  - lia.
  - repeat split; vm_compute; (reflexivity || lia).
  - intros i j Hi Hj.
    destruct i as [|[|[|i]]]; [| | |lia]; destruct j as [|[|[|j]]]; try lia;
      vm_compute; reflexivity.
Defined.

